(** * ngmixer: observation assembly for multi-object fitting

    A shallow embedding of the image I/O layer of ngmixer
    ([ngmixer/imageio/medsio.py], [ngmixer/imageio/desmedsio.py],
    [ngmixer/util.py], [ngmixer/defaults.py]), with the chunking of
    [ngmixer/megamixer/megamixer.py], and the properties of it that the
    design document states or that the code shows.

    Conventions.
    - numpy integer arrays are lists of [Z]; 2-d arrays are lists of rows.
    - numpy [f8] pixels and weights are IEEE binary64 values ([float]).
    - A Python exception is a value of [exn]; a method that can raise returns
      a [result].
    - The cutout storage (the [meds] package), the PSF provider and the
      [ngmix] containers are outside the repository: what the code reads
      from them is a field of a record or a method of the class
      [Collaborators]. *)

From Stdlib Require Import ZArith Lia Floats Ascii.
From stdpp Require Import base option list gmap strings pretty sorting.

Local Open Scope Z_scope.

(** ** Exceptions *)

Inductive exn : Set :=
| AssertionError
| IndexError
| TypeError
| ValueError
| KeyError
| RuntimeError
| AttributeError.

Inductive result (A : Type) : Type :=
| Ok (a : A)
| Raise (e : exn).

Arguments Ok {A} a.
Arguments Raise {A} e.

#[global] Instance result_ret : MRet result := fun A a => Ok a.

#[global] Instance result_bind : MBind result := fun A B k m =>
  match m with
  | Ok a => k a
  | Raise e => Raise e
  end.

#[global] Instance result_fmap : FMap result := fun A B f m =>
  match m with
  | Ok a => Ok (f a)
  | Raise e => Raise e
  end.

(** [assert c] *)
Definition py_assert (c : bool) : result unit :=
  if c then Ok tt else Raise AssertionError.

(** [for x in l: st = body(st, x)], stopping at the first exception. *)
Fixpoint for_each {A S} (body : S → A → result S) (l : list A) (st : S) : result S :=
  match l with
  | [] => Ok st
  | x :: l' => st' ← body st x; for_each body l' st'
  end.

(** ** Two-dimensional arrays *)

Module Array2.

Abbreviation t A := (list (list A)).

(** [a.shape] *)
Definition shape {A} (a : t A) : nat * nat :=
  (length a, length (default [] (head a))).

(** [a[i, j]] for indices in range. *)
Definition getitem {A} (a : t A) (i j : nat) : option A :=
  row ← a !! i; row !! j.

(** [a[i, j] = v] for indices in range. *)
Definition setitem {A} (a : t A) (i j : nat) (v : A) : t A :=
  alter (fun row => <[j := v]> row) i a.

(** [f] applied to every element. *)
Definition map {A B} (f : A → B) (a : t A) : t B :=
  (fun row : list A => f <$> row) <$> a.

(** One row of [numpy.where]: the columns [j] with [p row[j]], in order. *)
Fixpoint where_row {A} (p : A → bool) (i j : nat) (row : list A) : list (nat * nat) :=
  match row with
  | [] => []
  | x :: row' =>
      (if p x then [(i, j)] else []) ++ where_row p i (S j) row'
  end.

Fixpoint where_from {A} (p : A → bool) (i : nat) (a : t A) : list (nat * nat) :=
  match a with
  | [] => []
  | row :: a' => where_row p i 0 row ++ where_from p (S i) a'
  end.

(** [numpy.where(p(a))], as a list of (row, column) pairs: the positions
  where [p] holds, in row-major order. *)
Definition where_ {A} (p : A → bool) (a : t A) : list (nat * nat) :=
  where_from p 0 a.

End Array2.

(** ** numpy and Python helpers *)

(** [a[i]] for a numpy integer index: a negative index counts from the end,
    an index out of range raises. *)
Definition np_index {A} (a : list A) (i : Z) : result A :=
  let n := Z.of_nat (length a) in
  let k := if i <? 0 then i + n else i in
  if (0 <=? k) && (k <? n)
  then match a !! Z.to_nat k with Some x => Ok x | None => Raise IndexError end
  else Raise IndexError.

(** [a[idx]] for an array of indices [idx]. *)
Definition np_take {A} (a : list A) (idx : list Z) : result (list A) :=
  mapM (np_index a) idx.

(** [l[i]] for a Python list and a natural index. *)
Definition py_getitem {A} (l : list A) (i : nat) : result A :=
  match l !! i with Some x => Ok x | None => Raise IndexError end.

(** [s.split(sep)] for a one-character separator. *)
Fixpoint split_on (sep : Ascii.ascii) (s : string) : list string :=
  match s with
  | EmptyString => [EmptyString]
  | String c s' =>
      if Ascii.eqb c sep then EmptyString :: split_on sep s'
      else match split_on sep s' with
           | w :: ws => String c w :: ws
           | [] => [String c EmptyString]
           end
  end.

(** [os.path.basename(p)]: what follows the last slash. *)
Definition basename (p : string) : string :=
  default EmptyString (last (split_on "/"%char p)).

(** ['%02d' % n] *)
Definition fmt_02d (n : Z) : string :=
  let s := pretty n in
  if (String.length s <? 2)%nat then String "0"%char s else s.

(** An integer stored in a float64 array and copied back into an [i8]
    array.  Up to 53 bits the value is kept; a longer one is rounded to 53
    significant bits, ties to even.  (Magnitudes from [2^63] on, where the
    cast back to [i8] is not defined, are left as rounded.) *)
Definition round_half_even_div (n d : Z) : Z :=
  let q := n / d in
  let r := n mod d in
  if 2 * r <? d then q
  else if d <? 2 * r then q + 1
  else if Z.even q then q else q + 1.

Definition f8_of_int (z : Z) : Z :=
  let a := Z.abs z in
  if a <? 2 ^ 53 then z
  else let e := Z.log2 a - 52 in
       Z.sgn z * (round_half_even_div a (2 ^ e) * 2 ^ e).

(** ** Flag constants ([defaults.py], [desmedsio.py]) *)

Definition IMAGE_FLAGS : Z := 2 ^ 26.
Definition IMAGE_FLAGS_SET : Z := 2 ^ 0.

(** ** The cutout file as the code reads it ([meds.MEDS])

    Columns indexed by object, or by object and cutout, are total
    functions of the indices; [number] and the image table are arrays whose
    lengths the code compares or slices. *)

Module Meds.

Record image_info_row := {
  image_path : string;
  image_flags : Z;
  image_id : Z
}.

Record t := {
  size : nat;
  get_image_info : list image_info_row;
  number : list Z;
  id : nat → Z;
  ncutout : nat → nat;
  box_size : nat → nat;
  file_id : nat → nat → Z;
  orig_row : nat → nat → float;
  orig_col : nat → nat → float;
  orig_start_row : nat → nat → Z;
  orig_start_col : nat → nat → Z;
  cutout_row : nat → nat → float;
  cutout_col : nat → nat → float;
  dudrow : nat → nat → float;
  dudcol : nat → nat → float;
  dvdrow : nat → nat → float;
  dvdcol : nat → nat → float
}.

End Meds.

(** ** Configuration ([self.conf]) *)

Record Conf := {
  image_flags2check : Z;
  (** the table loaded from the file [conf['replacement_flags']]; [None]
      when the key is missing or is [None] *)
  replacement_flags : option (gmap string Z);
  reject_outliers : bool;
  model_nbrs : bool;
  prop_sat_starpix : bool;
  region : string;
  min_weight : float
}.

(** ** Replacement flags ([util.CombinedImageFlags]) *)

Module CombinedImageFlags.
Section WithInt.

(** Python's [int(s)] on a string. *)
Variable py_int : string → result Z.

Definition get_key (filename : string) : result string :=
  let bname := basename filename in
  let bs := split_on "_"%char bname in
  s1 ← py_getitem bs 1;
  expid ← py_int s1;
  s2 ← py_getitem bs 2;
  s3 ← py_getitem (split_on "."%char s2) 0;
  ccdid ← py_int s3;
  Ok (pretty expid +:+ "-" +:+ fmt_02d ccdid).

(** [self.data.get(key, default)] *)
Definition get_flags (data : gmap string Z) (image_name : string) (default : Z)
  : result Z :=
  key ← get_key image_name;
  Ok (match data !! key with Some flags => flags | None => default end).

(** The flags are collected in [numpy.zeros(len(image_names))], a float64
    array. *)
Definition get_flags_multi (data : gmap string Z) (image_names : list string)
    (default : Z) : result (list Z) :=
  mapM (fun image_name =>
          flags ← get_flags data image_name default; Ok (f8_of_int flags))
       image_names.

End WithInt.
End CombinedImageFlags.

(** ** The Image-Quality Reducer ([SVDESMEDSImageIO._load_meds_files]) *)

Module Reducer.
Section WithInt.

Variable py_int : string → result Z.

(** [self._get_replacement_flags(filenames)] *)
Definition _get_replacement_flags (conf : Conf) (data : gmap string Z)
    (filenames : list string) : result (list Z) :=
  let default := image_flags2check conf in
  CombinedImageFlags.get_flags_multi py_int data filenames default.

(** The image flags of one band after the optional override:
    [image_flags[1:] = self._get_replacement_flags(image_path[1:])]. *)
Definition replaced_flags (conf : Conf) (info : list Meds.image_info_row)
  : result (list Z) :=
  let flags := Meds.image_flags <$> info in
  match replacement_flags conf with
  | Some data =>
      if (1 <? length flags)%nat
      then new ← _get_replacement_flags conf data (Meds.image_path <$> drop 1 info);
           Ok (take 1 flags ++ new)
      else Ok flags
  | None => Ok flags
  end.

(** [w,=numpy.where((cimage_flags & image_flags2check) != 0);
     cimage_flags[:] = 0; cimage_flags[w] = IMAGE_FLAGS_SET] *)
Definition reduce_flag (conf : Conf) (flags : Z) : Z :=
  if negb (Z.land flags (image_flags2check conf) =? 0)
  then IMAGE_FLAGS_SET else 0.

(** The reduced flags of one band: [image_flags[1:] = cimage_flags]. *)
Definition band_image_flags (conf : Conf) (info : list Meds.image_info_row)
  : result (list Z) :=
  flags ← replaced_flags conf info;
  let cimage_flags := reduce_flag conf <$> drop 1 flags in
  Ok (take 1 flags ++ cimage_flags).



End WithInt.
End Reducer.

(** ** The Index and Group Manager
       ([MEDSImageIO._set_and_check_index_lookups]) *)

Module Index.

(** A row of the group table: [(fofid, number)]. *)
Record fof_row := { fofid : Z; fof_number : Z }.

(** [self.fofid2mindex]: a dict keyed on the group id when a table was
    read, a list of lists otherwise. *)
Inductive fofid2mindex_t :=
| FofDict (d : gmap Z (list nat))
| FofList (l : list (list Z)).

Record index := {
  fof_data : list fof_row;
  fofids : list Z;
  num_fofs : nat;
  fofid2mindex : fofid2mindex_t
}.

(** [numpy.array_equal] on one-dimensional integer arrays. *)
Definition array_equal (a b : list Z) : bool := bool_decide (a = b).

(** [numpy.unique]: the distinct values, ascending. *)
Fixpoint insert_unique (x : Z) (l : list Z) : list Z :=
  match l with
  | [] => [x]
  | y :: l' =>
      if x <? y then x :: l
      else if x =? y then l
      else y :: insert_unique x l'
  end.

Definition np_unique (l : list Z) : list Z := foldr insert_unique [] l.

(** [numpy.sort] *)
Definition np_sort (l : list Z) : list Z := merge_sort Z.le l.

(** [q, = numpy.where(column == v)] *)
Fixpoint where_eq_from (i : nat) (column : list Z) (v : Z) : list nat :=
  match column with
  | [] => []
  | x :: column' =>
      (if x =? v then [i] else []) ++ where_eq_from (S i) column' v
  end.

Definition where_eq (column : list Z) (v : Z) : list nat :=
  where_eq_from 0 column v.

(** [a[q]] for an array [q] of natural indices. *)
Definition take_nat (a : list Z) (q : list nat) : result (list Z) :=
  mapM (py_getitem a) q.

(** The error check: one assertion per band. *)
Definition check_band (fof_numbers : list Z) (_ : unit) (meds : Meds.t)
  : result unit :=
  py_assert (array_equal (Meds.number meds) fof_numbers).

(** The body of [for fofid in self.fofids] when a table was read. *)
Definition dict_step (data : list fof_row) (meds_list : list Meds.t)
    (d : gmap Z (list nat)) (fofid_ : Z) : result (gmap Z (list nat)) :=
  let q := where_eq (fofid <$> data) fofid_ in
  py_assert (0 <? length q)%nat;;
  fq ← take_nat (fof_number <$> data) q;
  meds0 ← py_getitem meds_list 0;
  mq ← take_nat (Meds.number meds0) q;
  py_assert (array_equal fq mq);;
  Ok (<[fofid_ := q]> d).

(** The body of [for fofid in self.fofids] without a table. *)
Definition list_step (l : list (list Z)) (fofid_ : Z) : result (list (list Z)) :=
  let l' := l ++ [[fofid_]] in
  entry ← np_index l' fofid_;
  first ← py_getitem entry 0;
  py_assert (first =? fofid_);;
  Ok l'.

Definition _set_and_check_index_lookups (fof_file : option (list fof_row))
    (meds_list : list Meds.t) : result index :=
  '(read_fofs, data) ←
    match fof_file with
    | Some data => Ok (true, data)
    | None =>
        meds0 ← py_getitem meds_list 0;
        let nobj := length (Meds.number meds0) in
        Ok (false,
            imap (fun i n => {| fofid := Z.of_nat i; fof_number := n |})
                 (Meds.number meds0))
    end;
  for_each (check_band (fof_number <$> data)) meds_list tt;;
  let fofids := np_sort (np_unique (fofid <$> data)) in
  lookup ←
    (if read_fofs : bool
     then FofDict <$> for_each (dict_step data meds_list) fofids ∅
     else FofList <$> for_each list_step fofids []);
  Ok {| fof_data := data; fofids := fofids; num_fofs := length fofids;
        fofid2mindex := lookup |}.

(** [self.fofid2mindex[fofid]], as [__next__] reads it: the member rows. *)
Definition members (ix : index) (fofid_ : Z) : result (list Z) :=
  match fofid2mindex ix with
  | FofDict d =>
      match d !! fofid_ with
      | Some q => Ok (Z.of_nat <$> q)
      | None => Raise KeyError
      end
  | FofList l => np_index l fofid_
  end.

End Index.

(** ** Observations ([ngmix.Jacobian], [ngmix.Observation]) *)

Module Jacobian.

Record t := {
  row0 : float;
  col0 : float;
  dudrow : float;
  dudcol : float;
  dvdrow : float;
  dvdcol : float
}.

(** [j.copy()] followed by [set_cen(row, col)] *)
Definition set_cen (j : t) (row col : float) : t :=
  {| row0 := row; col0 := col;
     dudrow := dudrow j; dudcol := dudcol j;
     dvdrow := dvdrow j; dvdcol := dvdcol j |}.

End Jacobian.

(** The PSF stamp attached to an Observation. *)
Record PsfObs := {
  psf_image : list (list float);
  psf_jacobian : Jacobian.t;
  psf_filename : string
}.

(** A Python attribute that the code tests with [hasattr] or against
    [None]: not set, set to [None], or set to a value. *)
Inductive attr (A : Type) : Type :=
| Absent
| PyNone
| Val (a : A).

Arguments Absent {A}.
Arguments PyNone {A}.
Arguments Val {A} a.

(** The row [meta['meta_data']] ([get_epoch_meta_data_dtype]). *)
Module MetaRow.

Record t := {
  id : Z;
  number : Z;
  band_num : nat;
  cutout_index : nat;
  orig_row : float;
  orig_col : float;
  file_id : Z;
  pixel_scale : float;
  image_id : option Z
}.

End MetaRow.

(** The dictionary [obs.meta].  The keys written by [_fill_obs_meta_data]
    and the [flags] key are set on every Observation the builder returns;
    the three neighbour entries are added later. *)
Module Meta.

Record t := {
  icut : nat;
  orig_start_row : Z;
  orig_start_col : Z;
  meta_data : MetaRow.t;
  id : Z;
  band_id : nat;
  flags : Z;
  nbrs_psfs : option (list (option PsfObs));
  nbrs_flags : option (list Z);
  nbrs_jacs : option (list (option Jacobian.t))
}.

End Meta.

Module Obs.

(** What [Observation(...)] and the attribute assignments after it set. *)
Record body := {
  image : list (list float);
  weight : list (list float);
  weight_raw : attr (list (list float));
  weight_us : attr (list (list float));
  weight_orig : attr (list (list float));
  image_orig : attr (list (list float));
  seg : attr (list (list Z));
  jacobian : Jacobian.t;
  psf : option PsfObs;
  filename : attr string
}.

Record t := {
  attrs : body;
  meta : Meta.t
}.

Definition flags (obs : t) : Z := Meta.flags (meta obs).

(** [obs.get_psf()] *)
Definition get_psf (obs : t) : result PsfObs :=
  match psf (attrs obs) with
  | Some p => Ok p
  | None => Raise RuntimeError
  end.

Definition set_weight (w : list (list float)) (obs : t) : t :=
  let b := attrs obs in
  {| attrs := {| image := image b; weight := w;
                 weight_raw := weight_raw b; weight_us := weight_us b;
                 weight_orig := weight_orig b; image_orig := image_orig b;
                 seg := seg b; jacobian := jacobian b; psf := psf b;
                 filename := filename b |};
     meta := meta obs |}.

End Obs.

(** [MultiBandObsList]: one [ObsList] per band and the object's meta data. *)
Module MultiBand.

Record meta_t := {
  meds_index : nat;
  id : Z;
  obj_flags : Z;
  nbrs_inds : list nat;
  nbrs_ids : list Z;
  cen_ind : nat
}.

Record t := {
  bands : list (list Obs.t);
  meta : meta_t
}.

End MultiBand.

(** ** Collaborators outside the repository

    The cutout reader of the [meds] package, its outlier rejection, the
    PSF provider, and the methods of [ngmix] that the code calls. *)

Class Collaborators := {
  (** [meds.get_cutout(mindex, icut)] as [f8] *)
  image_cutout : nat → nat → nat → list (list float);
  (** [meds.get_cutout(mindex, icut, type='weight')] *)
  weight_cutout : nat → nat → nat → list (list float);
  (** [meds.get_cweight_cutout_nearest(mindex, icut)] *)
  cweight_cutout_nearest : nat → nat → nat → list (list float);
  (** [meds.get_cweight_cutout(mindex, icut)] *)
  cweight_cutout : nat → nat → nat → list (list float);
  (** [meds.interpolate_coadd_seg], or the [seg] cutout when it fails *)
  seg_cutout : nat → nat → nat → list (list Z);
  (** [meds.get_cutout(mindex, icut, type='bmask')] *)
  bmask_cutout : nat → nat → nat → list (list Z);
  (** [meds.get_jacobian(mindex, icut)] as a [Jacobian] *)
  cutout_jacobian : nat → nat → nat → Jacobian.t;
  (** [ii['image_path'][file_id]] of [_get_meds_orig_filename] *)
  orig_filename : nat → nat → nat → string;
  (** [self._get_psf_observation(band, mindex, icut, jacob)] *)
  psf_observation : nat → nat → nat → Jacobian.t → result PsfObs;
  (** [meds.reject_outliers(imlist, wtlist)]: the contents of the weight
      arrays after the call, in the order of [wtlist] *)
  meds_reject_outliers :
    list (list (list float)) → list (list (list float)) → list (list (list float));
  (** the Jacobian [Observation(image)] sets when none is given *)
  default_jacobian : list (list float) → Jacobian.t;
  (** [jacobian.get_scale()] and [jacobian.get_det()] *)
  get_scale : Jacobian.t → float;
  get_det : Jacobian.t → float;
  (** steps 1 and 2 of [Y1DESMEDSImageIO._get_offchip_nbr_psf_obs_and_jac]:
      [rowcol_nbr], from the co-add WCS of the band, the rows of the central
      object and of the neighbour, and the central Jacobian; float64
      trigonometry and a matrix inverse *)
  offchip_rowcol : nat → nat → nat → Jacobian.t → result (float * float)
}.

(** ** The Observation Builder ([MEDSImageIO], [SVDESMEDSImageIO]) *)

(** The classes of the inheritance chain; a method that a subclass
    overrides dispatches on the class of [self]. *)
Variant class_t := MEDSImageIO | SVDESMEDSImageIO | Y1DESMEDSImageIO.

Record self_t := {
  cls : class_t;
  conf : Conf;
  meds_list : list Meds.t;
  all_image_flags : list (list Z)
}.

(** [x.astype('i4')] *)
Definition astype_i4 (z : Z) : Z := (z + 2 ^ 31) mod 2 ^ 32 - 2 ^ 31.

Module Builder.
Section WithCollaborators.
Context `{Collaborators}.

(** [MEDSImageIO._get_image_flags] and its override in
    [SVDESMEDSImageIO]. *)
Definition _get_image_flags (self : self_t) (band mindex : nat)
  : result (list Z) :=
  meds ← py_getitem (meds_list self) band;
  let ncutout := Meds.ncutout meds mindex in
  match cls self with
  | MEDSImageIO => Ok (replicate ncutout 0)
  | SVDESMEDSImageIO | Y1DESMEDSImageIO =>
      let file_ids := Meds.file_id meds mindex <$> seq 0 ncutout in
      band_flags ← py_getitem (all_image_flags self) band;
      np_take band_flags file_ids
  end.

(** [w = numpy.where(wt < min_weight); wt[w] = 0.0] *)
Definition floor_weight (min_weight : float) (wt : list (list float))
  : list (list float) :=
  Array2.map (fun x => if PrimFloat.ltb x min_weight then 0%float else x) wt.

(** [wt.clip(min=0.0)] *)
Definition clip_min0 (wt : list (list float)) : list (list float) :=
  Array2.map (fun x => if PrimFloat.ltb x 0 then 0%float else x) wt.

(** The branches of [_get_meds_weight] on [conf['region']]: [(wt, wt_us)]. *)
Definition region_weights (self : self_t) (band mindex icut : nat)
  : result (list (list float) * option (list (list float))) :=
  if String.eqb (region (conf self)) "mof"
  then Ok (weight_cutout band mindex icut,
           Some (cweight_cutout_nearest band mindex icut))
  else if String.eqb (region (conf self)) "cweight-nearest"
  then Ok (cweight_cutout_nearest band mindex icut, None)
  else if String.eqb (region (conf self)) "seg_and_sky"
  then Ok (cweight_cutout band mindex icut, None)
  else if String.eqb (region (conf self)) "weight"
  then Ok (weight_cutout band mindex icut, None)
  else Raise ValueError.

Definition _get_meds_weight (self : self_t) (band mindex icut : nat)
  : result (list (list float) * option (list (list float)) * list (list Z)) :=
  wts ← region_weights self band mindex icut;
  let '(wt, wt_us) := wts in
  let wt := floor_weight (min_weight (conf self)) wt in
  let wt_us := match wt_us with
               | Some w => Some (floor_weight (min_weight (conf self)) w)
               | None => None
               end in
  Ok (wt, wt_us, seg_cutout band mindex icut).

(** [MEDSImageIO._get_band_observation]: the attributes of a usable
    Observation. *)
Definition _get_band_observation (self : self_t) (band mindex icut : nat)
  : result Obs.body :=
  let fname := orig_filename band mindex icut in
  let im := image_cutout band mindex icut in
  wts ← _get_meds_weight self band mindex icut;
  let '(wt, wt_us, seg) := wts in
  let jacob := cutout_jacobian band mindex icut in
  let wt := clip_min0 wt in
  psf_obs ← psf_observation band mindex icut jacob;
  Ok {| Obs.image := im;
        Obs.weight := wt;
        Obs.weight_raw := Val wt;
        Obs.weight_us := match wt_us with Some w => Val w | None => PyNone end;
        Obs.weight_orig := Absent;
        Obs.image_orig := Absent;
        Obs.seg := Val seg;
        Obs.jacobian := jacob;
        Obs.psf := Some psf_obs;
        Obs.filename := Val fname |}.

(** [Observation(numpy.zeros((0,0)))]: no pixels; the weight defaults to
    ones of the image's shape. *)
Definition empty_observation : Obs.body :=
  {| Obs.image := [];
     Obs.weight := [];
     Obs.weight_raw := Absent;
     Obs.weight_us := Absent;
     Obs.weight_orig := Absent;
     Obs.image_orig := Absent;
     Obs.seg := Absent;
     Obs.jacobian := default_jacobian [];
     Obs.psf := None;
     Obs.filename := Absent |}.

(** [_fill_obs_meta_data] followed by [obs.update_meta_data({'flags':flags})].
    [SVDESMEDSImageIO] adds the image id. *)
Definition _fill_obs_meta_data (self : self_t) (obs : Obs.body)
    (band mindex icut : nat) (flags : Z) : result Obs.t :=
  meds ← py_getitem (meds_list self) band;
  number ← py_getitem (Meds.number meds) mindex;
  let file_id := astype_i4 (Meds.file_id meds mindex icut) in
  image_id ←
    match cls self with
    | MEDSImageIO => Ok None
    | SVDESMEDSImageIO | Y1DESMEDSImageIO =>
        row ← np_index (Meds.get_image_info meds) file_id;
        Ok (Some (Meds.image_id row))
    end;
  let meta_row :=
    {| MetaRow.id := Meds.id meds mindex;
       MetaRow.number := astype_i4 number;
       MetaRow.band_num := band;
       MetaRow.cutout_index := icut;
       MetaRow.orig_row := Meds.orig_row meds mindex icut;
       MetaRow.orig_col := Meds.orig_col meds mindex icut;
       MetaRow.file_id := file_id;
       MetaRow.pixel_scale := get_scale (Obs.jacobian obs);
       MetaRow.image_id := image_id |} in
  Ok {| Obs.attrs := obs;
        Obs.meta :=
          {| Meta.icut := icut;
             Meta.orig_start_row := Meds.orig_start_row meds mindex icut;
             Meta.orig_start_col := Meds.orig_start_col meds mindex icut;
             Meta.meta_data := meta_row;
             Meta.id := Meds.id meds mindex;
             Meta.band_id := icut;
             Meta.flags := flags;
             Meta.nbrs_psfs := None;
             Meta.nbrs_flags := None;
             Meta.nbrs_jacs := None |} |}.

(** The Observations with [obs.meta['flags'] == 0]. *)
Definition usable (obs_list : list Obs.t) : list Obs.t :=
  filter (fun obs => Obs.flags obs = 0) obs_list.

(** The weight arrays after [meds.reject_outliers] changed them in place:
    the arrays in [wtlist] are those of the usable Observations, in order. *)
Fixpoint put_weights (obs_list : list Obs.t) (wts : list (list (list float)))
  : list Obs.t :=
  match obs_list with
  | [] => []
  | obs :: rest =>
      if decide (Obs.flags obs = 0)
      then match wts with
           | w :: wts' => Obs.set_weight w obs :: put_weights rest wts'
           | [] => obs :: put_weights rest []
           end
      else obs :: put_weights rest wts
  end.

(** A call of [meds.reject_outliers]: its two arguments. *)
Definition outlier_call : Type :=
  list (list (list float)) * list (list (list float)).

(** [MEDSImageIO._reject_outliers]: the Observations after the call and
    the arguments of the call. *)
Definition _reject_outliers (obs_list : list Obs.t)
  : list Obs.t * outlier_call :=
  let imlist := (fun obs => Obs.image (Obs.attrs obs)) <$> usable obs_list in
  let wtlist := (fun obs => Obs.weight (Obs.attrs obs)) <$> usable obs_list in
  (put_weights obs_list (meds_reject_outliers imlist wtlist), (imlist, wtlist)).

(** The Observation of one slot: the body of [for icut in xrange(ncutout)]
    up to the flags update. *)
Definition build_slot (self : self_t) (band mindex : nat) (image_flags : list Z)
    (icut : nat) : result Obs.t :=
  iflags ← py_getitem image_flags icut;
  fo ← (if negb (iflags =? 0)
        then Ok (IMAGE_FLAGS, empty_observation)
        else obs ← _get_band_observation self band mindex icut; Ok (0, obs));
  let '(flags, obs) := fo in
  _fill_obs_meta_data self obs band mindex icut flags.

(** The body of [for icut in xrange(ncutout)]: the Observation goes to
    [coadd_obs_list] for slot 0 and to [obs_list] otherwise. *)
Definition band_step (self : self_t) (band mindex : nat) (image_flags : list Z)
    (st : list Obs.t * list Obs.t) (icut : nat)
  : result (list Obs.t * list Obs.t) :=
  obs ← build_slot self band mindex image_flags icut;
  if (icut =? 0)%nat
  then Ok (st.1 ++ [obs], st.2)
  else Ok (st.1, st.2 ++ [obs]).

(** The images and the weights of the usable Observations of a list. *)
Definition usable_arrays (obs_list : list Obs.t) : outlier_call :=
  ((fun obs => Obs.image (Obs.attrs obs)) <$> usable obs_list,
   (fun obs => Obs.weight (Obs.attrs obs)) <$> usable obs_list).

(** The calls of [meds.reject_outliers] for a loop result [obs_list]: one
    when the configuration asks for the pass and the list is not empty. *)
Definition calls_when (self : self_t) (obs_list : list Obs.t) : list outlier_call :=
  if reject_outliers (conf self) && (0 <? length obs_list)%nat
  then [usable_arrays obs_list] else [].

(** [_get_band_observations] up to the end of its loop:
    [(coadd_obs_list, obs_list)]. *)
Definition band_loop (self : self_t) (band mindex : nat)
  : result (list Obs.t * list Obs.t) :=
  meds ← py_getitem (meds_list self) band;
  let ncutout := Meds.ncutout meds mindex in
  image_flags ← _get_image_flags self band mindex;
  for_each (band_step self band mindex image_flags) (seq 0 ncutout) ([], []).

(** The result of [_get_band_observations], with the calls of
    [meds.reject_outliers] it made. *)
Record band_result := {
  coadd_obs_list : list Obs.t;
  se_obs_list : list Obs.t;
  outlier_calls : list outlier_call
}.

(** [MEDSImageIO._get_band_observations] *)
Definition MEDSImageIO_get_band_observations (self : self_t) (band mindex : nat)
  : result band_result :=
  lists ← band_loop self band mindex;
  let '(coadd_obs_list, obs_list) := lists in
  if reject_outliers (conf self) && (0 <? length obs_list)%nat
  then let '(obs_list', call) := _reject_outliers obs_list in
       Ok {| coadd_obs_list := coadd_obs_list; se_obs_list := obs_list';
             outlier_calls := [call] |}
  else Ok {| coadd_obs_list := coadd_obs_list; se_obs_list := obs_list;
             outlier_calls := [] |}.

(** [attr *= x] for an attribute that may be [None]. *)
Definition scale_attr (x : float) (a : attr (list (list float)))
  : result (attr (list (list float))) :=
  match a with
  | Val w => Ok (Val (Array2.map (fun v => (v * x)%float) w))
  | PyNone => Ok PyNone
  | Absent => Raise AttributeError
  end.

(** The body of the loop of [SVDESMEDSImageIO._get_band_observations]. *)
Definition rescale (obs : Obs.t) : result Obs.t :=
  if decide (Obs.flags obs = 0)
  then
    let b := Obs.attrs obs in
    let pixel_scale2 := get_det (Obs.jacobian b) in
    let pixel_scale4 := (pixel_scale2 * pixel_scale2)%float in
    weight_raw ← scale_attr pixel_scale4 (Obs.weight_raw b);
    weight_us ← scale_attr pixel_scale4 (Obs.weight_us b);
    Ok {| Obs.attrs :=
            {| Obs.image := Array2.map (fun v => (v / pixel_scale2)%float) (Obs.image b);
               Obs.weight := Array2.map (fun v => (v * pixel_scale4)%float) (Obs.weight b);
               Obs.weight_raw := weight_raw;
               Obs.weight_us := weight_us;
               Obs.weight_orig := Obs.weight_orig b;
               Obs.image_orig := Obs.image_orig b;
               Obs.seg := Obs.seg b;
               Obs.jacobian := Obs.jacobian b;
               Obs.psf := Obs.psf b;
               Obs.filename := Obs.filename b |};
          Obs.meta := Obs.meta obs |}
  else Ok obs.

(** [SVDESMEDSImageIO._get_band_observations] *)
Definition SVDES_get_band_observations (self : self_t) (band mindex : nat)
  : result band_result :=
  r ← MEDSImageIO_get_band_observations self band mindex;
  coadd ← mapM rescale (coadd_obs_list r);
  se ← mapM rescale (se_obs_list r);
  Ok {| coadd_obs_list := coadd; se_obs_list := se;
        outlier_calls := outlier_calls r |}.

(** [self._get_band_observations(band, mindex)] *)
Definition _get_band_observations (self : self_t) (band mindex : nat)
  : result band_result :=
  match cls self with
  | MEDSImageIO => MEDSImageIO_get_band_observations self band mindex
  | SVDESMEDSImageIO | Y1DESMEDSImageIO =>
      SVDES_get_band_observations self band mindex
  end.

(** The Observation built for the slot [icut]: the first element of the
    co-add list for slot 0, the element [icut - 1] of the other list. *)
Definition slot_of (coadd_obs_list obs_list : list Obs.t) (icut : nat)
  : option Obs.t :=
  match icut with
  | O => coadd_obs_list !! 0%nat
  | S k => obs_list !! k
  end.

Definition slot (r : band_result) (icut : nat) : option Obs.t :=
  slot_of (coadd_obs_list r) (se_obs_list r) icut.

End WithCollaborators.
End Builder.

(** ** The Neighbor Geometry Engine
       ([_get_nbr_psf_obs_and_jac], [_add_nbrs_psfs_and_jacs]) *)

Module Nbrs.
Section WithCollaborators.
Context `{Collaborators}.

(** An [i8] value as a float64. *)
Definition f8_of_i8 (z : Z) : float :=
  match z with
  | Z0 => 0%float
  | Zpos _ => PrimFloat.of_uint63 (Uint63.of_Z z)
  | Zneg p => (- PrimFloat.of_uint63 (Uint63.of_Z (Zpos p)))%float
  end.

(** [obs.meta['meta_data']['file_id'][0]] *)
Definition obs_file_id (obs : Obs.t) : Z :=
  MetaRow.file_id (Meta.meta_data (Obs.meta obs)).

(** [_get_offchip_nbr_psf_obs_and_jac]: an assertion failure in
    [MEDSImageIO] and [SVDESMEDSImageIO], the projection in
    [Y1DESMEDSImageIO]. *)
Definition _get_offchip_nbr_psf_obs_and_jac (self : self_t)
    (band cen_ind cen_mindex : nat) (cen_obs : Obs.t)
    (nbr_ind nbr_mindex : nat) (nbrs_obs_list : MultiBand.t)
  : result (option PsfObs * option Jacobian.t) :=
  match cls self with
  | MEDSImageIO | SVDESMEDSImageIO => Raise AssertionError
  | Y1DESMEDSImageIO =>
      meds ← py_getitem (meds_list self) band;
      if (Meds.ncutout meds nbr_mindex =? 0)%nat then Ok (None, None)
      else
        py_assert (Meds.file_id meds cen_mindex 0 =? Meds.file_id meds nbr_mindex 0);;
        let J := Obs.jacobian (Obs.attrs cen_obs) in
        rowcol_nbr ← offchip_rowcol band cen_mindex nbr_mindex J;
        let J_nbr := Jacobian.set_cen J rowcol_nbr.1 rowcol_nbr.2 in
        psf ← Obs.get_psf cen_obs;
        Ok (Some psf, Some J_nbr)
  end.

(** The loop [for obs in nbrs_obs_list[band]]: the last Observation of the
    neighbour that comes from the image [cen_file_id]. *)
Definition find_nbr_obs (cen_file_id nbr_id : Z) (obs_list : list Obs.t)
  : option Obs.t :=
  fold_left
    (fun nbr_obs obs =>
       if (obs_file_id obs =? cen_file_id) && (nbr_id =? Meta.id (Obs.meta obs))
       then Some obs else nbr_obs)
    obs_list None.

(** The branch [if nbr_obs is not None]. *)
Definition reuse_nbr_obs (meds : Meds.t) (cen_file_id : Z) (cen_obs nbr_obs : Obs.t)
    (nbr_mindex : nat) : result (option PsfObs * option Jacobian.t) :=
  py_assert (Obs.flags nbr_obs =? 0);;
  nbr_psf_obs ← Obs.get_psf nbr_obs;
  let nbr_icut := Meta.icut (Obs.meta nbr_obs) in
  py_assert (Meds.file_id meds nbr_mindex nbr_icut =? cen_file_id);;
  let row := (Meds.orig_row meds nbr_mindex nbr_icut
              - f8_of_i8 (Meta.orig_start_row (Obs.meta cen_obs)))%float in
  let col := (Meds.orig_col meds nbr_mindex nbr_icut
              - f8_of_i8 (Meta.orig_start_col (Obs.meta cen_obs)))%float in
  let nbr_jac :=
    {| Jacobian.row0 := row; Jacobian.col0 := col;
       Jacobian.dudrow := Meds.dudrow meds nbr_mindex nbr_icut;
       Jacobian.dudcol := Meds.dudcol meds nbr_mindex nbr_icut;
       Jacobian.dvdrow := Meds.dvdrow meds nbr_mindex nbr_icut;
       Jacobian.dvdcol := Meds.dvdcol meds nbr_mindex nbr_icut |} in
  Ok (Some nbr_psf_obs, Some nbr_jac).

Definition _get_nbr_psf_obs_and_jac (self : self_t)
    (band cen_ind cen_mindex : nat) (cen_obs : Obs.t)
    (nbr_ind nbr_mindex : nat) (nbrs_obs_list : MultiBand.t)
  : result (option PsfObs * option Jacobian.t) :=
  meds ← py_getitem (meds_list self) band;
  py_assert (MultiBand.id (MultiBand.meta nbrs_obs_list) =? Meds.id meds nbr_mindex);;
  py_assert (Meta.id (Obs.meta cen_obs) =? Meds.id meds cen_mindex);;
  let cen_file_id := obs_file_id cen_obs in
  obs_list ← py_getitem (MultiBand.bands nbrs_obs_list) band;
  match find_nbr_obs cen_file_id (Meds.id meds nbr_mindex) obs_list with
  | Some nbr_obs => reuse_nbr_obs meds cen_file_id cen_obs nbr_obs nbr_mindex
  | None =>
      _get_offchip_nbr_psf_obs_and_jac self band cen_ind cen_mindex cen_obs
        nbr_ind nbr_mindex nbrs_obs_list
  end.

(** The three lists built for one Observation of the central object. *)
Record nbrs_lists := {
  nbrs_psfs : list (option PsfObs);
  nbrs_flags : list Z;
  nbrs_jacs : list (option Jacobian.t)
}.

(** [psf_obs is None or jac is None or mb_obs_lists[ind].meta['obj_flags'] != 0] *)
Definition nbr_unusable (psf_obs : option PsfObs) (jac : option Jacobian.t)
    (obj_flags : Z) : bool :=
  negb (bool_decide (is_Some psf_obs))
  || negb (bool_decide (is_Some jac))
  || negb (obj_flags =? 0).

(** The body of [for ind in mb_obs_lists[cen].meta['nbrs_inds']]. *)
Definition nbr_step (self : self_t) (mb_obs_lists : list MultiBand.t)
    (mindexes : list nat) (band cen mindex : nat) (obs : Obs.t)
    (acc : nbrs_lists) (ind : nat) : result nbrs_lists :=
  nbr_mindex ← py_getitem mindexes ind;
  nbr_mb ← py_getitem mb_obs_lists ind;
  pj ← _get_nbr_psf_obs_and_jac self band cen mindex obs ind nbr_mindex nbr_mb;
  let '(psf_obs, jac) := pj in
  let flag :=
    if nbr_unusable psf_obs jac (MultiBand.obj_flags (MultiBand.meta nbr_mb))
    then 1 else 0 in
  Ok {| nbrs_psfs := nbrs_psfs acc ++ [psf_obs];
        nbrs_flags := nbrs_flags acc ++ [flag];
        nbrs_jacs := nbrs_jacs acc ++ [jac] |}.

(** The lists for one Observation with [flags == 0]. *)
Definition nbrs_of_obs (self : self_t) (mb_obs_lists : list MultiBand.t)
    (mindexes : list nat) (band cen mindex : nat) (obs : Obs.t)
  : result nbrs_lists :=
  cen_mb ← py_getitem mb_obs_lists cen;
  for_each (nbr_step self mb_obs_lists mindexes band cen mindex obs)
    (MultiBand.nbrs_inds (MultiBand.meta cen_mb))
    {| nbrs_psfs := []; nbrs_flags := []; nbrs_jacs := [] |}.

(** [obs.update_meta_data({'nbrs_psfs':..,'nbrs_flags':..,'nbrs_jacs':..})] *)
Definition attach (l : nbrs_lists) (obs : Obs.t) : Obs.t :=
  let m := Obs.meta obs in
  {| Obs.attrs := Obs.attrs obs;
     Obs.meta :=
       {| Meta.icut := Meta.icut m;
          Meta.orig_start_row := Meta.orig_start_row m;
          Meta.orig_start_col := Meta.orig_start_col m;
          Meta.meta_data := Meta.meta_data m;
          Meta.id := Meta.id m;
          Meta.band_id := Meta.band_id m;
          Meta.flags := Meta.flags m;
          Meta.nbrs_psfs := Some (nbrs_psfs l);
          Meta.nbrs_flags := Some (nbrs_flags l);
          Meta.nbrs_jacs := Some (nbrs_jacs l) |} |}.

(** The Observation [k] of the band [band] of the object [cen] is replaced:
    the update happens in place in [mb_obs_lists]. *)
Definition put_obs (mb_obs_lists : list MultiBand.t) (cen band k : nat)
    (obs : Obs.t) : list MultiBand.t :=
  alter (fun mb =>
           {| MultiBand.bands :=
                alter (fun obs_list => <[k := obs]> obs_list) band (MultiBand.bands mb);
              MultiBand.meta := MultiBand.meta mb |})
        cen mb_obs_lists.

(** The body of [for obs in obs_list], for the Observation at position [k]. *)
Definition obs_step (self : self_t) (mindexes : list nat) (cen mindex band : nat)
    (mb_obs_lists : list MultiBand.t) (k : nat) : result (list MultiBand.t) :=
  cen_mb ← py_getitem mb_obs_lists cen;
  obs_list ← py_getitem (MultiBand.bands cen_mb) band;
  obs ← py_getitem obs_list k;
  if decide (Obs.flags obs = 0)
  then l ← nbrs_of_obs self mb_obs_lists mindexes band cen mindex obs;
       Ok (put_obs mb_obs_lists cen band k (attach l obs))
  else Ok mb_obs_lists.

(** The body of [for band,obs_list in enumerate(mb_obs_lists[cen])]. *)
Definition band_step (self : self_t) (mindexes : list nat) (cen mindex : nat)
    (mb_obs_lists : list MultiBand.t) (band : nat) : result (list MultiBand.t) :=
  cen_mb ← py_getitem mb_obs_lists cen;
  obs_list ← py_getitem (MultiBand.bands cen_mb) band;
  for_each (obs_step self mindexes cen mindex band)
    (seq 0 (length obs_list)) mb_obs_lists.

(** The body of [for cen,mindex in enumerate(mindexes)]. *)
Definition cen_step (self : self_t) (mindexes : list nat)
    (mb_obs_lists : list MultiBand.t) (cm : nat * nat) : result (list MultiBand.t) :=
  let '(cen, mindex) := cm in
  cen_mb ← py_getitem mb_obs_lists cen;
  for_each (band_step self mindexes cen mindex)
    (seq 0 (length (MultiBand.bands cen_mb))) mb_obs_lists.

Definition _add_nbrs_psfs_and_jacs (self : self_t)
    (mb_obs_lists : list MultiBand.t) (mindexes : list nat)
  : result (list MultiBand.t) :=
  for_each (cen_step self mindexes) (imap pair mindexes) mb_obs_lists.

End WithCollaborators.
End Nbrs.

(** ** Mask dilation ([Y1DESMEDSImageIO._expand_mask]) *)

Module Dilate.

(** [for dx in [-1,0,1]] and [for dy in [-1,0,1]] *)
Definition offsets : list Z := [-1; 0; 1].

(** The state of the loops: [cbmask] and the lists [qx], [qy] being built,
    kept as one list of pairs (the two are always appended to together). *)
Definition state : Type := list (list Z) * list (Z * Z).

(** The body of [for dy in [-1,0,1]], for the row [iix]. *)
Definition visit_col (sh : nat * nat) (iix iy : Z) (st : state) (dy : Z) : state :=
  let iiy := iy + dy in
  if (0 <=? iiy) && (iiy <? Z.of_nat sh.2)
  then (Array2.setitem st.1 (Z.to_nat iix) (Z.to_nat iiy) 1, st.2 ++ [(iix, iiy)])
  else st.

(** The body of [for dx in [-1,0,1]]. *)
Definition visit_row (sh : nat * nat) (ix iy : Z) (st : state) (dx : Z) : state :=
  let iix := ix + dx in
  if (0 <=? iix) && (iix <? Z.of_nat sh.1)
  then fold_left (visit_col sh iix iy) offsets st
  else st.

(** The body of [for ix,iy in zip(qx_prev,qy_prev)]. *)
Definition visit (sh : nat * nat) (st : state) (p : Z * Z) : state :=
  fold_left (visit_row sh p.1 p.2) offsets st.

(** One round: the body of [for r in xrange(rounds)].  The state between
    rounds is [(cbmask, zip(qx_prev, qy_prev))]. *)
Definition round (sh : nat * nat) (st : state) : state :=
  fold_left (visit sh) st.2 (st.1, []).

Definition nonzero (v : Z) : bool := negb (v =? 0).

(** [qx_prev,qy_prev = numpy.where(cbmask != 0)] *)
Definition where_nonzero (m : list (list Z)) : list (Z * Z) :=
  (fun p : nat * nat => (Z.of_nat p.1, Z.of_nat p.2)) <$> Array2.where_ nonzero m.

Definition rounds_loop (sh : nat * nat) (rounds : nat) (st : state) : state :=
  Nat.iter rounds (round sh) st.

Definition _expand_mask (bmask : list (list Z)) (rounds : nat) : list (list Z) :=
  (rounds_loop (Array2.shape bmask) rounds (bmask, where_nonzero bmask)).1.

(** The pixel [(i, j)] of [m] is set. *)
Definition is_set (m : list (list Z)) (i j : nat) : Prop :=
  ∃ v, Array2.getitem m i j = Some v ∧ v ≠ 0.

(** [m'] is [m] with some pixels overwritten by 1. *)
Definition only_sets (m m' : list (list Z)) : Prop :=
  ∀ i j, Array2.getitem m' i j = Array2.getitem m i j
         ∨ (is_Some (Array2.getitem m i j) ∧ Array2.getitem m' i j = Some 1).

End Dilate.

(** ** Nearest-pixel resampling ([util.interpolate_image]) *)

(** A pixel frame: the centre of the cutout and its Jacobian matrix
    [[dudrow, dudcol], [dvdrow, dvdcol]]. *)
Record frame := {
  rowcen : float;
  colcen : float;
  jacob : (float * float) * (float * float)
}.

(** The source pixel of every target pixel: the arrays [row1], [col1] after
    [round().astype('i8')].  They come out of float64 arithmetic (the
    matrix inverse [jacob1.getI()], products and sums, rounding to the
    nearest integer), which is taken as given here: for the frames of the
    source and of the target and the shape of the image, either the inverse
    fails or a pair of integers per target pixel. *)
Class PixelMap := {
  pixel_map : frame → frame → nat * nat → result (nat → nat → Z * Z)
}.

Module Interp.
Section WithPixelMap.
Context `{PixelMap}.

(** The test behind [wgood]. *)
Definition in_image (sh : nat * nat) (rc : Z * Z) : bool :=
  (0 <=? rc.1) && (rc.1 <? Z.of_nat sh.1)
  && (0 <=? rc.2) && (rc.2 <? Z.of_nat sh.2).

(** [x.clip(0, n - 1)] *)
Definition clip (n : nat) (x : Z) : Z := Z.min (Z.max x 0) (Z.of_nat n - 1).

(** [im2[rows2[wgood],cols2[wgood]] = im1[row1[wgood],col1[wgood]]] for one
    good target pixel. *)
Definition fill (im1 : list (list Z)) (rc : nat → nat → Z * Z)
    (im2 : list (list Z)) (p : nat * nat) : list (list Z) :=
  let sh := Array2.shape im1 in
  let src := rc p.1 p.2 in
  match Array2.getitem im1 (Z.to_nat (clip sh.1 src.1)) (Z.to_nat (clip sh.2 src.2)) with
  | Some v => Array2.setitem im2 p.1 p.2 v
  | None => im2
  end.

Record interpolated := {
  im2 : list (list Z);
  wbad : list (nat * nat);
  wgood : list (nat * nat)
}.

Definition interpolate_image (f1 : frame) (im1 : list (list Z)) (f2 : frame)
  : result interpolated :=
  let sh := Array2.shape im1 in
  let zeros := Array2.map (fun _ : Z => 0) im1 in
  rc ← pixel_map f1 f2 sh;
  let coords := imap (fun r row => imap (fun c _ => rc r c) row) im1 in
  let wbad := Array2.where_ (fun x => negb (in_image sh x)) coords in
  let wgood := Array2.where_ (in_image sh) coords in
  Ok {| im2 := fold_left (fill im1 rc) wgood zeros;
        wbad := wbad; wgood := wgood |}.

End WithPixelMap.
End Interp.

(** ** The Bitmask Propagation Engine
       ([Y1DESMEDSImageIO._prop_extra_bitmasks]) *)

Module Propagate.
Section WithPixelMap.
Context `{PixelMap}.

(** [m.get_jacobian_matrix(mindex, icut)] with the cutout centre. *)
Definition cutout_frame (m : Meds.t) (mindex icut : nat) : frame :=
  {| rowcen := Meds.cutout_row m mindex icut;
     colcen := Meds.cutout_col m mindex icut;
     jacob := ((Meds.dudrow m mindex icut, Meds.dudcol m mindex icut),
               (Meds.dvdrow m mindex icut, Meds.dvdcol m mindex icut)) |}.

(** [(bmaski != 0) & (obs.seg == 0)] at one pixel. *)
Definition masked (b s : Z) : bool := negb (b =? 0) && (s =? 0).

(** [numpy.where((bmaski != 0) & (obs.seg == 0))] for two arrays of one
    shape, as the cutouts of one object are.  Arrays of different shapes
    raise here; numpy's broadcasting of an axis of length 1 is left out. *)
Definition masked_pixels (bmaski seg : list (list Z)) : result (list (nat * nat)) :=
  if bool_decide (length <$> bmaski = length <$> seg)
  then Ok (Array2.where_ (fun bs : Z * Z => masked bs.1 bs.2)
             (zip_with zip bmaski seg))
  else Raise ValueError.

(** The pixel [(i, j)] is one of those [masked_pixels] returns. *)
Definition hit (bmaski seg : list (list Z)) (i j : nat) : bool :=
  match Array2.getitem bmaski i j, Array2.getitem seg i j with
  | Some b, Some s => masked b s
  | _, _ => false
  end.

(** [w'] is [w] with 0 at the masked pixels and nothing else changed. *)
Definition zeroed (bmaski seg : list (list Z)) (w w' : list (list float)) : Prop :=
  ∀ i j, Array2.getitem w' i j
         = if hit bmaski seg i j then Some 0%float else Array2.getitem w i j.

(** The same for an attribute: one that is not set stays so, and one that is
    [None] can only have been passed when no pixel is masked. *)
Definition zeroed_attr (bmaski seg : list (list Z))
    (a a' : attr (list (list float))) : Prop :=
  match a, a' with
  | Absent, Absent => True
  | PyNone, PyNone => ∀ i j, hit bmaski seg i j = false
  | Val w, Val w' => zeroed bmaski seg w w'
  | _, _ => False
  end.

(** [w[q] = 0.0]: every index is checked before anything is written. *)
Definition zero_at (q : list (nat * nat)) (w : list (list float))
  : result (list (list float)) :=
  if forallb (fun p : nat * nat => bool_decide (is_Some (Array2.getitem w p.1 p.2))) q
  then Ok (fold_left (fun w p => Array2.setitem w p.1 p.2 0%float) q w)
  else Raise IndexError.

(** [if hasattr(obs, name): obs.name[q] = 0.0] for an attribute. *)
Definition zero_attr (q : list (nat * nat)) (a : attr (list (list float)))
  : result (attr (list (list float))) :=
  match a with
  | Absent => Ok Absent
  | PyNone => Raise TypeError
  | Val w => Val <$> zero_at q w
  end.

(** An Observation that is changed in place, and the exception that ended
    the changes, if one was raised. *)
Definition outcome : Type := Obs.body * option exn.

Definition with_weight_raw (b : Obs.body) (w : attr (list (list float))) : Obs.body :=
  {| Obs.image := Obs.image b; Obs.weight := Obs.weight b;
     Obs.weight_raw := w; Obs.weight_us := Obs.weight_us b;
     Obs.weight_orig := Obs.weight_orig b; Obs.image_orig := Obs.image_orig b;
     Obs.seg := Obs.seg b; Obs.jacobian := Obs.jacobian b;
     Obs.psf := Obs.psf b; Obs.filename := Obs.filename b |}.

Definition with_weight_us (b : Obs.body) (w : attr (list (list float))) : Obs.body :=
  {| Obs.image := Obs.image b; Obs.weight := Obs.weight b;
     Obs.weight_raw := Obs.weight_raw b; Obs.weight_us := w;
     Obs.weight_orig := Obs.weight_orig b; Obs.image_orig := Obs.image_orig b;
     Obs.seg := Obs.seg b; Obs.jacobian := Obs.jacobian b;
     Obs.psf := Obs.psf b; Obs.filename := Obs.filename b |}.

Definition with_weight (b : Obs.body) (w : list (list float)) : Obs.body :=
  {| Obs.image := Obs.image b; Obs.weight := w;
     Obs.weight_raw := Obs.weight_raw b; Obs.weight_us := Obs.weight_us b;
     Obs.weight_orig := Obs.weight_orig b; Obs.image_orig := Obs.image_orig b;
     Obs.seg := Obs.seg b; Obs.jacobian := Obs.jacobian b;
     Obs.psf := Obs.psf b; Obs.filename := Obs.filename b |}.

Definition with_weight_orig (b : Obs.body) (w : attr (list (list float))) : Obs.body :=
  {| Obs.image := Obs.image b; Obs.weight := Obs.weight b;
     Obs.weight_raw := Obs.weight_raw b; Obs.weight_us := Obs.weight_us b;
     Obs.weight_orig := w; Obs.image_orig := Obs.image_orig b;
     Obs.seg := Obs.seg b; Obs.jacobian := Obs.jacobian b;
     Obs.psf := Obs.psf b; Obs.filename := Obs.filename b |}.

(** The four guarded assignments, in the order of the source:
    [weight_raw], [weight_us], [weight], [weight_orig]. *)
Definition zero_weights (q : list (nat * nat)) (b : Obs.body) : outcome :=
  match zero_attr q (Obs.weight_raw b) with
  | Raise e => (b, Some e)
  | Ok w_raw =>
      let b := with_weight_raw b w_raw in
      match zero_attr q (Obs.weight_us b) with
      | Raise e => (b, Some e)
      | Ok w_us =>
          let b := with_weight_us b w_us in
          match zero_at q (Obs.weight b) with
          | Raise e => (b, Some e)
          | Ok w =>
              let b := with_weight b w in
              match zero_attr q (Obs.weight_orig b) with
              | Raise e => (b, Some e)
              | Ok w_orig => (with_weight_orig b w_orig, None)
              end
          end
      end
  end.

(** The mask [bmaski] of one Observation after resampling and two rounds
    of dilation. *)
Definition dilated_mask (m : Meds.t) (mindex : nat) (bmask : list (list Z))
    (icut : nat) : result (list (list Z)) :=
  r ← Interp.interpolate_image (cutout_frame m mindex 0) bmask
        (cutout_frame m mindex icut);
  Ok (Dilate._expand_mask (Interp.im2 r) 2).

(** [obs.seg], read as an attribute. *)
Definition get_seg (b : Obs.body) : result (list (list Z)) :=
  match Obs.seg b with
  | Val seg => Ok seg
  | PyNone => Raise TypeError
  | Absent => Raise AttributeError
  end.

(** The body of [for obs in obs_list]. *)
Definition prop_obs (m : Meds.t) (mindex : nat) (bmask : list (list Z))
    (obs : Obs.t) : Obs.t * option exn :=
  if decide (Obs.flags obs = 0)
  then
    let b := Obs.attrs obs in
    match (bmaski ← dilated_mask m mindex bmask (Meta.icut (Obs.meta obs));
           seg ← get_seg b;
           masked_pixels bmaski seg) with
    | Raise e => (obs, Some e)
    | Ok q =>
        if (0 <? length q)%nat
        then let '(b', e) := zero_weights q b in
             ({| Obs.attrs := b'; Obs.meta := Obs.meta obs |}, e)
        else (obs, None)
    end
  else (obs, None).

(** A loop over objects changed in place: the objects after the loop, those
    after a raised exception left as they were. *)
Fixpoint for_each_in_place {A} (body : A → A * option exn) (l : list A)
  : list A * option exn :=
  match l with
  | [] => ([], None)
  | x :: l' =>
      match body x with
      | (x', Some e) => (x' :: l', Some e)
      | (x', None) =>
          let '(l'', e) := for_each_in_place body l' in (x' :: l'', e)
      end
  end.

(** The body of [for band,obs_list in enumerate(mb_obs_list)]. *)
Definition prop_band (self : self_t) (mindex : nat) (bmasks : list (list (list Z)))
    (band : nat) (obs_list : list Obs.t) : list Obs.t * option exn :=
  match (m ← py_getitem (meds_list self) band;
         bmask ← py_getitem bmasks band;
         Ok (m, bmask)) with
  | Raise e => (obs_list, Some e)
  | Ok (m, bmask) => for_each_in_place (prop_obs m mindex bmask) obs_list
  end.

Fixpoint prop_bands (self : self_t) (mindex : nat) (bmasks : list (list (list Z)))
    (band : nat) (bands : list (list Obs.t)) : list (list Obs.t) * option exn :=
  match bands with
  | [] => ([], None)
  | obs_list :: rest =>
      match prop_band self mindex bmasks band obs_list with
      | (obs_list', Some e) => (obs_list' :: rest, Some e)
      | (obs_list', None) =>
          let '(rest', e) := prop_bands self mindex bmasks (S band) rest in
          (obs_list' :: rest', e)
      end
  end.

Definition _prop_extra_bitmasks (self : self_t) (bmasks : list (list (list Z)))
    (mb_obs_list : MultiBand.t) : MultiBand.t * option exn :=
  let mindex := MultiBand.meds_index (MultiBand.meta mb_obs_list) in
  let '(bands, e) := prop_bands self mindex bmasks 0 (MultiBand.bands mb_obs_list) in
  ({| MultiBand.bands := bands; MultiBand.meta := MultiBand.meta mb_obs_list |}, e).

End WithPixelMap.
End Propagate.

(** ** Concrete collaborators, for running the model *)

Module Demo.

(** [int(s)] on a non-empty string of decimal digits. *)
Fixpoint digits (acc : Z) (s : string) : result Z :=
  match s with
  | EmptyString => Ok acc
  | String c s' =>
      let n := Z.of_nat (nat_of_ascii c) - 48 in
      if (0 <=? n) && (n <=? 9) then digits (10 * acc + n) s'
      else Raise ValueError
  end.

Definition py_int (s : string) : result Z :=
  match s with
  | EmptyString => Raise ValueError
  | _ => digits 0 s
  end.

Definition info_row (path : string) (flags : Z) : Meds.image_info_row :=
  {| Meds.image_path := path; Meds.image_flags := flags; Meds.image_id := 0 |}.

Definition conf_with (check : Z) (table : option (gmap string Z))
    (reject : bool) (region_name : string) : Conf :=
  {| image_flags2check := check; replacement_flags := table;
     reject_outliers := reject; model_nbrs := false; prop_sat_starpix := true;
     region := region_name; min_weight := 0%float |}.

Definition conf_check (check : Z) (table : option (gmap string Z)) : Conf :=
  conf_with check table true "weight".

(** Collaborators that return 2 x 2 cutouts of ones. *)
Definition ones : list (list float) := [[1; 1]; [1; 1]]%float.

Definition unit_jacobian : Jacobian.t :=
  {| Jacobian.row0 := 0; Jacobian.col0 := 0;
     Jacobian.dudrow := 1; Jacobian.dudcol := 0;
     Jacobian.dvdrow := 0; Jacobian.dvdcol := 1 |}.

Definition psf0 : PsfObs :=
  {| psf_image := [[1%float]]; psf_jacobian := unit_jacobian;
     psf_filename := "psf" |}.

Definition collaborators : Collaborators :=
  {| image_cutout := fun _ _ _ => ones;
     weight_cutout := fun _ _ _ => ones;
     cweight_cutout_nearest := fun _ _ _ => ones;
     cweight_cutout := fun _ _ _ => ones;
     seg_cutout := fun _ _ _ => [[0; 1]; [1; 1]];
     bmask_cutout := fun _ _ _ => [[0; 0]; [0; 0]];
     cutout_jacobian := fun _ _ _ => unit_jacobian;
     orig_filename := fun _ _ _ => "image";
     psf_observation := fun _ _ _ _ => Ok psf0;
     meds_reject_outliers := fun _ wtlist => wtlist;
     default_jacobian := fun _ => unit_jacobian;
     get_scale := fun _ => 1%float;
     get_det := fun _ => 1%float;
     offchip_rowcol := fun _ _ _ _ => Ok (0%float, 0%float) |}.

(** A file of [nobj] objects with [n] cutouts each: cutout [icut] comes
    from image [icut], the objects are numbered from 1. *)
Definition meds_of (nobj n : nat) (info : list Meds.image_info_row) : Meds.t :=
  {| Meds.size := nobj;
     Meds.get_image_info := info;
     Meds.number := (fun i => Z.of_nat (S i)) <$> seq 0 nobj;
     Meds.id := fun mindex => 100 + Z.of_nat mindex;
     Meds.ncutout := fun _ => n;
     Meds.box_size := fun _ => 2%nat;
     Meds.file_id := fun _ icut => Z.of_nat icut;
     Meds.orig_row := fun _ _ => 10%float;
     Meds.orig_col := fun _ _ => 10%float;
     Meds.orig_start_row := fun _ _ => 9;
     Meds.orig_start_col := fun _ _ => 9;
     Meds.cutout_row := fun _ _ => 1%float;
     Meds.cutout_col := fun _ _ => 1%float;
     Meds.dudrow := fun _ _ => 1%float;
     Meds.dudcol := fun _ _ => 0%float;
     Meds.dvdrow := fun _ _ => 0%float;
     Meds.dvdcol := fun _ _ => 1%float |}.

(** One band, one object, the co-add and one exposure. *)
Definition two_images (flags0 flags1 : Z) : list Meds.image_info_row :=
  [info_row "coadd/tile_r.fits.fz" flags0;
   info_row "/data/red/DECam_00229228_07.fits.fz" flags1].

(** [self] after [_load_meds_files] reduced the flags [flags0], [flags1] of
    that band. *)
Definition self_of (c : class_t) (check flags0 flags1 : Z) : self_t :=
  {| cls := c;
     conf := conf_check check None;
     meds_list := [meds_of 1 2 (two_images flags0 flags1)];
     all_image_flags :=
       match Reducer.band_image_flags py_int (conf_check check None)
               (two_images flags0 flags1) with
       | Ok flags => [flags]
       | Raise _ => []
       end |}.

(** The group of two objects of a band with the co-add and one exposure:
    the single-epoch lists the builder returns for them, each object the
    other's neighbour.  [obj_flags1] is the object-level flag of the second
    object. *)
Definition se_lists (self : self_t) (mindex : nat) : list (list Obs.t) :=
  match Builder._get_band_observations (H := collaborators) self 0 mindex with
  | Ok r => [Builder.se_obs_list r]
  | Raise _ => []
  end.

Definition self_pair (flags1 : Z) : self_t :=
  {| cls := SVDESMEDSImageIO;
     conf := conf_check 1 None;
     meds_list := [meds_of 2 2 (two_images 0 flags1)];
     all_image_flags := [[0; flags1]] |}.

Definition group_of_two (flags1 obj_flags1 : Z) : list MultiBand.t :=
  [ {| MultiBand.bands := se_lists (self_pair flags1) 0;
       MultiBand.meta :=
         {| MultiBand.meds_index := 0; MultiBand.id := 100;
            MultiBand.obj_flags := 0; MultiBand.nbrs_inds := [1%nat];
            MultiBand.nbrs_ids := [101]; MultiBand.cen_ind := 0 |} |};
    {| MultiBand.bands := se_lists (self_pair flags1) 1;
       MultiBand.meta :=
         {| MultiBand.meds_index := 1; MultiBand.id := 101;
            MultiBand.obj_flags := obj_flags1; MultiBand.nbrs_inds := [0%nat];
            MultiBand.nbrs_ids := [100]; MultiBand.cen_ind := 1 |} |} ].

(** The single-epoch Observation of the first object. *)
Definition first_obs (flags1 : Z) : option Obs.t :=
  mb ← group_of_two flags1 0 !! 0%nat;
  obs_list ← MultiBand.bands mb !! 0%nat;
  obs_list !! 0%nat.

(** Frames that map every pixel to itself. *)
Definition pixel_identity : PixelMap :=
  {| pixel_map := fun _ _ _ => Ok (fun r c => (Z.of_nat r, Z.of_nat c)) |}.

(** The first object of the group as a [MultiBandObsList], and the same
    with a region that carries [weight_us]. *)
Definition first_mb (flags1 : Z) : option MultiBand.t :=
  group_of_two flags1 0 !! 0%nat.

(** The meta data of a list that carries nothing else. *)
Definition no_meta : MultiBand.meta_t :=
  {| MultiBand.meds_index := 0; MultiBand.id := 100; MultiBand.obj_flags := 0;
     MultiBand.nbrs_inds := []; MultiBand.nbrs_ids := []; MultiBand.cen_ind := 0 |}.

(** The combined mask of the band: one pixel set, in the corner. *)
Definition corner_mask : list (list Z) := [[1; 0]; [0; 0]].

(** A group table for three rows, and the file it goes with. *)
Definition three_rows : list Index.fof_row :=
  [ {| Index.fofid := 7; Index.fof_number := 1 |};
    {| Index.fofid := 3; Index.fof_number := 2 |};
    {| Index.fofid := 7; Index.fof_number := 3 |} ].

Definition three_objects : Meds.t := meds_of 3 2 (two_images 0 0).

(** One band, one object, the co-add and one usable exposure, with the
    outlier rejection switched on or off and a region of choice. *)
Definition self_with (reject : bool) (region_name : string) : self_t :=
  {| cls := Y1DESMEDSImageIO;
     conf := conf_with 1 None reject region_name;
     meds_list := [meds_of 1 2 (two_images 0 0)];
     all_image_flags := [[0; 0]] |}.

(** Its single-epoch Observation. *)
Definition single_epoch (reject : bool) (region_name : string) : option Obs.t :=
  match Builder._get_band_observations (H := collaborators)
          (self_with reject region_name) 0 0 with
  | Ok r => Builder.se_obs_list r !! 0%nat
  | Raise _ => None
  end.

End Demo.

(** ** Python strings *)

(** [s.replace(old, new)] for a non-empty [old]: the occurrences are
    replaced from the left, and the search goes on after each one. *)
Fixpoint replace_go (old new : string) (skip : nat) (s : string) : string :=
  match s with
  | EmptyString => EmptyString
  | String c s' =>
      match skip with
      | S k => replace_go old new k s'
      | O => if String.prefix old s
             then new +:+ replace_go old new (String.length old - 1) s'
             else String c (replace_go old new 0 s')
      end
  end.

(** With an empty [old], [new] goes before every character and at the end. *)
Fixpoint interleave (new : string) (s : string) : string :=
  match s with
  | EmptyString => new
  | String c s' => new +:+ String c (interleave new s')
  end.

Definition py_replace (old new s : string) : string :=
  match old with
  | EmptyString => interleave new s
  | _ => replace_go old new 0 s
  end.

Module DilateSpec.

Definition in_grid (sh : nat * nat) (q : Z * Z) : Prop :=
  0 ≤ q.1 < Z.of_nat sh.1 ∧ 0 ≤ q.2 < Z.of_nat sh.2.

Definition near (r : Z) (p q : Z * Z) : Prop :=
  Z.abs (p.1 - q.1) ≤ r ∧ Z.abs (p.2 - q.2) ≤ r.

Definition tracks (sh : nat * nat) (m0 : list (list Z)) (st : Dilate.state) : Prop :=
  length <$> st.1 = length <$> m0
  ∧ (∀ q, q ∈ st.2 → in_grid sh q)
  ∧ ∀ i j, Array2.getitem st.1 i j
           = if decide ((Z.of_nat i, Z.of_nat j) ∈ st.2) then Some 1
             else Array2.getitem m0 i j.

End DilateSpec.


(** ** Chunks of groups ([megamixer.BaseNGMegaMixer.get_fof_ranges]) *)

Module Megamixer.

(** What [get_fof_ranges] returns, or the exception of the integer division. *)
Variant ranges :=
| Ranges (fof_ranges : list (Z * Z))
| ZeroDivisionError.

(** The body of [for chunk in xrange(nchunks)]: [[sr, sp]]. *)
Definition chunk_range (num_fofs num_fofs_per_chunk chunk : Z) : Z * Z :=
  let sr := chunk * num_fofs_per_chunk in
  let sp := sr + num_fofs_per_chunk - 1 in
  (sr, if num_fofs <=? sp then num_fofs - 1 else sp).

(** [xrange(n)] *)
Definition xrange (n : Z) : list Z := Z.of_nat <$> seq 0 (Z.to_nat n).

(** [get_fof_ranges]: the number of groups is the number of distinct
    [fofid] values of the group table when neighbours are modelled, and the
    number of objects of the first file otherwise.  The division is that of
    Python 2 integers, rounding down. *)
Definition get_fof_ranges (model_nbrs : bool) (fofid_column : list Z)
    (meds_size : nat) (num_fofs_per_chunk : Z) : ranges :=
  let num_fofs :=
    if model_nbrs then Z.of_nat (length (Index.np_unique fofid_column))
    else Z.of_nat meds_size in
  if num_fofs_per_chunk =? 0 then ZeroDivisionError
  else
    let nchunks := num_fofs / num_fofs_per_chunk in
    let nchunks := if nchunks * num_fofs_per_chunk <? num_fofs
                   then nchunks + 1 else nchunks in
    Ranges (chunk_range num_fofs num_fofs_per_chunk <$> xrange nchunks).

End Megamixer.

(** ** The combined saturation mask
       ([Y1DESMEDSImageIO._interpolate_maskbits], [_get_extra_bitmasks]) *)

Module Bitmasks.
Section WithCollaborators.
Context {C : Collaborators} {P : PixelMap}.

(** [msk = numpy.array([2048+1024+512+256+128+16+8+1], dtype='u4')] *)
Definition msk : Z := 2048 + 1024 + 512 + 256 + 128 + 16 + 8 + 1.

(** [((im1&2 != 0) | (im1&4 != 0)) & (im1&32 != 0) & (im1&msk == 0)] at one
    pixel. *)
Definition selected (v : Z) : bool :=
  (negb (Z.land v 2 =? 0) || negb (Z.land v 4 =? 0))
  && negb (Z.land v 32 =? 0)
  && (Z.land v msk =? 0).

(** [q = numpy.where(...); im1[:,:] = 0; im1[q] = 1] *)
Definition binary_mask (im1 : list (list Z)) : list (list Z) :=
  Array2.map (fun v => if selected v then 1 else 0) im1.

(** [_interpolate_maskbits(iobj, m1, icutout1, m2, icutout2)].  The file [m1]
    is that of the band [band1], whose cutouts the reader gives. *)
Definition _interpolate_maskbits (iobj : nat) (band1 : nat) (m1 : Meds.t)
    (icutout1 : nat) (m2 : Meds.t) (icutout2 : nat) : result (list (list Z)) :=
  let im1 := bmask_cutout band1 iobj icutout1 in
  let im1 := binary_mask im1 in
  py_assert (Meds.box_size m1 iobj =? Meds.box_size m2 iobj)%nat;;
  py_assert (Meds.id m1 iobj =? Meds.id m2 iobj);;
  r ← Interp.interpolate_image (Propagate.cutout_frame m1 iobj icutout1) im1
        (Propagate.cutout_frame m2 iobj icutout2);
  Ok (Interp.im2 r).

(** [numpy.zeros((n, n)).astype('i4')] *)
Definition zeros (n : nat) : list (list Z) := replicate n (replicate n 0).

(** [bmask |= other] for two arrays of one shape.  Arrays of different
    shapes raise here; numpy's broadcasting of an axis of length 1 is left
    out. *)
Definition ior (bmask other : list (list Z)) : result (list (list Z)) :=
  if bool_decide (length <$> bmask = length <$> other)
  then Ok (zip_with (zip_with Z.lor) bmask other)
  else Raise ValueError.

(** The body of [for obs in obs_list], for the target band [bandt] with the
    file [mt] and the Observations of the band [band]. *)
Definition obs_step (self : self_t) (mindex : nat) (mt : Meds.t) (band : nat)
    (bmask : list (list Z)) (obs : Obs.t) : result (list (list Z)) :=
  if decide (Obs.flags obs = 0)
  then
    m ← py_getitem (meds_list self) band;
    bmaski ← _interpolate_maskbits mindex band m (Meta.icut (Obs.meta obs)) mt 0;
    ior bmask bmaski
  else Ok bmask.

(** The body of [for band,obs_list in enumerate(mb_obs_list)]. *)
Definition band_step (self : self_t) (mindex : nat) (mt : Meds.t)
    (bmask : list (list Z)) (x : nat * list Obs.t) : result (list (list Z)) :=
  for_each (obs_step self mindex mt x.1) x.2 bmask.

(** [if len(coadd_mb_obs_list[bandt]) > 0 and
        coadd_mb_obs_list[bandt][0].meta['flags'] == 0:
          bmask |= mt.get_cutout(mindex,0,type='bmask')] *)
Definition coadd_step (coadd_mb_obs_list : MultiBand.t) (mindex bandt : nat)
    (bmask : list (list Z)) : result (list (list Z)) :=
  cobs_list ← py_getitem (MultiBand.bands coadd_mb_obs_list) bandt;
  match cobs_list with
  | cobs :: _ =>
      if decide (Obs.flags cobs = 0)
      then ior bmask (bmask_cutout bandt mindex 0)
      else Ok bmask
  | [] => Ok bmask
  end.

(** The body of [for bandt,mt in enumerate(marr)]. *)
Definition target_step (self : self_t) (coadd_mb_obs_list mb_obs_list : MultiBand.t)
    (bmasks : list (list (list Z))) (x : nat * Meds.t)
  : result (list (list (list Z))) :=
  let mindex := MultiBand.meds_index (MultiBand.meta mb_obs_list) in
  let bmask := zeros (Meds.box_size x.2 mindex) in
  bmask ← coadd_step coadd_mb_obs_list mindex x.1 bmask;
  bmask ← for_each (band_step self mindex x.2)
             (imap pair (MultiBand.bands mb_obs_list)) bmask;
  Ok (bmasks ++ [bmask]).

Definition _get_extra_bitmasks (self : self_t)
    (coadd_mb_obs_list mb_obs_list : MultiBand.t) : result (list (list (list Z))) :=
  for_each (target_step self coadd_mb_obs_list mb_obs_list)
    (imap pair (meds_list self)) [].

End WithCollaborators.
End Bitmasks.

(** ** Objects that touch a masked stellar halo
       ([Y1DESMEDSImageIO._flag_y1_stellarhalo_masked]) *)

Module StellarHalo.
Section WithCollaborators.
Context {C : Collaborators}.

(** [(bmask&32 != 0) & (obs.seg == seg_number)] at one pixel. *)
Definition touched (seg_number b s : Z) : bool :=
  negb (Z.land b 32 =? 0) && (s =? seg_number).

(** [q = numpy.where((bmask&32 != 0) & (obs.seg == seg_number))].  The two
    arrays have one shape (others raise here, broadcasting is left out); a
    [seg] that is [None] compares unequal as a whole and leaves no pixel. *)
Definition touched_pixels (seg_number : Z) (bmask : list (list Z)) (b : Obs.body)
  : result (list (nat * nat)) :=
  match Obs.seg b with
  | Absent => Raise AttributeError
  | PyNone => Ok []
  | Val seg =>
      if bool_decide (length <$> bmask = length <$> seg)
      then Ok (Array2.where_ (fun bs : Z * Z => touched seg_number bs.1 bs.2)
                 (zip_with zip bmask seg))
      else Raise ValueError
  end.

(** [for obs in obs_list]: [true] when the loop returned [flags = 1]. *)
Fixpoint obs_loop (self : self_t) (mindex : nat) (seg_number : Z) (band : nat)
    (obs_list : list Obs.t) : result bool :=
  match obs_list with
  | [] => Ok false
  | obs :: rest =>
      if decide (Obs.flags obs = 0)
      then
        let icut := Meta.icut (Obs.meta obs) in
        _ ← py_getitem (meds_list self) band;
        let bmask := bmask_cutout band mindex icut in
        q ← touched_pixels seg_number bmask (Obs.attrs obs);
        if (0 <? length q)%nat then Ok true
        else obs_loop self mindex seg_number band rest
      else obs_loop self mindex seg_number band rest
  end.

(** [for band,obs_list in enumerate(mb_obs_list)], from the band [band]. *)
Fixpoint bands_loop (self : self_t) (mindex : nat) (seg_number : Z) (band : nat)
    (bands : list (list Obs.t)) : result bool :=
  match bands with
  | [] => Ok false
  | obs_list :: rest =>
      r ← obs_loop self mindex seg_number band obs_list;
      if r : bool then Ok true
      else bands_loop self mindex seg_number (S band) rest
  end.

Definition _flag_y1_stellarhalo_masked_one (self : self_t) (mb_obs_list : MultiBand.t)
  : result Z :=
  let mindex := MultiBand.meds_index (MultiBand.meta mb_obs_list) in
  m0 ← py_getitem (meds_list self) 0;
  seg_number ← py_getitem (Meds.number m0) mindex;
  py_assert (MultiBand.id (MultiBand.meta mb_obs_list) =? Meds.id m0 mindex);;
  r ← bands_loop self mindex seg_number 0 (MultiBand.bands mb_obs_list);
  Ok (if r : bool then 1 else 0).

Definition _flag_y1_stellarhalo_masked (self : self_t)
    (coadd_mb_obs_list mb_obs_list : MultiBand.t) : result Z :=
  let flags := 0 in
  f ← _flag_y1_stellarhalo_masked_one self coadd_mb_obs_list;
  let flags := Z.lor flags f in
  if flags =? 0
  then f ← _flag_y1_stellarhalo_masked_one self mb_obs_list;
       Ok (Z.lor flags f)
  else Ok flags.

(** A usable Observation of the list has a pixel with bit 5 of its bit mask
    set where its segmentation map holds [seg_number]. *)
Definition touches (mindex : nat) (seg_number : Z) (mb_obs_list : MultiBand.t) : Prop :=
  ∃ band obs_list obs seg i j b,
    MultiBand.bands mb_obs_list !! band = Some obs_list
    ∧ obs ∈ obs_list
    ∧ Obs.flags obs = 0
    ∧ Obs.seg (Obs.attrs obs) = Val seg
    ∧ Array2.getitem (bmask_cutout band mindex (Meta.icut (Obs.meta obs))) i j = Some b
    ∧ Z.testbit b 5 = true
    ∧ Array2.getitem seg i j = Some seg_number.

End WithCollaborators.
End StellarHalo.

(** ** The Observations of one object
       ([_get_multi_band_observations] and its overrides) *)

(** The row [meta['meta_data']] of a [MultiBandObsList]
    ([get_meta_data_dtype]). *)
Module ObjRow.

(** The field [coadd_run]: not in the dtype of [MEDSImageIO]; after
    [_get_meta_row] it holds the digits of [DEFVAL] cut to the width of the
    field; [SVDESMEDSImageIO] then stores the run. *)
Variant run_field := NoField | Default | Run (run : string).

Record t := {
  id : Z;
  number : Z;
  nimage_tot : list Z;
  fofid : Z;
  coadd_run : run_field
}.

End ObjRow.

(** What the methods read besides [self_t]: the paths as given
    ([self.meds_files_full]), the environment variable [DESDATA], and the
    configuration key [flag_y1_stellarhalo_masked]. *)
Record env_t := {
  meds_files_full : list string;
  DESDATA : option string;
  flag_y1_stellarhalo_masked : bool
}.

(** [defaults.DEFVAL] *)
Definition DEFVAL : Z := -9999.

Module Assemble.
Section WithCollaborators.
Context {C : Collaborators} {P : PixelMap}.

(** The pair of lists a call returns; the two hold one [meta_data] row. *)
Record t := {
  coadd_mb_obs_list : MultiBand.t;
  mb_obs_list : MultiBand.t;
  meta_data : ObjRow.t
}.

(** [self.meds_files_full[0].replace(os.environ['DESDATA'],'${DESDATA}')
       .split('/')[3]] *)
Definition coadd_run_name (env : env_t) : result string :=
  f ← py_getitem (meds_files_full env) 0;
  desdata ← match DESDATA env with Some d => Ok d | None => Raise KeyError end;
  py_getitem (split_on "/"%char (py_replace desdata "${DESDATA}" f)) 3.

(** [_get_meta_row()]: every field of the dtype set to [DEFVAL]; the dtype
    of [SVDESMEDSImageIO] needs the length of the run. *)
Definition _get_meta_row (self : self_t) (env : env_t) : result ObjRow.t :=
  run ← match cls self with
        | MEDSImageIO => Ok ObjRow.NoField
        | SVDESMEDSImageIO | Y1DESMEDSImageIO =>
            _ ← coadd_run_name env; Ok ObjRow.Default
        end;
  Ok {| ObjRow.id := DEFVAL;
        ObjRow.number := DEFVAL;
        ObjRow.nimage_tot := replicate (length (meds_list self)) DEFVAL;
        ObjRow.fofid := DEFVAL;
        ObjRow.coadd_run := run |}.

(** The body of [for band in self.iband]. *)
Definition band_step (self : self_t) (mindex : nat)
    (acc : list (list Obs.t) * list (list Obs.t)) (band : nat)
  : result (list (list Obs.t) * list (list Obs.t)) :=
  r ← Builder._get_band_observations self band mindex;
  Ok (acc.1 ++ [Builder.coadd_obs_list r], acc.2 ++ [Builder.se_obs_list r]).

(** The meta data of a list as the builder leaves it: the neighbour keys are
    not set yet and read as empty here. *)
Definition fresh_meta (mindex : nat) (id : Z) : MultiBand.meta_t :=
  {| MultiBand.meds_index := mindex; MultiBand.id := id;
     MultiBand.obj_flags := 0;
     MultiBand.nbrs_inds := []; MultiBand.nbrs_ids := []; MultiBand.cen_ind := 0 |}.

(** [MEDSImageIO._get_multi_band_observations] *)
Definition MEDSImageIO_get_multi_band_observations (self : self_t) (env : env_t)
    (mindex : nat) : result t :=
  lists ← for_each (band_step self mindex) (seq 0 (length (meds_list self))) ([], []);
  meta_row ← _get_meta_row self env;
  m0 ← py_getitem (meds_list self) 0;
  let id := Meds.id m0 mindex in
  number ← py_getitem (Meds.number m0) mindex;
  let nimage_tot :=
    (fun m => astype_i4 (Z.of_nat (Meds.ncutout m mindex) - 1)) <$> meds_list self in
  let meta_row :=
    {| ObjRow.id := id;
       ObjRow.number := astype_i4 number;
       ObjRow.nimage_tot := nimage_tot;
       ObjRow.fofid := ObjRow.fofid meta_row;
       ObjRow.coadd_run := ObjRow.coadd_run meta_row |} in
  Ok {| coadd_mb_obs_list :=
          {| MultiBand.bands := lists.1; MultiBand.meta := fresh_meta mindex id |};
        mb_obs_list :=
          {| MultiBand.bands := lists.2; MultiBand.meta := fresh_meta mindex id |};
        meta_data := meta_row |}.

(** [SVDESMEDSImageIO._get_multi_band_observations] *)
Definition SVDES_get_multi_band_observations (self : self_t) (env : env_t)
    (mindex : nat) : result t :=
  r ← MEDSImageIO_get_multi_band_observations self env mindex;
  run ← coadd_run_name env;
  let row := meta_data r in
  Ok {| coadd_mb_obs_list := coadd_mb_obs_list r;
        mb_obs_list := mb_obs_list r;
        meta_data :=
          {| ObjRow.id := ObjRow.id row; ObjRow.number := ObjRow.number row;
             ObjRow.nimage_tot := ObjRow.nimage_tot row;
             ObjRow.fofid := ObjRow.fofid row;
             ObjRow.coadd_run := ObjRow.Run run |} |}.

(** [mb.meta['obj_flags'] |= flags] *)
Definition or_obj_flags (flags : Z) (mb : MultiBand.t) : MultiBand.t :=
  let m := MultiBand.meta mb in
  {| MultiBand.bands := MultiBand.bands mb;
     MultiBand.meta :=
       {| MultiBand.meds_index := MultiBand.meds_index m;
          MultiBand.id := MultiBand.id m;
          MultiBand.obj_flags := Z.lor (MultiBand.obj_flags m) flags;
          MultiBand.nbrs_inds := MultiBand.nbrs_inds m;
          MultiBand.nbrs_ids := MultiBand.nbrs_ids m;
          MultiBand.cen_ind := MultiBand.cen_ind m |} |}.

(** The step [if self.conf['prop_sat_starpix']]: the single-epoch list
    after the weights were nulled in place; an exception leaves the
    method. *)
Definition prop_step (self : self_t) (r : t) : result t :=
  if prop_sat_starpix (conf self)
  then
    bmasks ← Bitmasks._get_extra_bitmasks self (coadd_mb_obs_list r) (mb_obs_list r);
    match Propagate._prop_extra_bitmasks self bmasks (mb_obs_list r) with
    | (mb, None) =>
        Ok {| coadd_mb_obs_list := coadd_mb_obs_list r; mb_obs_list := mb;
              meta_data := meta_data r |}
    | (_, Some e) => Raise e
    end
  else Ok r.

(** The step [if self.conf['flag_y1_stellarhalo_masked']]. *)
Definition flag_step (self : self_t) (env : env_t) (r : t) : result t :=
  if flag_y1_stellarhalo_masked env
  then
    flags ← StellarHalo._flag_y1_stellarhalo_masked self
               (coadd_mb_obs_list r) (mb_obs_list r);
    if negb (flags =? 0)
    then Ok {| coadd_mb_obs_list := or_obj_flags flags (coadd_mb_obs_list r);
               mb_obs_list := or_obj_flags flags (mb_obs_list r);
               meta_data := meta_data r |}
    else Ok r
  else Ok r.

(** [Y1DESMEDSImageIO._get_multi_band_observations] *)
Definition Y1_get_multi_band_observations (self : self_t) (env : env_t)
    (mindex : nat) : result t :=
  r ← SVDES_get_multi_band_observations self env mindex;
  r ← prop_step self r;
  flag_step self env r.

(** [self._get_multi_band_observations(mindex)] *)
Definition _get_multi_band_observations (self : self_t) (env : env_t)
    (mindex : nat) : result t :=
  match cls self with
  | MEDSImageIO => MEDSImageIO_get_multi_band_observations self env mindex
  | SVDESMEDSImageIO => SVDES_get_multi_band_observations self env mindex
  | Y1DESMEDSImageIO => Y1_get_multi_band_observations self env mindex
  end.

End WithCollaborators.
End Assemble.

(** ** Neighbour indices ([MEDSImageIO._add_nbrs_info]) *)

Module NbrsInfo.
Section WithCollaborators.
Context {C : Collaborators}.

(** A row of [extra_data['nbrs']]: [(number, nbr_number)]. *)
Record nbrs_row := { number : Z; nbr_number : Z }.

(** [obs.image_orig = obs.image.copy(); obs.weight_orig = obs.weight.copy()] *)
Definition save_orig (obs : Obs.t) : Obs.t :=
  let b := Obs.attrs obs in
  {| Obs.attrs :=
       {| Obs.image := Obs.image b; Obs.weight := Obs.weight b;
          Obs.weight_raw := Obs.weight_raw b; Obs.weight_us := Obs.weight_us b;
          Obs.weight_orig := Val (Obs.weight b);
          Obs.image_orig := Val (Obs.image b);
          Obs.seg := Obs.seg b; Obs.jacobian := Obs.jacobian b;
          Obs.psf := Obs.psf b; Obs.filename := Obs.filename b |};
     Obs.meta := Obs.meta obs |}.

(** The first two loops, over every Observation of every list. *)
Definition save_orig_all (mb_obs_lists : list MultiBand.t) : list MultiBand.t :=
  (fun mb => {| MultiBand.bands :=
                  (fun obs_list : list Obs.t => save_orig <$> obs_list)
                    <$> MultiBand.bands mb;
                MultiBand.meta := MultiBand.meta mb |}) <$> mb_obs_lists.

(** The body of [for ind in q]: [(nbrs_inds, nbrs_ids)]. *)
Definition row_step (self : self_t) (nbrs : list nbrs_row) (mindexes : list nat)
    (coadd_mb_obs_lists me_mb_obs_lists : list MultiBand.t)
    (acc : list nat * list Z) (ind : nat) : result (list nat * list Z) :=
  row ← py_getitem nbrs ind;
  if negb (nbr_number row =? -1)
  then
    m0 ← py_getitem (meds_list self) 0;
    numbers ← Index.take_nat (Meds.number m0) mindexes;
    let qi := Index.where_eq numbers (nbr_number row) in
    py_assert (length qi =? 1)%nat;;
    qi0 ← py_getitem qi 0;
    let nbrs_inds := acc.1 ++ [qi0] in
    mi ← py_getitem mindexes qi0;
    let nbrs_ids := acc.2 ++ [Meds.id m0 mi] in
    c ← py_getitem coadd_mb_obs_lists qi0;
    py_assert (MultiBand.id (MultiBand.meta c) =? Meds.id m0 mi);;
    me ← py_getitem me_mb_obs_lists qi0;
    py_assert (MultiBand.id (MultiBand.meta me) =? Meds.id m0 mi);;
    Ok (nbrs_inds, nbrs_ids)
  else Ok acc.

(** [nbrs_inds] and [nbrs_ids] of the object at position [cen]. *)
Definition nbrs_of (self : self_t) (nbrs : list nbrs_row) (mindexes : list nat)
    (coadd_mb_obs_lists me_mb_obs_lists : list MultiBand.t) (cen mindex : nat)
  : result (list nat * list Z) :=
  if (1 <? length mindexes)%nat
  then
    m0 ← py_getitem (meds_list self) 0;
    own ← py_getitem (Meds.number m0) mindex;
    let q := Index.where_eq (number <$> nbrs) own in
    r ← for_each (row_step self nbrs mindexes coadd_mb_obs_lists me_mb_obs_lists)
          q ([], []);
    py_assert (negb (bool_decide (cen ∈ r.1)));;
    Ok r
  else Ok ([], []).

(** [mb.update_meta_data({'nbrs_inds':..,'nbrs_ids':..,'cen_ind':cen})] *)
Definition set_nbrs (inds : list nat) (ids : list Z) (cen : nat) (mb : MultiBand.t)
  : MultiBand.t :=
  let m := MultiBand.meta mb in
  {| MultiBand.bands := MultiBand.bands mb;
     MultiBand.meta :=
       {| MultiBand.meds_index := MultiBand.meds_index m;
          MultiBand.id := MultiBand.id m;
          MultiBand.obj_flags := MultiBand.obj_flags m;
          MultiBand.nbrs_inds := inds;
          MultiBand.nbrs_ids := ids;
          MultiBand.cen_ind := cen |} |}.

(** [lists[cen].update_meta_data(...)], in place. *)
Definition update_at (cen : nat) (f : MultiBand.t → MultiBand.t)
    (lists : list MultiBand.t) : result (list MultiBand.t) :=
  _ ← py_getitem lists cen; Ok (alter f cen lists).

(** The body of [for cen,mindex in enumerate(mindexes)]. *)
Definition cen_step (self : self_t) (nbrs : list nbrs_row) (mindexes : list nat)
    (st : list MultiBand.t * list MultiBand.t) (x : nat * nat)
  : result (list MultiBand.t * list MultiBand.t) :=
  let '(cen, mindex) := x in
  r ← nbrs_of self nbrs mindexes st.1 st.2 cen mindex;
  coadd ← update_at cen (set_nbrs r.1 r.2 cen) st.1;
  me ← update_at cen (set_nbrs r.1 r.2 cen) st.2;
  Ok (coadd, me).

Definition _add_nbrs_info (self : self_t) (nbrs : list nbrs_row)
    (coadd_mb_obs_lists me_mb_obs_lists : list MultiBand.t) (mindexes : list nat)
  : result (list MultiBand.t * list MultiBand.t) :=
  let coadd := save_orig_all coadd_mb_obs_lists in
  let me := save_orig_all me_mb_obs_lists in
  st ← for_each (cen_step self nbrs mindexes) (imap pair mindexes) (coadd, me);
  coadd ← Nbrs._add_nbrs_psfs_and_jacs self st.1 mindexes;
  me ← Nbrs._add_nbrs_psfs_and_jacs self st.2 mindexes;
  Ok (coadd, me).

End WithCollaborators.
End NbrsInfo.

(** Statements about [_add_nbrs_info]. *)
Module NbrsInfoSpec.

(** The rows of the table that name a neighbour of the object [own]. *)
Definition nbr_rows (nbrs : list NbrsInfo.nbrs_row) (own : Z)
  : list NbrsInfo.nbrs_row :=
  filter (fun row => NbrsInfo.nbr_number row ≠ -1)
    (filter (fun row => NbrsInfo.number row = own) nbrs).

(** The table row [row] names the object at position [ind] of the group,
    and no other object of the group; [id] is the id of that object. *)
Definition names (self : self_t) (mindexes : list nat)
    (coadd me : list MultiBand.t) (row : NbrsInfo.nbrs_row) (ind : nat) (id : Z)
  : Prop :=
  ∃ m0 mi c m,
    meds_list self !! 0%nat = Some m0
    ∧ mindexes !! ind = Some mi
    ∧ Meds.number m0 !! mi = Some (NbrsInfo.nbr_number row)
    ∧ (∀ i' mi', mindexes !! i' = Some mi' →
                 Meds.number m0 !! mi' = Some (NbrsInfo.nbr_number row) → i' = ind)
    ∧ id = Meds.id m0 mi
    ∧ coadd !! ind = Some c ∧ MultiBand.id (MultiBand.meta c) = id
    ∧ me !! ind = Some m ∧ MultiBand.id (MultiBand.meta m) = id.

(** Every Observation of [l'] is the one of [l] at its position with its
    image and weight saved, up to the neighbour entries of its meta data. *)
Definition saved (l l' : list MultiBand.t) : Prop :=
  length l' = length l
  ∧ ∀ cen mb, l !! cen = Some mb →
      ∃ mb', l' !! cen = Some mb'
        ∧ length (MultiBand.bands mb') = length (MultiBand.bands mb)
        ∧ ∀ band obs_list, MultiBand.bands mb !! band = Some obs_list →
            ∃ obs_list', MultiBand.bands mb' !! band = Some obs_list'
              ∧ length obs_list' = length obs_list
              ∧ ∀ k obs, obs_list !! k = Some obs →
                  ∃ obs', obs_list' !! k = Some obs'
                    ∧ Obs.attrs obs' = Obs.attrs (NbrsInfo.save_orig obs)
                    ∧ Obs.flags obs' = Obs.flags obs.

(** [mb'] is [mb] with other neighbour keys in its meta data. *)
Definition meta_upd (mb mb' : MultiBand.t) : Prop :=
  MultiBand.bands mb' = MultiBand.bands mb
  ∧ MultiBand.meds_index (MultiBand.meta mb') = MultiBand.meds_index (MultiBand.meta mb)
  ∧ MultiBand.id (MultiBand.meta mb') = MultiBand.id (MultiBand.meta mb)
  ∧ MultiBand.obj_flags (MultiBand.meta mb') = MultiBand.obj_flags (MultiBand.meta mb).

End NbrsInfoSpec.

(** What [_add_nbrs_psfs_and_jacs] may do to an Observation: nothing, or,
    when its status flag is 0, store three lists in its meta data. *)
Module NbrsFrame.

Definition obs_upd (o o' : Obs.t) : Prop :=
  o' = o ∨ (Obs.flags o = 0 ∧ ∃ l, o' = Nbrs.attach l o).

Definition mb_upd (mb mb' : MultiBand.t) : Prop :=
  MultiBand.meta mb' = MultiBand.meta mb
  ∧ Forall2 (Forall2 obs_upd) (MultiBand.bands mb) (MultiBand.bands mb').

End NbrsFrame.

(** What [_get_nbr_psf_obs_and_jac] reads of an Observation: everything but
    the three neighbour entries of its meta data. *)
Module NbrsCore.

Definition strip (o : Obs.t) : Obs.t :=
  let m := Obs.meta o in
  {| Obs.attrs := Obs.attrs o;
     Obs.meta :=
       {| Meta.icut := Meta.icut m;
          Meta.orig_start_row := Meta.orig_start_row m;
          Meta.orig_start_col := Meta.orig_start_col m;
          Meta.meta_data := Meta.meta_data m;
          Meta.id := Meta.id m;
          Meta.band_id := Meta.band_id m;
          Meta.flags := Meta.flags m;
          Meta.nbrs_psfs := None;
          Meta.nbrs_flags := None;
          Meta.nbrs_jacs := None |} |}.

Definition strip_mb (mb : MultiBand.t) : MultiBand.t :=
  {| MultiBand.bands := (fun ol : list Obs.t => strip <$> ol) <$> MultiBand.bands mb;
     MultiBand.meta := MultiBand.meta mb |}.

(** [mb_obs_lists[cen][band][k]] *)
Definition get3 (mb_obs_lists : list MultiBand.t) (cen band k : nat) : option Obs.t :=
  mb ← mb_obs_lists !! cen;
  obs_list ← MultiBand.bands mb !! band;
  obs_list !! k.

Section WithCollaborators.
Context {C : Collaborators}.

(** In the state [st], the Observation at a position that was usable in
    [mb_obs_lists] carries the lists made for it. *)
Definition attached (self : self_t) (mb_obs_lists : list MultiBand.t)
    (mindexes : list nat) (p : nat * nat * nat) (st : list MultiBand.t) : Prop :=
  ∀ o, get3 mb_obs_lists p.1.1 p.1.2 p.2 = Some o → Obs.flags o = 0 →
    ∃ mindex l,
      mindexes !! p.1.1 = Some mindex
      ∧ Nbrs.nbrs_of_obs self mb_obs_lists mindexes p.1.2 p.1.1 mindex o = Ok l
      ∧ get3 st p.1.1 p.1.2 p.2 = Some (Nbrs.attach l o).

(** Every position that carries its lists in [s] carries them in [s']. *)
Definition keeps (self : self_t) (mb_obs_lists : list MultiBand.t)
    (mindexes : list nat) (s s' : list MultiBand.t) : Prop :=
  ∀ p, attached self mb_obs_lists mindexes p s → attached self mb_obs_lists mindexes p s'.

End WithCollaborators.
End NbrsCore.

(** ** One group per call ([MEDSImageIO.__next__]) *)

Module Iterate.
Section WithCollaborators.
Context {C : Collaborators} {P : PixelMap}.

(** The object as [__next__] reads it: besides [self_t] and the index, the
    position [self.fofindex] of the next group, the table of
    [self.fof_file] ([None] without a file), whether [self.extra_data] has
    the key [obj_flags], and its entry [nbrs] when it has one. *)
Record t := {
  self : self_t;
  env : env_t;
  index : Index.index;
  fofindex : nat;
  fof_file : option (list Index.fof_row);
  obj_flags_given : bool;
  nbrs : option (list NbrsInfo.nbrs_row)
}.

(** What a call does: it raises [StopIteration] or another exception, or
    it returns the two lists, whose entries share one row each, and leaves
    the object in a new state. *)
Variant next_t :=
| StopIteration
| Raised (e : exn)
| Returned (coadd_mb_obs_lists me_mb_obs_lists : list MultiBand.t)
    (meta_data : list ObjRow.t) (st : t).

(** [c.meta['meta_data']['fofid'][:] = fofid] on the row the two lists
    share. *)
Definition set_fofid (fofid : Z) (r : Assemble.t) : Assemble.t :=
  let row := Assemble.meta_data r in
  {| Assemble.coadd_mb_obs_list := Assemble.coadd_mb_obs_list r;
     Assemble.mb_obs_list := Assemble.mb_obs_list r;
     Assemble.meta_data :=
       {| ObjRow.id := ObjRow.id row; ObjRow.number := ObjRow.number row;
          ObjRow.nimage_tot := ObjRow.nimage_tot row;
          ObjRow.fofid := fofid;
          ObjRow.coadd_run := ObjRow.coadd_run row |} |}.

(** One object of the group: what [for mindex in mindexes] appends.  The
    [print] reads [self.meds_list[0]] first. *)
Definition get_obj (st : t) (fofid : Z) (mindex : nat) : result Assemble.t :=
  _ ← py_getitem (meds_list (self st)) 0;
  r ← Assemble._get_multi_band_observations (self st) (env st) mindex;
  Ok (match fof_file st with
      | Some _ => set_fofid fofid r
      | None => r
      end).

(** The body of [for mindex in mindexes]. *)
Definition obj_step (st : t) (fofid : Z) (acc : list Assemble.t) (mindex : nat)
  : result (list Assemble.t) :=
  r ← get_obj st fofid mindex;
  Ok (acc ++ [r]).

(** [self._flag_objects(coadd_mb_obs_lists, me_mb_obs_lists, mindexes)]:
    the method is defined without [self], so that the call passes one
    argument more than it takes. *)
Definition call_flag_objects : result unit := Raise TypeError.

(** [if self.conf['model_nbrs']: self._add_nbrs_info(...)].  Without the
    key [nbrs] the method fails where it first reads the table, which it
    does for a group of more than one object only. *)
Definition nbrs_step (st : t) (coadd me : list MultiBand.t) (mindexes : list nat)
  : result (list MultiBand.t * list MultiBand.t) :=
  if model_nbrs (conf (self st))
  then
    match nbrs st with
    | Some table => NbrsInfo._add_nbrs_info (self st) table coadd me mindexes
    | None =>
        if (1 <? length mindexes)%nat then Raise KeyError
        else NbrsInfo._add_nbrs_info (self st) [] coadd me mindexes
    end
  else Ok (coadd, me).

(** [self.fofindex += 1] *)
Definition advance (st : t) : t :=
  {| self := self st; env := env st; index := index st;
     fofindex := S (fofindex st);
     fof_file := fof_file st; obj_flags_given := obj_flags_given st;
     nbrs := nbrs st |}.

(** The [else] branch.  The member rows of a group are positions in the
    files (the output of [numpy.where], or the position itself without a
    table), read here as naturals. *)
Definition next_group (st : t)
  : result (list MultiBand.t * list MultiBand.t * list ObjRow.t) :=
  fofid ← py_getitem (Index.fofids (index st)) (fofindex st);
  rows ← Index.members (index st) fofid;
  let mindexes := Z.to_nat <$> rows in
  objs ← for_each (obj_step st fofid) mindexes [];
  let coadd_mb_obs_lists := Assemble.coadd_mb_obs_list <$> objs in
  let me_mb_obs_lists := Assemble.mb_obs_list <$> objs in
  _ ← (if obj_flags_given st then call_flag_objects else Ok tt);
  lists ← nbrs_step st coadd_mb_obs_lists me_mb_obs_lists mindexes;
  Ok (lists.1, lists.2, Assemble.meta_data <$> objs).

Definition __next__ (st : t) : next_t :=
  if (Index.num_fofs (index st) <=? fofindex st)%nat
  then StopIteration
  else
    match next_group st with
    | Ok (coadd_mb_obs_lists, me_mb_obs_lists, meta_data) =>
        Returned coadd_mb_obs_lists me_mb_obs_lists meta_data (advance st)
    | Raise e => Raised e
    end.

End WithCollaborators.
End Iterate.

(** Statements about [__next__]. *)
Module IterateSpec.

(** What the neighbour step of [__next__] keeps and what it sets, for the
    lists [c], [m] of the object at position [i] of the group. *)
Definition nbrs_upd (model : bool) (i : nat) (c m c' m' : MultiBand.t) : Prop :=
  MultiBand.meds_index (MultiBand.meta c') = MultiBand.meds_index (MultiBand.meta c)
  ∧ MultiBand.meds_index (MultiBand.meta m') = MultiBand.meds_index (MultiBand.meta m)
  ∧ MultiBand.id (MultiBand.meta c') = MultiBand.id (MultiBand.meta c)
  ∧ MultiBand.id (MultiBand.meta m') = MultiBand.id (MultiBand.meta m)
  ∧ MultiBand.obj_flags (MultiBand.meta c') = MultiBand.obj_flags (MultiBand.meta c)
  ∧ MultiBand.obj_flags (MultiBand.meta m') = MultiBand.obj_flags (MultiBand.meta m)
  ∧ length (MultiBand.bands c') = length (MultiBand.bands c)
  ∧ length (MultiBand.bands m') = length (MultiBand.bands m)
  ∧ (model = true →
     MultiBand.cen_ind (MultiBand.meta c') = i
     ∧ MultiBand.cen_ind (MultiBand.meta m') = i
     ∧ MultiBand.nbrs_inds (MultiBand.meta c') = MultiBand.nbrs_inds (MultiBand.meta m')
     ∧ MultiBand.nbrs_ids (MultiBand.meta c') = MultiBand.nbrs_ids (MultiBand.meta m')).

End IterateSpec.

(** ** PSF files ([SVDESMEDSImageIO._psfex_path_from_image_path],
       [_get_psfex_objects], [_get_psfex_lists]) *)

Module Psfex.

(** [s.strip()]: the blanks of a byte string are the space and the
    characters 9 to 13. *)
Definition is_space (c : Ascii.ascii) : bool :=
  let n := nat_of_ascii c in
  (n =? 32)%nat || ((9 <=? n)%nat && (n <=? 13)%nat).

Fixpoint lstrip (s : list Ascii.ascii) : list Ascii.ascii :=
  match s with
  | c :: s' => if is_space c then lstrip s' else s
  | [] => []
  end.

Definition py_strip (s : string) : string :=
  String.string_of_list_ascii
    (rev (lstrip (rev (lstrip (String.list_ascii_of_string s))))).

(** [sub in s] *)
Fixpoint py_contains (sub s : string) : bool :=
  String.prefix sub s
  || match s with
     | EmptyString => false
     | String _ s' => py_contains sub s'
     end.

(** [sep.join(parts)] *)
Fixpoint py_join (sep : string) (parts : list string) : string :=
  match parts with
  | [] => EmptyString
  | [p] => p
  | p :: rest => p +:+ sep +:+ py_join sep rest
  end.

(** [l[-k] = x] for [k > 0]. *)
Definition set_from_end {A} (k : nat) (x : A) (l : list A) : result (list A) :=
  if (k <=? length l)%nat then Ok (<[(length l - k)%nat := x]> l)
  else Raise IndexError.

(** The keys of [self.conf] that the path is made from; [None] for a key
    that is not set. *)
Record psf_conf := {
  use_psf_rerun : option bool;
  psf_rerun_version : option string
}.

Definition conf_key {A} (v : option A) : result A :=
  match v with Some a => Ok a | None => Raise KeyError end.

(** [_psfex_path_from_image_path(meds, image_path)];
    [meds_desdata] is [meds._meta['DESDATA'][0]]. *)
Definition _psfex_path_from_image_path (env : env_t) (pc : psf_conf)
    (meds_desdata image_path : string) : result string :=
  desdata ← conf_key (DESDATA env);
  let psfpath := py_replace ".fits.fz" "_psfcat.psf" image_path in
  let psfpath :=
    if negb (py_contains desdata psfpath)
    then py_replace meds_desdata desdata psfpath
    else psfpath in
  rerun ← conf_key (use_psf_rerun pc);
  if rerun && negb (py_contains "coadd" psfpath)
  then
    let psfparts := split_on "/"%char psfpath in
    psfparts ← set_from_end 6 "EXTRA" psfparts;
    version ← conf_key (psf_rerun_version pc);
    psfparts ← set_from_end 3 ("psfex-rerun/" +:+ version) psfparts;
    Ok (py_join "/" psfparts)
  else Ok psfpath.

Section WithFiles.

(** [os.path.exists], and [PSFEx(psfpath)]: [None] when the constructor
    raises [PSFExError], which the method catches. *)
Variable path_exists : string → bool.
Variable pex_t : Type.
Variable PSFEx : string → option pex_t.

(** The body of [for i in xrange(nimage)]: the list so far and
    [self.all_image_flags]. *)
Definition image_step (conf : Conf) (env : env_t) (pc : psf_conf)
    (meds_desdata : string) (band : nat)
    (st : list (option pex_t) * list (list Z)) (x : nat * Meds.image_info_row)
  : result (list (option pex_t) * list (list Z)) :=
  let '(psfex_list, all_image_flags) := st in
  let '(i, row) := x in
  band_flags ← py_getitem all_image_flags band;
  flags ← py_getitem band_flags i;
  if Z.land flags (image_flags2check conf) =? 0
  then
    let impath := py_strip (Meds.image_path row) in
    psfpath ← _psfex_path_from_image_path env pc meds_desdata impath;
    if negb (path_exists psfpath)
    then
      let band_flags := <[i := Z.lor flags (image_flags2check conf)]> band_flags in
      Ok (psfex_list ++ [None], <[band := band_flags]> all_image_flags)
    else Ok (psfex_list ++ [PSFEx psfpath], all_image_flags)
  else Ok (psfex_list ++ [None], all_image_flags).

(** [_get_psfex_objects(meds, band)]: the list, and [self.all_image_flags]
    after the call. *)
Definition _get_psfex_objects (conf : Conf) (env : env_t) (pc : psf_conf)
    (meds_desdata : string) (meds : Meds.t) (band : nat)
    (all_image_flags : list (list Z))
  : result (list (option pex_t) * list (list Z)) :=
  for_each (image_step conf env pc meds_desdata band)
    (imap pair (Meds.get_image_info meds)) ([], all_image_flags).

End WithFiles.
End Psfex.

(** Statements about [_get_psfex_objects]. *)
Module PsfexSpec.

(** [self] with [self.all_image_flags] as a call left it. *)
Definition with_flags (self : self_t) (all_image_flags : list (list Z)) : self_t :=
  {| cls := cls self; conf := conf self; meds_list := meds_list self;
     all_image_flags := all_image_flags |}.

Section WithFiles.
Variable path_exists : string → bool.
Variable pex_t : Type.
Variable PSFEx : string → option pex_t.

(** What the method does for one image, from its flags [f] before the call:
    its flags [f'] after the call and its entry [p] of the list. *)
Definition entry (conf : Conf) (env : env_t) (pc : Psfex.psf_conf)
    (meds_desdata : string) (row : Meds.image_info_row) (f f' : Z)
    (p : option pex_t) : Prop :=
  if Z.land f (image_flags2check conf) =? 0
  then
    ∃ psfpath,
      Psfex._psfex_path_from_image_path env pc meds_desdata
        (Psfex.py_strip (Meds.image_path row)) = Ok psfpath
      ∧ if path_exists psfpath
        then f' = f ∧ p = PSFEx psfpath
        else f' = Z.lor f (image_flags2check conf) ∧ p = None
  else f' = f ∧ p = None.

(** The state of the loop of [_get_psfex_objects] before image [k]: the
    list so far and the flags, against the flags [af] before the call. *)
Definition inv (conf : Conf) (env : env_t) (pc : Psfex.psf_conf)
    (meds_desdata : string) (info : list Meds.image_info_row) (band : nat)
    (af : list (list Z)) (k : nat) (st : list (option pex_t) * list (list Z)) : Prop :=
  length st.1 = k
  ∧ length st.2 = length af
  ∧ (∀ b, b ≠ band → st.2 !! b = af !! b)
  ∧ (∀ bf', st.2 !! band = Some bf' →
       ∃ bf, af !! band = Some bf ∧ length bf' = length bf
             ∧ ∀ i, (k ≤ i)%nat → bf' !! i = bf !! i)
  ∧ (∀ i row, (i < k)%nat → info !! i = Some row →
       ∃ bf bf' f f' p,
         af !! band = Some bf ∧ st.2 !! band = Some bf'
         ∧ bf !! i = Some f ∧ bf' !! i = Some f' ∧ st.1 !! i = Some p
         ∧ entry conf env pc meds_desdata row f f' p).

End WithFiles.
End PsfexSpec.

(** What [_prop_extra_bitmasks] may change of an Observation: its weight
    maps, and nothing of an Observation with a nonzero status flag. *)
Module PropFrame.

Definition obs_frame (o o' : Obs.t) : Prop :=
  Obs.meta o' = Obs.meta o
  ∧ Obs.image (Obs.attrs o') = Obs.image (Obs.attrs o)
  ∧ Obs.image_orig (Obs.attrs o') = Obs.image_orig (Obs.attrs o)
  ∧ Obs.seg (Obs.attrs o') = Obs.seg (Obs.attrs o)
  ∧ Obs.jacobian (Obs.attrs o') = Obs.jacobian (Obs.attrs o)
  ∧ Obs.psf (Obs.attrs o') = Obs.psf (Obs.attrs o)
  ∧ Obs.filename (Obs.attrs o') = Obs.filename (Obs.attrs o)
  ∧ (Obs.flags o ≠ 0 → o' = o).

End PropFrame.
Module Fixtures.

(** Frames one column apart: the source of a pixel is its left neighbour. *)
Definition pixel_shift : PixelMap :=
  {| pixel_map := fun _ _ _ => Ok (fun r c => (Z.of_nat r, Z.of_nat c - 1)) |}.

(** The collaborators of [Demo] with a bit mask on every cutout: bits 1 and
    5 on the upper right pixel, bits 0, 1 and 5 on the lower right one. *)
Definition masked_collaborators : Collaborators :=
  {| image_cutout := image_cutout (Collaborators := Demo.collaborators);
     weight_cutout := weight_cutout (Collaborators := Demo.collaborators);
     cweight_cutout_nearest :=
       cweight_cutout_nearest (Collaborators := Demo.collaborators);
     cweight_cutout := cweight_cutout (Collaborators := Demo.collaborators);
     seg_cutout := seg_cutout (Collaborators := Demo.collaborators);
     bmask_cutout := fun _ _ _ => [[0; 34]; [0; 35]];
     cutout_jacobian := cutout_jacobian (Collaborators := Demo.collaborators);
     orig_filename := orig_filename (Collaborators := Demo.collaborators);
     psf_observation := psf_observation (Collaborators := Demo.collaborators);
     meds_reject_outliers :=
       meds_reject_outliers (Collaborators := Demo.collaborators);
     default_jacobian := default_jacobian (Collaborators := Demo.collaborators);
     get_scale := get_scale (Collaborators := Demo.collaborators);
     get_det := get_det (Collaborators := Demo.collaborators);
     offchip_rowcol := offchip_rowcol (Collaborators := Demo.collaborators) |}.

(** The paths and options of a run in the tile directory [run7]. *)
Definition env_of (flag : bool) : env_t :=
  {| meds_files_full := ["/des/OPS/multiepoch/run7/tile-r-meds.fits"];
     DESDATA := Some "/des";
     flag_y1_stellarhalo_masked := flag |}.

(** Each of the two objects of [Demo.self_pair] is the other's neighbour;
    the first has a row without a neighbour too. *)
Definition nbrs_table : list NbrsInfo.nbrs_row :=
  [ {| NbrsInfo.number := 1; NbrsInfo.nbr_number := -1 |};
    {| NbrsInfo.number := 1; NbrsInfo.nbr_number := 2 |};
    {| NbrsInfo.number := 2; NbrsInfo.nbr_number := 1 |} ].

(** The lists of the two objects as the builder makes them. *)
Definition fresh_pair : list MultiBand.t :=
  [ {| MultiBand.bands := Demo.se_lists (Demo.self_pair 0) 0;
       MultiBand.meta := Assemble.fresh_meta 0 100 |};
    {| MultiBand.bands := Demo.se_lists (Demo.self_pair 0) 1;
       MultiBand.meta := Assemble.fresh_meta 1 101 |} ].

(** A [SVDESMEDSImageIO] on the file of the two objects that models
    neighbours, a group table that puts both objects in the group 5, and the
    object before its first call. *)
Definition self_nbrs : self_t :=
  {| cls := SVDESMEDSImageIO;
     conf :=
       {| image_flags2check := 1; replacement_flags := None;
          reject_outliers := true; model_nbrs := true; prop_sat_starpix := false;
          region := "weight"; min_weight := 0%float |};
     meds_list := [Demo.meds_of 2 2 (Demo.two_images 0 0)];
     all_image_flags := [[0; 0]] |}.

Definition one_group : list Index.fof_row :=
  [ {| Index.fofid := 5; Index.fof_number := 1 |};
    {| Index.fofid := 5; Index.fof_number := 2 |} ].

Definition no_index : Index.index :=
  {| Index.fof_data := []; Index.fofids := []; Index.num_fofs := 0;
     Index.fofid2mindex := Index.FofList [] |}.

Definition iter_state : Iterate.t :=
  {| Iterate.self := self_nbrs;
     Iterate.env := env_of false;
     Iterate.index :=
       match Index._set_and_check_index_lookups (Some one_group) (meds_list self_nbrs) with
       | Ok ix => ix
       | Raise _ => no_index
       end;
     Iterate.fofindex := 0;
     Iterate.fof_file := Some one_group;
     Iterate.obj_flags_given := false;
     Iterate.nbrs := Some nbrs_table |}.

(** A file with the co-add image and two exposures, the first one with
    blanks after its path; only the PSF file of the co-add is on disk, and
    every file on disk can be read. *)
Definition three_images : list Meds.image_info_row :=
  [ Demo.info_row "/old/OPS/coadd/run7/coadd/tile_r.fits.fz" 0;
    Demo.info_row "/old/OPS/red/run1/red/DECam_00229228/DECam_00229228_07.fits.fz  " 0;
    Demo.info_row "/old/OPS/red/run1/red/DECam_00229229/DECam_00229229_07.fits.fz" 0 ].

Definition rerun_conf : Psfex.psf_conf :=
  {| Psfex.use_psf_rerun := Some true; Psfex.psf_rerun_version := Some "v2" |}.

Definition on_disk (path : string) : bool :=
  String.eqb path "/des/OPS/coadd/run7/coadd/tile_r_psfcat.psf".

Definition read_psfex (path : string) : option string := Some path.

(** A [SVDESMEDSImageIO] on that file, the second exposure flagged. *)
Definition self_three : self_t :=
  {| cls := SVDESMEDSImageIO;
     conf := Demo.conf_check 1 None;
     meds_list := [Demo.meds_of 1 3 three_images];
     all_image_flags := [[0; 0; 1]] |}.

End Fixtures.

(** * Properties *)

(** ** Arrays *)

Lemma getitem_setitem {A} (a : list (list A)) i j v i' j' :
  Array2.getitem (Array2.setitem a i j v) i' j' =
    if decide (i = i' ∧ j = j' ∧ is_Some (Array2.getitem a i j)) then Some v
    else Array2.getitem a i' j'.
Proof.
  unfold Array2.getitem, Array2.setitem. rewrite list_lookup_alter.
  destruct (decide (i = i')) as [->|Hi].
  - destruct (a !! i') as [row|] eqn:Hrow; simpl.
    + rewrite list_lookup_insert.
      destruct (decide (j = j')) as [->|Hj].
      * destruct (row !! j') as [x|] eqn:Hx.
        -- apply lookup_lt_Some in Hx as Hlt.
           rewrite decide_True by (split; [done|lia]).
           rewrite decide_True; [done|]. split_and!; eauto.
        -- apply lookup_ge_None in Hx as Hge.
           rewrite decide_False by lia.
           rewrite decide_False; [done|]. intros (_ & _ & [? ?]); done.
      * rewrite decide_False by tauto.
        rewrite decide_False by tauto. done.
    + rewrite decide_False; [done|]. intros (_ & _ & [? ?]); done.
  - rewrite decide_False by tauto. done.
Qed.

Lemma getitem_setitem_is_Some {A} (a : list (list A)) i j v i' j' :
  is_Some (Array2.getitem (Array2.setitem a i j v) i' j') ↔ is_Some (Array2.getitem a i' j').
Proof.
  rewrite getitem_setitem. case_decide as H; [|done].
  destruct H as (-> & -> & Hs). split; eauto.
Qed.

Lemma shape_setitem {A} (a : list (list A)) i j v : Array2.shape (Array2.setitem a i j v) = Array2.shape a.
Proof.
  unfold Array2.shape, Array2.setitem. rewrite length_alter. f_equal.
  destruct a as [|r a]; [done|]. destruct i; simpl; [|done].
  by rewrite length_insert.
Qed.


(** ** Dilation never clears a pixel *)

Section DilateFacts.
Import Dilate.

Lemma only_sets_refl m : only_sets m m.
Proof. intros i j. by left. Qed.

Lemma only_sets_trans m1 m2 m3 :
  only_sets m1 m2 → only_sets m2 m3 → only_sets m1 m3.
Proof.
  intros H12 H23 i j.
  destruct (H23 i j) as [->|[Hs ->]]; [apply H12|].
  right. split; [|done].
  destruct (H12 i j) as [<-|[? _]]; done.
Qed.

Lemma only_sets_setitem m i j : only_sets m (Array2.setitem m i j 1).
Proof.
  intros i' j'. rewrite getitem_setitem.
  case_decide as H; [|by left].
  destruct H as (-> & -> & Hs). by right.
Qed.

Lemma only_sets_is_set m m' i j : only_sets m m' → is_set m i j → is_set m' i j.
Proof.
  intros H (v & Hv & Hnz).
  destruct (H i j) as [E|[_ E]].
  - exists v. by rewrite E.
  - exists 1. by rewrite E.
Qed.

(** A loop whose body only sets pixels only sets pixels. *)
Lemma fold_left_only_sets {X} (f : state → X → state) (l : list X) :
  (∀ st x, only_sets st.1 (f st x).1) →
  ∀ st, only_sets st.1 (fold_left f l st).1.
Proof.
  intros Hf. induction l as [|x l IH]; intros st; simpl.
  - apply only_sets_refl.
  - eapply only_sets_trans; [apply Hf | apply IH].
Qed.

Lemma visit_col_only_sets sh iix iy st dy :
  only_sets st.1 (visit_col sh iix iy st dy).1.
Proof.
  unfold visit_col. case_match; simpl.
  - apply only_sets_setitem.
  - apply only_sets_refl.
Qed.

Lemma visit_row_only_sets sh ix iy st dx :
  only_sets st.1 (visit_row sh ix iy st dx).1.
Proof.
  unfold visit_row. case_match.
  - apply fold_left_only_sets. intros. apply visit_col_only_sets.
  - apply only_sets_refl.
Qed.

Lemma visit_only_sets sh st p : only_sets st.1 (visit sh st p).1.
Proof.
  unfold visit. apply fold_left_only_sets. intros. apply visit_row_only_sets.
Qed.

Lemma round_only_sets sh st : only_sets st.1 (round sh st).1.
Proof.
  unfold round.
  apply (fold_left_only_sets (visit sh) st.2 (visit_only_sets sh) (st.1, [])).
Qed.

(** C8.  For every mask and every number of rounds [r], each pixel that is
    set (nonzero) after [r] rounds of [_expand_mask] is set after [r + 1]
    rounds; the extra round leaves every pixel as it was or overwrites an
    existing pixel with 1, so it never clears one. *)
Theorem expand_mask_monotone (bmask : list (list Z)) (r : nat) :
  (∀ i j, is_set (_expand_mask bmask r) i j →
          is_set (_expand_mask bmask (S r)) i j)
  ∧ only_sets (_expand_mask bmask r) (_expand_mask bmask (S r)).
Proof.
  assert (H : only_sets (_expand_mask bmask r) (_expand_mask bmask (S r))).
  { unfold _expand_mask, rounds_loop. simpl. apply round_only_sets. }
  split; [|exact H].
  intros i j. by apply only_sets_is_set.
Qed.

Example expand_mask_1 :
  _expand_mask [[0;0;0;0];[0;0;0;0];[0;0;7;0];[0;0;0;0]] 1
  = [[0;0;0;0];[0;1;1;1];[0;1;1;1];[0;1;1;1]].
Proof. reflexivity. Qed.

Example expand_mask_2 :
  _expand_mask [[0;0;0;0;0];[0;0;0;0;0];[0;0;0;0;0];[0;0;0;0;0];[0;0;0;0;5]] 2
  = [[0;0;0;0;0];[0;0;0;0;0];[0;0;1;1;1];[0;0;1;1;1];[0;0;1;1;1]].
Proof. reflexivity. Qed.

Example expand_mask_0 : _expand_mask [[0;3];[0;0]] 0 = [[0;3];[0;0]].
Proof. reflexivity. Qed.

End DilateFacts.

(** ** The exception monad *)

Lemma bind_Ok {A B} (m : result A) (k : A → result B) (b : B) :
  m ≫= k = Ok b ↔ ∃ a, m = Ok a ∧ k a = Ok b.
Proof.
  destruct m as [a|e]; simpl.
  - split; [eauto|]. by intros (? & [= <-] & ?).
  - split; [done|]. by intros (? & ? & _).
Qed.

Lemma bind_of_Ok {A B} (a : A) (k : A → result B) : Ok a ≫= k = k a.
Proof. done. Qed.

Lemma for_each_cons {A S} (body : S → A → result S) x l st :
  for_each body (x :: l) st = body st x ≫= for_each body l.
Proof. done. Qed.

Lemma fmap_Ok {A B} (f : A → B) (m : result A) (b : B) :
  f <$> m = Ok b ↔ ∃ a, m = Ok a ∧ b = f a.
Proof.
  destruct m as [a|e]; simpl.
  - split; [intros [= <-]; eauto|]. by intros (? & [= <-] & ->).
  - split; [done|]. by intros (? & ? & _).
Qed.

Lemma py_assert_Ok c u : py_assert c = Ok u ↔ c = true.
Proof. destruct c, u; simpl; split; done. Qed.

Lemma py_getitem_Ok {A} (l : list A) i x : py_getitem l i = Ok x ↔ l !! i = Some x.
Proof. unfold py_getitem. destruct (l !! i); split; congruence. Qed.

(** Take a successful computation apart, bind by bind. *)
Ltac inv_ok :=
  repeat match goal with
    | H : _ ≫= _ = Ok _ |- _ => apply bind_Ok in H as (? & ? & H)
    | H : _ <$> _ = Ok _ |- _ => apply fmap_Ok in H as (? & ? & ->)
    | H : py_assert _ = Ok _ |- _ => apply py_assert_Ok in H
    | H : py_getitem _ _ = Ok _ |- _ => apply py_getitem_Ok in H
    | H : mret _ = Ok _ |- _ => unfold mret, result_ret in H
    | H : Ok _ = Ok _ |- _ => injection H as H; try subst
    | H : Raise _ = Ok _ |- _ => discriminate H
    end.

Lemma mapM_Ok {A B} (f : A → result B) (l : list A) (out : list B) :
  mapM f l = Ok out ↔ Forall2 (fun x y => f x = Ok y) l out.
Proof.
  revert out. induction l as [|x l IH]; intros out; simpl.
  - split; [intros [= <-]; constructor|]. by intros ->%Forall2_nil_inv_l.
  - split.
    + intros Hm. inv_ok. constructor; [done|]. by apply IH.
    + intros (y & out' & Hy & Hout & ->)%Forall2_cons_inv_l.
      rewrite Hy. simpl. apply IH in Hout. rewrite Hout. done.
Qed.

Lemma mapM_Ok_lookup {A B} (f : A → result B) (l : list A) (out : list B) i x :
  mapM f l = Ok out → l !! i = Some x → ∃ y, f x = Ok y ∧ out !! i = Some y.
Proof.
  intros Hm%mapM_Ok Hx.
  destruct (Forall2_lookup_l _ _ _ _ _ Hm Hx) as (y & ? & ?). eauto.
Qed.

Lemma mapM_Ok_length {A B} (f : A → result B) (l : list A) (out : list B) :
  mapM f l = Ok out → length out = length l.
Proof. intros Hm%mapM_Ok. symmetry. by eapply Forall2_length. Qed.

(** ** The Image-Quality Reducer *)

Section ReducerFacts.
Variable py_int : string → result Z.





End ReducerFacts.

Section LoadFacts.
Variable py_int : string → result Z.



(** Without a replacement table the reduction cannot fail. *)
Lemma band_image_flags_total conf info :
  replacement_flags conf = None →
  ∃ out, Reducer.band_image_flags py_int conf info = Ok out.
Proof.
  intros Hn. unfold Reducer.band_image_flags, Reducer.replaced_flags.
  rewrite Hn. simpl. eauto.
Qed.




End LoadFacts.

(** An image table: the co-add and two exposures. *)
Example get_key_decam :
  CombinedImageFlags.get_key Demo.py_int "/data/red/DECam_00229228_07.fits.fz"
  = Ok "229228-07"%string.
Proof. reflexivity. Qed.

Example band_image_flags_with_table :
  Reducer.band_image_flags Demo.py_int
    (Demo.conf_check 6 (Some {["229228-07"%string := 4]}))
    [Demo.info_row "coadd/tile_r.fits.fz" 0;
     Demo.info_row "/data/red/DECam_00229228_07.fits.fz" 0;
     Demo.info_row "/data/red/DECam_00229229_12.fits.fz" 0]
  = Ok [0; 1; 1].
Proof. vm_compute. reflexivity. Qed.


(** ** The Observation Builder *)

Section BuilderFacts.
Context `{Collaborators}.
Import Builder.

Lemma fill_obs_meta_data_spec self b band mindex icut flags obs :
  _fill_obs_meta_data self b band mindex icut flags = Ok obs →
  Obs.attrs obs = b ∧ Obs.flags obs = flags ∧ Meta.icut (Obs.meta obs) = icut.
Proof.
  unfold _fill_obs_meta_data. intros Hf. inv_ok. done.
Qed.

Lemma build_slot_flagged self band mindex image_flags icut iflags obs :
  image_flags !! icut = Some iflags → iflags ≠ 0 →
  build_slot self band mindex image_flags icut = Ok obs →
  Obs.attrs obs = empty_observation ∧ Obs.flags obs = IMAGE_FLAGS.
Proof.
  intros Hi Hnz. unfold build_slot, py_getitem. rewrite Hi. simpl.
  destruct (Z.eqb_spec iflags 0) as [?|_]; [done|]. simpl.
  intros Hf. apply fill_obs_meta_data_spec in Hf. tauto.
Qed.

Lemma build_slot_usable self band mindex image_flags icut obs :
  image_flags !! icut = Some 0 →
  build_slot self band mindex image_flags icut = Ok obs →
  Obs.flags obs = 0
  ∧ _get_band_observation self band mindex icut = Ok (Obs.attrs obs).
Proof.
  intros Hi. unfold build_slot, py_getitem. rewrite Hi. simpl.
  destruct (_get_band_observation self band mindex icut) as [b|e]; [|done].
  simpl. intros Hf. apply fill_obs_meta_data_spec in Hf as (-> & ? & _). done.
Qed.

(** The loop from a slot other than 0 on only extends [obs_list]. *)
Lemma band_steps_from self band mindex image_flags a n st st' :
  (0 < a)%nat →
  for_each (band_step self band mindex image_flags) (seq a n) st = Ok st' →
  st'.1 = st.1
  ∧ ∃ new, st'.2 = st.2 ++ new ∧ length new = n
      ∧ ∀ k obs, new !! k = Some obs →
          build_slot self band mindex image_flags (a + k) = Ok obs.
Proof.
  revert a st. induction n as [|n IH]; intros a st Ha; simpl.
  - intros [= <-]. split; [done|]. exists []. rewrite app_nil_r. done.
  - intros Hm. apply bind_Ok in Hm as (st1 & Hstep & Hrest).
    unfold band_step in Hstep. apply bind_Ok in Hstep as (obs & Hobs & Hst1).
    destruct (Nat.eqb_spec a 0) as [?|_]; [lia|]. injection Hst1 as <-.
    destruct (IH (S a) _ ltac:(lia) Hrest) as (H1 & new & H2 & Hlen & Hnew).
    simpl in *. split; [done|].
    exists (obs :: new). split; [by rewrite H2, <- app_assoc|].
    split; [simpl; lia|].
    intros [|k] obs'; simpl.
    + intros [= <-]. by rewrite Nat.add_0_r.
    + intros Hk. replace (a + S k)%nat with (S a + k)%nat by lia. by apply Hnew.
Qed.

(** After the loop every slot holds the Observation built for it. *)
Lemma band_steps_slots self band mindex image_flags n c o :
  for_each (band_step self band mindex image_flags) (seq 0 n) ([], []) = Ok (c, o) →
  length c = Nat.min 1 n ∧ length o = (n - 1)%nat
  ∧ ∀ icut, (icut < n)%nat →
      ∃ obs, slot_of c o icut = Some obs
             ∧ build_slot self band mindex image_flags icut = Ok obs.
Proof.
  destruct n as [|n]; simpl.
  - intros [= <- <-]. split_and!; [done..|]. intros; lia.
  - intros Hm. apply bind_Ok in Hm as (st1 & Hstep & Hrest).
    unfold band_step in Hstep. apply bind_Ok in Hstep as (obs0 & Hobs0 & Hst1).
    simpl in Hst1. injection Hst1 as <-.
    destruct (band_steps_from _ _ _ _ 1 n _ _ ltac:(lia) Hrest)
      as (H1 & new & H2 & Hlen & Hnew).
    simpl in *. subst c o. split_and!; [done|lia|].
    intros [|k] Hk; simpl; [eauto|].
    destruct (lookup_lt_is_Some_2 new k ltac:(lia)) as [obs Hobs].
    exists obs. split; [done|]. by apply (Hnew k).
Qed.

Lemma np_take_length {A} (a : list A) idx out :
  np_take a idx = Ok out → length out = length idx.
Proof. apply mapM_Ok_length. Qed.

Lemma get_image_flags_length self band mindex meds image_flags :
  meds_list self !! band = Some meds →
  _get_image_flags self band mindex = Ok image_flags →
  length image_flags = Meds.ncutout meds mindex.
Proof.
  intros Hm. unfold _get_image_flags, py_getitem. rewrite Hm. simpl.
  destruct (cls self).
  - intros [= <-]. by rewrite length_replicate.
  - intros Hf. inv_ok. apply np_take_length in Hf.
    by rewrite Hf, length_fmap, length_seq.
  - intros Hf. inv_ok. apply np_take_length in Hf.
    by rewrite Hf, length_fmap, length_seq.
Qed.

Lemma band_loop_slots self band mindex c o :
  band_loop self band mindex = Ok (c, o) →
  ∃ meds image_flags,
    meds_list self !! band = Some meds
    ∧ _get_image_flags self band mindex = Ok image_flags
    ∧ length image_flags = Meds.ncutout meds mindex
    ∧ length c = Nat.min 1 (Meds.ncutout meds mindex)
    ∧ length o = (Meds.ncutout meds mindex - 1)%nat
    ∧ ∀ icut, (icut < Meds.ncutout meds mindex)%nat →
        ∃ obs, slot_of c o icut = Some obs
               ∧ build_slot self band mindex image_flags icut = Ok obs.
Proof.
  unfold band_loop. intros Hb. inv_ok.
  rename x into meds, x0 into image_flags.
  exists meds, image_flags.
  pose proof (get_image_flags_length _ _ _ _ _ H0 H1).
  destruct (band_steps_slots _ _ _ _ _ _ _ Hb) as (? & ? & ?).
  split_and!; done.
Qed.

(** What the rejection pass leaves of each Observation. *)
Lemma set_weight_same obs : Obs.set_weight (Obs.weight (Obs.attrs obs)) obs = obs.
Proof. by destruct obs as [[] ?]. Qed.

Lemma set_weight_twice w w' obs :
  Obs.set_weight w (Obs.set_weight w' obs) = Obs.set_weight w obs.
Proof. done. Qed.

Lemma put_weights_length obs_list wts :
  length (put_weights obs_list wts) = length obs_list.
Proof.
  revert wts. induction obs_list as [|obs l IH]; intros wts; simpl; [done|].
  case_decide; [destruct wts|]; simpl; by rewrite IH.
Qed.

Lemma put_weights_lookup obs_list wts k obs :
  obs_list !! k = Some obs →
  ∃ obs', put_weights obs_list wts !! k = Some obs'
          ∧ (Obs.flags obs ≠ 0 → obs' = obs)
          ∧ ∃ w, obs' = Obs.set_weight w obs.
Proof.
  revert wts k. induction obs_list as [|o l IH]; intros wts k; [done|].
  destruct k as [|k]; simpl.
  - intros [= ->]. case_decide as Hf; [destruct wts as [|w wts]|]; simpl.
    + exists obs. split_and!; [done..|]. eexists. by rewrite set_weight_same.
    + eexists. split_and!; [done|done|eauto].
    + exists obs. split_and!; [done..|]. eexists. by rewrite set_weight_same.
  - intros Hk. case_decide; [destruct wts|]; simpl; by apply IH.
Qed.

Lemma rescale_flagged obs : Obs.flags obs ≠ 0 → rescale obs = Ok obs.
Proof. intros Hf. unfold rescale. by rewrite decide_False. Qed.

Lemma rescale_meta obs obs' : rescale obs = Ok obs' → Obs.meta obs' = Obs.meta obs.
Proof.
  unfold rescale. case_decide; [|by intros [= <-]].
  intros Hr. inv_ok. done.
Qed.

Lemma mapM_rescale_lookup l l' k obs :
  mapM rescale l = Ok l' → l !! k = Some obs →
  ∃ obs', l' !! k = Some obs' ∧ Obs.meta obs' = Obs.meta obs
          ∧ (Obs.flags obs ≠ 0 → obs' = obs).
Proof.
  intros Hm Hk. destruct (mapM_Ok_lookup _ _ _ _ _ Hm Hk) as (obs' & Hr & Hl).
  exists obs'. split_and!; [done|by apply rescale_meta|].
  intros Hf. rewrite rescale_flagged in Hr by done. congruence.
Qed.

End BuilderFacts.

Section BuilderClaims.
Context `{Collaborators}.
Import Builder.

Lemma MEDSImageIO_get_band_observations_spec self band mindex r :
  MEDSImageIO_get_band_observations self band mindex = Ok r →
  ∃ c o, band_loop self band mindex = Ok (c, o)
    ∧ coadd_obs_list r = c
    ∧ length (se_obs_list r) = length o
    ∧ outlier_calls r = calls_when self o
    ∧ ∀ k obs, o !! k = Some obs →
        ∃ obs', se_obs_list r !! k = Some obs'
                ∧ (Obs.flags obs ≠ 0 → obs' = obs)
                ∧ ∃ w, obs' = Obs.set_weight w obs.
Proof.
  unfold MEDSImageIO_get_band_observations. intros Hm.
  apply bind_Ok in Hm as ([c o] & Hloop & Hr).
  exists c, o. split; [done|]. unfold calls_when.
  destruct (reject_outliers (conf self) && (0 <? length o)%nat).
  - unfold _reject_outliers in Hr. injection Hr as <-. simpl.
    split_and!; [done|by rewrite put_weights_length|done|].
    intros k obs Hk. by apply put_weights_lookup.
  - injection Hr as <-. simpl. split_and!; [done..|].
    intros k obs Hk. exists obs. split_and!; [done..|].
    eexists. by rewrite set_weight_same.
Qed.

(** Every class: what the returned lists keep of the Observations the loop
    built. *)
Lemma get_band_observations_spec self band mindex r :
  _get_band_observations self band mindex = Ok r →
  ∃ c o, band_loop self band mindex = Ok (c, o)
    ∧ outlier_calls r = calls_when self o
    ∧ ∀ icut obs, slot_of c o icut = Some obs →
        ∃ obs', slot r icut = Some obs'
                ∧ Obs.meta obs' = Obs.meta obs
                ∧ (Obs.flags obs ≠ 0 → obs' = obs).
Proof.
  assert (Hbase : ∀ r0, MEDSImageIO_get_band_observations self band mindex = Ok r0 →
    ∃ c o, band_loop self band mindex = Ok (c, o)
      ∧ outlier_calls r0 = calls_when self o
      ∧ ∀ icut obs, slot_of c o icut = Some obs →
          ∃ obs', slot r0 icut = Some obs'
                  ∧ Obs.meta obs' = Obs.meta obs
                  ∧ (Obs.flags obs ≠ 0 → obs' = obs)).
  { intros r0 Hr0.
    destruct (MEDSImageIO_get_band_observations_spec _ _ _ _ Hr0)
      as (c & o & Hloop & Hc & _ & Hcalls & Hse).
    exists c, o. split_and!; [done..|].
    intros [|k] obs; unfold slot; simpl.
    - rewrite Hc. eauto.
    - intros Hk. destruct (Hse k obs Hk) as (obs' & ? & ? & w & ->). eauto. }
  assert (Hsv : SVDES_get_band_observations self band mindex = Ok r →
    ∃ c o, band_loop self band mindex = Ok (c, o)
      ∧ outlier_calls r = calls_when self o
      ∧ ∀ icut obs, slot_of c o icut = Some obs →
          ∃ obs', slot r icut = Some obs'
                  ∧ Obs.meta obs' = Obs.meta obs
                  ∧ (Obs.flags obs ≠ 0 → obs' = obs)).
  { unfold SVDES_get_band_observations. intros Hr. inv_ok.
    rename x into r0, x0 into coadd, x1 into se.
    destruct (Hbase r0 ltac:(done)) as (c & o & Hloop & Hcalls & Hslots).
    exists c, o. split_and!; [done..|].
    intros icut obs Hs. destruct (Hslots icut obs Hs) as (obs0 & Hs0 & Hmeta & Hfl).
    assert (∃ obs', slot {| coadd_obs_list := coadd; se_obs_list := se;
                            outlier_calls := outlier_calls r0 |} icut = Some obs'
              ∧ Obs.meta obs' = Obs.meta obs0
              ∧ (Obs.flags obs0 ≠ 0 → obs' = obs0)) as (obs' & ? & Hm' & Hf').
    { destruct icut; unfold slot in *; simpl in *; by eapply mapM_rescale_lookup. }
    exists obs'. split_and!; [done|congruence|].
    intros Hf. rewrite Hf'; [by apply Hfl|].
    unfold Obs.flags in *. by rewrite Hmeta. }
  unfold _get_band_observations. destruct (cls self); eauto.
Qed.

End BuilderClaims.

(** ** Reuse of a neighbour's Observation *)

Section NbrsFacts.
Context `{Collaborators}.
Import Nbrs.

(** The Observation the loop selects is one of the list. *)
Lemma find_nbr_obs_elem cen_file_id nbr_id obs_list nbr_obs :
  find_nbr_obs cen_file_id nbr_id obs_list = Some nbr_obs →
  nbr_obs ∈ obs_list
  ∧ obs_file_id nbr_obs = cen_file_id ∧ Meta.id (Obs.meta nbr_obs) = nbr_id.
Proof.
  unfold find_nbr_obs.
  assert (G : ∀ l acc,
    fold_left
      (fun nbr_obs obs =>
         if (obs_file_id obs =? cen_file_id) && (nbr_id =? Meta.id (Obs.meta obs))
         then Some obs else nbr_obs) l acc = Some nbr_obs →
    acc = Some nbr_obs
    ∨ (nbr_obs ∈ l ∧ obs_file_id nbr_obs = cen_file_id
       ∧ Meta.id (Obs.meta nbr_obs) = nbr_id)).
  { induction l as [|obs l IH]; intros acc; simpl; [by left|].
    intros Hf. destruct (IH _ Hf) as [Hacc|(? & ? & ?)].
    - destruct (Z.eqb_spec (obs_file_id obs) cen_file_id) as [E1|];
        destruct (Z.eqb_spec nbr_id (Meta.id (Obs.meta obs))) as [E2|];
        simpl in Hacc; try (by left).
      injection Hacc as ->. right. split_and!; [by left|done..].
    - right. split_and!; [by right|done..]. }
  intros Hf. by destruct (G _ _ Hf) as [?|?].
Qed.

(** A selected Observation that is flagged stops the method. *)
Lemma reuse_flagged meds cen_file_id cen_obs nbr_obs nbr_mindex :
  Obs.flags nbr_obs ≠ 0 →
  reuse_nbr_obs meds cen_file_id cen_obs nbr_obs nbr_mindex = Raise AssertionError.
Proof.
  intros Hf. unfold reuse_nbr_obs.
  destruct (Z.eqb_spec (Obs.flags nbr_obs) 0); done.
Qed.

Lemma reuse_Ok meds cen_file_id cen_obs nbr_obs nbr_mindex pj :
  reuse_nbr_obs meds cen_file_id cen_obs nbr_obs nbr_mindex = Ok pj →
  Obs.flags nbr_obs = 0
  ∧ pj.1 = Obs.psf (Obs.attrs nbr_obs) ∧ is_Some pj.1 ∧ is_Some pj.2.
Proof.
  unfold reuse_nbr_obs, Obs.get_psf. intros Hr. inv_ok. simpl.
  destruct (Obs.psf (Obs.attrs nbr_obs)) as [p|]; [|done].
  injection H1 as <-.
  apply Z.eqb_eq in H0. split_and!; eauto.
Qed.

Lemma get_nbr_flagged self band cen_ind cen_mindex cen_obs nbr_ind nbr_mindex
    nbrs_obs_list meds obs_list nbr_obs :
  meds_list self !! band = Some meds →
  MultiBand.bands nbrs_obs_list !! band = Some obs_list →
  find_nbr_obs (obs_file_id cen_obs) (Meds.id meds nbr_mindex) obs_list = Some nbr_obs →
  Obs.flags nbr_obs ≠ 0 →
  _get_nbr_psf_obs_and_jac self band cen_ind cen_mindex cen_obs nbr_ind nbr_mindex
    nbrs_obs_list = Raise AssertionError.
Proof.
  intros Hm Hl Hfind Hf. unfold _get_nbr_psf_obs_and_jac, py_getitem.
  rewrite Hm. simpl.
  destruct (MultiBand.id (MultiBand.meta nbrs_obs_list) =? Meds.id meds nbr_mindex);
    [simpl|reflexivity].
  destruct (Meta.id (Obs.meta cen_obs) =? Meds.id meds cen_mindex);
    [simpl|reflexivity].
  rewrite Hl. simpl. rewrite Hfind. by apply reuse_flagged.
Qed.

End NbrsFacts.

(** ** Flagged Observations *)

Section FlaggedClaims.
Context `{Collaborators}.
Import Builder Nbrs.

(** C1.  (a) When the image flag of a slot is nonzero, the Observation the
    builder returns for the slot has a 0 x 0 image and the status flag
    [IMAGE_FLAGS], which is not 0.  (b) An Observation of a list with a
    nonzero status flag is not among those whose images and weights
    [_reject_outliers] hands to the outlier rejection, and the pass leaves it
    as it is.  (c) When the Observation that [_get_nbr_psf_obs_and_jac]
    selects for reuse has a nonzero status flag, the method stops with an
    assertion failure; whenever it returns after selecting one, that one has
    status flag 0. *)
Theorem flagged_observation_is_empty_and_excluded :
  (∀ self band mindex r image_flags icut iflags,
     _get_band_observations self band mindex = Ok r →
     _get_image_flags self band mindex = Ok image_flags →
     image_flags !! icut = Some iflags →
     iflags ≠ 0 →
     ∃ obs, slot r icut = Some obs
            ∧ Obs.image (Obs.attrs obs) = []
            ∧ Array2.shape (Obs.image (Obs.attrs obs)) = (0%nat, 0%nat)
            ∧ Obs.flags obs = IMAGE_FLAGS
            ∧ Obs.flags obs ≠ 0)
  ∧ (∀ obs_list k obs,
       obs_list !! k = Some obs →
       Obs.flags obs ≠ 0 →
       (_reject_outliers obs_list).2 = usable_arrays obs_list
       ∧ Forall (fun o => Obs.flags o = 0) (usable obs_list)
       ∧ (obs ∉ usable obs_list)
       ∧ (_reject_outliers obs_list).1 !! k = Some obs)
  ∧ (∀ self band cen_ind cen_mindex cen_obs nbr_ind nbr_mindex nbrs_obs_list
       meds obs_list nbr_obs,
       meds_list self !! band = Some meds →
       MultiBand.bands nbrs_obs_list !! band = Some obs_list →
       find_nbr_obs (obs_file_id cen_obs) (Meds.id meds nbr_mindex) obs_list
         = Some nbr_obs →
       (Obs.flags nbr_obs ≠ 0 →
        _get_nbr_psf_obs_and_jac self band cen_ind cen_mindex cen_obs
          nbr_ind nbr_mindex nbrs_obs_list = Raise AssertionError)
       ∧ (∀ pj,
            _get_nbr_psf_obs_and_jac self band cen_ind cen_mindex cen_obs
              nbr_ind nbr_mindex nbrs_obs_list = Ok pj →
            Obs.flags nbr_obs = 0)).
Proof.
  split_and!.
  - intros self band mindex r image_flags icut iflags Hr Hflags Hi Hnz.
    destruct (get_band_observations_spec _ _ _ _ Hr) as (c & o & Hloop & _ & Hslots).
    destruct (band_loop_slots _ _ _ _ _ Hloop)
      as (meds & image_flags' & Hm & Hflags' & Hlen & _ & _ & Hbuilt).
    assert (image_flags' = image_flags) as -> by congruence.
    apply lookup_lt_Some in Hi as Hlt. rewrite Hlen in Hlt.
    destruct (Hbuilt icut Hlt) as (obs & Hslot & Hobs).
    destruct (build_slot_flagged _ _ _ _ _ _ _ Hi Hnz Hobs) as (Hattrs & Hfl).
    assert (Obs.flags obs ≠ 0) as Hne by (rewrite Hfl; done).
    destruct (Hslots icut obs Hslot) as (obs' & Hslot' & _ & Hsame).
    rewrite (Hsame Hne) in Hslot'.
    exists obs. rewrite Hattrs. split_and!; done.
  - intros obs_list k obs Hk Hf. split_and!.
    + done.
    + unfold usable. apply Forall_forall. by intros o [? _]%list_elem_of_filter.
    + unfold usable. by intros [? _]%list_elem_of_filter.
    + unfold _reject_outliers. simpl.
      destruct (put_weights_lookup obs_list
                  (meds_reject_outliers
                     ((fun obs => Obs.image (Obs.attrs obs)) <$> usable obs_list)
                     ((fun obs => Obs.weight (Obs.attrs obs)) <$> usable obs_list))
                  k obs Hk) as (obs' & -> & Hsame & _).
      by rewrite Hsame.
  - intros self band cen_ind cen_mindex cen_obs nbr_ind nbr_mindex nbrs_obs_list
      meds obs_list nbr_obs Hm Hl Hfind.
    split.
    + intros Hf. by eapply get_nbr_flagged.
    + intros pj Hr.
      destruct (decide (Obs.flags nbr_obs = 0)) as [|Hf]; [done|].
      erewrite get_nbr_flagged in Hr by done. done.
Qed.

(** C5, as amended.  The builder calls the outlier rejection exactly when the
    configuration asks for it and the band has a single-epoch slot, flagged or
    not.  The call gets the images and the weights of the Observations with
    status flag 0 and no others; after it every Observation is the one from
    before with at most its weight map replaced, and an Observation with a
    nonzero status flag is unchanged. *)
Theorem outlier_rejection_runs_when_a_slot_exists :
  (∀ self band mindex r,
     _get_band_observations self band mindex = Ok r →
     ∃ c o, band_loop self band mindex = Ok (c, o)
       ∧ (outlier_calls r ≠ [] ↔ reject_outliers (conf self) = true ∧ o ≠ [])
       ∧ (∀ call, call ∈ outlier_calls r → call = usable_arrays o))
  ∧ (∀ obs_list,
       (_reject_outliers obs_list).2 = usable_arrays obs_list
       ∧ Forall (fun o => Obs.flags o = 0) (usable obs_list)
       ∧ length (_reject_outliers obs_list).1 = length obs_list
       ∧ ∀ k obs, obs_list !! k = Some obs →
           ∃ obs', (_reject_outliers obs_list).1 !! k = Some obs'
                   ∧ (Obs.flags obs ≠ 0 → obs' = obs)
                   ∧ ∃ w, obs' = Obs.set_weight w obs).
Proof.
  split.
  - intros self band mindex r Hr.
    destruct (get_band_observations_spec _ _ _ _ Hr) as (c & o & Hloop & Hcalls & _).
    exists c, o. split; [done|]. rewrite Hcalls. unfold calls_when.
    destruct (reject_outliers (conf self)); simpl.
    + destruct o as [|obs o]; simpl.
      * split; [split; [done|]|]. { by intros [_ ?]. } by intros call ?%elem_of_nil.
      * split; [done|]. by intros call ->%list_elem_of_singleton.
    + split; [split; [done|by intros [? _]]|]. by intros call ?%elem_of_nil.
  - intros obs_list. split_and!.
    + done.
    + unfold usable. apply Forall_forall. by intros o [? _]%list_elem_of_filter.
    + unfold _reject_outliers. simpl. apply put_weights_length.
    + intros k obs Hk. unfold _reject_outliers. simpl. by apply put_weights_lookup.
Qed.

End FlaggedClaims.

(** Two objects with the co-add and one exposure; the exposure of the
    second slot is flagged by the reducer. *)
Lemma flagged_observation_is_empty_and_excluded_witness :
  match Builder._get_band_observations (H := Demo.collaborators)
          (Demo.self_of SVDESMEDSImageIO 1 0 1) 0 0 with
  | Ok r =>
      ∃ obs, Builder.slot r 1 = Some obs
             ∧ Obs.image (Obs.attrs obs) = []
             ∧ Obs.flags obs = IMAGE_FLAGS
  | Raise _ => False
  end.
Proof.
  destruct (Builder._get_band_observations (H := Demo.collaborators)
              (Demo.self_of SVDESMEDSImageIO 1 0 1) 0 0) as [r|e] eqn:Hr.
  - destruct (proj1 (flagged_observation_is_empty_and_excluded (H := Demo.collaborators))
                (Demo.self_of SVDESMEDSImageIO 1 0 1) 0%nat 0%nat r [0; 1] 1%nat 1
                Hr eq_refl eq_refl ltac:(discriminate))
      as (obs & ? & ? & _ & ? & _).
    eauto.
  - vm_compute in Hr. discriminate Hr.
Defined.

Lemma outlier_rejection_runs_when_a_slot_exists_witness :
  match Builder._get_band_observations (H := Demo.collaborators)
          (Demo.self_of SVDESMEDSImageIO 1 0 0) 0 0 with
  | Ok r =>
      ∃ c o, Builder.band_loop (H := Demo.collaborators)
               (Demo.self_of SVDESMEDSImageIO 1 0 0) 0 0 = Ok (c, o)
             ∧ (Builder.outlier_calls r ≠ []
                ↔ reject_outliers (conf (Demo.self_of SVDESMEDSImageIO 1 0 0)) = true
                  ∧ o ≠ [])
  | Raise _ => False
  end.
Proof.
  destruct (Builder._get_band_observations (H := Demo.collaborators)
              (Demo.self_of SVDESMEDSImageIO 1 0 0) 0 0) as [r|e] eqn:Hr.
  - destruct (proj1 (outlier_rejection_runs_when_a_slot_exists (H := Demo.collaborators))
                (Demo.self_of SVDESMEDSImageIO 1 0 0) 0%nat 0%nat r Hr)
      as (c & o & ? & ? & _).
    eauto.
  - vm_compute in Hr. discriminate Hr.
Defined.

(** C5 as stated fails, in both directions.  With the only single epoch of
    the band flagged, no usable single epoch exists and the outlier rejection
    is still called, with two empty lists.  With the rejection switched off
    in the configuration, a usable single epoch exists and the outlier
    rejection is not called. *)
Lemma outlier_rejection_runs_without_usable_epoch :
  (∃ r, Builder._get_band_observations (H := Demo.collaborators)
          (Demo.self_of SVDESMEDSImageIO 1 0 1) 0 0 = Ok r
        ∧ Builder.outlier_calls r = [([], [])]
        ∧ length (Builder.se_obs_list r) = 1%nat
        ∧ Builder.usable (Builder.se_obs_list r) = [])
  ∧ (∃ r, Builder._get_band_observations (H := Demo.collaborators)
            (Demo.self_with false "weight") 0 0 = Ok r
          ∧ Builder.outlier_calls r = []
          ∧ length (Builder.usable (Builder.se_obs_list r)) = 1%nat).
Proof.
  split.
  - eexists. split; [vm_compute; reflexivity|]. vm_compute. done.
  - eexists. split; [vm_compute; reflexivity|]. vm_compute. done.
Qed.

(** C3, at an input where the code departs from it and from the docstring
    of [_load_meds_files] ("the saved flags are 0 or IMAGE_FLAGS_SET").  The
    co-add image has the raw flag 4 and only bit 0 is checked: the stored
    array is [[4; 0]], its entry 0 neither 0 nor [IMAGE_FLAGS_SET], and the
    builder makes of the co-add slot the empty Observation with the flag
    [IMAGE_FLAGS]: the co-add is not treated as present. *)
Lemma coadd_flag_is_not_reduced :
  Reducer.band_image_flags Demo.py_int (Demo.conf_check 1 None) (Demo.two_images 4 0)
  = Ok [4; 0]
  ∧ all_image_flags (Demo.self_of SVDESMEDSImageIO 1 4 0) = [[4; 0]]
  ∧ ∃ r obs, Builder._get_band_observations (H := Demo.collaborators)
               (Demo.self_of SVDESMEDSImageIO 1 4 0) 0 0 = Ok r
             ∧ Builder.slot r 0 = Some obs
             ∧ Obs.image (Obs.attrs obs) = []
             ∧ Obs.flags obs = IMAGE_FLAGS.
Proof.
  split; [vm_compute; reflexivity|]. split; [vm_compute; reflexivity|].
  eexists _, _. split; [vm_compute; reflexivity|]. vm_compute. done.
Qed.



(** ** The per-neighbour lists *)

Section NbrsClaims.
Context `{Collaborators}.
Import Nbrs.

(** The flag [nbr_step] appends. *)
Lemma nbr_flag_cases psf_obs jac obj_flags :
  ((if nbr_unusable psf_obs jac obj_flags then 1 else 0) = 0
   ↔ is_Some psf_obs ∧ is_Some jac ∧ obj_flags = 0)
  ∧ ((if nbr_unusable psf_obs jac obj_flags then 1 else 0) = 0
     ∨ (if nbr_unusable psf_obs jac obj_flags then 1 else 0) = 1).
Proof.
  unfold nbr_unusable.
  destruct psf_obs as [p|], jac as [j|], (Z.eqb_spec obj_flags 0) as [E|E];
    repeat (rewrite bool_decide_true by eauto);
    repeat (rewrite bool_decide_false by (by intros [? ?]));
    simpl; (split; [split|]); try tauto; try done;
    try (intros (? & ? & ?)); try (by eauto);
    try (match goal with H : is_Some None |- _ => by destruct H end).
Qed.

(** What the loop over the neighbours appends to the three lists. *)
Lemma nbr_loop_spec self mb_obs_lists mindexes band cen mindex obs inds acc l :
  for_each (nbr_step self mb_obs_lists mindexes band cen mindex obs) inds acc = Ok l →
  ∃ ps fs js,
    nbrs_psfs l = nbrs_psfs acc ++ ps
    ∧ nbrs_flags l = nbrs_flags acc ++ fs
    ∧ nbrs_jacs l = nbrs_jacs acc ++ js
    ∧ length ps = length inds ∧ length fs = length inds ∧ length js = length inds
    ∧ ∀ k ind, inds !! k = Some ind →
        ∃ nbr_mindex nbr_mb psf_obs jac,
          mindexes !! ind = Some nbr_mindex
          ∧ mb_obs_lists !! ind = Some nbr_mb
          ∧ _get_nbr_psf_obs_and_jac self band cen mindex obs ind nbr_mindex nbr_mb
            = Ok (psf_obs, jac)
          ∧ ps !! k = Some psf_obs
          ∧ js !! k = Some jac
          ∧ fs !! k = Some (if nbr_unusable psf_obs jac
                                 (MultiBand.obj_flags (MultiBand.meta nbr_mb))
                            then 1 else 0).
Proof.
  revert acc. induction inds as [|ind inds IH]; intros acc; simpl.
  - intros [= <-]. exists [], [], []. rewrite !app_nil_r.
    split_and!; [done..|]. intros k ind; done.
  - intros Hm. apply bind_Ok in Hm as (acc1 & Hstep & Hrest).
    unfold nbr_step in Hstep. inv_ok.
    rename x into nbr_mindex, x0 into nbr_mb. destruct x1 as [psf_obs jac].
    injection Hstep as <-.
    destruct (IH _ Hrest) as (ps & fs & js & Hp & Hf & Hj & Lp & Lf & Lj & Hk).
    simpl in *.
    exists (psf_obs :: ps),
      ((if nbr_unusable psf_obs jac (MultiBand.obj_flags (MultiBand.meta nbr_mb))
        then 1 else 0) :: fs),
      (jac :: js).
    rewrite Hp, Hf, Hj, <- !app_assoc. simpl.
    split_and!; [done|done|done|lia|lia|lia|].
    intros [|k] ind'; simpl.
    + intros [= <-]. exists nbr_mindex, nbr_mb, psf_obs, jac. done.
    + apply Hk.
Qed.

(** For an Observation of the central object, [nbrs_of_obs] returns three
    lists with one entry per neighbour index, in the order of [nbrs_inds]:
    the PSF and the Jacobian that [_get_nbr_psf_obs_and_jac] returned for the
    neighbour, and a flag that is 0 or 1, which is 0 exactly when the PSF is
    present, the Jacobian is present and the neighbour's [obj_flags] is 0. *)
Lemma nbrs_of_obs_spec
    self mb_obs_lists mindexes band cen mindex obs cen_mb l :
  mb_obs_lists !! cen = Some cen_mb →
  nbrs_of_obs self mb_obs_lists mindexes band cen mindex obs = Ok l →
  length (nbrs_psfs l) = length (MultiBand.nbrs_inds (MultiBand.meta cen_mb))
  ∧ length (nbrs_jacs l) = length (MultiBand.nbrs_inds (MultiBand.meta cen_mb))
  ∧ length (nbrs_flags l) = length (MultiBand.nbrs_inds (MultiBand.meta cen_mb))
  ∧ Meta.nbrs_psfs (Obs.meta (attach l obs)) = Some (nbrs_psfs l)
  ∧ Meta.nbrs_jacs (Obs.meta (attach l obs)) = Some (nbrs_jacs l)
  ∧ Meta.nbrs_flags (Obs.meta (attach l obs)) = Some (nbrs_flags l)
  ∧ ∀ k ind, MultiBand.nbrs_inds (MultiBand.meta cen_mb) !! k = Some ind →
      ∃ nbr_mindex nbr_mb psf_obs jac flag,
        mindexes !! ind = Some nbr_mindex
        ∧ mb_obs_lists !! ind = Some nbr_mb
        ∧ _get_nbr_psf_obs_and_jac self band cen mindex obs ind nbr_mindex nbr_mb
          = Ok (psf_obs, jac)
        ∧ nbrs_psfs l !! k = Some psf_obs
        ∧ nbrs_jacs l !! k = Some jac
        ∧ nbrs_flags l !! k = Some flag
        ∧ (flag = 0 ↔ is_Some psf_obs ∧ is_Some jac
                       ∧ MultiBand.obj_flags (MultiBand.meta nbr_mb) = 0)
        ∧ (flag = 0 ∨ flag = 1)
        ∧ (MultiBand.obj_flags (MultiBand.meta nbr_mb) ≠ 0 → flag = 1).
Proof.
  intros Hcen. unfold nbrs_of_obs, py_getitem. rewrite Hcen. simpl.
  intros Hl.
  destruct (nbr_loop_spec _ _ _ _ _ _ _ _ _ _ Hl)
    as (ps & fs & js & Hp & Hf & Hj & Lp & Lf & Lj & Hk).
  simpl in *. subst ps fs js.
  split_and!; [done..|].
  intros k ind Hind.
  destruct (Hk k ind Hind) as (nbr_mindex & nbr_mb & psf_obs & jac & ? & ? & ? & ? & ? & ?).
  destruct (nbr_flag_cases psf_obs jac (MultiBand.obj_flags (MultiBand.meta nbr_mb)))
    as (Hiff & H01).
  eexists nbr_mindex, nbr_mb, psf_obs, jac, _.
  split_and!; [done..|].
  intros Hne. destruct H01 as [Hz|Hone]; [|done].
  apply Hiff in Hz. tauto.
Qed.

End NbrsClaims.

(** ** The Index and Group Manager *)

Section IndexFacts.
Import Index.

Lemma elem_of_insert_unique x y l : y ∈ insert_unique x l ↔ y = x ∨ y ∈ l.
Proof.
  induction l as [|z l IH]; simpl.
  - rewrite list_elem_of_singleton. split; [by left|]. intros [?|?%elem_of_nil]; done.
  - destruct (Z.ltb_spec x z); [by rewrite elem_of_cons|].
    destruct (Z.eqb_spec x z) as [->|].
    + split; [by right|]. intros [->|?]; [by left|done].
    + rewrite !elem_of_cons, IH. tauto.
Qed.

Lemma insert_unique_sorted x l :
  StronglySorted Z.lt l → StronglySorted Z.lt (insert_unique x l).
Proof.
  induction 1 as [|z l Hs IH Hz]; simpl.
  - repeat constructor.
  - destruct (Z.ltb_spec x z).
    + constructor; [by constructor|].
      constructor; [done|]. eapply Forall_impl; [exact Hz|]. simpl. lia.
    + destruct (Z.eqb_spec x z) as [->|]; [by constructor|].
      constructor; [done|].
      apply Forall_forall. intros y [->|Hy]%elem_of_insert_unique; [lia|].
      by eapply Forall_forall in Hz.
Qed.

Lemma np_unique_sorted l : StronglySorted Z.lt (np_unique l).
Proof.
  induction l as [|x l IH]; simpl; [constructor|]. by apply insert_unique_sorted.
Qed.

Lemma elem_of_np_unique x l : x ∈ np_unique l ↔ x ∈ l.
Proof.
  induction l as [|y l IH]; [done|].
  change (x ∈ insert_unique y (np_unique l) ↔ x ∈ y :: l).
  rewrite elem_of_insert_unique, IH, elem_of_cons. tauto.
Qed.

Lemma np_unique_of_sorted l : StronglySorted Z.lt l → np_unique l = l.
Proof.
  induction 1 as [|x l Hs IH Hx]; [done|].
  change (insert_unique x (np_unique l) = x :: l). rewrite IH.
  destruct l as [|y l]; simpl; [done|].
  apply Forall_cons in Hx as [Hxy _].
  destruct (Z.ltb_spec x y); [done|lia].
Qed.

Lemma np_sort_of_sorted l : StronglySorted Z.lt l → np_sort l = l.
Proof.
  intros Hs. unfold np_sort.
  apply (StronglySorted_unique Z.le).
  - apply StronglySorted_merge_sort; apply _.
  - induction Hs as [|x l Hs IH Hx]; constructor; [done|].
    eapply Forall_impl; [exact Hx|]. simpl. lia.
  - apply merge_sort_Permutation.
Qed.

Lemma fofids_of_column col :
  np_sort (np_unique col) = np_unique col.
Proof. apply np_sort_of_sorted, np_unique_sorted. Qed.

(** The positions where a column has a value. *)
Lemma elem_of_where_eq_from i col v k :
  k ∈ where_eq_from i col v ↔ ∃ j, k = (i + j)%nat ∧ col !! j = Some v.
Proof.
  revert i. induction col as [|x col IH]; intros i; simpl.
  - split; [by intros ?%elem_of_nil|]. by intros (? & _ & ?).
  - rewrite elem_of_app, IH. split.
    + intros [Hk|(j & -> & Hj)].
      * destruct (Z.eqb_spec x v) as [->|]; [|by apply elem_of_nil in Hk].
        apply list_elem_of_singleton in Hk as ->. exists 0%nat. split; [lia|done].
      * exists (S j). split; [lia|done].
    + intros ([|j] & -> & Hj); simpl in Hj.
      * injection Hj as ->. left. rewrite Z.eqb_refl, Nat.add_0_r. by left.
      * right. exists j. split; [lia|done].
Qed.

Lemma where_eq_from_sorted i col v : StronglySorted lt (where_eq_from i col v).
Proof.
  revert i. induction col as [|x col IH]; intros i; simpl; [constructor|].
  apply StronglySorted_app_2; [|destruct (x =? v); repeat constructor|apply IH].
  intros k1 k2 Hk1 (j & -> & _)%elem_of_where_eq_from.
  destruct (x =? v); [|by apply elem_of_nil in Hk1].
  apply list_elem_of_singleton in Hk1 as ->. lia.
Qed.

Lemma elem_of_where_eq col v k : k ∈ where_eq col v ↔ col !! k = Some v.
Proof.
  unfold where_eq. rewrite elem_of_where_eq_from. split.
  - by intros (j & -> & ?).
  - intros ?. by exists k.
Qed.

Lemma take_nat_total (a : list Z) q :
  (∀ k, k ∈ q → (k < length a)%nat) → ∃ out, take_nat a q = Ok out.
Proof.
  induction q as [|k q IH]; intros Hq; [by eexists|].
  unfold take_nat. simpl.
  destruct (lookup_lt_is_Some_2 a k) as [x Hx]; [apply Hq; by left|].
  destruct IH as [out Hout]; [intros; apply Hq; by right|].
  rewrite (proj2 (py_getitem_Ok a k x) Hx). simpl.
  change (mapM (py_getitem a) q) with (take_nat a q). rewrite Hout. simpl. by eexists.
Qed.

(** The error check passes exactly when every band agrees. *)
Lemma check_bands_Ok nums meds_list :
  (∀ meds, meds ∈ meds_list → Meds.number meds = nums) →
  for_each (check_band nums) meds_list tt = Ok tt.
Proof.
  unfold check_band, array_equal.
  induction meds_list as [|meds l IH]; intros Hall; simpl; [done|].
  rewrite bool_decide_true by (apply Hall; by left). simpl.
  apply IH. intros; apply Hall; by right.
Qed.

Lemma check_bands_mismatch nums meds_list band meds :
  meds_list !! band = Some meds → Meds.number meds ≠ nums →
  for_each (check_band nums) meds_list tt = Raise AssertionError.
Proof.
  unfold check_band, array_equal.
  revert band. induction meds_list as [|m l IH]; intros band; [done|].
  simpl. destruct band as [|band]; simpl.
  - intros [= ->] Hne. by rewrite bool_decide_false.
  - intros Hb Hne. destruct (bool_decide (Meds.number m = nums)); simpl; [|done].
    by eapply IH.
Qed.

Lemma dict_step_empty data meds_list d g :
  where_eq (fofid <$> data) g = [] →
  dict_step data meds_list d g = Raise AssertionError.
Proof. intros Hq. unfold dict_step. by rewrite Hq. Qed.

Lemma dict_step_Ok data meds_list meds0 d g :
  meds_list !! 0%nat = Some meds0 →
  Meds.number meds0 = fof_number <$> data →
  g ∈ fofid <$> data →
  dict_step data meds_list d g = Ok (<[g := where_eq (fofid <$> data) g]> d).
Proof.
  intros Hm Hnum Hg. unfold dict_step.
  apply list_elem_of_lookup in Hg as [k Hk].
  assert (k ∈ where_eq (fofid <$> data) g) as Hin by by apply elem_of_where_eq.
  assert ((0 <? length (where_eq (fofid <$> data) g))%nat = true) as ->.
  { destruct (where_eq (fofid <$> data) g); [by apply elem_of_nil in Hin|done]. }
  destruct (take_nat_total (fof_number <$> data) (where_eq (fofid <$> data) g))
    as [fq Hfq].
  { intros j Hj%elem_of_where_eq. apply lookup_lt_Some in Hj.
    by rewrite !length_fmap in *. }
  change (py_assert true) with (Ok tt). rewrite bind_of_Ok, Hfq, bind_of_Ok.
  rewrite (proj2 (py_getitem_Ok meds_list 0 meds0) Hm), bind_of_Ok.
  rewrite Hnum, Hfq, bind_of_Ok.
  unfold array_equal. rewrite bool_decide_true by done. done.
Qed.

Lemma dict_loop_Ok data meds_list meds0 gs d :
  meds_list !! 0%nat = Some meds0 →
  Meds.number meds0 = fof_number <$> data →
  (∀ g, g ∈ gs → g ∈ fofid <$> data) →
  ∃ d', for_each (dict_step data meds_list) gs d = Ok d'
        ∧ ∀ g, d' !! g = if decide (g ∈ gs)
                         then Some (where_eq (fofid <$> data) g) else d !! g.
Proof.
  intros Hm Hnum. revert d. induction gs as [|g0 gs IH]; intros d Hgs; simpl.
  - by exists d.
  - rewrite (dict_step_Ok _ _ _ _ _ Hm Hnum) by (apply Hgs; by left). simpl.
    destruct (IH (<[g0 := where_eq (fofid <$> data) g0]> d)) as (d' & Hd' & Hl).
    { intros; apply Hgs; by right. }
    exists d'. split; [done|]. intros g. rewrite Hl.
    destruct (decide (g ∈ gs)) as [Hin|Hnin].
    + rewrite decide_True by (by right). done.
    + destruct (decide (g = g0)) as [->|Hne].
      * rewrite decide_True by (by left). by rewrite lookup_insert_eq.
      * rewrite decide_False by (intros [?|?]%elem_of_cons; done).
        by rewrite lookup_insert_ne.
Qed.

Lemma list_step_Ok acc a :
  length acc = a → list_step acc (Z.of_nat a) = Ok (acc ++ [[Z.of_nat a]]).
Proof.
  intros Hlen. unfold list_step, np_index.
  rewrite length_app, Hlen. simpl.
  destruct (Z.ltb_spec (Z.of_nat a) 0); [lia|].
  destruct (Z.leb_spec 0 (Z.of_nat a)); [|lia].
  destruct (Z.ltb_spec (Z.of_nat a) (Z.of_nat (a + 1))); [|lia]. simpl.
  rewrite Nat2Z.id, lookup_app_r by lia.
  rewrite Hlen, Nat.sub_diag. simpl. by rewrite Z.eqb_refl.
Qed.

Lemma list_loop_Ok a m acc :
  length acc = a →
  for_each list_step (Z.of_nat <$> seq a m) acc
  = Ok (acc ++ ((fun i => [Z.of_nat i]) <$> seq a m)).
Proof.
  revert a acc. induction m as [|m IH]; intros a acc Hlen.
  - simpl. by rewrite app_nil_r.
  - rewrite <- cons_seq, !fmap_cons, for_each_cons.
    rewrite list_step_Ok, bind_of_Ok by done.
    rewrite IH by (rewrite length_app; simpl; lia).
    by rewrite <- app_assoc.
Qed.

End IndexFacts.

Section IndexClaims.
Import Index.

Lemma seq_sorted a n : StronglySorted lt (seq a n).
Proof.
  revert a. induction n as [|n IH]; intros a; simpl; constructor; [apply IH|].
  apply Forall_forall. intros k Hk%elem_of_seq. lia.
Qed.

Lemma row_ids_sorted n : StronglySorted Z.lt (Z.of_nat <$> seq 0 n).
Proof.
  apply (StronglySorted_fmap _ lt); [|apply seq_sorted]. intros; lia.
Qed.

(** The table made up when no group table is given. *)
Lemma default_table_columns (nums : list Z) :
  fof_number <$> imap (fun i n => {| fofid := Z.of_nat i; fof_number := n |}) nums = nums
  ∧ fofid <$> imap (fun i n => {| fofid := Z.of_nat i; fof_number := n |}) nums
    = Z.of_nat <$> seq 0 (length nums).
Proof.
  split.
  - apply list_eq. intros i. rewrite list_lookup_fmap, list_lookup_imap.
    by destruct (nums !! i).
  - apply list_eq. intros i.
    rewrite !list_lookup_fmap, list_lookup_imap.
    destruct (nums !! i) as [x|] eqn:Hx; simpl.
    + apply lookup_lt_Some in Hx. by rewrite lookup_seq_lt.
    + apply lookup_ge_None in Hx. by rewrite lookup_seq_ge.
Qed.

(** C4.  With a group table: a band whose [number] column differs from the
    table's stops the construction with an assertion failure, and so does a
    group id with no row.  When no band differs (and there is a band), the
    manager returns the distinct group ids in ascending order, and for each
    the rows whose [fofid] is that id, in ascending order and not empty.
    Without a table (and with bands that agree with the first), every row
    index is a group id of its own, and its group is that row alone. *)
Theorem index_lookups_spec :
  (∀ data meds_list band meds,
     meds_list !! band = Some meds →
     Meds.number meds ≠ fof_number <$> data →
     _set_and_check_index_lookups (Some data) meds_list = Raise AssertionError)
  ∧ (∀ data meds_list d g,
       where_eq (fofid <$> data) g = [] →
       dict_step data meds_list d g = Raise AssertionError)
  ∧ (∀ data meds_list,
       meds_list ≠ [] →
       (∀ meds, meds ∈ meds_list → Meds.number meds = fof_number <$> data) →
       ∃ ix d,
         _set_and_check_index_lookups (Some data) meds_list = Ok ix
         ∧ fof_data ix = data
         ∧ StronglySorted Z.lt (fofids ix)
         ∧ (∀ g, g ∈ fofids ix ↔ g ∈ fofid <$> data)
         ∧ num_fofs ix = length (fofids ix)
         ∧ fofid2mindex ix = FofDict d
         ∧ ∀ g, g ∈ fofids ix →
             ∃ q, d !! g = Some q
                  ∧ members ix g = Ok (Z.of_nat <$> q)
                  ∧ q ≠ []
                  ∧ StronglySorted lt q
                  ∧ ∀ k, k ∈ q ↔ (fofid <$> data) !! k = Some g)
  ∧ (∀ meds0 rest,
       (∀ meds, meds ∈ rest → Meds.number meds = Meds.number meds0) →
       ∃ ix,
         _set_and_check_index_lookups None (meds0 :: rest) = Ok ix
         ∧ fofids ix = Z.of_nat <$> seq 0 (length (Meds.number meds0))
         ∧ num_fofs ix = length (Meds.number meds0)
         ∧ fofid2mindex ix
           = FofList ((fun i => [Z.of_nat i]) <$> seq 0 (length (Meds.number meds0)))
         ∧ ∀ i, (i < length (Meds.number meds0))%nat →
             members ix (Z.of_nat i) = Ok [Z.of_nat i]).
Proof.
  split_and!.
  - intros data meds_list band meds Hb Hne.
    unfold _set_and_check_index_lookups. rewrite bind_of_Ok.
    by rewrite (check_bands_mismatch _ _ _ _ Hb Hne).
  - apply dict_step_empty.
  - intros data meds_list Hne Hall.
    destruct meds_list as [|meds0 rest]; [done|].
    destruct (dict_loop_Ok data (meds0 :: rest) meds0
                (np_unique (fofid <$> data)) ∅ eq_refl) as (d & Hd & Hl).
    { apply Hall. by left. }
    { intros g. by rewrite elem_of_np_unique. }
    eexists _, d. unfold _set_and_check_index_lookups.
    rewrite bind_of_Ok, (check_bands_Ok _ _ Hall), bind_of_Ok.
    rewrite fofids_of_column, Hd. simpl.
    split_and!; [done|done|apply np_unique_sorted| |done|done|].
    + intros g. apply elem_of_np_unique.
    + intros g Hg. simpl in Hg. exists (where_eq (fofid <$> data) g).
      assert (d !! g = Some (where_eq (fofid <$> data) g)) as Hdg.
      { rewrite Hl. by rewrite decide_True. }
      unfold members. simpl. rewrite Hdg.
      split_and!; [done|done| |apply where_eq_from_sorted|].
      * apply (proj1 (elem_of_np_unique _ _)) in Hg.
        apply list_elem_of_lookup in Hg as [k Hk].
        apply (proj2 (elem_of_where_eq _ _ _)) in Hk. intros E. rewrite E in Hk.
        by apply elem_of_nil in Hk.
      * intros k. apply elem_of_where_eq.
  - intros meds0 rest Hall.
    destruct (default_table_columns (Meds.number meds0)) as (Hnum & Hcol).
    eexists. unfold _set_and_check_index_lookups.
    change (py_getitem (meds0 :: rest) 0) with (Ok meds0).
    rewrite !bind_of_Ok. rewrite Hnum, Hcol.
    rewrite check_bands_Ok; cycle 1.
    { intros meds [->|Hm]%elem_of_cons; [done|by apply Hall]. }
    rewrite bind_of_Ok.
    rewrite (np_unique_of_sorted _ (row_ids_sorted _)).
    rewrite (np_sort_of_sorted _ (row_ids_sorted _)).
    rewrite list_loop_Ok by done. simpl.
    split_and!; [done|done|by rewrite length_fmap, length_seq|done|].
    intros i Hi. unfold members, np_index. simpl.
    rewrite length_fmap, length_seq.
    destruct (Z.ltb_spec (Z.of_nat i) 0); [lia|].
    destruct (Z.leb_spec 0 (Z.of_nat i)); [|lia].
    destruct (Z.ltb_spec (Z.of_nat i) (Z.of_nat (length (Meds.number meds0)))); [|lia].
    simpl. rewrite Nat2Z.id, list_lookup_fmap, lookup_seq_lt by done. done.
Qed.

End IndexClaims.

(** ** Weight nulling *)

Section WhereFacts.
Context {A : Type} (p : A → bool).

Lemma elem_of_where_row i j0 row ij :
  ij ∈ Array2.where_row p i j0 row
  ↔ ∃ j x, ij = (i, (j0 + j)%nat) ∧ row !! j = Some x ∧ p x = true.
Proof.
  revert j0. induction row as [|y row IH]; intros j0; simpl.
  - split; [by intros ?%elem_of_nil|]. by intros (? & ? & _ & ? & _).
  - rewrite elem_of_app, IH. split.
    + intros [Hin|(j & x & -> & Hj & Hp)].
      * destruct (p y) eqn:Hy; [|by apply elem_of_nil in Hin].
        apply list_elem_of_singleton in Hin as ->.
        exists 0%nat, y. by rewrite Nat.add_0_r.
      * exists (S j), x. split_and!; [f_equal; lia|done..].
    + intros ([|j] & x & -> & Hj & Hp); simpl in Hj.
      * injection Hj as ->. left. rewrite Hp, Nat.add_0_r. by left.
      * right. exists j, x. split_and!; [f_equal; lia|done..].
Qed.

Lemma elem_of_where_from i0 a ij :
  ij ∈ Array2.where_from p i0 a
  ↔ ∃ i x, ij.1 = (i0 + i)%nat ∧ Array2.getitem a i ij.2 = Some x ∧ p x = true.
Proof.
  revert i0. induction a as [|row a IH]; intros i0; simpl.
  - split; [by intros ?%elem_of_nil|]. by intros (? & ? & _ & ? & _).
  - rewrite elem_of_app, IH, elem_of_where_row. split.
    + intros [(j & x & -> & Hj & Hp)|(i & x & Hi & Hx & Hp)].
      * exists 0%nat, x. simpl. split_and!; [lia|done..].
      * exists (S i), x. split_and!; [lia|done..].
    + intros ([|i] & x & Hi & Hx & Hp).
      * left. exists ij.2, x. destruct ij as [i' j']. simpl in *.
        split_and!; [f_equal; lia|done..].
      * right. exists i, x. split_and!; [lia|done..].
Qed.

Lemma elem_of_where_ a i j :
  (i, j) ∈ Array2.where_ p a ↔ ∃ x, Array2.getitem a i j = Some x ∧ p x = true.
Proof.
  unfold Array2.where_. rewrite elem_of_where_from. simpl. split.
  - intros (i' & x & -> & ? & ?). eauto.
  - intros (x & ? & ?). exists i, x. done.
Qed.

End WhereFacts.

Section PropagateFacts.
Context `{PixelMap}.
Import Propagate.

Lemma getitem_zip {A B} (a : list (list A)) (b : list (list B)) i j :
  Array2.getitem (zip_with zip a b) i j
  = match Array2.getitem a i j, Array2.getitem b i j with
    | Some x, Some y => Some (x, y)
    | _, _ => None
    end.
Proof.
  unfold Array2.getitem. rewrite lookup_zip_with.
  destruct (a !! i) as [ra|]; simpl; [|done].
  destruct (b !! i) as [rb|]; simpl; [|by destruct (ra !! j)].
  rewrite lookup_zip_with.
  destruct (ra !! j); simpl; [|done]. by destruct (rb !! j).
Qed.

Lemma masked_pixels_spec bmaski seg q :
  masked_pixels bmaski seg = Ok q →
  ∀ i j, (i, j) ∈ q ↔ hit bmaski seg i j = true.
Proof.
  unfold masked_pixels. case_bool_decide; [|done]. intros [= <-] i j.
  rewrite elem_of_where_, getitem_zip. unfold hit.
  destruct (Array2.getitem bmaski i j) as [b|], (Array2.getitem seg i j) as [s|];
    split; try done; try (by intros (? & ? & _)).
  - by intros (? & [= <-] & ?).
  - intros ?. by eexists.
Qed.

Lemma zero_at_fold q (w : list (list float)) i j :
  Array2.getitem
    (fold_left (fun w p => Array2.setitem w p.1 p.2 0%float) q w) i j
  = if decide ((i, j) ∈ q ∧ is_Some (Array2.getitem w i j))
    then Some 0%float else Array2.getitem w i j.
Proof.
  revert w. induction q as [|[i0 j0] q IH]; intros w; cbn [fold_left].
  - rewrite decide_False; [done|]. by intros [?%elem_of_nil _].
  - rewrite IH. cbn [fst snd].
    rewrite (decide_ext _ ((i, j) ∈ q ∧ is_Some (Array2.getitem w i j)))
      by (by rewrite getitem_setitem_is_Some).
    rewrite getitem_setitem.
    destruct (decide ((i, j) ∈ q ∧ is_Some (Array2.getitem w i j))) as [[Hin Hs]|Hn].
    + rewrite decide_True; [done|]. split; [by right|done].
    + destruct (decide (i0 = i ∧ j0 = j ∧ is_Some (Array2.getitem w i0 j0)))
        as [(-> & -> & Hs)|Hn'].
      * rewrite decide_True; [done|]. split; [by left|done].
      * rewrite decide_False; [done|].
        intros [[[= -> ->]|Hin]%elem_of_cons Hs]; tauto.
Qed.

Lemma zero_at_spec q (w w' : list (list float)) :
  zero_at q w = Ok w' →
  ∀ i j, Array2.getitem w' i j
         = if decide ((i, j) ∈ q) then Some 0%float else Array2.getitem w i j.
Proof.
  unfold zero_at.
  destruct (forallb _ q) eqn:Hall; [|done]. intros [= <-] i j.
  rewrite zero_at_fold.
  destruct (decide ((i, j) ∈ q)) as [Hin|Hn].
  - rewrite decide_True; [done|]. split; [done|].
    rewrite forallb_forall in Hall. apply list_elem_of_In in Hin.
    specialize (Hall _ Hin). simpl in Hall. by apply bool_decide_eq_true in Hall.
  - rewrite decide_False; [done|]. tauto.
Qed.

(** With [weight_us] set to [None] the assignments never get past it: an
    exception is raised and [obs.weight] is as before. *)
Lemma zero_weights_us_none q b :
  Obs.weight_us b = PyNone →
  ∃ b' e, zero_weights q b = (b', Some e) ∧ Obs.weight b' = Obs.weight b
          ∧ Obs.weight_us b' = PyNone.
Proof.
  intros Hus. unfold zero_weights.
  destruct (zero_attr q (Obs.weight_raw b)) as [w_raw|e]; [|by eexists _, _].
  simpl. rewrite Hus. simpl. by eexists _, _.
Qed.

End PropagateFacts.

Section PropagateClaims.
Context `{PixelMap}.
Import Propagate.

Lemma zero_at_zeroed bmaski seg q w w' :
  (∀ i j, (i, j) ∈ q ↔ hit bmaski seg i j = true) →
  zero_at q w = Ok w' → zeroed bmaski seg w w'.
Proof.
  intros Hq Hz i j. rewrite (zero_at_spec _ _ _ Hz).
  destruct (hit bmaski seg i j) eqn:Hh.
  - rewrite decide_True; [done|]. by apply Hq.
  - rewrite decide_False; [done|]. rewrite Hq. congruence.
Qed.

Lemma zero_attr_zeroed bmaski seg q a a' :
  (∀ i j, (i, j) ∈ q ↔ hit bmaski seg i j = true) →
  zero_attr q a = Ok a' → zeroed_attr bmaski seg a a'.
Proof.
  intros Hq. destruct a as [| |w]; simpl; [by intros [= <-]|done|].
  intros Hz. inv_ok. by eapply zero_at_zeroed.
Qed.

Lemma zeroed_refl bmaski seg w :
  (∀ i j, hit bmaski seg i j = false) → zeroed bmaski seg w w.
Proof. intros Hn i j. by rewrite Hn. Qed.

Lemma zeroed_attr_refl bmaski seg a :
  (∀ i j, hit bmaski seg i j = false) → zeroed_attr bmaski seg a a.
Proof. intros Hn. destruct a; simpl; [done..|]. by apply zeroed_refl. Qed.

Lemma zero_weights_zeroed bmaski seg q b b' :
  (∀ i j, (i, j) ∈ q ↔ hit bmaski seg i j = true) →
  zero_weights q b = (b', None) →
  Obs.image b' = Obs.image b
  ∧ Obs.seg b' = Obs.seg b
  ∧ Obs.image_orig b' = Obs.image_orig b
  ∧ Obs.jacobian b' = Obs.jacobian b
  ∧ Obs.psf b' = Obs.psf b
  ∧ Obs.filename b' = Obs.filename b
  ∧ zeroed bmaski seg (Obs.weight b) (Obs.weight b')
  ∧ zeroed_attr bmaski seg (Obs.weight_raw b) (Obs.weight_raw b')
  ∧ zeroed_attr bmaski seg (Obs.weight_us b) (Obs.weight_us b')
  ∧ zeroed_attr bmaski seg (Obs.weight_orig b) (Obs.weight_orig b').
Proof.
  intros Hq. unfold zero_weights.
  destruct (zero_attr q (Obs.weight_raw b)) as [w_raw|] eqn:Hraw; [|done].
  simpl.
  destruct (zero_attr q (Obs.weight_us b)) as [w_us|] eqn:Hus; [|done].
  simpl.
  destruct (zero_at q (Obs.weight b)) as [w|] eqn:Hw; [|done].
  simpl.
  destruct (zero_attr q (Obs.weight_orig b)) as [w_orig|] eqn:Horig; [|done].
  intros [= <-]. simpl.
  split_and!; [done..| | | |];
    eauto using zero_at_zeroed, zero_attr_zeroed.
Qed.

(** X1.  The step for one usable Observation, when it raises nothing: the
    image, the segmentation map and the meta data are as before, and
    [weight] and each of [weight_raw], [weight_us], [weight_orig] that is set
    is 0 exactly at the pixels where the dilated resampled mask is nonzero
    and the segmentation map is 0, and unchanged at every other pixel. *)
Theorem prop_obs_zeroes_masked_background m mindex bmask obs obs' bmaski seg :
  Obs.flags obs = 0 →
  dilated_mask m mindex bmask (Meta.icut (Obs.meta obs)) = Ok bmaski →
  Obs.seg (Obs.attrs obs) = Val seg →
  prop_obs m mindex bmask obs = (obs', None) →
  Obs.meta obs' = Obs.meta obs
  ∧ Obs.image (Obs.attrs obs') = Obs.image (Obs.attrs obs)
  ∧ Obs.seg (Obs.attrs obs') = Obs.seg (Obs.attrs obs)
  ∧ zeroed bmaski seg (Obs.weight (Obs.attrs obs)) (Obs.weight (Obs.attrs obs'))
  ∧ zeroed_attr bmaski seg (Obs.weight_raw (Obs.attrs obs))
      (Obs.weight_raw (Obs.attrs obs'))
  ∧ zeroed_attr bmaski seg (Obs.weight_us (Obs.attrs obs))
      (Obs.weight_us (Obs.attrs obs'))
  ∧ zeroed_attr bmaski seg (Obs.weight_orig (Obs.attrs obs))
      (Obs.weight_orig (Obs.attrs obs')).
Proof.
  intros Hf Hmask Hseg. unfold prop_obs. rewrite decide_True by done.
  rewrite Hmask, bind_of_Ok. unfold get_seg. rewrite Hseg, bind_of_Ok.
  destruct (masked_pixels bmaski seg) as [q|] eqn:Hq; [|done].
  pose proof (masked_pixels_spec _ _ _ Hq) as Hhit.
  destruct (Nat.ltb_spec 0 (length q)) as [Hlen|Hlen].
  - destruct (zero_weights q (Obs.attrs obs)) as [b' e] eqn:Hz.
    intros [= <- ->]. simpl.
    destruct (zero_weights_zeroed _ _ _ _ _ Hhit Hz)
      as (? & ? & _ & _ & _ & _ & ? & ? & ? & ?).
    split_and!; try done. congruence.
  - intros [= <-].
    assert (∀ i j, hit bmaski seg i j = false) as Hn.
    { intros i j. destruct (hit bmaski seg i j) eqn:Hh; [|done].
      apply Hhit in Hh. destruct q; [by apply elem_of_nil in Hh|simpl in Hlen; lia]. }
    split_and!; [done..| | | |];
      eauto using zeroed_refl, zeroed_attr_refl.
Qed.

(** The step for a usable Observation whose [weight_us] is [None], with a
    masked background pixel: an exception is raised, and [obs.weight] is
    left as it was. *)
Lemma prop_obs_weight_us_none m mindex bmask obs bmaski seg q :
  Obs.flags obs = 0 →
  Obs.weight_us (Obs.attrs obs) = PyNone →
  dilated_mask m mindex bmask (Meta.icut (Obs.meta obs)) = Ok bmaski →
  Obs.seg (Obs.attrs obs) = Val seg →
  masked_pixels bmaski seg = Ok q →
  q ≠ [] →
  ∃ obs' e, prop_obs m mindex bmask obs = (obs', Some e)
            ∧ Obs.weight (Obs.attrs obs') = Obs.weight (Obs.attrs obs).
Proof.
  intros Hf Hus Hmask Hseg Hq Hne. unfold prop_obs. rewrite decide_True by done.
  rewrite Hmask, bind_of_Ok. unfold get_seg. rewrite Hseg, bind_of_Ok, Hq.
  destruct q as [|p q]; [done|]. simpl.
  destruct (zero_weights_us_none (p :: q) _ Hus) as (b' & e & -> & Hw & _).
  by eexists _, _.
Qed.

End PropagateClaims.

(** C2, at an input where the code departs from it.  The first object of the
    group of two is built with the region ["weight"], so that [weight_us] is
    [None]; the corner pixel is masked and is background.  [weight_raw] is
    nulled there, then the assignment to [weight_us] raises a [TypeError],
    and [weight] keeps its value 1 at the corner. *)
Lemma prop_extra_bitmasks_stops_at_weight_us_none :
  ∃ mb obs obs',
    Demo.first_mb 0 = Some mb
    ∧ MultiBand.bands mb = [[obs]]
    ∧ Obs.flags obs = 0
    ∧ Obs.weight_us (Obs.attrs obs) = PyNone
    ∧ Obs.seg (Obs.attrs obs) = Val [[0; 1]; [1; 1]]
    ∧ Propagate.dilated_mask (H := Demo.pixel_identity)
        (Demo.meds_of 2 2 (Demo.two_images 0 0)) 0 Demo.corner_mask 1
      = Ok [[1; 1]; [1; 1]]
    ∧ Propagate._prop_extra_bitmasks (H := Demo.pixel_identity)
        (Demo.self_pair 0) [Demo.corner_mask] mb
      = ({| MultiBand.bands := [[obs']]; MultiBand.meta := MultiBand.meta mb |},
         Some TypeError)
    ∧ Obs.weight_raw (Obs.attrs obs') = Val [[0; 1]; [1; 1]]%float
    ∧ Obs.weight (Obs.attrs obs') = [[1; 1]; [1; 1]]%float.
Proof.
  eexists _, _, _. split; [vm_compute; reflexivity|].
  split; [reflexivity|]. vm_compute. split_and!; reflexivity.
Qed.

(** Three rows in two groups, and two bands that agree with the table. *)
Lemma index_lookups_spec_witness :
  ∃ ix d,
    Index._set_and_check_index_lookups (Some Demo.three_rows)
      [Demo.three_objects; Demo.three_objects] = Ok ix
    ∧ Index.fofids ix = [3; 7]
    ∧ Index.fofid2mindex ix = Index.FofDict d
    ∧ d !! 3 = Some [1%nat]
    ∧ d !! 7 = Some [0%nat; 2%nat]
    ∧ Index.members ix 7 = Ok [0; 2].
Proof.
  destruct (proj1 (proj2 (proj2 index_lookups_spec)) Demo.three_rows
              [Demo.three_objects; Demo.three_objects])
    as (ix & d & Hix & _ & _ & _ & _ & Hd & _).
  { discriminate. }
  { intros meds [->|[->|[]%elem_of_nil]%elem_of_cons]%elem_of_cons; reflexivity. }
  exists ix, d. split; [exact Hix|].
  vm_compute in Hix. injection Hix as <-.
  injection Hd as <-. vm_compute. split_and!; reflexivity.
Defined.

Example index_mismatch_aborts :
  Index._set_and_check_index_lookups (Some Demo.three_rows)
    [Demo.three_objects; Demo.meds_of 2 2 (Demo.two_images 0 0)]
  = Raise AssertionError.
Proof. vm_compute. reflexivity. Qed.

Example index_without_table :
  Index._set_and_check_index_lookups None [Demo.three_objects; Demo.three_objects]
  = Ok {| Index.fof_data :=
            [ {| Index.fofid := 0; Index.fof_number := 1 |};
              {| Index.fofid := 1; Index.fof_number := 2 |};
              {| Index.fofid := 2; Index.fof_number := 3 |} ];
          Index.fofids := [0; 1; 2];
          Index.num_fofs := 3;
          Index.fofid2mindex := Index.FofList [[0]; [1]; [2]] |}.
Proof. vm_compute. reflexivity. Qed.

(** The single epoch of an object built with the region ["mof"], which
    carries [weight_us]: the corner pixel is masked and is background, and
    every weight grid is 0 there and 1 elsewhere. *)
Lemma prop_obs_zeroes_masked_background_witness :
  match Demo.single_epoch true "mof" with
  | Some obs =>
      ∃ obs',
        Propagate.prop_obs (H := Demo.pixel_identity)
          (Demo.meds_of 1 2 (Demo.two_images 0 0)) 0 Demo.corner_mask obs
        = (obs', None)
        ∧ Obs.image (Obs.attrs obs') = Obs.image (Obs.attrs obs)
        ∧ Propagate.zeroed [[1; 1]; [1; 1]] [[0; 1]; [1; 1]]
            (Obs.weight (Obs.attrs obs)) (Obs.weight (Obs.attrs obs'))
        ∧ Obs.weight (Obs.attrs obs') = [[0; 1]; [1; 1]]%float
        ∧ Obs.weight_raw (Obs.attrs obs') = Val [[0; 1]; [1; 1]]%float
        ∧ Obs.weight_us (Obs.attrs obs') = Val [[0; 1]; [1; 1]]%float
  | None => False
  end.
Proof.
  destruct (Demo.single_epoch true "mof") as [obs|] eqn:Hobs;
    [|vm_compute in Hobs; discriminate Hobs].
  destruct (Propagate.prop_obs (H := Demo.pixel_identity)
              (Demo.meds_of 1 2 (Demo.two_images 0 0)) 0 Demo.corner_mask obs)
    as [obs' e] eqn:Hp.
  assert (Hf : Obs.flags obs = 0).
  { vm_compute in Hobs. injection Hobs as <-. reflexivity. }
  assert (Hmask : Propagate.dilated_mask (H := Demo.pixel_identity)
                    (Demo.meds_of 1 2 (Demo.two_images 0 0)) 0 Demo.corner_mask
                    (Meta.icut (Obs.meta obs)) = Ok [[1; 1]; [1; 1]]).
  { vm_compute in Hobs. injection Hobs as <-. vm_compute. reflexivity. }
  assert (Hseg : Obs.seg (Obs.attrs obs) = Val [[0; 1]; [1; 1]]).
  { vm_compute in Hobs. injection Hobs as <-. reflexivity. }
  assert (He : e = None).
  { vm_compute in Hobs. injection Hobs as <-.
    vm_compute in Hp. by injection Hp as _ <-. }
  subst e.
  destruct (prop_obs_zeroes_masked_background (H := Demo.pixel_identity)
              (Demo.meds_of 1 2 (Demo.two_images 0 0)) 0%nat Demo.corner_mask
              obs obs' [[1; 1]; [1; 1]] [[0; 1]; [1; 1]] Hf Hmask Hseg Hp)
    as (_ & Him & _ & Hw & _).
  exists obs'. split; [reflexivity|]. split; [exact Him|]. split; [exact Hw|].
  vm_compute in Hobs. injection Hobs as <-.
  vm_compute in Hp. injection Hp as <-.
  split_and!; reflexivity.
Defined.

(** ** Resampling with identity coordinates *)

Section InterpFacts.
Context `{PixelMap}.
Import Interp.

(** The row lengths of an array. *)
Lemma setitem_row_lengths {A} (a : list (list A)) i j v :
  length <$> Array2.setitem a i j v = length <$> a.
Proof.
  unfold Array2.setitem. apply list_eq. intros k.
  rewrite !list_lookup_fmap, list_lookup_alter.
  destruct (decide (i = k)) as [->|]; [|done].
  destruct (a !! k); simpl; [|done]. by rewrite length_insert.
Qed.

Lemma array2_ext {A} (a b : list (list A)) :
  length <$> a = length <$> b →
  (∀ i j, Array2.getitem a i j = Array2.getitem b i j) →
  a = b.
Proof.
  intros Hdims Hget. apply list_eq. intros i.
  assert ((length <$> a) !! i = (length <$> b) !! i) as Hi by by rewrite Hdims.
  rewrite !list_lookup_fmap in Hi. specialize (Hget i). unfold Array2.getitem in Hget.
  destruct (a !! i) as [ra|], (b !! i) as [rb|]; simpl in *; try done.
  f_equal. by apply list_eq.
Qed.

Lemma getitem_map {A B} (f : A → B) (a : list (list A)) i j :
  Array2.getitem (Array2.map f a) i j = f <$> Array2.getitem a i j.
Proof.
  unfold Array2.getitem, Array2.map. rewrite list_lookup_fmap.
  destruct (a !! i); simpl; [|done]. by rewrite list_lookup_fmap.
Qed.

Lemma getitem_coords {A B} (g : nat → nat → B) (a : list (list A)) i j :
  Array2.getitem (imap (fun r row => imap (fun c _ => g r c) row) a) i j
  = (fun _ => g i j) <$> Array2.getitem a i j.
Proof.
  unfold Array2.getitem. rewrite list_lookup_imap.
  destruct (a !! i); simpl; [|done]. by rewrite list_lookup_imap.
Qed.

(** A pixel of a rectangular image lies within its shape. *)
Lemma getitem_in_shape {A} (a : list (list A)) n i j :
  Forall (fun row => length row = n) a →
  is_Some (Array2.getitem a i j) →
  (i < (Array2.shape a).1)%nat ∧ (j < (Array2.shape a).2)%nat.
Proof.
  intros Hrect [x Hx]. unfold Array2.getitem in Hx.
  destruct (a !! i) as [row|] eqn:Hrow; simpl in Hx; [|done].
  apply lookup_lt_Some in Hx. apply lookup_lt_Some in Hrow as Hi.
  unfold Array2.shape. simpl. split; [done|].
  destruct a as [|r0 a]; [simpl in Hi; lia|]. simpl.
  apply Forall_cons in Hrect as [Hr0 Hrest].
  assert (Forall (fun row => length row = n) (r0 :: a)) as Hall by by constructor.
  pose proof (Forall_lookup_1 _ _ _ _ Hall Hrow) as Hn. simpl in Hn.
  lia.
Qed.

Lemma clip_in_range n (k : nat) : (k < n)%nat → Z.to_nat (clip n (Z.of_nat k)) = k.
Proof. intros Hk. unfold clip. lia. Qed.

(** Filling good pixels whose source is the pixel itself copies them. *)
Lemma fill_identity_fold im1 n rc q z i j :
  Forall (fun row => length row = n) im1 →
  (∀ p, p ∈ q → is_Some (Array2.getitem im1 p.1 p.2)
               ∧ rc p.1 p.2 = (Z.of_nat p.1, Z.of_nat p.2)) →
  Array2.getitem (fold_left (fill im1 rc) q z) i j
  = if decide ((i, j) ∈ q ∧ is_Some (Array2.getitem z i j))
    then Array2.getitem im1 i j else Array2.getitem z i j.
Proof.
  intros Hrect. revert z. induction q as [|[i0 j0] q IH]; intros z Hq; cbn [fold_left].
  - rewrite decide_False; [done|]. by intros [?%elem_of_nil _].
  - destruct (Hq (i0, j0) ltac:(by left)) as ([v Hv] & Hrc). simpl in Hv, Hrc.
    destruct (getitem_in_shape _ _ _ _ Hrect (mk_is_Some _ _ Hv)) as (Hi0 & Hj0).
    assert (fill im1 rc z (i0, j0) = Array2.setitem z i0 j0 v) as ->.
    { unfold fill. cbn [fst snd]. rewrite Hrc. cbn [fst snd].
      rewrite !clip_in_range by done. by rewrite Hv. }
    rewrite IH by (intros; apply Hq; by right).
    rewrite (decide_ext _ ((i, j) ∈ q ∧ is_Some (Array2.getitem z i j)))
      by (by rewrite getitem_setitem_is_Some).
    rewrite getitem_setitem.
    destruct (decide ((i, j) ∈ q ∧ is_Some (Array2.getitem z i j))) as [[Hin Hs]|Hn].
    + rewrite decide_True; [done|]. split; [by right|done].
    + destruct (decide (i0 = i ∧ j0 = j ∧ is_Some (Array2.getitem z i0 j0)))
        as [(-> & -> & Hs)|Hn'].
      * rewrite decide_True; [done|]. split; [by left|done].
      * rewrite decide_False; [done|].
        intros [[[= -> ->]|Hin]%elem_of_cons Hs]; tauto.
Qed.

Lemma fill_row_lengths im1 rc q z :
  length <$> fold_left (fill im1 rc) q z = length <$> z.
Proof.
  revert z. induction q as [|p q IH]; intros z; cbn [fold_left]; [done|].
  rewrite IH. unfold fill.
  destruct (Array2.getitem im1 _ _); [apply setitem_row_lengths|done].
Qed.

(** X2.  When the rounded source coordinates of every pixel are the pixel's
    own, [interpolate_image] returns the image it was given, and no target
    pixel is off the source.  (Whether two pixel-identical frames give such
    coordinates is a matter of the float64 arithmetic of [pixel_map].) *)
Theorem interpolate_image_identity_coordinates f1 f2 im1 n rc :
  Forall (fun row => length row = n) im1 →
  pixel_map f1 f2 (Array2.shape im1) = Ok rc →
  (∀ r c, is_Some (Array2.getitem im1 r c) → rc r c = (Z.of_nat r, Z.of_nat c)) →
  ∃ res, interpolate_image f1 im1 f2 = Ok res
         ∧ im2 res = im1
         ∧ wbad res = [].
Proof.
  intros Hrect Hmap Hid. unfold interpolate_image. rewrite Hmap, bind_of_Ok.
  eexists. split; [done|]. cbn [im2 wbad].
  set (coords := imap (fun r row => imap (fun c _ => rc r c) row) im1).
  assert (Hgood : ∀ i j, (i, j) ∈ Array2.where_ (in_image (Array2.shape im1)) coords
                         ↔ is_Some (Array2.getitem im1 i j)).
  { intros i j. rewrite elem_of_where_. unfold coords. rewrite getitem_coords. split.
    - intros (x & Hx & _). destruct (Array2.getitem im1 i j); [eauto|done].
    - intros Hs. exists (rc i j). destruct Hs as [v Hv]. rewrite Hv. split; [done|].
      rewrite Hid by eauto.
      destruct (getitem_in_shape _ _ _ _ Hrect (mk_is_Some _ _ Hv)) as (Hi & Hj).
      unfold in_image. cbn [fst snd].
      destruct (Z.leb_spec 0 (Z.of_nat i)); [|lia].
      destruct (Z.ltb_spec (Z.of_nat i) (Z.of_nat (Array2.shape im1).1)); [|lia].
      destruct (Z.leb_spec 0 (Z.of_nat j)); [|lia].
      destruct (Z.ltb_spec (Z.of_nat j) (Z.of_nat (Array2.shape im1).2)); [|lia].
      done. }
  split.
  - apply array2_ext.
    + rewrite fill_row_lengths. unfold Array2.map.
      rewrite <- list_fmap_compose. apply list_fmap_ext.
      intros i row _. simpl. by rewrite length_fmap.
    + intros i j.
      rewrite (fill_identity_fold im1 n rc _ _ i j Hrect); cycle 1.
      { intros [i' j'] Hp%Hgood. split; [done|by apply Hid]. }
      rewrite getitem_map.
      destruct (Array2.getitem im1 i j) as [v|] eqn:Hv; simpl.
      * rewrite decide_True; [done|]. split; [|eauto]. apply Hgood. by rewrite Hv.
      * rewrite decide_False; [done|]. by intros [_ [? ?]].
  - destruct (Array2.where_ (fun x => negb (in_image (Array2.shape im1) x)) coords)
      as [|[i j] l] eqn:Hbad; [reflexivity|].
    assert ((i, j) ∈ Array2.where_
              (fun x => negb (in_image (Array2.shape im1) x)) coords) as Hin.
    { rewrite Hbad. by left. }
    apply elem_of_where_ in Hin as (x & Hx & Hneg).
    assert ((i, j) ∈ Array2.where_ (in_image (Array2.shape im1)) coords) as Hg.
    { apply Hgood. unfold coords in Hx. rewrite getitem_coords in Hx.
      destruct (Array2.getitem im1 i j); [eauto|done]. }
    apply elem_of_where_ in Hg as (x' & Hx' & Hpos).
    assert (x' = x) as -> by congruence.
    by rewrite Hpos in Hneg.
Qed.

End InterpFacts.

(** A 2 x 2 mask resampled between frames that map every pixel to itself. *)
Lemma interpolate_image_identity_coordinates_witness :
  ∃ res,
    Interp.interpolate_image (H := Demo.pixel_identity)
      (Propagate.cutout_frame (Demo.meds_of 1 2 (Demo.two_images 0 0)) 0 0)
      [[1; 0]; [0; 2]]
      (Propagate.cutout_frame (Demo.meds_of 1 2 (Demo.two_images 0 0)) 0 1)
    = Ok res
    ∧ Interp.im2 res = [[1; 0]; [0; 2]]
    ∧ Interp.wbad res = [].
Proof.
  apply (interpolate_image_identity_coordinates (H := Demo.pixel_identity)
           _ _ [[1; 0]; [0; 2]] 2%nat (fun r c => (Z.of_nat r, Z.of_nat c))).
  - repeat constructor.
  - reflexivity.
  - reflexivity.
Defined.

(** ** Dilation, exactly *)

Section DilateExact.
Import Dilate DilateSpec.

Variable sh : nat * nat.
Variable m0 : list (list Z).
Hypothesis Hgrid : ∀ i j, is_Some (Array2.getitem m0 i j) ↔ (i < sh.1 ∧ j < sh.2)%nat.

Lemma fold_tracks {X} (f : state → X → state) (new : X → Z * Z → Prop) :
  (∀ st x, tracks sh m0 st →
     tracks sh m0 (f st x) ∧ ∀ q, q ∈ (f st x).2 ↔ q ∈ st.2 ∨ new x q) →
  ∀ l st, tracks sh m0 st →
    tracks sh m0 (fold_left f l st)
    ∧ ∀ q, q ∈ (fold_left f l st).2 ↔ q ∈ st.2 ∨ ∃ x, x ∈ l ∧ new x q.
Proof.
  intros Hf. induction l as [|x l IH]; intros st Hst; simpl.
  - split; [done|]. intros q. split; [by left|].
    intros [?|(x & Hx & _)]; [done|by apply elem_of_nil in Hx].
  - destruct (Hf st x Hst) as (Hst' & Hnew).
    destruct (IH _ Hst') as (Hfin & Hall). split; [done|].
    intros q. rewrite Hall, Hnew. split.
    + intros [[?|?]|(y & ? & ?)]; [by left| |].
      * right. exists x. split; [by left|done].
      * right. exists y. split; [by right|done].
    + intros [?|(y & [->|?]%elem_of_cons & ?)]; [by left; left|by left; right|].
      right. by exists y.
Qed.

Lemma visit_col_tracks iix iy st dy :
  0 ≤ iix < Z.of_nat sh.1 →
  tracks sh m0 st →
  tracks sh m0 (visit_col sh iix iy st dy)
  ∧ ∀ q, q ∈ (visit_col sh iix iy st dy).2
         ↔ q ∈ st.2 ∨ (q = (iix, iy + dy) ∧ 0 ≤ iy + dy < Z.of_nat sh.2).
Proof.
  intros Hx (Hlen & Hin & Hget). unfold visit_col.
  destruct (Z.leb_spec 0 (iy + dy)) as [H0|H0]; simpl; cycle 1.
  { split; [done|]. intros q. split; [by left|]. intros [?|[_ ?]]; [done|lia]. }
  destruct (Z.ltb_spec (iy + dy) (Z.of_nat sh.2)) as [H1|H1]; simpl; cycle 1.
  { split; [done|]. intros q. split; [by left|]. intros [?|[_ ?]]; [done|lia]. }
  assert (Hmem : ∀ q, q ∈ st.2 ++ [(iix, iy + dy)]
                      ↔ q ∈ st.2 ∨ (q = (iix, iy + dy) ∧ 0 ≤ iy + dy < Z.of_nat sh.2)).
  { intros q. rewrite elem_of_app, list_elem_of_singleton. split.
    - intros [?| ->]; [by left|]. right. split; [done|lia].
    - intros [?|[-> _]]; [by left|by right]. }
  split; [|exact Hmem].
  split_and!.
  - simpl. by rewrite setitem_row_lengths.
  - cbn [fst snd]. intros q [?|[-> _]]%Hmem; [by apply Hin|]. split; simpl; lia.
  - intros i j. cbn [fst snd]. rewrite getitem_setitem.
    assert (is_Some (Array2.getitem st.1 (Z.to_nat iix) (Z.to_nat (iy + dy)))) as Hs.
    { rewrite Hget. case_decide; [eauto|]. apply Hgrid. lia. }
    destruct (decide (Z.to_nat iix = i ∧ Z.to_nat (iy + dy) = j
                      ∧ is_Some (Array2.getitem st.1 (Z.to_nat iix) (Z.to_nat (iy + dy)))))
      as [(<- & <- & _)|Hne].
    + rewrite decide_True; [done|]. apply Hmem. right.
      split; [|lia]. f_equal; lia.
    + rewrite Hget.
      destruct (decide ((Z.of_nat i, Z.of_nat j) ∈ st.2)) as [Hi|Hi].
      * rewrite decide_True; [done|]. apply Hmem. by left.
      * rewrite decide_False; [done|]. intros [?|[E _]]%Hmem; [done|].
        injection E as E1 E2. apply Hne. split_and!; [lia|lia|done].
Qed.

Lemma elem_of_offsets d : d ∈ offsets ↔ -1 ≤ d ≤ 1.
Proof.
  unfold offsets. rewrite !elem_of_cons, elem_of_nil. lia.
Qed.

Lemma visit_row_tracks ix iy st dx :
  tracks sh m0 st →
  tracks sh m0 (visit_row sh ix iy st dx)
  ∧ ∀ q, q ∈ (visit_row sh ix iy st dx).2
         ↔ q ∈ st.2 ∨ (∃ dy, -1 ≤ dy ≤ 1 ∧ q = (ix + dx, iy + dy) ∧ in_grid sh q).
Proof.
  intros Hst. unfold visit_row.
  destruct (Z.leb_spec 0 (ix + dx)) as [H0|H0]; simpl; cycle 1.
  { split; [done|]. intros q. split; [by left|].
    intros [?|(dy & _ & -> & [? _])]; [done|simpl in *; lia]. }
  destruct (Z.ltb_spec (ix + dx) (Z.of_nat sh.1)) as [H1|H1]; simpl; cycle 1.
  { split; [done|]. intros q. split; [by left|].
    intros [?|(dy & _ & -> & [? _])]; [done|simpl in *; lia]. }
  destruct (fold_tracks (visit_col sh (ix + dx) iy)
              (fun dy q => q = (ix + dx, iy + dy) ∧ 0 ≤ iy + dy < Z.of_nat sh.2)
              (fun st' dy Hst' => visit_col_tracks (ix + dx) iy st' dy (conj H0 H1) Hst')
              offsets st Hst) as (Ht & Hm).
  split; [done|]. intros q. rewrite Hm. split.
  - intros [?|(dy & Hdy%elem_of_offsets & -> & ?)]; [by left|].
    right. exists dy. split_and!; [lia|lia|done|]. split; simpl; lia.
  - intros [?|(dy & Hdy & -> & [_ ?])]; [by left|]. right. exists dy.
    split; [by apply elem_of_offsets|]. simpl in *. split; [done|lia].
Qed.

Lemma visit_tracks st p :
  tracks sh m0 st →
  tracks sh m0 (visit sh st p)
  ∧ ∀ q, q ∈ (visit sh st p).2
         ↔ q ∈ st.2 ∨ (near 1 q p ∧ in_grid sh q).
Proof.
  intros Hst. unfold visit.
  destruct (fold_tracks (visit_row sh p.1 p.2)
              (fun dx q => ∃ dy, -1 ≤ dy ≤ 1 ∧ q = (p.1 + dx, p.2 + dy) ∧ in_grid sh q)
              (fun st' dx Hst' => visit_row_tracks p.1 p.2 st' dx Hst')
              offsets st Hst) as (Ht & Hm).
  split; [done|]. intros q. rewrite Hm. split.
  - intros [?|(dx & Hdx%elem_of_offsets & dy & Hdy & -> & ?)]; [by left|].
    right. split; [|done]. split; simpl; lia.
  - intros [?|([Hn1 Hn2] & ?)]; [by left|]. right.
    exists (q.1 - p.1). split; [apply elem_of_offsets; lia|].
    exists (q.2 - p.2). split; [lia|]. split; [|done].
    destruct q as [x y]. simpl. f_equal; lia.
Qed.

Lemma round_tracks l :
  let st' := round sh (m0, l) in
  length <$> st'.1 = length <$> m0
  ∧ (∀ q, q ∈ st'.2 ↔ in_grid sh q ∧ ∃ p, p ∈ l ∧ near 1 q p)
  ∧ ∀ i j, Array2.getitem st'.1 i j
           = if decide ((Z.of_nat i, Z.of_nat j) ∈ st'.2) then Some 1
             else Array2.getitem m0 i j.
Proof.
  unfold round. simpl.
  assert (tracks sh m0 (m0, [])) as H0.
  { split_and!; [done| |].
    - by intros q ?%elem_of_nil.
    - intros i j. cbn [fst snd]. case_decide as Hd; [by apply elem_of_nil in Hd|done]. }
  destruct (fold_tracks (visit sh) (fun p q => near 1 q p ∧ in_grid sh q)
              (fun st' p Hst' => visit_tracks st' p Hst') l (m0, []) H0)
    as ((Hlen & _ & Hget) & Hm).
  split_and!; [done| |done].
  intros q. rewrite Hm. simpl. split.
  - intros [Hq|(p & ? & ? & ?)]; [by apply elem_of_nil in Hq|].
    split; [done|]. by exists p.
  - intros (? & p & ? & ?). right. by exists p.
Qed.

End DilateExact.

Lemma getitem_is_Some_lengths {A} (a : list (list A)) i j :
  is_Some (Array2.getitem a i j) ↔ ∃ n, (length <$> a) !! i = Some n ∧ (j < n)%nat.
Proof.
  unfold Array2.getitem. rewrite list_lookup_fmap.
  destruct (a !! i) as [row|]; simpl.
  - rewrite lookup_lt_is_Some. split; [eauto|]. by intros (n & [= <-] & ?).
  - split; [by intros [? ?]|by intros (? & ? & _)].
Qed.

Lemma rect_grid {A} (a : list (list A)) n :
  Forall (fun row => length row = n) a →
  ∀ i j, is_Some (Array2.getitem a i j)
         ↔ (i < (Array2.shape a).1 ∧ j < (Array2.shape a).2)%nat.
Proof.
  intros Hrect i j. split; [by apply getitem_in_shape with n|].
  intros [Hi Hj]. unfold Array2.shape in Hi, Hj. simpl in Hi, Hj.
  apply lookup_lt_is_Some in Hi as [row Hrow].
  unfold Array2.getitem. rewrite Hrow. simpl. apply lookup_lt_is_Some.
  pose proof (Forall_lookup_1 _ _ _ _ Hrect Hrow) as Hn. simpl in Hn.
  destruct a as [|r0 a]; [done|]. simpl in Hj.
  apply Forall_cons in Hrect as [Hr0 _]. lia.
Qed.

Section DilateSteps.
Import Dilate DilateSpec.

Variable bmask : list (list Z).
Variable n : nat.
Hypothesis Hrect : Forall (fun row => length row = n) bmask.

Lemma elem_of_where_nonzero m q :
  q ∈ where_nonzero m
  ↔ 0 ≤ q.1 ∧ 0 ≤ q.2 ∧ is_set m (Z.to_nat q.1) (Z.to_nat q.2).
Proof.
  unfold where_nonzero. rewrite list_elem_of_fmap. split.
  - intros ([i j] & -> & Hin). apply elem_of_where_ in Hin as (v & Hv & Hnz).
    simpl. rewrite !Nat2Z.id. split_and!; [lia|lia|].
    exists v. split; [done|]. unfold nonzero in Hnz.
    intros ->. done.
  - intros (H1 & H2 & v & Hv & Hnz). exists (Z.to_nat q.1, Z.to_nat q.2). split.
    + destruct q as [x y]. simpl in *. f_equal; lia.
    + apply elem_of_where_. exists v. split; [done|]. unfold nonzero.
      destruct (Z.eqb_spec v 0); done.
Qed.

Lemma rounds_inv r :
  let st := rounds_loop (Array2.shape bmask) r (bmask, where_nonzero bmask) in
  length <$> st.1 = length <$> bmask
  ∧ (∀ q, q ∈ st.2
          ↔ in_grid (Array2.shape bmask) q
            ∧ ∃ p, (0 ≤ p.1 ∧ 0 ≤ p.2 ∧ is_set bmask (Z.to_nat p.1) (Z.to_nat p.2))
                   ∧ near (Z.of_nat r) q p)
  ∧ (∀ i j, is_set st.1 i j ↔ (Z.of_nat i, Z.of_nat j) ∈ st.2)
  ∧ only_sets bmask st.1
  ∧ ((0 < r)%nat → ∀ i j v, Array2.getitem st.1 i j = Some v → v ≠ 0 → v = 1).
Proof.
  pose proof (rect_grid bmask n Hrect) as Hgrid0.
  assert (Hset_grid : ∀ p, 0 ≤ p.1 → 0 ≤ p.2 →
            is_set bmask (Z.to_nat p.1) (Z.to_nat p.2) → in_grid (Array2.shape bmask) p).
  { intros p H1 H2 (v & Hv & _).
    destruct (proj1 (Hgrid0 _ _) (mk_is_Some _ _ Hv)). split; lia. }
  induction r as [|r IH]; simpl.
  - split_and!.
    + done.
    + intros q. rewrite elem_of_where_nonzero. split.
      * intros (H1 & H2 & Hs). split; [by apply Hset_grid|].
        exists q. split; [done|]. split; lia.
      * intros (_ & p & Hp & [Hn1 Hn2]).
        assert (q = p) as -> by (destruct q, p; simpl in *; f_equal; lia).
        done.
    + intros i j. rewrite elem_of_where_nonzero. simpl. rewrite !Nat2Z.id.
      split; [intros ?; split_and!; [lia|lia|done]|by intros (_ & _ & ?)].
    + apply only_sets_refl.
    + lia.
  - destruct IH as (Hlen & Hl & Hset & Honly & _).
    set (st := rounds_loop (Array2.shape bmask) r (bmask, where_nonzero bmask)) in *.
    assert (Hgrid : ∀ i j, is_Some (Array2.getitem st.1 i j)
                           ↔ (i < (Array2.shape bmask).1 ∧ j < (Array2.shape bmask).2)%nat).
    { intros i j. rewrite <- Hgrid0, !getitem_is_Some_lengths. by rewrite Hlen. }
    destruct (round_tracks (Array2.shape bmask) st.1 Hgrid st.2) as (Hlen' & Hl' & Hget').
    replace (st.1, st.2) with st in * by by destruct st.
    set (st' := round (Array2.shape bmask) st) in *.
    assert (Hsub : ∀ q, q ∈ st.2 → q ∈ st'.2).
    { intros q Hq. apply Hl'. split; [by apply Hl|]. exists q. split; [done|]. split; lia. }
    split_and!.
    + by rewrite Hlen'.
    + intros q. rewrite Hl'. split.
      * intros (Hq & p & (_ & p0 & Hp0 & [Hn1 Hn2])%Hl & [Hm1 Hm2]).
        split; [done|]. exists p0. split; [done|]. split; lia.
      * intros (Hq & p0 & Hp0 & [Hn1 Hn2]). split; [done|].
        destruct Hp0 as (H01 & H02 & Hs).
        pose proof (Hset_grid p0 H01 H02 Hs) as [Hg1 Hg2].
        destruct Hq as [Hq1 Hq2].
        exists (Z.max (p0.1 - Z.of_nat r) (Z.min (p0.1 + Z.of_nat r) q.1),
                Z.max (p0.2 - Z.of_nat r) (Z.min (p0.2 + Z.of_nat r) q.2)).
        split.
        -- apply Hl. split; [split; cbn [fst snd]; lia|].
           exists p0. split; [done|]. split; cbn [fst snd]; lia.
        -- split; cbn [fst snd]; lia.
    + intros i j. unfold is_set. rewrite Hget'. case_decide as Hin.
      * split; [done|]. intros _. by exists 1.
      * split; [|done]. intros Hs. exfalso. apply Hin, Hsub, Hset. exact Hs.
    + eapply only_sets_trans; [exact Honly|apply round_only_sets].
    + intros _ i j v. rewrite Hget'. case_decide as Hin; [by intros [= <-]|].
      intros Hv Hnz. exfalso. apply Hin, Hsub, Hset. by exists v.
Qed.

End DilateSteps.

(** X4.  [_expand_mask] with [r] rounds is the dilation of the set pixels by
    a square of half-width [r]: the result has the shape of the mask; a pixel
    is set in it exactly when it lies within [r] rows and [r] columns of a
    pixel that is set in the mask; a pixel that is not set in the result is
    as in the mask; and from one round on every set pixel holds 1, whatever
    bits the mask had there. *)
Theorem expand_mask_is_square_dilation (bmask : list (list Z)) (n r : nat) :
  Forall (fun row => length row = n) bmask →
  length <$> Dilate._expand_mask bmask r = length <$> bmask
  ∧ (∀ i j, Dilate.is_set (Dilate._expand_mask bmask r) i j
            ↔ is_Some (Array2.getitem bmask i j)
              ∧ ∃ i0 j0, Dilate.is_set bmask i0 j0
                         ∧ Z.abs (Z.of_nat i - Z.of_nat i0) ≤ Z.of_nat r
                         ∧ Z.abs (Z.of_nat j - Z.of_nat j0) ≤ Z.of_nat r)
  ∧ (∀ i j, ¬ Dilate.is_set (Dilate._expand_mask bmask r) i j →
            Array2.getitem (Dilate._expand_mask bmask r) i j = Array2.getitem bmask i j)
  ∧ ((0 < r)%nat →
     ∀ i j, Dilate.is_set (Dilate._expand_mask bmask r) i j →
            Array2.getitem (Dilate._expand_mask bmask r) i j = Some 1).
Proof.
  intros Hrect. unfold Dilate._expand_mask.
  destruct (rounds_inv bmask n Hrect r) as (Hlen & Hl & Hset & Honly & Hone).
  pose proof (rect_grid bmask n Hrect) as Hgrid.
  split_and!.
  - done.
  - intros i j. rewrite Hset, Hl. unfold DilateSpec.in_grid, DilateSpec.near.
    cbn [fst snd]. split.
    + intros (Hg & [x y] & (H1 & H2 & Hs) & Hn1 & Hn2). cbn [fst snd] in *. split.
      * apply Hgrid. lia.
      * exists (Z.to_nat x), (Z.to_nat y). split; [done|]. lia.
    + intros (Hs & i0 & j0 & Hs0 & Hn1 & Hn2). apply Hgrid in Hs. split; [lia|].
      exists (Z.of_nat i0, Z.of_nat j0). cbn [fst snd]. rewrite !Nat2Z.id.
      split_and!; [lia|lia|done|done|done].
  - intros i j Hns. destruct (Honly i j) as [E|[_ E]]; [done|].
    exfalso. apply Hns. by exists 1.
  - intros Hr i j (v & Hv & Hnz). rewrite Hv. f_equal. by eapply Hone.
Qed.

Lemma expand_mask_is_square_dilation_witness :
  Dilate.is_set (Dilate._expand_mask [[0; 0; 0]; [0; 0; 0]; [0; 0; 6]] 1) 1 1
  ↔ is_Some (Array2.getitem [[0; 0; 0]; [0; 0; 0]; [0; 0; 6]] 1 1)
    ∧ ∃ i0 j0, Dilate.is_set [[0; 0; 0]; [0; 0; 0]; [0; 0; 6]] i0 j0
               ∧ Z.abs (Z.of_nat 1 - Z.of_nat i0) ≤ Z.of_nat 1
               ∧ Z.abs (Z.of_nat 1 - Z.of_nat j0) ≤ Z.of_nat 1.
Proof.
  apply (expand_mask_is_square_dilation [[0; 0; 0]; [0; 0; 0]; [0; 0; 6]] 3 1).
  repeat constructor.
Defined.

(** ** Resampling, pixel by pixel *)

Section InterpSpec.
Context `{PixelMap}.
Import Interp.

Lemma in_image_spec sh rc :
  in_image sh rc = true
  ↔ 0 ≤ rc.1 < Z.of_nat sh.1 ∧ 0 ≤ rc.2 < Z.of_nat sh.2.
Proof. unfold in_image. rewrite !andb_true_iff. lia. Qed.

(** Filling good pixels copies each from its source pixel. *)
Lemma fill_fold im1 n rc q z i j :
  Forall (fun row => length row = n) im1 →
  (∀ p, p ∈ q → in_image (Array2.shape im1) (rc p.1 p.2) = true) →
  Array2.getitem (fold_left (fill im1 rc) q z) i j
  = if decide ((i, j) ∈ q ∧ is_Some (Array2.getitem z i j))
    then Array2.getitem im1 (Z.to_nat (rc i j).1) (Z.to_nat (rc i j).2)
    else Array2.getitem z i j.
Proof.
  intros Hrect. revert z. induction q as [|[i0 j0] q IH]; intros z Hq; cbn [fold_left].
  - rewrite decide_False; [done|]. by intros [?%elem_of_nil _].
  - pose proof (Hq (i0, j0) ltac:(by left)) as Hin. cbn [fst snd] in Hin.
    apply in_image_spec in Hin as [Hr Hc].
    assert (is_Some (Array2.getitem im1 (Z.to_nat (rc i0 j0).1) (Z.to_nat (rc i0 j0).2)))
      as [v Hv].
    { apply (rect_grid im1 n Hrect). lia. }
    assert (fill im1 rc z (i0, j0) = Array2.setitem z i0 j0 v) as ->.
    { unfold fill, clip. cbn [fst snd].
      replace (Z.min (Z.max (rc i0 j0).1 0) (Z.of_nat (Array2.shape im1).1 - 1))
        with (rc i0 j0).1 by lia.
      replace (Z.min (Z.max (rc i0 j0).2 0) (Z.of_nat (Array2.shape im1).2 - 1))
        with (rc i0 j0).2 by lia.
      by rewrite Hv. }
    rewrite IH by (intros; apply Hq; by right).
    rewrite (decide_ext _ ((i, j) ∈ q ∧ is_Some (Array2.getitem z i j)))
      by (by rewrite getitem_setitem_is_Some).
    rewrite getitem_setitem.
    destruct (decide ((i, j) ∈ q ∧ is_Some (Array2.getitem z i j))) as [[Hin Hs]|Hn].
    + rewrite decide_True; [done|]. split; [by right|done].
    + destruct (decide (i0 = i ∧ j0 = j ∧ is_Some (Array2.getitem z i0 j0)))
        as [(-> & -> & Hs)|Hn'].
      * rewrite decide_True; [done|]. split; [by left|done].
      * rewrite decide_False; [done|].
        intros [[[= -> ->]|Hin]%elem_of_cons Hs]; tauto.
Qed.

(** The pixels of the resampled image and the two lists of positions. *)
Lemma interpolate_image_pixels f1 f2 im1 n rc :
  Forall (fun row => length row = n) im1 →
  pixel_map f1 f2 (Array2.shape im1) = Ok rc →
  ∃ res, interpolate_image f1 im1 f2 = Ok res
    ∧ length <$> im2 res = length <$> im1
    ∧ (∀ i j, is_Some (Array2.getitem im1 i j) →
         if in_image (Array2.shape im1) (rc i j)
         then Array2.getitem (im2 res) i j
              = Array2.getitem im1 (Z.to_nat (rc i j).1) (Z.to_nat (rc i j).2)
              ∧ (i, j) ∈ wgood res ∧ (i, j) ∉ wbad res
         else Array2.getitem (im2 res) i j = Some 0
              ∧ (i, j) ∈ wbad res ∧ (i, j) ∉ wgood res)
    ∧ (∀ i j, (i, j) ∈ wgood res ∨ (i, j) ∈ wbad res →
              is_Some (Array2.getitem im1 i j)).
Proof.
  intros Hrect Hmap. unfold interpolate_image. rewrite Hmap, bind_of_Ok.
  eexists. split; [done|]. cbn [im2 wbad wgood].
  set (coords := imap (fun r row => imap (fun c _ => rc r c) row) im1).
  set (sh := Array2.shape im1).
  assert (Hw : ∀ (p : Z * Z → bool) i j,
             (i, j) ∈ Array2.where_ p coords
             ↔ is_Some (Array2.getitem im1 i j) ∧ p (rc i j) = true).
  { intros p i j. rewrite elem_of_where_. unfold coords. rewrite getitem_coords. split.
    - intros (x & Hx & Hp). destruct (Array2.getitem im1 i j); [|done].
      injection Hx as <-. eauto.
    - intros ([v Hv] & Hp). exists (rc i j). by rewrite Hv. }
  assert (Hget : ∀ i j,
             Array2.getitem (fold_left (fill im1 rc) (Array2.where_ (in_image sh) coords)
                               (Array2.map (fun _ : Z => 0) im1)) i j
             = if decide (is_Some (Array2.getitem im1 i j) ∧ in_image sh (rc i j) = true)
               then Array2.getitem im1 (Z.to_nat (rc i j).1) (Z.to_nat (rc i j).2)
               else (fun _ => 0) <$> Array2.getitem im1 i j).
  { intros i j. rewrite (fill_fold im1 n rc _ _ i j Hrect); cycle 1.
    { intros [i' j'] Hp%Hw. apply Hp. }
    rewrite getitem_map.
    apply decide_ext. rewrite Hw. rewrite fmap_is_Some. tauto. }
  split_and!.
  - rewrite fill_row_lengths. unfold Array2.map.
    rewrite <- list_fmap_compose. apply list_fmap_ext.
    intros i row _. simpl. by rewrite length_fmap.
  - intros i j Hs. rewrite Hget.
    destruct (in_image sh (rc i j)) eqn:Hin.
    + rewrite decide_True by done. split_and!; [done| |].
      * by apply Hw.
      * intros [_ Hneg]%Hw. by rewrite Hin in Hneg.
    + rewrite decide_False by (by intros [_ ?]).
      split_and!.
      * destruct Hs as [v Hv]. by rewrite Hv.
      * apply Hw. split; [done|]. by rewrite Hin.
      * intros [_ Hpos]%Hw. by rewrite Hin in Hpos.
  - intros i j [Hp|Hp]; apply Hw in Hp; apply Hp.
Qed.

(** X5.  [interpolate_image] on a rectangular image, when the coordinate
    arithmetic gives the source pixel [rc i j] of every target pixel: the
    result has the shape of the source; a target pixel whose source lies on
    the image is listed in [wgood] and not in [wbad] and holds the value of
    its source pixel; any other target pixel is listed in [wbad] and not in
    [wgood] and holds 0; and the two lists hold pixels of the image only. *)
Theorem interpolate_image_spec f1 f2 im1 n rc :
  Forall (fun row => length row = n) im1 →
  pixel_map f1 f2 (Array2.shape im1) = Ok rc →
  ∃ res, interpolate_image f1 im1 f2 = Ok res
    ∧ length <$> im2 res = length <$> im1
    ∧ (∀ i j, is_Some (Array2.getitem im1 i j) →
         if in_image (Array2.shape im1) (rc i j)
         then Array2.getitem (im2 res) i j
              = Array2.getitem im1 (Z.to_nat (rc i j).1) (Z.to_nat (rc i j).2)
              ∧ (i, j) ∈ wgood res ∧ (i, j) ∉ wbad res
         else Array2.getitem (im2 res) i j = Some 0
              ∧ (i, j) ∈ wbad res ∧ (i, j) ∉ wgood res)
    ∧ (∀ i j, (i, j) ∈ wgood res ∨ (i, j) ∈ wbad res →
              is_Some (Array2.getitem im1 i j)).
Proof. apply interpolate_image_pixels. Qed.

End InterpSpec.

(** A 2 x 2 image shifted by one column: the first column of the target has
    no source. *)
Lemma interpolate_image_spec_witness :
  ∃ res,
    Interp.interpolate_image (H := Fixtures.pixel_shift)
      (Propagate.cutout_frame (Demo.meds_of 1 2 (Demo.two_images 0 0)) 0 0)
      [[1; 2]; [3; 4]]
      (Propagate.cutout_frame (Demo.meds_of 1 2 (Demo.two_images 0 0)) 0 1)
    = Ok res
    ∧ Interp.im2 res = [[0; 1]; [0; 3]]
    ∧ Interp.wbad res = [(0, 0); (1, 0)]%nat
    ∧ Interp.wgood res = [(0, 1); (1, 1)]%nat.
Proof.
  destruct (interpolate_image_spec (H := Fixtures.pixel_shift)
              (Propagate.cutout_frame (Demo.meds_of 1 2 (Demo.two_images 0 0)) 0 0)
              (Propagate.cutout_frame (Demo.meds_of 1 2 (Demo.two_images 0 0)) 0 1)
              [[1; 2]; [3; 4]] 2%nat (fun r c => (Z.of_nat r, Z.of_nat c - 1))
              ltac:(repeat constructor) eq_refl) as (res & Hres & _).
  exists res. split; [exact Hres|].
  vm_compute in Hres. injection Hres as <-. split_and!; reflexivity.
Defined.

(** ** Chunks of groups *)

Section MegamixerFacts.
Import Megamixer.

Lemma lookup_xrange n k : (k < Z.to_nat n)%nat → xrange n !! k = Some (Z.of_nat k).
Proof.
  intros Hk. unfold xrange. by rewrite list_lookup_fmap, lookup_seq_lt.
Qed.

Lemma length_xrange n : length (xrange n) = Z.to_nat n.
Proof. unfold xrange. by rewrite length_fmap, length_seq. Qed.

(** X6.  With a positive chunk size, [get_fof_ranges] cuts the group indices
    [0 .. num_fofs - 1] into consecutive inclusive ranges: there are
    [ceil(num_fofs / size)] of them, range [k] starts at [k * size], every
    range is non-empty, lies below [num_fofs] and holds at most [size]
    indices, and every group index lies in the range [index / size] and in
    no other.  With no group there is no range. *)
Theorem fof_ranges_partition (model_nbrs : bool) fofid_column meds_size per :
  0 < per →
  let num_fofs :=
    if model_nbrs then Z.of_nat (length (Index.np_unique fofid_column))
    else Z.of_nat meds_size in
  ∃ fof_ranges,
    get_fof_ranges model_nbrs fofid_column meds_size per = Ranges fof_ranges
    ∧ Z.of_nat (length fof_ranges) = (num_fofs + per - 1) / per
    ∧ (∀ k sr sp, fof_ranges !! k = Some (sr, sp) →
         sr = Z.of_nat k * per ∧ sr ≤ sp ∧ sp < num_fofs ∧ sp - sr < per
         ∧ sp = Z.min (sr + per - 1) (num_fofs - 1))
    ∧ (∀ i, 0 ≤ i < num_fofs →
         ∃ sr sp, fof_ranges !! Z.to_nat (i / per) = Some (sr, sp) ∧ sr ≤ i ≤ sp)
    ∧ (∀ i k sr sp, fof_ranges !! k = Some (sr, sp) → sr ≤ i ≤ sp →
         k = Z.to_nat (i / per)).
Proof.
  intros Hper num_fofs. unfold get_fof_ranges. fold num_fofs.
  destruct (Z.eqb_spec per 0) as [|_]; [lia|].
  assert (0 ≤ num_fofs) as Hnum by (unfold num_fofs; destruct model_nbrs; lia).
  set (q := num_fofs / per).
  set (nchunks := if q * per <? num_fofs then q + 1 else q).
  assert (Hn : nchunks = (num_fofs + per - 1) / per).
  { unfold nchunks. pose proof (Z.div_mod num_fofs per ltac:(lia)) as Hdm.
    pose proof (Z.mod_pos_bound num_fofs per Hper) as Hb. fold q in Hdm.
    destruct (Z.ltb_spec (q * per) num_fofs).
    - apply Z.div_unique with (num_fofs mod per - 1); lia.
    - apply Z.div_unique with (per - 1); lia. }
  assert (0 ≤ nchunks) as Hn0.
  { rewrite Hn. apply Z.div_pos; lia. }
  assert (Hcover : ∀ i, 0 ≤ i < num_fofs → i / per < nchunks).
  { intros i Hi. rewrite Hn. apply Z.div_lt_upper_bound; [done|].
    pose proof (Z.div_mod (num_fofs + per - 1) per ltac:(lia)).
    pose proof (Z.mod_pos_bound (num_fofs + per - 1) per Hper). lia. }
  assert (Hlast : (nchunks - 1) * per < num_fofs ∨ nchunks = 0).
  { rewrite Hn. pose proof (Z.div_mod (num_fofs + per - 1) per ltac:(lia)).
    pose proof (Z.mod_pos_bound (num_fofs + per - 1) per Hper). lia. }
  eexists. split; [done|].
  assert (Hlook : ∀ k sr sp,
            (chunk_range num_fofs per <$> xrange nchunks) !! k = Some (sr, sp) →
            (k < Z.to_nat nchunks)%nat
            ∧ sr = Z.of_nat k * per
            ∧ sp = Z.min (sr + per - 1) (num_fofs - 1)).
  { intros k sr sp Hk. rewrite list_lookup_fmap in Hk.
    destruct (xrange nchunks !! k) as [c|] eqn:Hc; [|done].
    apply lookup_lt_Some in Hc as Hlt. rewrite length_xrange in Hlt.
    rewrite lookup_xrange in Hc by done. injection Hc as <-.
    simpl in Hk. unfold chunk_range in Hk. injection Hk as <- <-.
    split; [done|]. split; [done|].
    destruct (Z.leb_spec num_fofs (Z.of_nat k * per + per - 1)); lia. }
  split_and!.
  - rewrite length_fmap, length_xrange. lia.
  - intros k sr sp Hk. destruct (Hlook k sr sp Hk) as (Hlt & -> & ->).
    assert (Z.of_nat k * per ≤ (nchunks - 1) * per) by nia.
    split_and!; lia.
  - intros i Hi. pose proof (Hcover i Hi) as Hc.
    assert (0 ≤ i / per) as Hq0 by (apply Z.div_pos; lia).
    pose proof (Z.div_mod i per ltac:(lia)) as Hdm.
    pose proof (Z.mod_pos_bound i per Hper) as Hb.
    eexists _, _. split.
    + rewrite list_lookup_fmap, lookup_xrange by lia. simpl. reflexivity.
    + rewrite Z2Nat.id by done.
      destruct (Z.leb_spec num_fofs (i / per * per + per - 1)); lia.
  - intros i k sr sp Hk Hi. destruct (Hlook k sr sp Hk) as (Hlt & -> & ->).
    assert (i / per = Z.of_nat k) as ->; [|lia].
    symmetry. apply Z.div_unique with (i - Z.of_nat k * per); lia.
Qed.

(** X14.  [get_fof_ranges] with a chunk size of 0 raises
    [ZeroDivisionError]; with a negative chunk size it returns no range at
    all, however many groups there are. *)
Theorem fof_ranges_non_positive (model_nbrs : bool) fofid_column meds_size per :
  per ≤ 0 →
  get_fof_ranges model_nbrs fofid_column meds_size per
  = if per =? 0 then ZeroDivisionError else Ranges [].
Proof.
  intros Hper. unfold get_fof_ranges.
  set (num_fofs := if model_nbrs then Z.of_nat (length (Index.np_unique fofid_column))
                   else Z.of_nat meds_size).
  assert (0 ≤ num_fofs) as Hnum by (unfold num_fofs; destruct model_nbrs; lia).
  destruct (Z.eqb_spec per 0) as [|Hne]; [done|].
  assert (per < 0) as Hneg by lia.
  pose proof (Z.div_mod num_fofs per ltac:(lia)) as Hdm.
  pose proof (Z.mod_neg_bound num_fofs per Hneg) as Hb.
  assert (num_fofs / per ≤ 0) as Hq by nia.
  destruct (Z.ltb_spec (num_fofs / per * per) num_fofs) as [Hlt|Hge]; [lia|].
  unfold xrange. by rewrite Z2Nat.nonpos by lia.
Qed.

End MegamixerFacts.

(** Seven groups in chunks of three. *)
Lemma fof_ranges_partition_witness :
  Megamixer.get_fof_ranges false [] 7 3 = Megamixer.Ranges [(0, 2); (3, 5); (6, 6)].
Proof.
  destruct (fof_ranges_partition false [] 7 3 ltac:(lia)) as (l & Hl & _).
  rewrite Hl. vm_compute in Hl. injection Hl as <-. reflexivity.
Defined.

(** Seven groups and a chunk size of -3. *)
Lemma fof_ranges_non_positive_witness :
  Megamixer.get_fof_ranges false [] 7 (-3) = Megamixer.Ranges [].
Proof. apply (fof_ranges_non_positive false [] 7 (-3)). lia. Defined.

(** ** Every object is in one group *)

Section IndexPartition.
Import Index.

Lemma check_bands_inv nums meds_list u :
  for_each (check_band nums) meds_list tt = Ok u →
  ∀ meds, meds ∈ meds_list → Meds.number meds = nums.
Proof.
  induction meds_list as [|m l IH]; simpl; [by intros _ meds ?%elem_of_nil|].
  intros Hm. apply bind_Ok in Hm as ([] & Hc & Hrest).
  unfold check_band in Hc. apply py_assert_Ok in Hc.
  unfold array_equal in Hc. apply bool_decide_eq_true in Hc.
  intros meds [->|Hin]%elem_of_cons; [done|]. by apply IH.
Qed.

Lemma fmap_join {A B} (f : A → B) (ls : list (list A)) :
  f <$> mjoin ls = mjoin (fmap f <$> ls).
Proof.
  induction ls as [|l ls IH]; [done|]. simpl. by rewrite fmap_app, IH.
Qed.

Lemma sorted_NoDup {A} (R : A → A → Prop) (l : list A) :
  (∀ x, ¬ R x x) → StronglySorted R l → NoDup l.
Proof.
  intros Hirr. induction 1 as [|x l Hs IH Hx]; constructor; [|done].
  intros Hin. eapply Forall_forall in Hx; [|exact Hin]. by eapply Hirr.
Qed.

Lemma mapM_fmap_Ok {A B} (f : A → result B) (g : A → B) (l : list A) :
  (∀ x, x ∈ l → f x = Ok (g x)) → mapM f l = Ok (g <$> l).
Proof.
  intros Hf. apply mapM_Ok. apply Forall2_fmap_r, Forall_Forall2_diag.
  by apply Forall_forall.
Qed.

Lemma NoDup_join_fmap {A B} (f : A → list B) (l : list A) :
  NoDup l →
  (∀ x, x ∈ l → NoDup (f x)) →
  (∀ x y b, x ∈ l → y ∈ l → b ∈ f x → b ∈ f y → x = y) →
  NoDup (mjoin (f <$> l)).
Proof.
  induction 1 as [|x l Hx Hl IH]; intros Hnd Hdis; simpl; [constructor|].
  apply NoDup_app. split_and!.
  - apply Hnd. by left.
  - intros b Hb (ys & Hys & (y & -> & Hy)%list_elem_of_fmap)%list_elem_of_join.
    apply Hx. rewrite (Hdis x y b); [done|by left|by right|done|done].
  - apply IH.
    + intros; apply Hnd; by right.
    + intros y z b ? ?; apply Hdis; by right.
Qed.

Lemma dict_step_meds0 data meds_list d g d' :
  dict_step data meds_list d g = Ok d' → ∃ meds0, meds_list !! 0%nat = Some meds0.
Proof. unfold dict_step. intros Hs. inv_ok. eauto. Qed.

Lemma index_groups_cover fof_file meds_list ix :
  _set_and_check_index_lookups fof_file meds_list = Ok ix →
  (∀ meds, meds ∈ meds_list → Meds.number meds = fof_number <$> fof_data ix)
  ∧ ∃ groups,
      mapM (members ix) (fofids ix) = Ok groups
      ∧ length groups = num_fofs ix
      ∧ mjoin groups ≡ₚ Z.of_nat <$> seq 0 (length (fof_data ix)).
Proof.
  destruct fof_file as [data|]; unfold _set_and_check_index_lookups.
  - rewrite bind_of_Ok. intros Hm.
    apply bind_Ok in Hm as (u & Hcheck & Hm).
    apply bind_Ok in Hm as (lookup & H0 & Hm).
    apply fmap_Ok in H0 as (d & H0 & ->). injection Hm as <-.
    rewrite fofids_of_column in *.
    pose proof (check_bands_inv _ _ _ Hcheck) as Hall. cbn [fof_data fofids num_fofs].
    split; [done|].
    set (col := fofid <$> data) in *.
    assert (Hd : ∀ g, g ∈ np_unique col → d !! g = Some (where_eq col g)).
    { destruct (np_unique col) as [|g0 gs] eqn:Hgs; [by intros g ?%elem_of_nil|].
      rewrite for_each_cons in H0. apply bind_Ok in H0 as (d1 & Hstep & Hrest).
      destruct (dict_step_meds0 _ _ _ _ _ Hstep) as [meds0 Hm0].
      assert (meds0 ∈ meds_list) as Hin by by eapply list_elem_of_lookup_2.
      destruct (dict_loop_Ok data meds_list meds0 (g0 :: gs) ∅ Hm0 (Hall _ Hin))
        as (d' & Hd' & Hl).
      { intros g Hg. apply elem_of_np_unique. fold col. by rewrite Hgs. }
      rewrite for_each_cons, Hstep, bind_of_Ok, Hrest in Hd'. injection Hd' as <-.
      intros g Hg. rewrite Hl. by rewrite decide_True. }
    exists ((fun g => Z.of_nat <$> where_eq col g) <$> np_unique col).
    split_and!.
    + apply mapM_fmap_Ok. intros g Hg. unfold members. cbn [fofid2mindex].
      by rewrite (Hd g Hg).
    + by rewrite length_fmap.
    + replace (length data) with (length col) by (unfold col; by rewrite length_fmap).
      replace (mjoin ((fun g => Z.of_nat <$> where_eq col g) <$> np_unique col))
        with (Z.of_nat <$> mjoin (where_eq col <$> np_unique col))
        by (by rewrite fmap_join, <- list_fmap_compose).
      apply fmap_Permutation.
      apply NoDup_Permutation.
      * apply NoDup_join_fmap.
        -- apply (sorted_NoDup Z.lt); [intros ?; lia|apply np_unique_sorted].
        -- intros g _. apply (sorted_NoDup lt); [intros ?; lia|apply where_eq_from_sorted].
        -- intros g g' k _ _ Hk%elem_of_where_eq Hk'%elem_of_where_eq. congruence.
      * apply NoDup_seq.
      * intros k. rewrite elem_of_seq, list_elem_of_join. split.
        -- intros (q & Hk & (g & -> & _)%list_elem_of_fmap).
           apply elem_of_where_eq, lookup_lt_Some in Hk. lia.
        -- intros [_ Hk]. destruct (lookup_lt_is_Some_2 col k) as [g Hg]; [lia|].
           exists (where_eq col g). split; [by apply elem_of_where_eq|].
           apply list_elem_of_fmap. exists g. split; [done|].
           apply elem_of_np_unique. by eapply list_elem_of_lookup_2.
  - intros Hm. apply bind_Ok in Hm as ([read data] & Hfirst & Hm).
    apply bind_Ok in Hfirst as (meds0 & Hm0 & Hfirst). apply py_getitem_Ok in Hm0.
    injection Hfirst as <- <-.
    destruct (default_table_columns (Meds.number meds0)) as (Hnum & Hcol).
    cbn zeta iota beta in Hm. rewrite Hnum, Hcol in Hm.
    rewrite (np_unique_of_sorted _ (row_ids_sorted _)) in Hm.
    rewrite (np_sort_of_sorted _ (row_ids_sorted _)) in Hm.
    apply bind_Ok in Hm as (u & Hcheck & Hm).
    rewrite list_loop_Ok in Hm by done. simpl in Hm. injection Hm as <-.
    cbn [fof_data fofids num_fofs]. rewrite Hnum.
    split; [by eapply check_bands_inv|].
    set (nobj := length (Meds.number meds0)).
    exists ((fun i => [Z.of_nat i]) <$> seq 0 nobj). split_and!.
    + rewrite (list_fmap_compose Z.of_nat (fun z => [z])).
      apply mapM_fmap_Ok. intros z (i & -> & Hi%elem_of_seq)%list_elem_of_fmap.
      unfold members, np_index. cbn [fofid2mindex].
      rewrite !length_fmap, length_seq.
      destruct (Z.ltb_spec (Z.of_nat i) 0); [lia|].
      destruct (Z.leb_spec 0 (Z.of_nat i)); [|lia].
      destruct (Z.ltb_spec (Z.of_nat i) (Z.of_nat nobj)); [|lia].
      simpl. rewrite Nat2Z.id, !list_lookup_fmap, lookup_seq_lt by lia. done.
    + by rewrite !length_fmap.
    + rewrite length_imap. fold nobj.
      induction (seq 0 nobj) as [|i l IH]; simpl; [done|]. by constructor.
Qed.

(** X7.  When the index is built, with a group table or without, the
    [number] column of every band equals that of the table, every group id
    has its members, and the member rows of the groups, taken in the order
    of the group ids, are the row indices of the table, each exactly once:
    iterating over the groups visits every object of the files once. *)
Theorem index_groups_partition fof_file meds_list ix :
  _set_and_check_index_lookups fof_file meds_list = Ok ix →
  (∀ meds, meds ∈ meds_list → Meds.number meds = fof_number <$> fof_data ix)
  ∧ ∃ groups,
      mapM (members ix) (fofids ix) = Ok groups
      ∧ length groups = num_fofs ix
      ∧ mjoin groups ≡ₚ Z.of_nat <$> seq 0 (length (fof_data ix)).
Proof. apply index_groups_cover. Qed.

End IndexPartition.

(** The three rows in the groups 3 and 7. *)
Lemma index_groups_partition_witness :
  ∃ ix, Index._set_and_check_index_lookups (Some Demo.three_rows)
          [Demo.three_objects; Demo.three_objects] = Ok ix
        ∧ mapM (Index.members ix) (Index.fofids ix) = Ok [[1]; [0; 2]]
        ∧ [1; 0; 2] ≡ₚ [0; 1; 2].
Proof.
  destruct (Index._set_and_check_index_lookups (Some Demo.three_rows)
              [Demo.three_objects; Demo.three_objects]) as [ix|e] eqn:Hix;
    [|vm_compute in Hix; discriminate Hix].
  destruct (index_groups_partition _ _ _ Hix) as (_ & groups & Hg & _ & Hp).
  exists ix. split; [done|].
  vm_compute in Hix. injection Hix as <-.
  vm_compute in Hg. injection Hg as <-. split; [reflexivity|exact Hp].
Defined.

(** ** The combined saturation mask *)

Lemma land_pow2_eq0 v k :
  0 ≤ k → Z.land v (2 ^ k) = 0 ↔ Z.testbit v k = false.
Proof.
  intros Hk. split.
  - intros H0. pose proof (Z.land_spec v (2 ^ k) k) as Hs.
    rewrite H0, Z.bits_0, Z.pow2_bits_true in Hs by done.
    by rewrite andb_true_r in Hs.
  - intros Hb. apply Z.bits_inj'. intros n Hn.
    rewrite Z.land_spec, Z.bits_0, Z.pow2_bits_eqb by done.
    destruct (Z.eqb_spec k n) as [->|]; [by rewrite Hb|by rewrite andb_false_r].
Qed.

Lemma getitem_zip_with {A B C} (f : A → B → C) (a : list (list A)) (b : list (list B)) i j :
  Array2.getitem (zip_with (zip_with f) a b) i j
  = match Array2.getitem a i j, Array2.getitem b i j with
    | Some x, Some y => Some (f x y)
    | _, _ => None
    end.
Proof.
  unfold Array2.getitem. rewrite lookup_zip_with.
  destruct (a !! i) as [ra|]; simpl; [|done].
  destruct (b !! i) as [rb|]; simpl; [|by destruct (ra !! j)].
  rewrite lookup_zip_with.
  destruct (ra !! j); simpl; [|done]. by destruct (rb !! j).
Qed.

Lemma for_each_app {A S} (body : S → A → result S) l1 l2 st :
  for_each body (l1 ++ l2) st = for_each body l1 st ≫= for_each body l2.
Proof.
  revert st. induction l1 as [|x l1 IH]; intros st; simpl; [done|].
  destruct (body st x); simpl; [apply IH|done].
Qed.

Section BitmaskFacts.
Context {C : Collaborators} {P : PixelMap}.
Import Bitmasks.

(** The bits that select a pixel: bit 5 and one of the bits 1 and 2, and
    none of the bits 0, 3, 4, 7, 8, 9, 10 and 11. *)
Lemma selected_bits v :
  selected v = true
  ↔ (Z.testbit v 1 = true ∨ Z.testbit v 2 = true)
    ∧ Z.testbit v 5 = true
    ∧ ∀ k, k ∈ [0; 3; 4; 7; 8; 9; 10; 11] → Z.testbit v k = false.
Proof.
  unfold selected.
  assert (Hm : msk = Z.lor (2 ^ 0) (Z.lor (2 ^ 3) (Z.lor (2 ^ 4) (Z.lor (2 ^ 7)
                 (Z.lor (2 ^ 8) (Z.lor (2 ^ 9) (Z.lor (2 ^ 10) (2 ^ 11)))))))) by done.
  rewrite !andb_true_iff, orb_true_iff, !negb_true_iff, !Z.eqb_neq, Z.eqb_eq.
  change 2 with (2 ^ 1) at 1. change 4 with (2 ^ 2). change 32 with (2 ^ 5).
  rewrite Hm, !Z.land_lor_distr_r, !Z.lor_eq_0_iff.
  rewrite !land_pow2_eq0 by lia.
  rewrite !not_false_iff_true.
  split.
  - intros ((H12 & H5) & H0 & H3 & H4 & H7 & H8 & H9 & H10 & H11).
    split; [done|]. split; [done|].
    intros k Hk. repeat (apply elem_of_cons in Hk as [->|Hk]; [done|]).
    by apply elem_of_nil in Hk.
  - intros (H12 & H5 & Hk). split; [done|].
    split_and!; apply Hk; repeat first [by left | right].
Qed.

Lemma ior_Ok a b c :
  ior a b = Ok c →
  length <$> c = length <$> a
  ∧ length <$> b = length <$> a
  ∧ ∀ i j, Array2.getitem c i j
           = match Array2.getitem a i j, Array2.getitem b i j with
             | Some x, Some y => Some (Z.lor x y)
             | _, _ => None
             end.
Proof.
  unfold ior. case_bool_decide as Hlen; [|done]. intros [= <-].
  split_and!; [|done|apply getitem_zip_with].
  apply list_eq. intros i. rewrite !list_lookup_fmap, lookup_zip_with.
  assert ((length <$> a) !! i = (length <$> b) !! i) as Hi by by rewrite Hlen.
  rewrite !list_lookup_fmap in Hi.
  destruct (a !! i) as [ra|], (b !! i) as [rb|]; simpl in *; try done.
  injection Hi as Hi. rewrite length_zip_with. f_equal. lia.
Qed.

Lemma shape_map {A B} (f : A → B) (a : list (list A)) :
  Array2.shape (Array2.map f a) = Array2.shape a.
Proof.
  unfold Array2.shape, Array2.map. rewrite length_fmap.
  destruct a as [|r a]; simpl; [done|]. by rewrite length_fmap.
Qed.

Lemma row_lengths_map {A B} (f : A → B) (a : list (list A)) :
  length <$> Array2.map f a = length <$> a.
Proof.
  unfold Array2.map. rewrite <- list_fmap_compose. apply list_fmap_ext.
  intros i row _. simpl. by rewrite length_fmap.
Qed.

(** X8.  [_interpolate_maskbits]: when the two files disagree on the box
    size or on the id of the object, the method fails an assertion.
    Otherwise the result has the shape of the source cutout and holds only
    0 and 1, and a pixel is 1 exactly when its source pixel lies on the
    cutout and has the selected bits: whatever other bits the cutout has do
    not reach the result. *)
Theorem interpolate_maskbits_is_binary iobj band1 m1 icutout1 m2 icutout2 n rc :
  Forall (fun row => length row = n) (bmask_cutout band1 iobj icutout1) →
  pixel_map (Propagate.cutout_frame m1 iobj icutout1)
    (Propagate.cutout_frame m2 iobj icutout2)
    (Array2.shape (bmask_cutout band1 iobj icutout1)) = Ok rc →
  if (Meds.box_size m1 iobj =? Meds.box_size m2 iobj)%nat
     && (Meds.id m1 iobj =? Meds.id m2 iobj)
  then
    ∃ out,
      _interpolate_maskbits iobj band1 m1 icutout1 m2 icutout2 = Ok out
      ∧ length <$> out = length <$> bmask_cutout band1 iobj icutout1
      ∧ ∀ i j, is_Some (Array2.getitem (bmask_cutout band1 iobj icutout1) i j) →
          ∃ b, Array2.getitem out i j = Some b
               ∧ (b = 0 ∨ b = 1)
               ∧ (b = 1
                  ↔ Interp.in_image (Array2.shape (bmask_cutout band1 iobj icutout1))
                      (rc i j) = true
                    ∧ ∃ v, Array2.getitem (bmask_cutout band1 iobj icutout1)
                             (Z.to_nat (rc i j).1) (Z.to_nat (rc i j).2) = Some v
                           ∧ selected v = true)
  else _interpolate_maskbits iobj band1 m1 icutout1 m2 icutout2 = Raise AssertionError.
Proof.
  intros Hrect Hmap. unfold _interpolate_maskbits.
  set (im := bmask_cutout band1 iobj icutout1) in *.
  destruct (Meds.box_size m1 iobj =? Meds.box_size m2 iobj)%nat; [|done].
  destruct (Meds.id m1 iobj =? Meds.id m2 iobj); [|done].
  cbn [andb py_assert]. rewrite !bind_of_Ok.
  assert (Forall (fun row => length row = n) (binary_mask im)) as Hrect'.
  { unfold binary_mask, Array2.map. apply Forall_fmap.
    eapply Forall_impl; [exact Hrect|]. intros row Hr. simpl. by rewrite length_fmap. }
  assert (Array2.shape (binary_mask im) = Array2.shape im) as Hsh by apply shape_map.
  destruct (interpolate_image_pixels (Propagate.cutout_frame m1 iobj icutout1)
              (Propagate.cutout_frame m2 iobj icutout2) (binary_mask im) n rc Hrect')
    as (res & Hres & Hlen & Hpix & _).
  { by rewrite Hsh. }
  rewrite Hres, bind_of_Ok. exists (Interp.im2 res). split; [done|].
  split; [rewrite Hlen; apply row_lengths_map|].
  intros i j Hs.
  assert (is_Some (Array2.getitem (binary_mask im) i j)) as Hs'.
  { unfold binary_mask. rewrite getitem_map. by apply fmap_is_Some. }
  specialize (Hpix i j Hs'). rewrite Hsh in Hpix.
  destruct (Interp.in_image (Array2.shape im) (rc i j)) eqn:Hin.
  - destruct Hpix as (Hget & _). rewrite Hget. unfold binary_mask. rewrite getitem_map.
    apply in_image_spec in Hin as [Hr Hc].
    destruct (proj2 (rect_grid im n Hrect (Z.to_nat (rc i j).1) (Z.to_nat (rc i j).2))
                ltac:(lia)) as [v Hv].
    rewrite Hv. simpl. eexists. split; [done|].
    destruct (selected v) eqn:Hsel.
    + split; [by right|]. split; [|done]. intros _. split; [done|]. by exists v.
    + split; [by left|]. split; [done|]. intros (_ & v' & [= <-] & Hsel').
      by rewrite Hsel in Hsel'.
  - destruct Hpix as (Hget & _). rewrite Hget. exists 0. split; [done|].
    split; [by left|]. split; [done|]. by intros [? _].
Qed.

End BitmaskFacts.

(** A cutout with bits 1 and 5 on one pixel and bits 0, 1 and 5 on another,
    resampled to its own frame: only the first pixel is selected. *)
Lemma interpolate_maskbits_is_binary_witness :
  ∃ out,
    Bitmasks._interpolate_maskbits (C := Fixtures.masked_collaborators)
      (P := Demo.pixel_identity) 0 0 (Demo.meds_of 1 2 (Demo.two_images 0 0)) 1
      (Demo.meds_of 1 2 (Demo.two_images 0 0)) 0 = Ok out
    ∧ length <$> out = [2; 2]%nat
    ∧ out = [[0; 1]; [0; 0]].
Proof.
  pose proof (interpolate_maskbits_is_binary (C := Fixtures.masked_collaborators)
                (P := Demo.pixel_identity) 0 0
                (Demo.meds_of 1 2 (Demo.two_images 0 0)) 1
                (Demo.meds_of 1 2 (Demo.two_images 0 0)) 0 2
                (fun r c => (Z.of_nat r, Z.of_nat c))
                ltac:(repeat constructor) eq_refl) as Hspec.
  destruct Hspec as (out & Hout & Hlen & _).
  exists out. split; [exact Hout|]. split; [exact Hlen|].
  vm_compute in Hout. injection Hout as <-. reflexivity.
Defined.

Lemma for_each_append {A B} (step : list B → A → result (list B)) (g : A → result B)
    (l : list A) (acc0 acc : list B) :
  (∀ acc x, step acc x = (y ← g x; Ok (acc ++ [y]))) →
  for_each step l acc0 = Ok acc →
  ∃ ys, acc = acc0 ++ ys ∧ Forall2 (fun x y => g x = Ok y) l ys.
Proof.
  intros Hbody. revert acc0. induction l as [|x l IH]; intros acc0; simpl.
  - intros [= <-]. exists []. by rewrite app_nil_r.
  - intros Hm. apply bind_Ok in Hm as (acc1 & Hstep & Hrest).
    rewrite Hbody in Hstep.
    apply bind_Ok in Hstep as (y & Hy & [= <-]).
    destruct (IH _ Hrest) as (ys & -> & Hys).
    exists (y :: ys). rewrite <- app_assoc. split; [done|]. by constructor.
Qed.

Lemma for_each_nested {A B S} (f : A → S → B → result S) (l : list (A * list B)) st :
  for_each (fun st x => for_each (f x.1) x.2 st) l st
  = for_each (fun st y => f y.1 st y.2) (mjoin ((fun x => pair x.1 <$> x.2) <$> l)) st.
Proof.
  revert st. induction l as [|[a bs] l IH]; intros st; [done|].
  cbn [fmap list_fmap mjoin list_join for_each fst snd].
  rewrite for_each_app.
  assert (for_each (f a) bs st
          = for_each (fun st y => f y.1 st y.2) (pair a <$> bs) st) as ->.
  { clear. revert st. induction bs as [|b bs IHb]; intros st; simpl; [done|].
    destruct (f a st b); simpl; [apply IHb|done]. }
  destruct (for_each _ (pair a <$> bs) st); simpl; [apply IH|done].
Qed.

Lemma elem_of_enumerated {B} (bands : list (list B)) band (obs : B) :
  (band, obs) ∈ mjoin ((fun x : nat * list B => pair x.1 <$> x.2) <$> imap pair bands)
  ↔ ∃ obs_list, bands !! band = Some obs_list ∧ obs ∈ obs_list.
Proof.
  rewrite list_elem_of_join. split.
  - intros (l & Hin & ([k obs_list] & -> & Hk)%list_elem_of_fmap).
    apply list_elem_of_lookup in Hk as [i Hi].
    rewrite list_lookup_imap in Hi.
    destruct (bands !! i) as [ol|] eqn:Hol; [|done]. injection Hi as <- <-.
    simpl in Hin. apply list_elem_of_fmap in Hin as (o & [= -> ->] & Ho). eauto.
  - intros (obs_list & Hb & Ho). exists (pair band <$> obs_list). split.
    + apply list_elem_of_fmap. eauto.
    + apply list_elem_of_fmap. exists (band, obs_list). split; [done|].
      apply list_elem_of_lookup. exists band. rewrite list_lookup_imap. by rewrite Hb.
Qed.

Section ExtraBitmasks.
Context {C : Collaborators} {P : PixelMap}.
Import Bitmasks.

Lemma getitem_same_lengths {A B} (a : list (list A)) (b : list (list B)) i j :
  length <$> a = length <$> b →
  is_Some (Array2.getitem a i j) ↔ is_Some (Array2.getitem b i j).
Proof. intros Hl. by rewrite !getitem_is_Some_lengths, Hl. Qed.

(** A loop that ORs contributions into a mask. *)
Lemma ior_loop {A} (step : list (list Z) → A → result (list (list Z)))
    (contrib : A → result (option (list (list Z)))) l b0 b :
  (∀ b x, step b x = (c ← contrib x;
                      match c with Some m => ior b m | None => Ok b end)) →
  for_each step l b0 = Ok b →
  length <$> b = length <$> b0
  ∧ ∀ i j v0, Array2.getitem b0 i j = Some v0 →
      ∃ v, Array2.getitem b i j = Some v
        ∧ (v ≠ 0 ↔ v0 ≠ 0
                   ∨ ∃ x m c, x ∈ l ∧ contrib x = Ok (Some m)
                              ∧ Array2.getitem m i j = Some c ∧ c ≠ 0).
Proof.
  intros Hbody. revert b0. induction l as [|x l IH]; intros b0; simpl.
  - intros [= <-]. split; [done|]. intros i j v0 Hv0. exists v0. split; [done|].
    split; [by left|]. intros [?|(? & ? & ? & Hx & _)]; [done|by apply elem_of_nil in Hx].
  - intros Hm. apply bind_Ok in Hm as (b1 & Hstep & Hrest).
    rewrite Hbody in Hstep.
    apply bind_Ok in Hstep as (c & Hc & Hstep).
    destruct (IH _ Hrest) as (Hlen & Hpix).
    destruct c as [m|].
    + destruct (ior_Ok _ _ _ Hstep) as (Hl1 & Hlm & Hget).
      split; [by rewrite Hlen|].
      intros i j v0 Hv0.
      destruct (proj2 (getitem_same_lengths m b0 i j Hlm) (mk_is_Some _ _ Hv0)) as [c Hcm].
      assert (Array2.getitem b1 i j = Some (Z.lor v0 c)) as Hb1.
      { by rewrite Hget, Hv0, Hcm. }
      destruct (Hpix i j _ Hb1) as (v & Hv & Hiff). exists v. split; [done|].
      rewrite Hiff. rewrite Z.lor_eq_0_iff. split.
      * intros [Hnz|(y & m' & c' & Hy & ? & ? & ?)].
        -- destruct (decide (v0 = 0)) as [->|]; [|by left].
           right. exists x, m, c. split_and!; [by left|done|done|].
           intros ->. by apply Hnz.
        -- right. exists y, m', c'. split_and!; [by right|done..].
      * intros [Hnz|(y & m' & c' & [->|Hy]%elem_of_cons & Hcy & Hg & Hnz)].
        -- left. tauto.
        -- left. rewrite Hc in Hcy. injection Hcy as <-.
           rewrite Hcm in Hg. injection Hg as <-. tauto.
        -- right. by exists y, m', c'.
    + injection Hstep as ->. split; [done|].
      intros i j v0 Hv0. destruct (Hpix i j v0 Hv0) as (v & Hv & Hiff).
      exists v. split; [done|]. rewrite Hiff. split.
      * intros [?|(y & m' & c' & Hy & ? & ? & ?)]; [by left|].
        right. exists y, m', c'. split_and!; [by right|done..].
      * intros [?|(y & m' & c' & [->|Hy]%elem_of_cons & Hcy & Hg & Hnz)]; [by left| |].
        -- by rewrite Hc in Hcy.
        -- right. by exists y, m', c'.
Qed.

Lemma getitem_zeros n i j :
  Array2.getitem (zeros n) i j = if decide (i < n ∧ j < n)%nat then Some 0 else None.
Proof.
  unfold zeros, Array2.getitem.
  destruct (decide (i < n)%nat) as [Hi|Hi].
  - rewrite lookup_replicate_2 by done. simpl.
    destruct (decide (j < n)%nat) as [Hj|Hj].
    + rewrite lookup_replicate_2 by done. by rewrite decide_True.
    + rewrite decide_False by tauto. apply lookup_replicate_None. lia.
  - rewrite decide_False by tauto.
    assert (replicate n (replicate n 0) !! i = None) as ->; [|done].
    apply lookup_replicate_None. lia.
Qed.

Lemma row_lengths_zeros n : length <$> zeros n = replicate n n.
Proof. unfold zeros. by rewrite fmap_replicate, length_replicate. Qed.

(** The contribution of one Observation of the loop over the bands. *)
Lemma obs_step_contrib self mindex mt band bmask obs :
  obs_step self mindex mt band bmask obs
  = (c ← (if decide (Obs.flags obs = 0)
          then m ← py_getitem (meds_list self) band;
               bmaski ← _interpolate_maskbits mindex band m (Meta.icut (Obs.meta obs)) mt 0;
               Ok (Some bmaski)
          else Ok None);
     match c with Some m => ior bmask m | None => Ok bmask end).
Proof.
  unfold obs_step. case_decide; [|done].
  destruct (py_getitem (meds_list self) band); simpl; [|done].
  by destruct (_interpolate_maskbits _ _ _ _ _ _).
Qed.

(** The mask of one target band. *)
Lemma target_mask_spec self coadd mb bandt mt bmask :
  let mindex := MultiBand.meds_index (MultiBand.meta mb) in
  let box := Meds.box_size mt mindex in
  (bmask0 ← coadd_step coadd mindex bandt (zeros box);
   for_each (band_step self mindex mt) (imap pair (MultiBand.bands mb)) bmask0)
  = Ok bmask →
  length <$> bmask = replicate box box
  ∧ ∃ cobs_list,
      MultiBand.bands coadd !! bandt = Some cobs_list
      ∧ ∀ i j, (i < box)%nat → (j < box)%nat →
          ∃ v, Array2.getitem bmask i j = Some v
            ∧ (v ≠ 0
               ↔ (∃ cobs c, head cobs_list = Some cobs ∧ Obs.flags cobs = 0
                            ∧ Array2.getitem (bmask_cutout bandt mindex 0) i j = Some c
                            ∧ c ≠ 0)
                 ∨ (∃ band obs_list obs m bmaski b,
                      MultiBand.bands mb !! band = Some obs_list
                      ∧ obs ∈ obs_list ∧ Obs.flags obs = 0
                      ∧ meds_list self !! band = Some m
                      ∧ _interpolate_maskbits mindex band m (Meta.icut (Obs.meta obs)) mt 0
                        = Ok bmaski
                      ∧ Array2.getitem bmaski i j = Some b ∧ b ≠ 0)).
Proof.
  intros mindex box Hm. apply bind_Ok in Hm as (bmask0 & Hco & Hloop).
  unfold coadd_step in Hco. apply bind_Ok in Hco as (cobs_list & Hcl & Hco).
  apply py_getitem_Ok in Hcl.
  unfold band_step in Hloop.
  rewrite (for_each_nested (fun band b obs => obs_step self mindex mt band b obs)) in Hloop.
  destruct (ior_loop _
              (fun y : nat * Obs.t =>
                 if decide (Obs.flags y.2 = 0)
                 then m ← py_getitem (meds_list self) y.1;
                      bmaski ← _interpolate_maskbits mindex y.1 m
                                 (Meta.icut (Obs.meta y.2)) mt 0;
                      Ok (Some bmaski)
                 else Ok None)
              _ _ _ (fun b y => obs_step_contrib self mindex mt y.1 b y.2) Hloop)
    as (Hlen & Hpix).
  (* the co-add step *)
  assert (length <$> bmask0 = replicate box box
          ∧ ∀ i j, (i < box)%nat → (j < box)%nat →
              ∃ v0, Array2.getitem bmask0 i j = Some v0
                ∧ (v0 ≠ 0 ↔ ∃ cobs c, head cobs_list = Some cobs ∧ Obs.flags cobs = 0
                               ∧ Array2.getitem (bmask_cutout bandt mindex 0) i j = Some c
                               ∧ c ≠ 0)) as (Hlen0 & Hpix0).
  { assert (∀ i j, (i < box)%nat → (j < box)%nat →
              Array2.getitem (zeros box) i j = Some 0) as Hz.
    { intros i j Hi Hj. rewrite getitem_zeros. by rewrite decide_True. }
    assert (Hsame : bmask0 = zeros box →
              (¬ ∃ cobs, head cobs_list = Some cobs ∧ Obs.flags cobs = 0) →
              length <$> bmask0 = replicate box box
              ∧ ∀ i j, (i < box)%nat → (j < box)%nat →
                  ∃ v0, Array2.getitem bmask0 i j = Some v0
                    ∧ (v0 ≠ 0 ↔ ∃ cobs c, head cobs_list = Some cobs ∧ Obs.flags cobs = 0
                                   ∧ Array2.getitem (bmask_cutout bandt mindex 0) i j = Some c
                                   ∧ c ≠ 0)).
    { intros -> Hno. split; [apply row_lengths_zeros|].
      intros i j Hi Hj. exists 0. split; [by apply Hz|]. split; [done|].
      intros (cobs & c & ? & ? & _). exfalso. apply Hno. eauto. }
    destruct cobs_list as [|cobs rest].
    - injection Hco as <-. apply Hsame; [done|]. by intros (? & ? & _).
    - destruct (decide (Obs.flags cobs = 0)) as [Hf|Hf].
      + destruct (ior_Ok _ _ _ Hco) as (Hl1 & Hlm & Hget).
        split; [by rewrite Hl1, row_lengths_zeros|].
        intros i j Hi Hj.
        destruct (proj2 (getitem_same_lengths (bmask_cutout bandt mindex 0) (zeros box)
                            i j Hlm) (mk_is_Some _ _ (Hz i j Hi Hj))) as [c Hc].
        exists (Z.lor 0 c). split; [by rewrite Hget, Hz, Hc|].
        rewrite Z.lor_0_l. split.
        * intros Hnz. by exists cobs, c.
        * intros (cobs' & c' & _ & _ & Hc' & Hnz). by rewrite Hc in Hc'; injection Hc' as ->.
      + injection Hco as <-. apply Hsame; [done|].
        intros (cobs' & [= <-] & ?). done. }
  split; [by rewrite Hlen|].
  exists cobs_list. split; [done|].
  intros i j Hi Hj. destruct (Hpix0 i j Hi Hj) as (v0 & Hv0 & Hiff0).
  destruct (Hpix i j v0 Hv0) as (v & Hv & Hiff). exists v. split; [done|].
  rewrite Hiff, Hiff0. split.
  - intros [?|([band obs] & m & c & Hin & Hc & Hg & Hnz)]; [by left|]. right.
    apply elem_of_enumerated in Hin as (obs_list & Hb & Ho). cbn [fst snd] in Hc.
    destruct (decide (Obs.flags obs = 0)) as [Hf|]; [|done].
    apply bind_Ok in Hc as (m0 & Hm0%py_getitem_Ok & Hc).
    apply bind_Ok in Hc as (bmaski & Hi0 & [= <-]).
    by exists band, obs_list, obs, m0, bmaski, c.
  - intros [?|(band & obs_list & obs & m & bmaski & b & Hb & Ho & Hf & Hm0 & Hi0 & Hg & Hnz)];
      [by left|].
    right. exists (band, obs), bmaski, b. split_and!; [|  |done|done].
    + apply elem_of_enumerated. eauto.
    + cbn [fst snd]. rewrite decide_True by done.
      rewrite (proj2 (py_getitem_Ok _ _ _) Hm0), bind_of_Ok, Hi0. done.
Qed.

Lemma target_step_append self coadd mb acc x :
  target_step self coadd mb acc x
  = (y ← (bmask0 ← coadd_step coadd (MultiBand.meds_index (MultiBand.meta mb)) x.1
                     (zeros (Meds.box_size x.2 (MultiBand.meds_index (MultiBand.meta mb))));
          for_each (band_step self (MultiBand.meds_index (MultiBand.meta mb)) x.2)
            (imap pair (MultiBand.bands mb)) bmask0);
     Ok (acc ++ [y])).
Proof.
  unfold target_step. destruct (coadd_step _ _ _ _); simpl; [|done].
  by destruct (for_each _ _ _).
Qed.

(** X9.  [_get_extra_bitmasks] returns one mask per band, of the box size of
    the object in that band.  A pixel of the mask of a band is nonzero
    exactly when the co-add Observation of that band is usable and the
    co-add bit mask is nonzero there, or a usable Observation of any band
    has a selected pixel there after resampling to the co-add frame of the
    band. *)
Theorem extra_bitmasks_spec self coadd mb bmasks :
  _get_extra_bitmasks self coadd mb = Ok bmasks →
  let mindex := MultiBand.meds_index (MultiBand.meta mb) in
  length bmasks = length (meds_list self)
  ∧ ∀ bandt mt, meds_list self !! bandt = Some mt →
      ∃ bmask cobs_list,
        bmasks !! bandt = Some bmask
        ∧ length <$> bmask
          = replicate (Meds.box_size mt mindex) (Meds.box_size mt mindex)
        ∧ MultiBand.bands coadd !! bandt = Some cobs_list
        ∧ ∀ i j, (i < Meds.box_size mt mindex)%nat → (j < Meds.box_size mt mindex)%nat →
            ∃ v, Array2.getitem bmask i j = Some v
              ∧ (v ≠ 0
                 ↔ (∃ cobs c, head cobs_list = Some cobs ∧ Obs.flags cobs = 0
                              ∧ Array2.getitem (bmask_cutout bandt mindex 0) i j = Some c
                              ∧ c ≠ 0)
                   ∨ (∃ band obs_list obs m bmaski b,
                        MultiBand.bands mb !! band = Some obs_list
                        ∧ obs ∈ obs_list ∧ Obs.flags obs = 0
                        ∧ meds_list self !! band = Some m
                        ∧ _interpolate_maskbits mindex band m
                            (Meta.icut (Obs.meta obs)) mt 0 = Ok bmaski
                        ∧ Array2.getitem bmaski i j = Some b ∧ b ≠ 0)).
Proof.
  intros Hm mindex. unfold _get_extra_bitmasks in Hm.
  destruct (for_each_append _
              (fun x : nat * Meds.t =>
                 bmask0 ← coadd_step coadd mindex x.1 (zeros (Meds.box_size x.2 mindex));
                 for_each (band_step self mindex x.2) (imap pair (MultiBand.bands mb)) bmask0)
              _ _ _ (target_step_append self coadd mb) Hm) as (ys & -> & Hys).
  rewrite app_nil_l. split.
  - apply Forall2_length in Hys. by rewrite length_imap in Hys.
  - intros bandt mt Hmt.
    assert (imap pair (meds_list self) !! bandt = Some (bandt, mt)) as Hx.
    { rewrite list_lookup_imap. by rewrite Hmt. }
    destruct (Forall2_lookup_l _ _ _ _ _ Hys Hx) as (bmask & Hbm & Hg).
    cbn [fst snd] in Hg.
    destruct (target_mask_spec _ _ _ _ _ _ Hg) as (Hlen & cobs_list & Hcl & Hpix).
    by exists bmask, cobs_list.
Qed.

End ExtraBitmasks.

(** One band, an empty co-add list and one usable exposure: one mask, of
    the box size 2, with the one selected pixel. *)
Lemma extra_bitmasks_spec_witness :
  ∃ bmasks,
    Bitmasks._get_extra_bitmasks (C := Fixtures.masked_collaborators)
      (P := Demo.pixel_identity) (Demo.self_pair 0)
      {| MultiBand.bands := [[]]; MultiBand.meta := Demo.no_meta |}
      {| MultiBand.bands := Demo.se_lists (Demo.self_pair 0) 0;
         MultiBand.meta := Demo.no_meta |} = Ok bmasks
    ∧ length bmasks = 1%nat
    ∧ bmasks = [[[0; 1]; [0; 0]]].
Proof.
  destruct (Bitmasks._get_extra_bitmasks (C := Fixtures.masked_collaborators)
              (P := Demo.pixel_identity) (Demo.self_pair 0)
              {| MultiBand.bands := [[]]; MultiBand.meta := Demo.no_meta |}
              {| MultiBand.bands := Demo.se_lists (Demo.self_pair 0) 0;
                 MultiBand.meta := Demo.no_meta |}) as [bmasks|e] eqn:Hb;
    [|vm_compute in Hb; discriminate Hb].
  exists bmasks. split; [reflexivity|].
  split; [exact (proj1 (extra_bitmasks_spec _ _ _ _ Hb))|].
  vm_compute in Hb. injection Hb as <-. reflexivity.
Defined.

(** ** Objects that touch a masked stellar halo *)

Section HaloFacts.
Context {C : Collaborators}.
Import StellarHalo.

Lemma touched_pixels_spec seg_number bmask b q :
  touched_pixels seg_number bmask b = Ok q →
  q ≠ []
  ↔ ∃ seg i j v, Obs.seg b = Val seg
                 ∧ Array2.getitem bmask i j = Some v
                 ∧ Z.testbit v 5 = true
                 ∧ Array2.getitem seg i j = Some seg_number.
Proof.
  unfold touched_pixels. destruct (Obs.seg b) as [| |seg] eqn:Hseg; [done| |].
  - intros [= <-]. split; [done|]. by intros (? & ? & ? & ? & ? & _).
  - case_bool_decide; [|done]. intros [= <-].
    assert (Hin : ∀ i j, (i, j) ∈ Array2.where_
                           (fun bs : Z * Z => touched seg_number bs.1 bs.2)
                           (zip_with zip bmask seg)
                         ↔ ∃ v, Array2.getitem bmask i j = Some v
                                ∧ Z.testbit v 5 = true
                                ∧ Array2.getitem seg i j = Some seg_number).
    { intros i j. rewrite elem_of_where_, getitem_zip. unfold touched. split.
      - intros ([v s] & Hvs & Ht). cbn [fst snd] in Ht.
        apply andb_true_iff in Ht as [Hb Hs].
        apply negb_true_iff, Z.eqb_neq in Hb. apply Z.eqb_eq in Hs. subst s.
        destruct (Array2.getitem bmask i j) as [v'|]; [|done].
        destruct (Array2.getitem seg i j) as [s'|]; [|done].
        injection Hvs as -> ->. exists v. split_and!; [done| |done].
        apply not_false_iff_true. intros Hf. apply Hb.
        by apply (land_pow2_eq0 v 5).
      - intros (v & -> & Hv & ->). exists (v, seg_number). split; [done|].
        cbn [fst snd]. rewrite Z.eqb_refl, andb_true_r.
        apply negb_true_iff, Z.eqb_neq. intros H0.
        apply (land_pow2_eq0 v 5) in H0; [congruence|lia]. }
    split.
    + intros Hne. destruct (Array2.where_ _ _) as [|[i j] l] eqn:Hw; [done|].
      destruct (proj1 (Hin i j) ltac:(by left)) as (v & ? & ? & ?).
      by exists seg, i, j, v.
    + intros (seg' & i & j & v & [= <-] & ? & ? & ?) Hnil.
      assert ((i, j) ∈ Array2.where_
                (fun bs : Z * Z => touched seg_number bs.1 bs.2)
                (zip_with zip bmask seg)) as Hij by (apply Hin; eauto).
      rewrite Hnil in Hij. by apply elem_of_nil in Hij.
Qed.

Lemma obs_loop_spec self mindex seg_number band obs_list r :
  obs_loop self mindex seg_number band obs_list = Ok r →
  r = true
  ↔ ∃ obs seg i j b,
      obs ∈ obs_list ∧ Obs.flags obs = 0 ∧ Obs.seg (Obs.attrs obs) = Val seg
      ∧ Array2.getitem (bmask_cutout band mindex (Meta.icut (Obs.meta obs))) i j = Some b
      ∧ Z.testbit b 5 = true
      ∧ Array2.getitem seg i j = Some seg_number.
Proof.
  induction obs_list as [|obs rest IH]; simpl.
  - intros [= <-]. split; [done|]. intros (? & ? & ? & ? & ? & Hin & _).
    by apply elem_of_nil in Hin.
  - assert (Hrest : obs_loop self mindex seg_number band rest = Ok r →
              (¬ ∃ seg i j b, Obs.flags obs = 0 ∧ Obs.seg (Obs.attrs obs) = Val seg
                 ∧ Array2.getitem (bmask_cutout band mindex (Meta.icut (Obs.meta obs))) i j
                   = Some b
                 ∧ Z.testbit b 5 = true ∧ Array2.getitem seg i j = Some seg_number) →
              r = true
              ↔ ∃ obs' seg i j b,
                  obs' ∈ obs :: rest ∧ Obs.flags obs' = 0
                  ∧ Obs.seg (Obs.attrs obs') = Val seg
                  ∧ Array2.getitem (bmask_cutout band mindex (Meta.icut (Obs.meta obs'))) i j
                    = Some b
                  ∧ Z.testbit b 5 = true
                  ∧ Array2.getitem seg i j = Some seg_number).
    { intros Hr Hno. rewrite (IH Hr). split.
      - intros (o & seg & i & j & b & ? & ?). exists o, seg, i, j, b. split; [by right|done].
      - intros (o & seg & i & j & b & [->|?]%elem_of_cons & ? & ? & ? & ? & ?).
        + exfalso. apply Hno. by exists seg, i, j, b.
        + by exists o, seg, i, j, b. }
    destruct (decide (Obs.flags obs = 0)) as [Hf|Hf]; cycle 1.
    { intros Hr. apply Hrest; [done|]. by intros (? & ? & ? & ? & ? & _). }
    intros Hm. apply bind_Ok in Hm as (m & _ & Hm).
    apply bind_Ok in Hm as (q & Hq & Hm).
    pose proof (touched_pixels_spec _ _ _ _ Hq) as Hspec.
    destruct q as [|p q]; simpl in Hm.
    + apply Hrest; [done|]. intros (seg & i & j & b & _ & ? & ? & ? & ?).
      assert ([] ≠ @nil (nat * nat)) as Hne; [|done].
      apply Hspec. by exists seg, i, j, b.
    + injection Hm as <-. split; [|done]. intros _.
      destruct (proj1 Hspec ltac:(done)) as (seg & i & j & b & ? & ? & ? & ?).
      exists obs, seg, i, j, b. split; [by left|done].
Qed.

Lemma bands_loop_spec self mindex seg_number band0 bands r :
  bands_loop self mindex seg_number band0 bands = Ok r →
  r = true
  ↔ ∃ k obs_list obs seg i j b,
      bands !! k = Some obs_list
      ∧ obs ∈ obs_list ∧ Obs.flags obs = 0 ∧ Obs.seg (Obs.attrs obs) = Val seg
      ∧ Array2.getitem (bmask_cutout (band0 + k) mindex (Meta.icut (Obs.meta obs))) i j
        = Some b
      ∧ Z.testbit b 5 = true
      ∧ Array2.getitem seg i j = Some seg_number.
Proof.
  revert band0. induction bands as [|obs_list rest IH]; intros band0; simpl.
  - intros [= <-]. split; [done|]. by intros (? & ? & ? & ? & ? & ? & ? & ? & _).
  - intros Hm. apply bind_Ok in Hm as (r0 & Hobs & Hm).
    pose proof (obs_loop_spec _ _ _ _ _ _ Hobs) as Hspec.
    destruct r0.
    + injection Hm as <-. split; [|done]. intros _.
      destruct (proj1 Hspec eq_refl) as (obs & seg & i & j & b & ? & ? & ? & ? & ? & ?).
      exists 0%nat, obs_list, obs, seg, i, j, b. rewrite Nat.add_0_r. done.
    + rewrite (IH _ Hm). split.
      * intros (k & ol & obs & seg & i & j & b & ? & ? & ? & ? & Hg & ? & ?).
        exists (S k), ol, obs, seg, i, j, b.
        replace (band0 + S k)%nat with (S band0 + k)%nat by lia. done.
      * intros ([|k] & ol & obs & seg & i & j & b & Hk & ? & ? & ? & Hg & ? & ?).
        -- simpl in Hk. injection Hk as <-. rewrite Nat.add_0_r in Hg.
           assert (false = true); [|done].
           apply Hspec. by exists obs, seg, i, j, b.
        -- exists k, ol, obs, seg, i, j, b.
           replace (S band0 + k)%nat with (band0 + S k)%nat by lia. done.
Qed.

Lemma flag_one_spec self mb f :
  _flag_y1_stellarhalo_masked_one self mb = Ok f →
  ∃ m0 seg_number,
    meds_list self !! 0%nat = Some m0
    ∧ Meds.number m0 !! MultiBand.meds_index (MultiBand.meta mb) = Some seg_number
    ∧ MultiBand.id (MultiBand.meta mb) = Meds.id m0 (MultiBand.meds_index (MultiBand.meta mb))
    ∧ (f = 0 ∨ f = 1)
    ∧ (f = 1 ↔ touches (MultiBand.meds_index (MultiBand.meta mb)) seg_number mb).
Proof.
  unfold _flag_y1_stellarhalo_masked_one. intros Hm.
  apply bind_Ok in Hm as (m0 & Hm0%py_getitem_Ok & Hm).
  apply bind_Ok in Hm as (seg_number & Hn%py_getitem_Ok & Hm).
  apply bind_Ok in Hm as (u & Hid%py_assert_Ok & Hm).
  apply bind_Ok in Hm as (r & Hr & [= <-]).
  apply Z.eqb_eq in Hid.
  exists m0, seg_number. split_and!; [done..| |].
  - destruct r; [by right|by left].
  - pose proof (bands_loop_spec _ _ _ _ _ _ Hr) as Hspec. unfold touches.
    destruct r.
    + split; [|done]. intros _.
      destruct (proj1 Hspec eq_refl) as (k & ol & obs & seg & i & j & b & H').
      by exists k, ol, obs, seg, i, j, b.
    + split; [done|]. intros (k & ol & obs & seg & i & j & b & H').
      assert (false = true); [|done]. apply Hspec.
      by exists k, ol, obs, seg, i, j, b.
Qed.

Lemma stellarhalo_flag_cases self coadd mb f :
  MultiBand.meds_index (MultiBand.meta coadd) = MultiBand.meds_index (MultiBand.meta mb) →
  _flag_y1_stellarhalo_masked self coadd mb = Ok f →
  ∃ m0 seg_number,
    meds_list self !! 0%nat = Some m0
    ∧ Meds.number m0 !! MultiBand.meds_index (MultiBand.meta mb) = Some seg_number
    ∧ MultiBand.id (MultiBand.meta coadd)
      = Meds.id m0 (MultiBand.meds_index (MultiBand.meta mb))
    ∧ (f = 0 ∨ f = 1)
    ∧ (f = 1 ↔ touches (MultiBand.meds_index (MultiBand.meta mb)) seg_number coadd
               ∨ touches (MultiBand.meds_index (MultiBand.meta mb)) seg_number mb).
Proof.
  intros Hidx. unfold _flag_y1_stellarhalo_masked. intros Hm.
  apply bind_Ok in Hm as (fc & Hc & Hm).
  destruct (flag_one_spec _ _ _ Hc) as (m0 & seg_number & Hm0 & Hn & Hid & H01 & Hiff).
  rewrite Hidx in Hn, Hid, Hiff.
  exists m0, seg_number. split_and!; [done..| |].
  - rewrite Z.lor_0_l in Hm. destruct H01 as [->| ->]; simpl in Hm.
    + apply bind_Ok in Hm as (fm & Hmb & [= <-]).
      destruct (flag_one_spec _ _ _ Hmb) as (_ & _ & _ & _ & _ & H01' & _).
      by rewrite Z.lor_0_l.
    + injection Hm as <-. by right.
  - rewrite Z.lor_0_l in Hm. destruct H01 as [->| ->]; simpl in Hm.
    + apply bind_Ok in Hm as (fm & Hmb & [= <-]). rewrite Z.lor_0_l.
      destruct (flag_one_spec _ _ _ Hmb) as (m0' & sn' & Hm0' & Hn' & _ & _ & Hiff').
      assert (m0' = m0) as -> by congruence.
      assert (sn' = seg_number) as -> by congruence.
      rewrite Hiff'. split; [by right|]. intros [Ht|?]; [|done].
      apply Hiff in Ht. done.
    + injection Hm as <-. split; [|done]. intros _. left. by apply Hiff.
Qed.

(** X10.  When [_flag_y1_stellarhalo_masked] returns, its result is 0 or 1,
    the id of the co-add list is that of the object in the first file, and
    the result is 1 exactly when a usable Observation of the co-add list or
    of the single-epoch list has a pixel with bit 5 of its bit mask set
    where its segmentation map holds the object's own number. *)
Theorem stellarhalo_flag_spec self coadd mb f :
  MultiBand.meds_index (MultiBand.meta coadd) = MultiBand.meds_index (MultiBand.meta mb) →
  _flag_y1_stellarhalo_masked self coadd mb = Ok f →
  ∃ m0 seg_number,
    meds_list self !! 0%nat = Some m0
    ∧ Meds.number m0 !! MultiBand.meds_index (MultiBand.meta mb) = Some seg_number
    ∧ MultiBand.id (MultiBand.meta coadd)
      = Meds.id m0 (MultiBand.meds_index (MultiBand.meta mb))
    ∧ (f = 0 ∨ f = 1)
    ∧ (f = 1 ↔ touches (MultiBand.meds_index (MultiBand.meta mb)) seg_number coadd
               ∨ touches (MultiBand.meds_index (MultiBand.meta mb)) seg_number mb).
Proof. apply stellarhalo_flag_cases. Qed.

End HaloFacts.

(** The exposure of an object whose segmentation map holds its number on a
    pixel with bit 5 of the bit mask: the object is flagged. *)
Lemma stellarhalo_flag_spec_witness :
  StellarHalo._flag_y1_stellarhalo_masked (C := Fixtures.masked_collaborators)
    (Demo.self_pair 0)
    {| MultiBand.bands := [[]]; MultiBand.meta := Demo.no_meta |}
    {| MultiBand.bands := Demo.se_lists (Demo.self_pair 0) 0;
       MultiBand.meta := Demo.no_meta |} = Ok 1
  ∧ (StellarHalo.touches (C := Fixtures.masked_collaborators) 0 1
       {| MultiBand.bands := [[]]; MultiBand.meta := Demo.no_meta |}
     ∨ StellarHalo.touches (C := Fixtures.masked_collaborators) 0 1
         {| MultiBand.bands := Demo.se_lists (Demo.self_pair 0) 0;
            MultiBand.meta := Demo.no_meta |}).
Proof.
  assert (StellarHalo._flag_y1_stellarhalo_masked (C := Fixtures.masked_collaborators)
            (Demo.self_pair 0)
            {| MultiBand.bands := [[]]; MultiBand.meta := Demo.no_meta |}
            {| MultiBand.bands := Demo.se_lists (Demo.self_pair 0) 0;
               MultiBand.meta := Demo.no_meta |} = Ok 1) as Hf
    by (vm_compute; reflexivity).
  split; [exact Hf|].
  destruct (stellarhalo_flag_spec (C := Fixtures.masked_collaborators)
              (Demo.self_pair 0)
              {| MultiBand.bands := [[]]; MultiBand.meta := Demo.no_meta |}
              {| MultiBand.bands := Demo.se_lists (Demo.self_pair 0) 0;
                 MultiBand.meta := Demo.no_meta |} 1 eq_refl Hf)
    as (m0 & seg_number & Hm0 & Hn & _ & _ & Hiff).
  injection Hm0 as <-. vm_compute in Hn. injection Hn as <-.
  apply Hiff. reflexivity.
Defined.

(** ** What attaching the neighbours leaves alone *)

Lemma for_each_preorder {A S} (R : relation S) `{!PreOrder R}
    (body : S → A → result S) l st st' :
  (∀ s x s', body s x = Ok s' → R s s') →
  for_each body l st = Ok st' → R st st'.
Proof.
  intros Hbody. revert st. induction l as [|x l IH]; intros st; simpl.
  - by intros [= <-].
  - intros Hm. apply bind_Ok in Hm as (s1 & Hs1 & Hrest).
    etrans; [by eapply Hbody|by apply IH].
Qed.

Section NbrsFrameFacts.
Context {C : Collaborators}.
Import Nbrs NbrsFrame.

Lemma attach_attach l l' o : attach l' (attach l o) = attach l' o.
Proof. done. Qed.

#[local] Instance obs_upd_preorder : PreOrder obs_upd.
Proof.
  split.
  - intros o. by left.
  - intros o1 o2 o3 [->|(Hf & l & ->)] [->|(Hf' & l' & ->)].
    + by left.
    + right. eauto.
    + right. eauto.
    + right. split; [done|]. exists l'. apply attach_attach.
Qed.

#[local] Instance mb_upd_preorder : PreOrder mb_upd.
Proof.
  split.
  - intros mb. split; [done|]. reflexivity.
  - intros m1 m2 m3 [H1 F1] [H2 F2]. split; [congruence|]. by etrans.
Qed.

Lemma put_obs_upd mbs cen band k cen_mb obs_list obs obs' :
  mbs !! cen = Some cen_mb →
  MultiBand.bands cen_mb !! band = Some obs_list →
  obs_list !! k = Some obs →
  obs_upd obs obs' →
  Forall2 mb_upd mbs (put_obs mbs cen band k obs').
Proof.
  intros Hc Hb Hk Hu. unfold put_obs.
  apply Forall2_alter_r; [reflexivity|].
  intros x y Hx Hy _. assert (x = cen_mb) as -> by congruence.
  assert (y = cen_mb) as -> by congruence.
  split; [done|]. cbn [MultiBand.bands].
  apply Forall2_alter_r; [reflexivity|].
  intros ol ol' Hol Hol' _. assert (ol = obs_list) as -> by congruence.
  assert (ol' = obs_list) as -> by congruence.
  rewrite <- (list_insert_id obs_list k obs Hk) at 1.
  apply Forall2_insert; [reflexivity|done].
Qed.

Lemma obs_step_upd self mindexes cen mindex band mbs k mbs' :
  obs_step self mindexes cen mindex band mbs k = Ok mbs' →
  Forall2 mb_upd mbs mbs'.
Proof.
  unfold obs_step. intros Hm.
  apply bind_Ok in Hm as (cen_mb & Hc%py_getitem_Ok & Hm).
  apply bind_Ok in Hm as (obs_list & Hb%py_getitem_Ok & Hm).
  apply bind_Ok in Hm as (obs & Hk%py_getitem_Ok & Hm).
  destruct (decide (Obs.flags obs = 0)) as [Hf|Hf].
  - apply bind_Ok in Hm as (l & Hl & [= <-]).
    eapply put_obs_upd; [done..|]. right. eauto.
  - injection Hm as <-. reflexivity.
Qed.

Lemma add_nbrs_psfs_and_jacs_upd self mbs mindexes mbs' :
  _add_nbrs_psfs_and_jacs self mbs mindexes = Ok mbs' →
  Forall2 mb_upd mbs mbs'.
Proof.
  unfold _add_nbrs_psfs_and_jacs.
  apply (for_each_preorder (Forall2 mb_upd)).
  intros s [cen mindex] s'. unfold cen_step. intros Hm.
  apply bind_Ok in Hm as (cen_mb & _ & Hm). revert Hm.
  apply (for_each_preorder (Forall2 mb_upd)).
  intros s1 band s1'. unfold band_step. intros Hm.
  apply bind_Ok in Hm as (cen_mb1 & _ & Hm).
  apply bind_Ok in Hm as (obs_list & _ & Hm). revert Hm.
  apply (for_each_preorder (Forall2 mb_upd)).
  intros s2 k s2'. apply obs_step_upd.
Qed.

Lemma obs_upd_keeps o o' :
  obs_upd o o' →
  Obs.attrs o' = Obs.attrs o
  ∧ Obs.flags o' = Obs.flags o
  ∧ Meta.icut (Obs.meta o') = Meta.icut (Obs.meta o)
  ∧ Meta.id (Obs.meta o') = Meta.id (Obs.meta o)
  ∧ Meta.meta_data (Obs.meta o') = Meta.meta_data (Obs.meta o)
  ∧ (Obs.flags o ≠ 0 → o' = o).
Proof. intros [->|(Hf & l & ->)]; split_and!; done. Qed.

(** What two related lists of lists share, position by position. *)
Lemma lists_upd_lookup mbs mbs' :
  Forall2 mb_upd mbs mbs' →
  length mbs' = length mbs
  ∧ ∀ cen mb, mbs !! cen = Some mb →
      ∃ mb', mbs' !! cen = Some mb'
        ∧ MultiBand.meta mb' = MultiBand.meta mb
        ∧ length (MultiBand.bands mb') = length (MultiBand.bands mb)
        ∧ ∀ band obs_list, MultiBand.bands mb !! band = Some obs_list →
            ∃ obs_list', MultiBand.bands mb' !! band = Some obs_list'
              ∧ length obs_list' = length obs_list
              ∧ ∀ k obs, obs_list !! k = Some obs →
                  ∃ obs', obs_list' !! k = Some obs'
                    ∧ Obs.attrs obs' = Obs.attrs obs
                    ∧ Obs.flags obs' = Obs.flags obs
                    ∧ Meta.icut (Obs.meta obs') = Meta.icut (Obs.meta obs)
                    ∧ Meta.id (Obs.meta obs') = Meta.id (Obs.meta obs)
                    ∧ Meta.meta_data (Obs.meta obs') = Meta.meta_data (Obs.meta obs)
                    ∧ (Obs.flags obs ≠ 0 → obs' = obs).
Proof.
  intros HF. split; [symmetry; by eapply Forall2_length|].
  intros cen mb Hmb.
  destruct (Forall2_lookup_l _ _ _ _ _ HF Hmb) as (mb' & Hmb' & Hmeta & Hbands).
  exists mb'. split_and!; [done|done|symmetry; by eapply Forall2_length|].
  intros band obs_list Hol.
  destruct (Forall2_lookup_l _ _ _ _ _ Hbands Hol) as (ol' & Hol' & Hobs).
  exists ol'. split_and!; [done|symmetry; by eapply Forall2_length|].
  intros k obs Hk.
  destruct (Forall2_lookup_l _ _ _ _ _ Hobs Hk) as (obs' & Hk' & Hu).
  exists obs'. split; [done|]. by apply obs_upd_keeps.
Qed.

(** X11.  [_add_nbrs_psfs_and_jacs] changes nothing but the three neighbour
    entries of the meta data of Observations with status flag 0: the lists
    keep their lengths and their own meta data, every Observation keeps its
    pixels, weights, PSF and status flag and the rest of its meta data, and
    an Observation with a nonzero status flag is not touched at all. *)
Theorem add_nbrs_psfs_and_jacs_frame self mbs mindexes mbs' :
  _add_nbrs_psfs_and_jacs self mbs mindexes = Ok mbs' →
  length mbs' = length mbs
  ∧ ∀ cen mb, mbs !! cen = Some mb →
      ∃ mb', mbs' !! cen = Some mb'
        ∧ MultiBand.meta mb' = MultiBand.meta mb
        ∧ length (MultiBand.bands mb') = length (MultiBand.bands mb)
        ∧ ∀ band obs_list, MultiBand.bands mb !! band = Some obs_list →
            ∃ obs_list', MultiBand.bands mb' !! band = Some obs_list'
              ∧ length obs_list' = length obs_list
              ∧ ∀ k obs, obs_list !! k = Some obs →
                  ∃ obs', obs_list' !! k = Some obs'
                    ∧ Obs.attrs obs' = Obs.attrs obs
                    ∧ Obs.flags obs' = Obs.flags obs
                    ∧ Meta.icut (Obs.meta obs') = Meta.icut (Obs.meta obs)
                    ∧ Meta.id (Obs.meta obs') = Meta.id (Obs.meta obs)
                    ∧ Meta.meta_data (Obs.meta obs') = Meta.meta_data (Obs.meta obs)
                    ∧ (Obs.flags obs ≠ 0 → obs' = obs).
Proof. intros Hm. apply lists_upd_lookup. by eapply add_nbrs_psfs_and_jacs_upd. Qed.

End NbrsFrameFacts.

(** The two objects of a group, each the other's neighbour. *)
Lemma add_nbrs_psfs_and_jacs_frame_witness :
  ∃ mbs',
    Nbrs._add_nbrs_psfs_and_jacs (H := Demo.collaborators) (Demo.self_pair 0)
      (Demo.group_of_two 0 0) [0; 1]%nat = Ok mbs'
    ∧ length mbs' = length (Demo.group_of_two 0 0).
Proof.
  destruct (Nbrs._add_nbrs_psfs_and_jacs (H := Demo.collaborators) (Demo.self_pair 0)
              (Demo.group_of_two 0 0) [0; 1]%nat) as [mbs'|e] eqn:Hm;
    [|vm_compute in Hm; discriminate Hm].
  exists mbs'. split; [reflexivity|].
  exact (proj1 (add_nbrs_psfs_and_jacs_frame _ _ _ _ Hm)).
Defined.

(** ** Neighbour indices *)

Lemma for_each_enumerate_from {A St} (body : St → nat * A → result St)
    (Inv : nat → St → Prop) (l : list A) n st st' :
  Inv n st →
  (∀ k x s s', l !! k = Some x → Inv (n + k)%nat s → body s ((n + k)%nat, x) = Ok s' →
               Inv (S (n + k))%nat s') →
  for_each body (imap (fun i => pair (n + i)%nat) l) st = Ok st' →
  Inv (n + length l)%nat st'.
Proof.
  revert n st. induction l as [|x l IH]; intros n st H0 Hstep; simpl.
  - intros [= <-]. by rewrite Nat.add_0_r.
  - intros Hm. apply bind_Ok in Hm as (s1 & Hs1 & Hrest).
    rewrite Nat.add_0_r in Hs1.
    replace (n + S (length l))%nat with (S n + length l)%nat by lia.
    apply (IH (S n) s1).
    + specialize (Hstep 0%nat x st s1 eq_refl). rewrite Nat.add_0_r in Hstep. by apply Hstep.
    + intros k y s s' Hk Hi Hb.
      replace (S n + k)%nat with (n + S k)%nat in * by lia.
      by apply (Hstep (S k) y s s').
    + erewrite imap_ext; [exact Hrest|]. intros i y _. simpl. f_equal. lia.
Qed.

Lemma for_each_enumerate {A St} (body : St → nat * A → result St)
    (Inv : nat → St → Prop) (l : list A) st st' :
  Inv 0%nat st →
  (∀ k x s s', l !! k = Some x → Inv k s → body s (k, x) = Ok s' → Inv (S k)%nat s') →
  for_each body (imap pair l) st = Ok st' →
  Inv (length l) st'.
Proof.
  intros H0 Hstep Hm.
  apply (for_each_enumerate_from body Inv l 0 st st' H0); [|done].
  intros k x s s'. apply Hstep.
Qed.

Section NbrsInfoFacts.
Context {C : Collaborators}.
Import NbrsInfo NbrsInfoSpec Index.

Lemma take_nat_lookup (a : list Z) q out k v :
  take_nat a q = Ok out →
  out !! k = Some v ↔ ∃ mi, q !! k = Some mi ∧ a !! mi = Some v.
Proof.
  unfold take_nat. intros Hm%mapM_Ok. split.
  - intros Hk. destruct (Forall2_lookup_r _ _ _ _ _ Hm Hk) as (mi & Hq & Hg).
    apply py_getitem_Ok in Hg. eauto.
  - intros (mi & Hq & Ha). destruct (Forall2_lookup_l _ _ _ _ _ Hm Hq) as (y & Hy & Hg).
    apply py_getitem_Ok in Hg. congruence.
Qed.

Lemma row_step_spec self nbrs mindexes coadd me acc ind acc' :
  row_step self nbrs mindexes coadd me acc ind = Ok acc' →
  ∃ row, nbrs !! ind = Some row
    ∧ ((nbr_number row = -1 ∧ acc' = acc)
       ∨ (nbr_number row ≠ -1
          ∧ ∃ qi0 id, names self mindexes coadd me row qi0 id
                      ∧ acc' = (acc.1 ++ [qi0], acc.2 ++ [id]))).
Proof.
  unfold row_step. intros Hm.
  apply bind_Ok in Hm as (row & Hrow%py_getitem_Ok & Hm).
  exists row. split; [done|].
  destruct (Z.eqb_spec (nbr_number row) (-1)) as [E|E]; simpl in Hm.
  { left. by injection Hm as <-. }
  right. split; [done|].
  apply bind_Ok in Hm as (m0 & Hm0%py_getitem_Ok & Hm).
  apply bind_Ok in Hm as (numbers & Hnum & Hm).
  apply bind_Ok in Hm as (u & Hlen%py_assert_Ok & Hm).
  apply bind_Ok in Hm as (qi0 & Hqi%py_getitem_Ok & Hm).
  apply bind_Ok in Hm as (mi & Hmi%py_getitem_Ok & Hm).
  apply bind_Ok in Hm as (c & Hc%py_getitem_Ok & Hm).
  apply bind_Ok in Hm as (u1 & Hcid%py_assert_Ok & Hm).
  apply bind_Ok in Hm as (m & Hme%py_getitem_Ok & Hm).
  apply bind_Ok in Hm as (u2 & Hmid%py_assert_Ok & Hm).
  injection Hm as <-. apply Z.eqb_eq in Hcid, Hmid. apply Nat.eqb_eq in Hlen.
  assert (where_eq numbers (nbr_number row) = [qi0]) as Hq.
  { destruct (where_eq numbers (nbr_number row)) as [|a [|b l]]; simpl in *; try done.
    by injection Hqi as ->. }
  assert (Hin : ∀ k, numbers !! k = Some (nbr_number row) ↔ k = qi0).
  { intros k. rewrite <- elem_of_where_eq, Hq. apply list_elem_of_singleton. }
  exists qi0, (Meds.id m0 mi). split; [|done].
  exists m0, mi, c, m. split_and!; try done.
  - pose proof (proj2 (Hin qi0) eq_refl) as Hk.
    apply (take_nat_lookup _ _ _ _ _ Hnum) in Hk as (mi' & Hmi' & Hv).
    by assert (mi' = mi) as -> by congruence.
  - intros i' mi' Hi' Hv. apply Hin. apply (take_nat_lookup _ _ _ _ _ Hnum). eauto.
Qed.

(** The loop over the rows of the table that belong to the object. *)
Lemma rows_loop self nbrs mindexes coadd me own prefix rows acc acc' :
  nbrs = prefix ++ rows →
  for_each (row_step self nbrs mindexes coadd me)
    (where_eq_from (length prefix) (number <$> rows) own) acc = Ok acc' →
  ∃ inds ids,
    acc' = (acc.1 ++ inds, acc.2 ++ ids)
    ∧ length inds = length ids
    ∧ Forall2 (fun row p => names self mindexes coadd me row p.1 p.2)
        (nbr_rows rows own) (zip inds ids).
Proof.
  revert prefix acc. induction rows as [|row rows IH]; intros prefix acc Hn; simpl.
  - intros [= <-]. exists [], []. rewrite !app_nil_r. split; [by destruct acc|].
    split; [done|]. constructor.
  - assert (nbrs = (prefix ++ [row]) ++ rows) as Hn' by by rewrite <- app_assoc.
    assert (length (prefix ++ [row]) = S (length prefix)) as Hlen
      by (rewrite length_app; simpl; lia).
    unfold nbr_rows. rewrite filter_cons.
    destruct (Z.eqb_spec (number row) own) as [E|E].
    + rewrite decide_True by done. rewrite for_each_app. intros Hm.
      apply bind_Ok in Hm as (acc1 & Hfirst & Hrest).
      simpl in Hfirst. apply bind_Ok in Hfirst as (acc1' & Hstep & [= ->]).
      rewrite <- Hlen in Hrest.
      destruct (IH _ _ Hn' Hrest) as (inds & ids & -> & Hl & HF).
      destruct (row_step_spec _ _ _ _ _ _ _ _ Hstep) as (row' & Hrow' & Hcase).
      assert (row' = row) as ->.
      { rewrite Hn, lookup_app_r, Nat.sub_diag in Hrow' by lia. by injection Hrow'. }
      rewrite filter_cons.
      destruct Hcase as [[Hm1 ->]|(Hne & qi0 & id & Hnames & ->)].
      * rewrite decide_False by tauto. by exists inds, ids.
      * rewrite decide_True by done. exists (qi0 :: inds), (id :: ids).
        cbn [fst snd]. rewrite <- !app_assoc. split; [done|].
        split; [simpl; lia|]. simpl. by constructor.
    + rewrite decide_False by done. simpl. rewrite <- Hlen. by apply IH.
Qed.

Lemma nbrs_of_spec self nbrs mindexes coadd me cen mindex r :
  nbrs_of self nbrs mindexes coadd me cen mindex = Ok r →
  length r.1 = length r.2
  ∧ cen ∉ r.1
  ∧ ((length mindexes ≤ 1)%nat → r = ([], []))
  ∧ ((1 < length mindexes)%nat →
     ∃ m0 own, meds_list self !! 0%nat = Some m0
       ∧ Meds.number m0 !! mindex = Some own
       ∧ Forall2 (fun row p => names self mindexes coadd me row p.1 p.2)
           (nbr_rows nbrs own) (zip r.1 r.2)).
Proof.
  unfold nbrs_of. destruct (Nat.ltb_spec 1 (length mindexes)) as [Hlt|Hle].
  - intros Hm.
    apply bind_Ok in Hm as (m0 & Hm0%py_getitem_Ok & Hm).
    apply bind_Ok in Hm as (own & Hown%py_getitem_Ok & Hm).
    apply bind_Ok in Hm as (r' & Hloop & Hm).
    apply bind_Ok in Hm as (u & Hcen%py_assert_Ok & [= <-]).
    apply negb_true_iff, bool_decide_eq_false in Hcen.
    destruct (rows_loop self nbrs mindexes coadd me own [] nbrs _ _ eq_refl Hloop)
      as (inds & ids & -> & Hl & HF).
    cbn [fst snd app] in *. split_and!; [done|done|lia|].
    intros _. by exists m0, own.
  - intros [= <-]. split_and!; [done|by intros ?%elem_of_nil|done|lia].
Qed.

End NbrsInfoFacts.

Section NbrsInfoTheorem.
Context {C : Collaborators}.
Import NbrsInfo NbrsInfoSpec.

Lemma names_same_ids self mindexes c m c' m' row ind id :
  Forall2 (fun a b => MultiBand.id (MultiBand.meta a) = MultiBand.id (MultiBand.meta b)) c c' →
  Forall2 (fun a b => MultiBand.id (MultiBand.meta a) = MultiBand.id (MultiBand.meta b)) m m' →
  names self mindexes c m row ind id → names self mindexes c' m' row ind id.
Proof.
  intros Hc Hm (m0 & mi & x & y & ? & ? & ? & ? & ? & Hx & Hxid & Hy & Hyid).
  destruct (Forall2_lookup_l _ _ _ _ _ Hc Hx) as (x' & Hx' & Ex).
  destruct (Forall2_lookup_l _ _ _ _ _ Hm Hy) as (y' & Hy' & Ey).
  exists m0, mi, x', y'. split_and!; try done; congruence.
Qed.

Lemma meta_upd_ids l l' :
  Forall2 meta_upd l l' →
  Forall2 (fun a b => MultiBand.id (MultiBand.meta a) = MultiBand.id (MultiBand.meta b)) l' l.
Proof.
  intros HF. apply Forall2_flip. eapply Forall2_impl; [exact HF|].
  intros a b (_ & _ & Hid & _). done.
Qed.

Lemma save_orig_all_ids l :
  Forall2 (fun a b => MultiBand.id (MultiBand.meta a) = MultiBand.id (MultiBand.meta b))
    (save_orig_all l) l.
Proof.
  unfold save_orig_all. apply Forall2_fmap_l, Forall_Forall2_diag, Forall_forall.
  by intros mb _.
Qed.

#[local] Instance meta_upd_refl : Reflexive meta_upd.
Proof. intros mb. by split_and!. Qed.

Lemma set_nbrs_meta inds ids cen mb mb0 :
  meta_upd mb0 mb →
  MultiBand.meta (set_nbrs inds ids cen mb) = MultiBand.meta (set_nbrs inds ids cen mb0)
  ∧ MultiBand.bands (set_nbrs inds ids cen mb) = MultiBand.bands mb0.
Proof.
  intros (Hb & H1 & H2 & H3). unfold set_nbrs. cbn [MultiBand.meta MultiBand.bands].
  by rewrite H1, H2, H3, Hb.
Qed.

(** The loop over the objects of the group. *)
Lemma cen_loop_spec self nbrs mindexes c0 m0 st :
  for_each (cen_step self nbrs mindexes) (imap pair mindexes) (c0, m0) = Ok st →
  Forall2 meta_upd c0 st.1
  ∧ Forall2 meta_upd m0 st.2
  ∧ ∀ cen mindex, mindexes !! cen = Some mindex →
      ∃ c m c' m' r,
        c0 !! cen = Some c ∧ m0 !! cen = Some m
        ∧ st.1 !! cen = Some c' ∧ st.2 !! cen = Some m'
        ∧ MultiBand.meta c' = MultiBand.meta (set_nbrs r.1 r.2 cen c)
        ∧ MultiBand.meta m' = MultiBand.meta (set_nbrs r.1 r.2 cen m)
        ∧ length r.1 = length r.2
        ∧ cen ∉ r.1
        ∧ ((length mindexes ≤ 1)%nat → r = ([], []))
        ∧ ((1 < length mindexes)%nat →
           ∃ f0 own, meds_list self !! 0%nat = Some f0
             ∧ Meds.number f0 !! mindex = Some own
             ∧ Forall2 (fun row p => names self mindexes c0 m0 row p.1 p.2)
                 (nbr_rows nbrs own) (zip r.1 r.2)).
Proof.
  intros Hloop.
  pose (Inv := fun (k : nat) (s : list MultiBand.t * list MultiBand.t) =>
    Forall2 meta_upd c0 s.1
    ∧ Forall2 meta_upd m0 s.2
    ∧ ∀ cen mindex, (cen < k)%nat → mindexes !! cen = Some mindex →
        ∃ c m c' m' r,
          c0 !! cen = Some c ∧ m0 !! cen = Some m
          ∧ s.1 !! cen = Some c' ∧ s.2 !! cen = Some m'
          ∧ MultiBand.meta c' = MultiBand.meta (set_nbrs r.1 r.2 cen c)
          ∧ MultiBand.meta m' = MultiBand.meta (set_nbrs r.1 r.2 cen m)
          ∧ length r.1 = length r.2
          ∧ cen ∉ r.1
          ∧ ((length mindexes ≤ 1)%nat → r = ([], []))
          ∧ ((1 < length mindexes)%nat →
             ∃ f0 own, meds_list self !! 0%nat = Some f0
               ∧ Meds.number f0 !! mindex = Some own
               ∧ Forall2 (fun row p => names self mindexes c0 m0 row p.1 p.2)
                   (nbr_rows nbrs own) (zip r.1 r.2))).
  assert (Inv (length mindexes) st) as (Hc & Hm & Hall).
  { apply (for_each_enumerate (cen_step self nbrs mindexes) Inv mindexes (c0, m0) st);
      [| |exact Hloop].
    - split_and!; [reflexivity|reflexivity|]. intros; lia.
    - intros k mindex [c m] s' Hk (Hc & Hm & Hprev) Hstep. cbn [fst snd] in *.
      unfold cen_step in Hstep.
      apply bind_Ok in Hstep as (r & Hr & Hstep). cbn [fst snd] in *.
      apply bind_Ok in Hstep as (c1 & Hc1 & Hstep).
      apply bind_Ok in Hstep as (m1 & Hm1 & [= <-]).
      unfold update_at in Hc1, Hm1.
      apply bind_Ok in Hc1 as (ck & Hck%py_getitem_Ok & [= <-]).
      apply bind_Ok in Hm1 as (mk & Hmk%py_getitem_Ok & [= <-]).
      destruct (Forall2_lookup_r _ _ _ _ _ Hc Hck) as (c0k & Hc0k & Huc).
      destruct (Forall2_lookup_r _ _ _ _ _ Hm Hmk) as (m0k & Hm0k & Hum).
      cbn [fst snd]. split_and!.
      + apply Forall2_alter_r; [done|]. intros x y _ _ Hu.
        destruct (set_nbrs_meta r.1 r.2 k y x Hu) as (Hmeta & Hbands).
        destruct Hu as (_ & ? & ? & ?). by split_and!.
      + apply Forall2_alter_r; [done|]. intros x y _ _ Hu.
        destruct (set_nbrs_meta r.1 r.2 k y x Hu) as (Hmeta & Hbands).
        destruct Hu as (_ & ? & ? & ?). by split_and!.
      + intros cen mindex' Hlt Hcen.
        destruct (decide (cen = k)) as [->|Hne].
        * assert (mindex' = mindex) as -> by congruence.
          destruct (nbrs_of_spec _ _ _ _ _ _ _ _ Hr) as (Hl & Hnot & Hone & Hmany).
          exists c0k, m0k, (set_nbrs r.1 r.2 k ck), (set_nbrs r.1 r.2 k mk), r.
          split_and!; try done.
          -- cbn [fst snd]. rewrite list_lookup_alter_eq. by rewrite Hck.
          -- cbn [fst snd]. rewrite list_lookup_alter_eq. by rewrite Hmk.
          -- by apply set_nbrs_meta.
          -- by apply set_nbrs_meta.
          -- intros Hgt. destruct (Hmany Hgt) as (f0 & own & ? & ? & HF).
             exists f0, own. split_and!; [done|done|].
             eapply Forall2_impl; [exact HF|]. intros row p.
             apply names_same_ids; by apply meta_upd_ids.
        * destruct (Hprev cen mindex' ltac:(lia) Hcen)
            as (x & y & x' & y' & r' & ? & ? & ? & ? & ? & ? & ? & ? & ? & ?).
          exists x, y, x', y', r'. split_and!; try done.
          -- cbn [fst snd]. by rewrite list_lookup_alter_ne.
          -- cbn [fst snd]. by rewrite list_lookup_alter_ne. }
  split_and!; [done|done|].
  intros cen mindex Hcen. apply (Hall cen mindex); [|done].
  by eapply lookup_lt_Some.
Qed.

Lemma lookup_save_orig_all l cen :
  save_orig_all l !! cen
  = (fun mb => {| MultiBand.bands :=
                    (fun obs_list : list Obs.t => save_orig <$> obs_list)
                      <$> MultiBand.bands mb;
                  MultiBand.meta := MultiBand.meta mb |}) <$> l !! cen.
Proof. unfold save_orig_all. by rewrite list_lookup_fmap. Qed.

(** The Observations after the whole method. *)
Lemma saved_spec l l1 l2 :
  Forall2 meta_upd (save_orig_all l) l1 →
  Forall2 NbrsFrame.mb_upd l1 l2 →
  saved l l2.
Proof.
  intros H1 H2. unfold saved.
  pose proof (Forall2_length _ _ _ H1) as L1. pose proof (Forall2_length _ _ _ H2) as L2.
  unfold save_orig_all in L1. rewrite length_fmap in L1.
  split; [lia|].
  intros cen mb Hmb.
  assert (save_orig_all l !! cen
          = Some {| MultiBand.bands :=
                      (fun obs_list : list Obs.t => save_orig <$> obs_list)
                        <$> MultiBand.bands mb;
                    MultiBand.meta := MultiBand.meta mb |}) as Hs
    by (by rewrite lookup_save_orig_all, Hmb).
  destruct (Forall2_lookup_l _ _ _ _ _ H1 Hs) as (mb1 & Hmb1 & (Hb1 & _)).
  destruct (Forall2_lookup_l _ _ _ _ _ H2 Hmb1) as (mb2 & Hmb2 & (_ & Hb2)).
  cbn [MultiBand.bands] in Hb1. rewrite Hb1 in Hb2.
  exists mb2. split; [done|].
  pose proof (Forall2_length _ _ _ Hb2) as Lb. rewrite length_fmap in Lb.
  split; [lia|].
  intros band obs_list Hol.
  assert (((fun obs_list : list Obs.t => save_orig <$> obs_list) <$> MultiBand.bands mb)
            !! band = Some (save_orig <$> obs_list)) as Hol1
    by (by rewrite list_lookup_fmap, Hol).
  destruct (Forall2_lookup_l _ _ _ _ _ Hb2 Hol1) as (ol2 & Hol2 & Ho).
  exists ol2. split; [done|].
  pose proof (Forall2_length _ _ _ Ho) as Lo. rewrite length_fmap in Lo.
  split; [lia|].
  intros k obs Hk.
  assert ((save_orig <$> obs_list) !! k = Some (save_orig obs)) as Hk1
    by (by rewrite list_lookup_fmap, Hk).
  destruct (Forall2_lookup_l _ _ _ _ _ Ho Hk1) as (obs2 & Hk2 & Hu).
  exists obs2. split; [done|].
  destruct Hu as [->|(_ & lst & ->)]; done.
Qed.

Lemma add_nbrs_info_cases self nbrs coadd me mindexes coadd' me' :
  _add_nbrs_info self nbrs coadd me mindexes = Ok (coadd', me') →
  saved coadd coadd'
  ∧ saved me me'
  ∧ ∀ cen mindex, mindexes !! cen = Some mindex →
      ∃ c m c' m' inds ids,
        coadd !! cen = Some c ∧ me !! cen = Some m
        ∧ coadd' !! cen = Some c' ∧ me' !! cen = Some m'
        ∧ MultiBand.meta c' = MultiBand.meta (set_nbrs inds ids cen c)
        ∧ MultiBand.meta m' = MultiBand.meta (set_nbrs inds ids cen m)
        ∧ length inds = length ids
        ∧ cen ∉ inds
        ∧ ((length mindexes ≤ 1)%nat → inds = [] ∧ ids = [])
        ∧ ((1 < length mindexes)%nat →
           ∃ f0 own, meds_list self !! 0%nat = Some f0
             ∧ Meds.number f0 !! mindex = Some own
             ∧ Forall2 (fun row p => names self mindexes coadd me row p.1 p.2)
                 (nbr_rows nbrs own) (zip inds ids)).
Proof.
  unfold _add_nbrs_info. intros Hm.
  apply bind_Ok in Hm as (st & Hloop & Hm).
  apply bind_Ok in Hm as (c2 & Hc2 & Hm).
  apply bind_Ok in Hm as (m2 & Hm2 & [= <- <-]).
  destruct (cen_loop_spec _ _ _ _ _ _ Hloop) as (Hc & Hme & Hcen).
  pose proof (add_nbrs_psfs_and_jacs_upd _ _ _ _ Hc2) as Fc.
  pose proof (add_nbrs_psfs_and_jacs_upd _ _ _ _ Hm2) as Fm.
  split; [by eapply saved_spec|]. split; [by eapply saved_spec|].
  intros cen mindex Hcm.
  destruct (Hcen cen mindex Hcm)
    as (c & m & c1 & m1 & r & Hc0 & Hm0 & Hc1 & Hm1 & Ec & Em & Hl & Hnot & Hone & Hmany).
  rewrite lookup_save_orig_all in Hc0, Hm0.
  destruct (coadd !! cen) as [cc|] eqn:Hcc; [|done].
  destruct (me !! cen) as [mm|] eqn:Hmm; [|done].
  injection Hc0 as <-. injection Hm0 as <-.
  destruct (Forall2_lookup_l _ _ _ _ _ Fc Hc1) as (c' & Hc' & (Emc & _)).
  destruct (Forall2_lookup_l _ _ _ _ _ Fm Hm1) as (m' & Hm' & (Emm & _)).
  exists cc, mm, c', m', r.1, r.2. split_and!; try done.
  - by rewrite Emc, Ec.
  - by rewrite Emm, Em.
  - intros Hle. by rewrite (Hone Hle).
  - intros Hgt. destruct (Hmany Hgt) as (f0 & own & ? & ? & HF).
    exists f0, own. split_and!; [done|done|].
    eapply Forall2_impl; [exact HF|]. intros row p.
    apply names_same_ids; apply save_orig_all_ids.
Qed.

(** X12.  When [_add_nbrs_info] returns: every Observation of the two lists
    is the one it was given with its image and its weight saved as
    [image_orig] and [weight_orig], its status flag unchanged; and the meta
    data of the object at each position [cen] of the group get [cen_ind]
    and, in both lists alike, the positions and ids of its neighbours, one per
    row of the table that names a neighbour of the object, in the order of
    the table.  A position is that of the one object of the group that has
    the number the row names, never [cen] itself, and the id is that
    object's, in the file and in both lists.  A group of one object has no
    neighbours. *)
Theorem add_nbrs_info_spec self nbrs coadd me mindexes coadd' me' :
  _add_nbrs_info self nbrs coadd me mindexes = Ok (coadd', me') →
  saved coadd coadd'
  ∧ saved me me'
  ∧ ∀ cen mindex, mindexes !! cen = Some mindex →
      ∃ c m c' m' inds ids,
        coadd !! cen = Some c ∧ me !! cen = Some m
        ∧ coadd' !! cen = Some c' ∧ me' !! cen = Some m'
        ∧ MultiBand.meta c' = MultiBand.meta (set_nbrs inds ids cen c)
        ∧ MultiBand.meta m' = MultiBand.meta (set_nbrs inds ids cen m)
        ∧ length inds = length ids
        ∧ cen ∉ inds
        ∧ ((length mindexes ≤ 1)%nat → inds = [] ∧ ids = [])
        ∧ ((1 < length mindexes)%nat →
           ∃ f0 own, meds_list self !! 0%nat = Some f0
             ∧ Meds.number f0 !! mindex = Some own
             ∧ Forall2 (fun row p => names self mindexes coadd me row p.1 p.2)
                 (nbr_rows nbrs own) (zip inds ids)).
Proof. apply add_nbrs_info_cases. Qed.

End NbrsInfoTheorem.

(** The two objects of a group and a table that names each as the other's
    neighbour. *)
Lemma add_nbrs_info_spec_witness :
  ∃ coadd' me',
    NbrsInfo._add_nbrs_info (C := Demo.collaborators) (Demo.self_pair 0)
      Fixtures.nbrs_table Fixtures.fresh_pair Fixtures.fresh_pair [0; 1]%nat
    = Ok (coadd', me')
    ∧ NbrsInfoSpec.saved Fixtures.fresh_pair coadd'
    ∧ NbrsInfoSpec.saved Fixtures.fresh_pair me'
    ∧ MultiBand.nbrs_ids <$> (MultiBand.meta <$> me') = [[101]; [100]].
Proof.
  destruct (NbrsInfo._add_nbrs_info (C := Demo.collaborators) (Demo.self_pair 0)
              Fixtures.nbrs_table Fixtures.fresh_pair Fixtures.fresh_pair [0; 1]%nat)
    as [[coadd' me']|e] eqn:Hm; [|vm_compute in Hm; discriminate Hm].
  exists coadd', me'. split; [reflexivity|].
  destruct (add_nbrs_info_spec _ _ _ _ _ _ _ Hm) as (Hc & Hme & _).
  split; [exact Hc|]. split; [exact Hme|].
  vm_compute in Hm. injection Hm as <- <-. reflexivity.
Defined.

(** ** What [_add_nbrs_psfs_and_jacs] attaches *)

Lemma for_each_ext {A S} (f g : S → A → result S) l st :
  (∀ s x, x ∈ l → f s x = g s x) → for_each f l st = for_each g l st.
Proof.
  revert st. induction l as [|x l IH]; intros st Hfg; simpl; [done|].
  rewrite Hfg by set_solver. destruct (g st x); simpl; [|done].
  apply IH. intros s y Hy. apply Hfg. set_solver.
Qed.

Lemma for_each_establish {A St} (body : St → A → result St) (G : St → Prop)
    (K : relation St) `{!PreOrder K} (E : A → St → Prop) l st st' :
  G st →
  (∀ s x s', x ∈ l → G s → body s x = Ok s' → G s' ∧ K s s' ∧ E x s') →
  (∀ x s s', K s s' → E x s → E x s') →
  for_each body l st = Ok st' →
  G st' ∧ K st st' ∧ ∀ x, x ∈ l → E x st'.
Proof.
  intros HG Hstep Hstable. revert st HG. induction l as [|x l IH]; intros st HG; simpl.
  - intros [= <-]. split_and!; [done|reflexivity|]. intros x Hx. by apply elem_of_nil in Hx.
  - intros Hm. apply bind_Ok in Hm as (s1 & Hs1 & Hrest).
    destruct (Hstep st x s1 ltac:(set_solver) HG Hs1) as (HG1 & HK1 & HE1).
    destruct (IH ltac:(intros s y s' Hy; apply Hstep; set_solver) s1 HG1 Hrest)
      as (HG' & HK' & HE').
    split_and!; [done|by etrans|].
    intros y [->|Hy]%elem_of_cons; [by eapply Hstable|by apply HE'].
Qed.

Section NbrsAttach.
Context {C : Collaborators}.
Import Nbrs NbrsFrame NbrsCore.

#[local] Existing Instance obs_upd_preorder.
#[local] Existing Instance mb_upd_preorder.

Lemma strip_upd o o' : obs_upd o o' → strip o' = strip o.
Proof. by intros [->|(_ & l & ->)]. Qed.

Lemma strip_list_upd ol ol' : Forall2 obs_upd ol ol' → strip <$> ol' = strip <$> ol.
Proof.
  induction 1 as [|o o' ol ol' Ho _ IH]; [done|]. cbn. by rewrite IH, (strip_upd _ _ Ho).
Qed.

Lemma strip_mb_upd mb mb' : mb_upd mb mb' → strip_mb mb' = strip_mb mb.
Proof.
  intros [Hmeta Hbands]. unfold strip_mb. rewrite Hmeta. f_equal.
  induction Hbands as [|ol ol' bs bs' Hol _ IH]; [done|]. cbn.
  by rewrite IH, (strip_list_upd _ _ Hol).
Qed.

Lemma find_nbr_obs_strip cen_file_id nbr_id obs_list :
  find_nbr_obs cen_file_id nbr_id (strip <$> obs_list)
  = strip <$> find_nbr_obs cen_file_id nbr_id obs_list.
Proof.
  unfold find_nbr_obs.
  change (@None Obs.t) with (strip <$> (@None Obs.t)) at 1.
  generalize (@None Obs.t) as acc.
  induction obs_list as [|obs obs_list IH]; intros acc; [done|]. cbn [fmap list_fmap fold_left].
  rewrite <- IH. f_equal.
  change (obs_file_id (strip obs)) with (obs_file_id obs).
  change (Meta.id (Obs.meta (strip obs))) with (Meta.id (Obs.meta obs)).
  by destruct (_ && _).
Qed.

Lemma get_nbr_strip self band cen_ind cen_mindex cen_obs nbr_ind nbr_mindex mb :
  _get_nbr_psf_obs_and_jac self band cen_ind cen_mindex (strip cen_obs)
    nbr_ind nbr_mindex (strip_mb mb)
  = _get_nbr_psf_obs_and_jac self band cen_ind cen_mindex cen_obs
      nbr_ind nbr_mindex mb.
Proof.
  unfold _get_nbr_psf_obs_and_jac.
  destruct (py_getitem (meds_list self) band) as [meds|e]; [|done]. cbn.
  destruct (py_assert _); [|done]. cbn.
  change (Meta.id (Obs.meta (strip cen_obs))) with (Meta.id (Obs.meta cen_obs)).
  destruct (py_assert _); [|done]. cbn.
  unfold py_getitem. rewrite list_lookup_fmap.
  destruct (MultiBand.bands mb !! band) as [obs_list|]; [|done]. cbn.
  change (fold_left _ (strip <$> obs_list) None)
    with (find_nbr_obs (obs_file_id cen_obs) (Meds.id meds nbr_mindex)
            (strip <$> obs_list)).
  rewrite find_nbr_obs_strip.
  destruct (find_nbr_obs _ _ obs_list) as [nbr_obs|]; done.
Qed.

Lemma get_nbr_upd self band cen_ind cen_mindex o o' nbr_ind nbr_mindex mb mb' :
  obs_upd o o' → mb_upd mb mb' →
  _get_nbr_psf_obs_and_jac self band cen_ind cen_mindex o' nbr_ind nbr_mindex mb'
  = _get_nbr_psf_obs_and_jac self band cen_ind cen_mindex o nbr_ind nbr_mindex mb.
Proof.
  intros Ho Hmb.
  rewrite <- (get_nbr_strip _ _ _ _ o'), <- (get_nbr_strip _ _ _ _ o).
  by rewrite (strip_upd _ _ Ho), (strip_mb_upd _ _ Hmb).
Qed.

Lemma nbrs_of_obs_upd self mbs st mindexes band cen mindex o o' :
  Forall2 mb_upd mbs st → obs_upd o o' →
  nbrs_of_obs self st mindexes band cen mindex o'
  = nbrs_of_obs self mbs mindexes band cen mindex o.
Proof.
  intros Hst Ho. unfold nbrs_of_obs, py_getitem.
  pose proof (proj1 (Forall2_lookup _ _ _) Hst) as Hlook.
  destruct (Hlook cen) as [cen_mb cen_mb' [Hmeta _]|]; [|done]. cbn.
  rewrite Hmeta. apply for_each_ext. intros acc ind _.
  unfold nbr_step, py_getitem.
  destruct (mindexes !! ind) as [nbr_mindex|]; [|done]. cbn.
  destruct (Hlook ind) as [nbr_mb nbr_mb' Hnbr|]; [|done]. cbn.
  rewrite (get_nbr_upd _ _ _ _ _ _ _ _ _ _ Ho Hnbr).
  destruct Hnbr as [-> _]. done.
Qed.

Lemma get3_upd mbs st cen band k o :
  Forall2 mb_upd mbs st → get3 mbs cen band k = Some o →
  ∃ o', get3 st cen band k = Some o' ∧ obs_upd o o'.
Proof.
  intros Hst. unfold get3. intros Hg.
  destruct (mbs !! cen) as [mb|] eqn:Hmb; [|done]. cbn in Hg.
  destruct (MultiBand.bands mb !! band) as [ol|] eqn:Hol; [|done]. cbn in Hg.
  destruct (Forall2_lookup_l _ _ _ _ _ Hst Hmb) as (mb' & -> & _ & Hbands). cbn.
  destruct (Forall2_lookup_l _ _ _ _ _ Hbands Hol) as (ol' & -> & Hobs). cbn.
  destruct (Forall2_lookup_l _ _ _ _ _ Hobs Hg) as (o' & -> & Hu). eauto.
Qed.

Lemma get3_put_obs_eq mbs cen band k o v :
  get3 mbs cen band k = Some o → get3 (put_obs mbs cen band k v) cen band k = Some v.
Proof.
  unfold get3, put_obs. intros Hg. rewrite list_lookup_alter_eq.
  destruct (mbs !! cen) as [mb|]; [|done]. cbn in *.
  rewrite list_lookup_alter_eq.
  destruct (MultiBand.bands mb !! band) as [ol|]; [|done]. cbn in *.
  apply list_lookup_insert_eq. by eapply lookup_lt_Some.
Qed.

Lemma get3_put_obs_ne mbs cen band k v cen' band' k' :
  (cen', band', k') ≠ (cen, band, k) →
  get3 (put_obs mbs cen band k v) cen' band' k' = get3 mbs cen' band' k'.
Proof.
  unfold get3, put_obs. intros Hne.
  destruct (decide (cen' = cen)) as [->|Hc];
    [|by rewrite list_lookup_alter_ne by done].
  rewrite list_lookup_alter_eq. destruct (mbs !! cen) as [mb|]; [|done]. cbn.
  destruct (decide (band' = band)) as [->|Hb];
    [|by rewrite list_lookup_alter_ne by done].
  rewrite list_lookup_alter_eq.
  destruct (MultiBand.bands mb !! band) as [ol|]; [|done]. cbn.
  apply list_lookup_insert_ne. congruence.
Qed.

Lemma get3_Some mbs cen band k o :
  get3 mbs cen band k = Some o →
  ∃ mb obs_list,
    mbs !! cen = Some mb ∧ MultiBand.bands mb !! band = Some obs_list
    ∧ obs_list !! k = Some o.
Proof.
  unfold get3. intros Hg.
  destruct (mbs !! cen) as [mb|]; [|done]. cbn in Hg.
  destruct (MultiBand.bands mb !! band) as [ol|] eqn:Hb; [|done]. cbn in Hg.
  by exists mb, ol.
Qed.

Section Loops.
Variables (self : self_t) (mbs : list MultiBand.t) (mindexes : list nat).

#[local] Instance keeps_preorder : PreOrder (keeps self mbs mindexes).
Proof.
  split.
  - by intros s p.
  - intros s1 s2 s3 H1 H2 p Hp. by apply H2, H1.
Qed.

Lemma obs_step_attached cen mindex band st k st' :
  Forall2 mb_upd mbs st →
  mindexes !! cen = Some mindex →
  obs_step self mindexes cen mindex band st k = Ok st' →
  Forall2 mb_upd mbs st'
  ∧ keeps self mbs mindexes st st'
  ∧ attached self mbs mindexes (cen, band, k) st'.
Proof.
  intros Hst Hmi Hstep.
  split; [etrans; [done|by eapply obs_step_upd]|].
  unfold obs_step in Hstep.
  apply bind_Ok in Hstep as (cen_mb & Hc%py_getitem_Ok & Hstep).
  apply bind_Ok in Hstep as (obs_list & Hb%py_getitem_Ok & Hstep).
  apply bind_Ok in Hstep as (cur & Hk%py_getitem_Ok & Hstep).
  assert (get3 st cen band k = Some cur) as Hcur.
  { unfold get3. rewrite Hc. cbn. rewrite Hb. done. }
  assert (attached self mbs mindexes (cen, band, k) st') as Hest.
  { intros o Ho Hf. cbn [fst snd] in *.
    destruct (get3_upd _ _ _ _ _ _ Hst Ho) as (cur' & Hcur' & Hu).
    assert (cur' = cur) as -> by congruence.
    assert (Obs.flags cur = 0) as Hfc.
    { destruct Hu as [->|(_ & l0 & ->)]; done. }
    destruct (decide (Obs.flags cur = 0)) as [_|?]; [|done].
    apply bind_Ok in Hstep as (l & Hl & [= <-]).
    rewrite (nbrs_of_obs_upd _ _ _ _ _ _ _ _ _ Hst Hu) in Hl.
    exists mindex, l. split_and!; [done|done|].
    rewrite (get3_put_obs_eq _ _ _ _ _ _ Hcur). f_equal.
    destruct Hu as [->|(_ & l0 & ->)]; done. }
  split; [|done].
  intros [[c b] k'] Hp.
  destruct (decide ((c, b, k') = (cen, band, k))) as [[= -> -> ->]|Hne]; [done|].
  intros o Ho Hf. destruct (Hp o Ho Hf) as (mi & l & ? & ? & Hg). cbn [fst snd] in *.
  exists mi, l. split_and!; [done|done|].
  destruct (decide (Obs.flags cur = 0)) as [_|_].
  - apply bind_Ok in Hstep as (l' & _ & [= <-]). by rewrite get3_put_obs_ne.
  - by injection Hstep as <-.
Qed.

Lemma band_step_attached cen mindex st band st' :
  Forall2 mb_upd mbs st →
  mindexes !! cen = Some mindex →
  band_step self mindexes cen mindex st band = Ok st' →
  Forall2 mb_upd mbs st'
  ∧ keeps self mbs mindexes st st'
  ∧ ∀ k, attached self mbs mindexes (cen, band, k) st'.
Proof.
  intros Hst Hmi Hstep. unfold band_step in Hstep.
  apply bind_Ok in Hstep as (cen_mb & Hc%py_getitem_Ok & Hstep).
  apply bind_Ok in Hstep as (obs_list & Hb%py_getitem_Ok & Hstep).
  destruct (for_each_establish _ (Forall2 mb_upd mbs) (keeps self mbs mindexes)
              (fun k s => attached self mbs mindexes (cen, band, k) s)
              _ _ _ Hst
              ltac:(intros s k s' _ Hs Hk; by eapply obs_step_attached)
              ltac:(intros k s s' HK; apply HK) Hstep) as (HG & HK & HE).
  split_and!; [done|done|].
  intros k. destruct (decide (k < length obs_list)%nat) as [Hlt|Hge].
  - apply HE. apply elem_of_seq. lia.
  - intros o Ho _. cbn [fst snd] in Ho. exfalso.
    destruct (get3_upd _ _ _ _ _ _ Hst Ho) as (o' & Ho' & _).
    unfold get3 in Ho'. rewrite Hc in Ho'. cbn in Ho'. rewrite Hb in Ho'. cbn in Ho'.
    apply lookup_lt_Some in Ho'. lia.
Qed.

Lemma cen_step_attached cen mindex st st' :
  Forall2 mb_upd mbs st →
  mindexes !! cen = Some mindex →
  cen_step self mindexes st (cen, mindex) = Ok st' →
  Forall2 mb_upd mbs st'
  ∧ keeps self mbs mindexes st st'
  ∧ ∀ band k, attached self mbs mindexes (cen, band, k) st'.
Proof.
  intros Hst Hmi Hstep. unfold cen_step in Hstep.
  apply bind_Ok in Hstep as (cen_mb & Hc%py_getitem_Ok & Hstep).
  destruct (for_each_establish _ (Forall2 mb_upd mbs) (keeps self mbs mindexes)
              (fun band s => ∀ k, attached self mbs mindexes (cen, band, k) s)
              _ _ _ Hst
              ltac:(intros s band s' _ Hs Hb; by eapply band_step_attached)
              ltac:(intros band s s' HK HE k; apply HK, HE) Hstep) as (HG & HK & HE).
  split_and!; [done|done|].
  intros band k.
  destruct (decide (band < length (MultiBand.bands cen_mb))%nat) as [Hlt|Hge].
  - apply HE. apply elem_of_seq. lia.
  - intros o Ho _. cbn [fst snd] in Ho. exfalso.
    destruct (get3_upd _ _ _ _ _ _ Hst Ho) as (o' & Ho' & _).
    unfold get3 in Ho'. rewrite Hc in Ho'. cbn in Ho'.
    destruct (MultiBand.bands cen_mb !! band) eqn:Hb; [|done].
    apply lookup_lt_Some in Hb. lia.
Qed.

Lemma add_nbrs_psfs_and_jacs_attached mbs' :
  _add_nbrs_psfs_and_jacs self mbs mindexes = Ok mbs' →
  ∀ cen mindex, mindexes !! cen = Some mindex →
    ∀ band k, attached self mbs mindexes (cen, band, k) mbs'.
Proof.
  unfold _add_nbrs_psfs_and_jacs. intros Hm.
  destruct (for_each_establish (cen_step self mindexes) (Forall2 mb_upd mbs)
              (keeps self mbs mindexes)
              (fun cm s => ∀ band k, attached self mbs mindexes (cm.1, band, k) s)
              (imap pair mindexes) mbs mbs' ltac:(reflexivity)) as (_ & _ & HE);
    [| |exact Hm|].
  - intros s [cen mindex] s' Hx Hs Hstep.
    apply elem_of_lookup_imap in Hx as (i & y & [= -> ->] & Hi).
    by eapply cen_step_attached.
  - intros cm s s' HK HE band k. apply HK, HE.
  - intros cen mindex Hmi band k.
    apply (HE (cen, mindex)). apply elem_of_lookup_imap. eauto.
Qed.

End Loops.

(** C10.  When [_add_nbrs_psfs_and_jacs] returns, every Observation of every
    object of the group is still at its place, one with a nonzero status
    flag exactly as it was, and one with status flag 0 with three lists
    stored in its meta data under [nbrs_psfs], [nbrs_jacs] and [nbrs_flags].
    The lists have one entry per neighbour index of the object, in the order
    of [nbrs_inds]: the PSF and the Jacobian that [_get_nbr_psf_obs_and_jac]
    returned for that neighbour, and a flag that is 0 or 1.  The flag is 0
    exactly when the PSF is present, the Jacobian is present and the
    neighbour's [obj_flags] is 0; a neighbour with a nonzero [obj_flags] has
    the flag 1 whatever was returned for it. *)
Theorem nbrs_flag_iff_psf_jac_and_object_ok
    self mb_obs_lists mindexes mb_obs_lists' :
  _add_nbrs_psfs_and_jacs self mb_obs_lists mindexes = Ok mb_obs_lists' →
  ∀ cen mindex cen_mb band obs_list k obs,
    mindexes !! cen = Some mindex →
    mb_obs_lists !! cen = Some cen_mb →
    MultiBand.bands cen_mb !! band = Some obs_list →
    obs_list !! k = Some obs →
    ∃ cen_mb' obs_list' obs',
      mb_obs_lists' !! cen = Some cen_mb'
      ∧ MultiBand.bands cen_mb' !! band = Some obs_list'
      ∧ obs_list' !! k = Some obs'
      ∧ (Obs.flags obs ≠ 0 → obs' = obs)
      ∧ (Obs.flags obs = 0 →
         ∃ l,
           obs' = attach l obs
           ∧ Meta.nbrs_psfs (Obs.meta obs') = Some (nbrs_psfs l)
           ∧ Meta.nbrs_jacs (Obs.meta obs') = Some (nbrs_jacs l)
           ∧ Meta.nbrs_flags (Obs.meta obs') = Some (nbrs_flags l)
           ∧ length (nbrs_psfs l) = length (MultiBand.nbrs_inds (MultiBand.meta cen_mb))
           ∧ length (nbrs_jacs l) = length (MultiBand.nbrs_inds (MultiBand.meta cen_mb))
           ∧ length (nbrs_flags l) = length (MultiBand.nbrs_inds (MultiBand.meta cen_mb))
           ∧ ∀ i ind, MultiBand.nbrs_inds (MultiBand.meta cen_mb) !! i = Some ind →
               ∃ nbr_mindex nbr_mb psf_obs jac flag,
                 mindexes !! ind = Some nbr_mindex
                 ∧ mb_obs_lists !! ind = Some nbr_mb
                 ∧ _get_nbr_psf_obs_and_jac self band cen mindex obs ind nbr_mindex nbr_mb
                   = Ok (psf_obs, jac)
                 ∧ nbrs_psfs l !! i = Some psf_obs
                 ∧ nbrs_jacs l !! i = Some jac
                 ∧ nbrs_flags l !! i = Some flag
                 ∧ (flag = 0 ↔ is_Some psf_obs ∧ is_Some jac
                                ∧ MultiBand.obj_flags (MultiBand.meta nbr_mb) = 0)
                 ∧ (flag = 0 ∨ flag = 1)
                 ∧ (MultiBand.obj_flags (MultiBand.meta nbr_mb) ≠ 0 → flag = 1)).
Proof.
  intros Hm cen mindex cen_mb band obs_list k obs Hmi Hcen Hband Hk.
  pose proof (add_nbrs_psfs_and_jacs_upd _ _ _ _ Hm) as Hupd.
  destruct (Forall2_lookup_l _ _ _ _ _ Hupd Hcen) as (cen_mb' & Hcen' & _ & Hbands).
  destruct (Forall2_lookup_l _ _ _ _ _ Hbands Hband) as (obs_list' & Hband' & Hobs).
  destruct (Forall2_lookup_l _ _ _ _ _ Hobs Hk) as (obs' & Hk' & Hu).
  exists cen_mb', obs_list', obs'. split_and!; [done|done|done| |].
  - by apply obs_upd_keeps.
  - intros Hf.
    assert (get3 mb_obs_lists cen band k = Some obs) as Hg.
    { unfold get3. rewrite Hcen. cbn. rewrite Hband. done. }
    destruct (add_nbrs_psfs_and_jacs_attached _ _ _ _ Hm cen mindex Hmi band k obs Hg Hf)
      as (mindex' & l & Hmi' & Hl & Hg').
    cbn [fst snd] in *. assert (mindex' = mindex) as -> by congruence.
    assert (obs' = attach l obs) as ->.
    { unfold get3 in Hg'. rewrite Hcen' in Hg'. cbn in Hg'. rewrite Hband' in Hg'.
      cbn in Hg'. congruence. }
    destruct (nbrs_of_obs_spec _ _ _ _ _ _ _ _ _ Hcen Hl)
      as (L1 & L2 & L3 & _ & _ & _ & Hnbr).
    exists l. split_and!; done.
Qed.

End NbrsAttach.

(** The group of two objects, each the other's neighbour; the second has the
    object-level flag 4, so that the first gets a PSF and a Jacobian for it
    and the flag 1. *)
Lemma nbrs_flag_iff_psf_jac_and_object_ok_witness :
  ∃ mbs' cen_mb' obs_list' obs',
    Nbrs._add_nbrs_psfs_and_jacs (H := Demo.collaborators) (Demo.self_pair 0)
      (Demo.group_of_two 0 4) [0; 1]%nat = Ok mbs'
    ∧ mbs' !! 0%nat = Some cen_mb'
    ∧ MultiBand.bands cen_mb' !! 0%nat = Some obs_list'
    ∧ obs_list' !! 0%nat = Some obs'
    ∧ Meta.nbrs_flags (Obs.meta obs') = Some [1]
    ∧ ∃ psf_obs jac,
        Meta.nbrs_psfs (Obs.meta obs') = Some [Some psf_obs]
        ∧ Meta.nbrs_jacs (Obs.meta obs') = Some [Some jac].
Proof.
  destruct (Nbrs._add_nbrs_psfs_and_jacs (H := Demo.collaborators) (Demo.self_pair 0)
              (Demo.group_of_two 0 4) [0; 1]%nat) as [mbs'|e] eqn:Hm;
    [|vm_compute in Hm; discriminate Hm].
  destruct (NbrsCore.get3 (Demo.group_of_two 0 4) 0 0 0) as [obs|] eqn:Hg;
    [|vm_compute in Hg; discriminate Hg].
  destruct (get3_Some _ _ _ _ _ Hg) as (cen_mb & obs_list & Hc & Hb & Hk).
  destruct (nbrs_flag_iff_psf_jac_and_object_ok (C := Demo.collaborators)
              (Demo.self_pair 0) (Demo.group_of_two 0 4) [0; 1]%nat mbs' Hm
              0%nat 0%nat cen_mb 0%nat obs_list 0%nat obs eq_refl Hc Hb Hk)
    as (cen_mb' & obs_list' & obs' & H1 & H2 & H3 & _).
  exists mbs', cen_mb', obs_list', obs'. split; [reflexivity|].
  split; [exact H1|]. split; [exact H2|]. split; [exact H3|].
  vm_compute in Hm. injection Hm as <-.
  vm_compute in H1. injection H1 as <-.
  vm_compute in H2. injection H2 as <-.
  vm_compute in H3. injection H3 as <-.
  split; [reflexivity|]. eexists _, _. split; reflexivity.
Defined.

(** ** The Observations of one object *)

Section AssembleFacts.
Context {C : Collaborators} {P : PixelMap}.
Import Assemble.

Lemma band_loop_mapM self mindex l acc acc' :
  for_each (band_step self mindex) l acc = Ok acc' →
  ∃ brs,
    mapM (fun band => Builder._get_band_observations self band mindex) l = Ok brs
    ∧ acc'.1 = acc.1 ++ (Builder.coadd_obs_list <$> brs)
    ∧ acc'.2 = acc.2 ++ (Builder.se_obs_list <$> brs).
Proof.
  revert acc. induction l as [|band l IH]; intros acc; simpl.
  - intros [= <-]. exists []. by rewrite !app_nil_r.
  - intros Hm. apply bind_Ok in Hm as (acc1 & Hstep & Hrest).
    unfold band_step in Hstep. apply bind_Ok in Hstep as (br & Hbr & [= <-]).
    destruct (IH _ Hrest) as (brs & Hbrs & H1 & H2). cbn [fst snd] in *.
    exists (br :: brs). rewrite Hbr. simpl. rewrite Hbrs. simpl.
    rewrite H1, H2, <- !app_assoc. done.
Qed.

Lemma for_each_in_place_length {A} (body : A → A * option exn) l l' e :
  Propagate.for_each_in_place body l = (l', e) → length l' = length l.
Proof.
  revert l' e. induction l as [|x l IH]; intros l' e; simpl.
  - by intros [= <- _].
  - destruct (body x) as [x' [e'|]].
    + by intros [= <- _].
    + destruct (Propagate.for_each_in_place body l) as [l'' e''] eqn:Hl.
      intros [= <- _]. simpl. f_equal. by eapply IH.
Qed.

Lemma prop_bands_length self mindex bmasks band bands bands' e :
  Propagate.prop_bands self mindex bmasks band bands = (bands', e) →
  length bands' = length bands.
Proof.
  revert band bands' e. induction bands as [|ol bands IH]; intros band bands' e; simpl.
  - by intros [= <- _].
  - destruct (Propagate.prop_band self mindex bmasks band ol) as [ol' [e'|]].
    + by intros [= <- _].
    + destruct (Propagate.prop_bands self mindex bmasks (S band) bands) as [r e''] eqn:Hr.
      intros [= <- _]. simpl. f_equal. by eapply IH.
Qed.

Lemma base_spec self env mindex r :
  MEDSImageIO_get_multi_band_observations self env mindex = Ok r →
  ∃ m0 number brs row0,
    meds_list self !! 0%nat = Some m0
    ∧ Meds.number m0 !! mindex = Some number
    ∧ mapM (fun band => Builder._get_band_observations self band mindex)
        (seq 0 (length (meds_list self))) = Ok brs
    ∧ _get_meta_row self env = Ok row0
    ∧ MultiBand.bands (coadd_mb_obs_list r) = Builder.coadd_obs_list <$> brs
    ∧ MultiBand.bands (mb_obs_list r) = Builder.se_obs_list <$> brs
    ∧ MultiBand.meta (coadd_mb_obs_list r) = fresh_meta mindex (Meds.id m0 mindex)
    ∧ MultiBand.meta (mb_obs_list r) = fresh_meta mindex (Meds.id m0 mindex)
    ∧ ObjRow.id (meta_data r) = Meds.id m0 mindex
    ∧ ObjRow.number (meta_data r) = astype_i4 number
    ∧ ObjRow.nimage_tot (meta_data r)
      = (fun m => astype_i4 (Z.of_nat (Meds.ncutout m mindex) - 1)) <$> meds_list self
    ∧ ObjRow.fofid (meta_data r) = DEFVAL
    ∧ ObjRow.coadd_run (meta_data r) = ObjRow.coadd_run row0.
Proof.
  unfold MEDSImageIO_get_multi_band_observations. intros Hm.
  apply bind_Ok in Hm as (lists & Hloop & Hm).
  apply bind_Ok in Hm as (row0 & Hrow & Hm).
  apply bind_Ok in Hm as (m0 & Hm0%py_getitem_Ok & Hm).
  apply bind_Ok in Hm as (number & Hn%py_getitem_Ok & [= <-]).
  destruct (band_loop_mapM _ _ _ _ _ Hloop) as (brs & Hbrs & H1 & H2).
  exists m0, number, brs, row0. cbn. split_and!; try done.
  unfold _get_meta_row in Hrow. apply bind_Ok in Hrow as (run & _ & [= <-]). done.
Qed.

Lemma svdes_spec self env mindex r :
  cls self ≠ MEDSImageIO →
  SVDES_get_multi_band_observations self env mindex = Ok r →
  ∃ m0 number brs run,
    meds_list self !! 0%nat = Some m0
    ∧ Meds.number m0 !! mindex = Some number
    ∧ mapM (fun band => Builder._get_band_observations self band mindex)
        (seq 0 (length (meds_list self))) = Ok brs
    ∧ coadd_run_name env = Ok run
    ∧ MultiBand.bands (coadd_mb_obs_list r) = Builder.coadd_obs_list <$> brs
    ∧ MultiBand.bands (mb_obs_list r) = Builder.se_obs_list <$> brs
    ∧ MultiBand.meta (coadd_mb_obs_list r) = fresh_meta mindex (Meds.id m0 mindex)
    ∧ MultiBand.meta (mb_obs_list r) = fresh_meta mindex (Meds.id m0 mindex)
    ∧ ObjRow.id (meta_data r) = Meds.id m0 mindex
    ∧ ObjRow.number (meta_data r) = astype_i4 number
    ∧ ObjRow.nimage_tot (meta_data r)
      = (fun m => astype_i4 (Z.of_nat (Meds.ncutout m mindex) - 1)) <$> meds_list self
    ∧ ObjRow.fofid (meta_data r) = DEFVAL
    ∧ ObjRow.coadd_run (meta_data r) = ObjRow.Run run.
Proof.
  intros Hcls. unfold SVDES_get_multi_band_observations. intros Hm.
  apply bind_Ok in Hm as (r0 & Hbase & Hm).
  apply bind_Ok in Hm as (run & Hrun & [= <-]).
  destruct (base_spec _ _ _ _ Hbase)
    as (m0 & number & brs & row0 & ? & ? & ? & ? & ? & ? & ? & ? & ? & ? & ? & ? & ?).
  exists m0, number, brs, run. cbn. split_and!; done.
Qed.

Lemma prop_step_spec self r r1 :
  prop_step self r = Ok r1 →
  coadd_mb_obs_list r1 = coadd_mb_obs_list r
  ∧ meta_data r1 = meta_data r
  ∧ MultiBand.meta (mb_obs_list r1) = MultiBand.meta (mb_obs_list r)
  ∧ length (MultiBand.bands (mb_obs_list r1)) = length (MultiBand.bands (mb_obs_list r))
  ∧ (prop_sat_starpix (conf self) = false → r1 = r).
Proof.
  unfold prop_step. destruct (prop_sat_starpix (conf self)).
  - intros Hm. apply bind_Ok in Hm as (bmasks & _ & Hm).
    unfold Propagate._prop_extra_bitmasks in Hm.
    destruct (Propagate.prop_bands _ _ _ _ _) as [bands [e|]] eqn:Hb; [done|].
    injection Hm as <-. cbn. split_and!; [done|done|done| |done].
    by eapply prop_bands_length.
  - intros [= <-]. done.
Qed.

Lemma touches_bands mindex number mb mb' :
  MultiBand.bands mb' = MultiBand.bands mb →
  StellarHalo.touches mindex number mb ↔ StellarHalo.touches mindex number mb'.
Proof. unfold StellarHalo.touches. by intros ->. Qed.

Lemma flag_step_spec self env r r2 :
  MultiBand.meta (coadd_mb_obs_list r) = MultiBand.meta (mb_obs_list r) →
  MultiBand.obj_flags (MultiBand.meta (mb_obs_list r)) = 0 →
  flag_step self env r = Ok r2 →
  MultiBand.bands (coadd_mb_obs_list r2) = MultiBand.bands (coadd_mb_obs_list r)
  ∧ MultiBand.bands (mb_obs_list r2) = MultiBand.bands (mb_obs_list r)
  ∧ meta_data r2 = meta_data r
  ∧ MultiBand.meta (coadd_mb_obs_list r2) = MultiBand.meta (mb_obs_list r2)
  ∧ MultiBand.meds_index (MultiBand.meta (mb_obs_list r2))
    = MultiBand.meds_index (MultiBand.meta (mb_obs_list r))
  ∧ MultiBand.id (MultiBand.meta (mb_obs_list r2))
    = MultiBand.id (MultiBand.meta (mb_obs_list r))
  ∧ (MultiBand.obj_flags (MultiBand.meta (mb_obs_list r2)) = 0
     ∨ MultiBand.obj_flags (MultiBand.meta (mb_obs_list r2)) = 1)
  ∧ ∀ m0 number,
      meds_list self !! 0%nat = Some m0 →
      Meds.number m0 !! MultiBand.meds_index (MultiBand.meta (mb_obs_list r)) = Some number →
      (MultiBand.obj_flags (MultiBand.meta (mb_obs_list r2)) = 1
       ↔ flag_y1_stellarhalo_masked env = true
         ∧ (StellarHalo.touches (MultiBand.meds_index (MultiBand.meta (mb_obs_list r)))
              number (coadd_mb_obs_list r2)
            ∨ StellarHalo.touches (MultiBand.meds_index (MultiBand.meta (mb_obs_list r)))
                number (mb_obs_list r2))).
Proof.
  intros Hmeta H0. unfold flag_step.
  destruct (flag_y1_stellarhalo_masked env).
  - intros Hm. apply bind_Ok in Hm as (f & Hf & Hm).
    destruct (stellarhalo_flag_cases _ _ _ _ ltac:(by rewrite Hmeta) Hf)
      as (m0 & number & Hm0 & Hn & _ & H01 & Hiff).
    destruct H01 as [->| ->]; simpl in Hm; injection Hm as <-.
    + split_and!; [done|done|done|done|done|done|by left|].
      intros m0' number' Hm0' Hn'. rewrite H0.
      assert (m0' = m0) as -> by congruence.
      assert (number' = number) as -> by congruence.
      split; [done|]. intros [_ Ht]. by apply Hiff in Ht.
    + cbn. rewrite Hmeta, H0. split_and!; [done|done|done|done|done|done|by right|].
      intros m0' number' Hm0' Hn'.
      assert (m0' = m0) as -> by congruence.
      assert (number' = number) as -> by congruence.
      split; [|done]. intros _. split; [done|].
      destruct (proj1 Hiff eq_refl) as [Ht|Ht]; [left|right];
        by eapply touches_bands; [|exact Ht].
  - intros [= <-]. split_and!; [done|done|done|done|done|done|by left|].
    intros m0 number _ _. rewrite H0. split; [done|]. by intros [? _].
Qed.

Lemma get_multi_band_observations_cases self env mindex r :
  _get_multi_band_observations self env mindex = Ok r →
  ∃ m0 number brs,
    meds_list self !! 0%nat = Some m0
    ∧ Meds.number m0 !! mindex = Some number
    ∧ mapM (fun band => Builder._get_band_observations self band mindex)
        (seq 0 (length (meds_list self))) = Ok brs
    ∧ MultiBand.bands (coadd_mb_obs_list r) = Builder.coadd_obs_list <$> brs
    ∧ length (MultiBand.bands (mb_obs_list r)) = length (meds_list self)
    ∧ (cls self ≠ Y1DESMEDSImageIO ∨ prop_sat_starpix (conf self) = false →
       MultiBand.bands (mb_obs_list r) = Builder.se_obs_list <$> brs)
    ∧ MultiBand.meta (coadd_mb_obs_list r) = MultiBand.meta (mb_obs_list r)
    ∧ MultiBand.meds_index (MultiBand.meta (mb_obs_list r)) = mindex
    ∧ MultiBand.id (MultiBand.meta (mb_obs_list r)) = Meds.id m0 mindex
    ∧ (MultiBand.obj_flags (MultiBand.meta (mb_obs_list r)) = 0
       ∨ MultiBand.obj_flags (MultiBand.meta (mb_obs_list r)) = 1)
    ∧ (MultiBand.obj_flags (MultiBand.meta (mb_obs_list r)) = 1
       ↔ cls self = Y1DESMEDSImageIO
         ∧ flag_y1_stellarhalo_masked env = true
         ∧ (StellarHalo.touches mindex number (coadd_mb_obs_list r)
            ∨ StellarHalo.touches mindex number (mb_obs_list r)))
    ∧ ObjRow.id (meta_data r) = Meds.id m0 mindex
    ∧ ObjRow.number (meta_data r) = astype_i4 number
    ∧ ObjRow.nimage_tot (meta_data r)
      = (fun m => astype_i4 (Z.of_nat (Meds.ncutout m mindex) - 1)) <$> meds_list self
    ∧ ObjRow.fofid (meta_data r) = DEFVAL.
Proof.
  unfold _get_multi_band_observations.
  destruct (cls self) eqn:Hcls.
  - intros Hm. destruct (base_spec _ _ _ _ Hm)
      as (m0 & number & brs & row0 & ? & ? & Hbrs & ? & Hc & Hs & Hmc & Hmm & ? & ? & ? & ? & ?).
    exists m0, number, brs. rewrite Hmc, Hmm, Hs. cbn.
    pose proof (mapM_Ok_length _ _ _ Hbrs) as Hl. rewrite length_seq in Hl.
    split_and!; try done.
    + by rewrite length_fmap.
    + by left.
    + split; [done|]. by intros [? _].
  - intros Hm. destruct (svdes_spec _ _ _ _ ltac:(by rewrite Hcls) Hm)
      as (m0 & number & brs & run & ? & ? & Hbrs & ? & Hc & Hs & Hmc & Hmm & ? & ? & ? & ? & ?).
    exists m0, number, brs. rewrite Hmc, Hmm, Hs. cbn.
    pose proof (mapM_Ok_length _ _ _ Hbrs) as Hl. rewrite length_seq in Hl.
    split_and!; try done.
    + by rewrite length_fmap.
    + by left.
    + split; [done|]. by intros [? _].
  - unfold Y1_get_multi_band_observations. intros Hm.
    apply bind_Ok in Hm as (r0 & Hsv & Hm).
    apply bind_Ok in Hm as (r1 & Hprop & Hflag).
    destruct (svdes_spec _ _ _ _ ltac:(by rewrite Hcls) Hsv)
      as (m0 & number & brs & run & Hm0 & Hn & Hbrs & ? & Hc & Hs & Hmc & Hmm & Hi & Hnum & Hnt & Hfo & ?).
    destruct (prop_step_spec _ _ _ Hprop) as (Hc1 & Hrow1 & Hmeta1 & Hlen1 & Hsame).
    assert (MultiBand.meta (coadd_mb_obs_list r1) = MultiBand.meta (mb_obs_list r1)) as Hmeq
      by (rewrite Hc1, Hmeta1; congruence).
    assert (MultiBand.obj_flags (MultiBand.meta (mb_obs_list r1)) = 0) as Hz
      by (by rewrite Hmeta1, Hmm).
    destruct (flag_step_spec _ _ _ _ Hmeq Hz Hflag)
      as (Hcb & Hmb & Hrow2 & Hmeq2 & Hidx2 & Hid2 & H01 & Hiff).
    pose proof (mapM_Ok_length _ _ _ Hbrs) as Hl. rewrite length_seq in Hl.
    rewrite Hmeta1, Hmm in Hidx2, Hid2, Hiff. cbn in Hidx2, Hid2, Hiff.
    exists m0, number, brs. split_and!; try done.
    + by rewrite Hcb, Hc1.
    + by rewrite Hmb, Hlen1, Hs, length_fmap.
    + intros [?|Hoff]; [done|]. by rewrite Hmb, (Hsame Hoff).
    + rewrite (Hiff m0 number Hm0 Hn). tauto.
    + by rewrite Hrow2, Hrow1.
    + by rewrite Hrow2, Hrow1.
    + by rewrite Hrow2, Hrow1.
    + by rewrite Hrow2, Hrow1.
Qed.

(** X13.  When [_get_multi_band_observations] returns for an object: each
    of the two lists has one entry per band; the co-add Observations are
    those the builder made, whatever the class and the options; the
    single-epoch Observations are too unless [Y1DESMEDSImageIO] propagates
    the saturation mask; the two lists carry the same meta data, with the
    row and the id of the object; the object flag is 0 or 1, and it is 1
    exactly when the class is [Y1DESMEDSImageIO], the stellar-halo option is
    set and a usable Observation touches a masked halo; and the row of meta
    data holds the id, the number, the count of single epochs of every band
    and no group id yet. *)
Theorem get_multi_band_observations_spec self env mindex r :
  _get_multi_band_observations self env mindex = Ok r →
  ∃ m0 number brs,
    meds_list self !! 0%nat = Some m0
    ∧ Meds.number m0 !! mindex = Some number
    ∧ mapM (fun band => Builder._get_band_observations self band mindex)
        (seq 0 (length (meds_list self))) = Ok brs
    ∧ MultiBand.bands (coadd_mb_obs_list r) = Builder.coadd_obs_list <$> brs
    ∧ length (MultiBand.bands (mb_obs_list r)) = length (meds_list self)
    ∧ (cls self ≠ Y1DESMEDSImageIO ∨ prop_sat_starpix (conf self) = false →
       MultiBand.bands (mb_obs_list r) = Builder.se_obs_list <$> brs)
    ∧ MultiBand.meta (coadd_mb_obs_list r) = MultiBand.meta (mb_obs_list r)
    ∧ MultiBand.meds_index (MultiBand.meta (mb_obs_list r)) = mindex
    ∧ MultiBand.id (MultiBand.meta (mb_obs_list r)) = Meds.id m0 mindex
    ∧ (MultiBand.obj_flags (MultiBand.meta (mb_obs_list r)) = 0
       ∨ MultiBand.obj_flags (MultiBand.meta (mb_obs_list r)) = 1)
    ∧ (MultiBand.obj_flags (MultiBand.meta (mb_obs_list r)) = 1
       ↔ cls self = Y1DESMEDSImageIO
         ∧ flag_y1_stellarhalo_masked env = true
         ∧ (StellarHalo.touches mindex number (coadd_mb_obs_list r)
            ∨ StellarHalo.touches mindex number (mb_obs_list r)))
    ∧ ObjRow.id (meta_data r) = Meds.id m0 mindex
    ∧ ObjRow.number (meta_data r) = astype_i4 number
    ∧ ObjRow.nimage_tot (meta_data r)
      = (fun m => astype_i4 (Z.of_nat (Meds.ncutout m mindex) - 1)) <$> meds_list self
    ∧ ObjRow.fofid (meta_data r) = DEFVAL.
Proof. apply get_multi_band_observations_cases. Qed.

End AssembleFacts.

(** An object of a [Y1DESMEDSImageIO] run in the tile directory [run7],
    with both options set and a masked halo on its own pixels. *)
Lemma get_multi_band_observations_spec_witness :
  ∃ r,
    Assemble._get_multi_band_observations (C := Fixtures.masked_collaborators)
      (P := Demo.pixel_identity) (Demo.self_with true "mof") (Fixtures.env_of true) 0
    = Ok r
    ∧ MultiBand.meta (Assemble.coadd_mb_obs_list r)
      = MultiBand.meta (Assemble.mb_obs_list r)
    ∧ ObjRow.fofid (Assemble.meta_data r) = DEFVAL
    ∧ MultiBand.obj_flags (MultiBand.meta (Assemble.mb_obs_list r)) = 1
    ∧ ObjRow.coadd_run (Assemble.meta_data r) = ObjRow.Run "run7".
Proof.
  destruct (Assemble._get_multi_band_observations (C := Fixtures.masked_collaborators)
              (P := Demo.pixel_identity) (Demo.self_with true "mof")
              (Fixtures.env_of true) 0) as [r|e] eqn:Hr;
    [|vm_compute in Hr; discriminate Hr].
  exists r. split; [reflexivity|].
  destruct (get_multi_band_observations_spec _ _ _ _ Hr)
    as (m0 & number & brs & _ & _ & _ & _ & _ & _ & Hmeta & _ & _ & _ & _ & _ & _ & _ & Hfof).
  split; [exact Hmeta|]. split; [exact Hfof|].
  vm_compute in Hr. injection Hr as <-. split; reflexivity.
Defined.

(** ** One group per call *)

Section IterateFacts.
Context {C : Collaborators} {P : PixelMap}.
Import Iterate.

Lemma get_obj_spec st fofid mindex r :
  get_obj st fofid mindex = Ok r →
  MultiBand.meta (Assemble.coadd_mb_obs_list r) = MultiBand.meta (Assemble.mb_obs_list r)
  ∧ MultiBand.meds_index (MultiBand.meta (Assemble.mb_obs_list r)) = mindex
  ∧ MultiBand.id (MultiBand.meta (Assemble.mb_obs_list r)) = ObjRow.id (Assemble.meta_data r)
  ∧ length (MultiBand.bands (Assemble.coadd_mb_obs_list r)) = length (meds_list (self st))
  ∧ length (MultiBand.bands (Assemble.mb_obs_list r)) = length (meds_list (self st))
  ∧ ObjRow.fofid (Assemble.meta_data r)
    = match fof_file st with Some _ => fofid | None => DEFVAL end.
Proof.
  unfold get_obj. intros Hm.
  apply bind_Ok in Hm as (m0' & _ & Hm).
  apply bind_Ok in Hm as (r0 & Hr0 & [= <-]).
  destruct (get_multi_band_observations_cases _ _ _ _ Hr0)
    as (m0 & number & brs & _ & _ & Hbrs & Hc & Hlen & _ & Hmeta & Hidx & Hid & _ & _
        & Hrid & _ & _ & Hfof).
  pose proof (mapM_Ok_length _ _ _ Hbrs) as Hl. rewrite length_seq in Hl.
  assert (length (MultiBand.bands (Assemble.coadd_mb_obs_list r0))
          = length (meds_list (self st))) as Hcl
    by (by rewrite Hc, length_fmap).
  destruct (fof_file st); cbn; split_and!; try done; congruence.
Qed.

Lemma obj_step_append st fofid acc mindex :
  obj_step st fofid acc mindex = (y ← get_obj st fofid mindex; Ok (acc ++ [y])).
Proof. done. Qed.

Lemma saved_lookup l l' i mb :
  NbrsInfoSpec.saved l l' → l !! i = Some mb →
  ∃ mb', l' !! i = Some mb'
         ∧ length (MultiBand.bands mb') = length (MultiBand.bands mb).
Proof.
  intros [_ Hs] Hi. destruct (Hs _ _ Hi) as (mb' & ? & ? & _). by exists mb'.
Qed.

Lemma add_nbrs_info_upd self table coadd me mindexes coadd' me' :
  length coadd = length mindexes →
  NbrsInfo._add_nbrs_info self table coadd me mindexes = Ok (coadd', me') →
  length coadd' = length coadd
  ∧ length me' = length me
  ∧ ∀ i c m, coadd !! i = Some c → me !! i = Some m →
      ∃ c' m', coadd' !! i = Some c' ∧ me' !! i = Some m' ∧ IterateSpec.nbrs_upd true i c m c' m'.
Proof.
  intros Hlen Hm.
  destruct (add_nbrs_info_cases _ _ _ _ _ _ _ Hm) as (Hsc & Hsm & Hcen).
  split; [apply Hsc|]. split; [apply Hsm|].
  intros i c m Hc Hme.
  destruct (lookup_lt_is_Some_2 mindexes i) as [mindex Hmi].
  { rewrite <- Hlen. by eapply lookup_lt_Some. }
  destruct (Hcen _ _ Hmi)
    as (c0 & m0 & c' & m' & inds & ids & Hc0 & Hm0 & Hc' & Hm' & Ec & Em & _).
  assert (c0 = c) as -> by congruence. assert (m0 = m) as -> by congruence.
  destruct (saved_lookup _ _ _ _ Hsc Hc) as (c'' & Hc'' & Hbc).
  destruct (saved_lookup _ _ _ _ Hsm Hme) as (m'' & Hm'' & Hbm).
  assert (c'' = c') as -> by congruence. assert (m'' = m') as -> by congruence.
  exists c', m'. split; [done|]. split; [done|].
  unfold IterateSpec.nbrs_upd. rewrite Ec, Em. cbn. split_and!; done.
Qed.

Lemma nbrs_step_spec st coadd me mindexes coadd' me' :
  length coadd = length mindexes →
  nbrs_step st coadd me mindexes = Ok (coadd', me') →
  length coadd' = length coadd
  ∧ length me' = length me
  ∧ ∀ i c m, coadd !! i = Some c → me !! i = Some m →
      ∃ c' m', coadd' !! i = Some c' ∧ me' !! i = Some m'
               ∧ IterateSpec.nbrs_upd (model_nbrs (conf (self st))) i c m c' m'.
Proof.
  intros Hlen. unfold nbrs_step. destruct (model_nbrs (conf (self st))).
  - destruct (nbrs st) as [table|].
    + by apply add_nbrs_info_upd.
    + destruct (1 <? length mindexes)%nat; [done|]. by apply add_nbrs_info_upd.
  - intros [= <- <-]. split; [done|]. split; [done|].
    intros i c m Hc Hm. exists c, m. unfold IterateSpec.nbrs_upd. split_and!; done.
Qed.

Lemma members_are_rows fof meds ix k fofid rows :
  Index._set_and_check_index_lookups fof meds = Ok ix →
  Index.fofids ix !! k = Some fofid →
  Index.members ix fofid = Ok rows →
  rows = Z.of_nat <$> (Z.to_nat <$> rows).
Proof.
  intros Hix Hk Hrows.
  destruct (index_groups_cover _ _ _ Hix) as (_ & groups & Hg & _ & Hperm).
  destruct (mapM_Ok_lookup _ _ _ _ _ Hg Hk) as (rows' & Hrows' & Hgk).
  assert (rows' = rows) as -> by congruence.
  rewrite <- list_fmap_compose. symmetry.
  rewrite <- (list_fmap_id rows) at 2. apply list_fmap_ext.
  intros i z Hz. cbn.
  assert (z ∈ mjoin groups) as Hin.
  { apply list_elem_of_join. exists rows. split; [by eapply list_elem_of_lookup_2|].
    by eapply list_elem_of_lookup_2. }
  rewrite Hperm in Hin. apply list_elem_of_fmap in Hin as (n & -> & _).
  by rewrite Nat2Z.id.
Qed.

Lemma next_group_spec st coadd me rows :
  Index._set_and_check_index_lookups (fof_file st) (meds_list (self st)) = Ok (index st) →
  next_group st = Ok (coadd, me, rows) →
  obj_flags_given st = false
  ∧ ∃ fofid mindexes,
      Index.fofids (index st) !! fofindex st = Some fofid
      ∧ Index.members (index st) fofid = Ok (Z.of_nat <$> mindexes)
      ∧ length coadd = length mindexes
      ∧ length me = length mindexes
      ∧ length rows = length mindexes
      ∧ ∀ i mindex, mindexes !! i = Some mindex →
          ∃ c m row,
            coadd !! i = Some c ∧ me !! i = Some m ∧ rows !! i = Some row
            ∧ MultiBand.meds_index (MultiBand.meta c) = mindex
            ∧ MultiBand.meds_index (MultiBand.meta m) = mindex
            ∧ MultiBand.id (MultiBand.meta c) = ObjRow.id row
            ∧ MultiBand.id (MultiBand.meta m) = ObjRow.id row
            ∧ MultiBand.obj_flags (MultiBand.meta c)
              = MultiBand.obj_flags (MultiBand.meta m)
            ∧ length (MultiBand.bands c) = length (meds_list (self st))
            ∧ length (MultiBand.bands m) = length (meds_list (self st))
            ∧ ObjRow.fofid row
              = match fof_file st with Some _ => fofid | None => DEFVAL end
            ∧ (model_nbrs (conf (self st)) = true →
               MultiBand.cen_ind (MultiBand.meta c) = i
               ∧ MultiBand.cen_ind (MultiBand.meta m) = i
               ∧ MultiBand.nbrs_inds (MultiBand.meta c)
                 = MultiBand.nbrs_inds (MultiBand.meta m)
               ∧ MultiBand.nbrs_ids (MultiBand.meta c)
                 = MultiBand.nbrs_ids (MultiBand.meta m)).
Proof.
  intros Hix. unfold next_group. intros Hm.
  apply bind_Ok in Hm as (fofid & Hfofid & Hm).
  apply bind_Ok in Hm as (rowsZ & Hmem & Hm).
  apply bind_Ok in Hm as (objs & Hobjs & Hm).
  apply bind_Ok in Hm as (u & Hflag & Hm).
  apply bind_Ok in Hm as ([coadd' me'] & Hnbrs & [= <- <- <-]).
  assert (Index.fofids (index st) !! fofindex st = Some fofid) as Hk.
  { unfold py_getitem in Hfofid. by destruct (_ !! _); [injection Hfofid as ->|]. }
  pose proof (members_are_rows _ _ _ _ _ _ Hix Hk Hmem) as Hrows.
  set (mindexes := Z.to_nat <$> rowsZ) in *.
  destruct (for_each_append _ (get_obj st fofid) _ _ _ (obj_step_append st fofid) Hobjs)
    as (ys & -> & Hys).
  rewrite app_nil_l in *.
  pose proof (Forall2_length _ _ _ Hys) as Hlen.
  assert (length (Assemble.coadd_mb_obs_list <$> ys) = length mindexes) as Hlc
    by (by rewrite length_fmap).
  destruct (nbrs_step_spec _ _ _ _ _ _ Hlc Hnbrs) as (Hl1 & Hl2 & Hupd).
  split; [by destruct (obj_flags_given st)|].
  exists fofid, mindexes. rewrite <- Hrows. cbn [fst snd].
  rewrite Hl1, Hl2, !length_fmap. split_and!; [done..|].
  intros i mindex Hi.
  destruct (Forall2_lookup_l _ _ _ _ _ Hys Hi) as (r & Hr & Hget).
  destruct (get_obj_spec _ _ _ _ Hget) as (Hmeta & Hidx & Hid & Hbc & Hbm & Hfof).
  destruct (Hupd i (Assemble.coadd_mb_obs_list r) (Assemble.mb_obs_list r))
    as (c' & m' & Hc' & Hm' & U).
  { by rewrite list_lookup_fmap, Hr. }
  { by rewrite list_lookup_fmap, Hr. }
  destruct U as (U1 & U2 & U3 & U4 & U5 & U6 & U7 & U8 & U9).
  exists c', m', (Assemble.meta_data r).
  rewrite list_lookup_fmap, Hr. split_and!; try done; try congruence.
Qed.

(** X15.  A call of [__next__] on an object whose index was built by
    [_set_and_check_index_lookups]: it raises [StopIteration] exactly when
    every group was returned; it never returns when [extra_data] has the key
    [obj_flags]; and when it returns, the position has moved by one and the
    two lists have one entry for each member of the group at the old
    position, in the order of the index: the entry at a position is built
    for that member's row, both lists hold its id and the same object flags
    and one list per band, its row holds the id of the group when a group
    table was read and the default value otherwise, and with [model_nbrs]
    both lists hold the position as [cen_ind] and the same neighbours. *)
Theorem next_spec st :
  Index._set_and_check_index_lookups (fof_file st) (meds_list (self st)) = Ok (index st) →
  match __next__ st with
  | StopIteration => (Index.num_fofs (index st) ≤ fofindex st)%nat
  | Raised e => (fofindex st < Index.num_fofs (index st))%nat
  | Returned coadd me rows st' =>
      (fofindex st < Index.num_fofs (index st))%nat
      ∧ obj_flags_given st = false
      ∧ st' = advance st
      ∧ ∃ fofid mindexes,
          Index.fofids (index st) !! fofindex st = Some fofid
          ∧ Index.members (index st) fofid = Ok (Z.of_nat <$> mindexes)
          ∧ length coadd = length mindexes
          ∧ length me = length mindexes
          ∧ length rows = length mindexes
          ∧ ∀ i mindex, mindexes !! i = Some mindex →
              ∃ c m row,
                coadd !! i = Some c ∧ me !! i = Some m ∧ rows !! i = Some row
                ∧ MultiBand.meds_index (MultiBand.meta c) = mindex
                ∧ MultiBand.meds_index (MultiBand.meta m) = mindex
                ∧ MultiBand.id (MultiBand.meta c) = ObjRow.id row
                ∧ MultiBand.id (MultiBand.meta m) = ObjRow.id row
                ∧ MultiBand.obj_flags (MultiBand.meta c)
                  = MultiBand.obj_flags (MultiBand.meta m)
                ∧ length (MultiBand.bands c) = length (meds_list (self st))
                ∧ length (MultiBand.bands m) = length (meds_list (self st))
                ∧ ObjRow.fofid row
                  = match fof_file st with Some _ => fofid | None => DEFVAL end
                ∧ (model_nbrs (conf (self st)) = true →
                   MultiBand.cen_ind (MultiBand.meta c) = i
                   ∧ MultiBand.cen_ind (MultiBand.meta m) = i
                   ∧ MultiBand.nbrs_inds (MultiBand.meta c)
                     = MultiBand.nbrs_inds (MultiBand.meta m)
                   ∧ MultiBand.nbrs_ids (MultiBand.meta c)
                     = MultiBand.nbrs_ids (MultiBand.meta m))
  end.
Proof.
  intros Hix. unfold __next__.
  destruct (Nat.leb_spec (Index.num_fofs (index st)) (fofindex st)) as [Hle|Hlt]; [done|].
  destruct (next_group st) as [[[coadd me] rows]|e] eqn:Hg; [|done].
  destruct (next_group_spec _ _ _ _ Hix Hg) as (Hflags & Hrest).
  split_and!; done.
Qed.

End IterateFacts.

(** The first call on a group of two objects, each the other's neighbour,
    with a group table that puts both in the group 5. *)
Lemma next_spec_witness :
  match Iterate.__next__ (C := Demo.collaborators) (P := Demo.pixel_identity)
          Fixtures.iter_state with
  | Iterate.Returned coadd me rows st' =>
      st' = Iterate.advance Fixtures.iter_state
      ∧ length coadd = 2%nat
      ∧ ObjRow.fofid <$> rows = [5; 5]
      ∧ MultiBand.nbrs_ids <$> (MultiBand.meta <$> me) = [[101]; [100]]
  | _ => False
  end.
Proof.
  pose proof (next_spec (C := Demo.collaborators) (P := Demo.pixel_identity)
                Fixtures.iter_state ltac:(vm_compute; reflexivity)) as Hspec.
  destruct (Iterate.__next__ (C := Demo.collaborators) (P := Demo.pixel_identity)
              Fixtures.iter_state) as [|e|coadd me rows st'] eqn:Hnext;
    [vm_compute in Hnext; discriminate Hnext..|].
  destruct Hspec as (_ & _ & Hst & _).
  split; [exact Hst|].
  vm_compute in Hnext. injection Hnext as <- <- <- _. split_and!; reflexivity.
Defined.

(** ** PSF files *)

Section PsfexFacts.
Variable path_exists : string → bool.
Variable pex_t : Type.
Variable PSFEx : string → option pex_t.
Import Psfex.

Section Loop.
Variables (conf : Conf) (env : env_t) (pc : psf_conf) (meds_desdata : string).
Variables (info : list Meds.image_info_row) (band : nat) (af : list (list Z)).

Lemma psfex_inv_append k pl a p fk :
  PsfexSpec.inv path_exists pex_t PSFEx conf env pc meds_desdata info band af k (pl, a) →
  (∀ row, info !! k = Some row →
     ∃ bf bf', af !! band = Some bf ∧ a !! band = Some bf'
       ∧ bf !! k = Some fk ∧ bf' !! k = Some fk
       ∧ PsfexSpec.entry path_exists pex_t PSFEx conf env pc meds_desdata row fk fk p) →
  PsfexSpec.inv path_exists pex_t PSFEx conf env pc meds_desdata info band af (S k)
    (pl ++ [p], a).
Proof.
  intros (Hl & Ha & Hother & Hband & Hdone) Hnew. cbn [fst snd] in *.
  unfold PsfexSpec.inv. cbn [fst snd]. split_and!.
  - rewrite length_app. simpl. lia.
  - done.
  - done.
  - intros bf' Hbf'. destruct (Hband _ Hbf') as (bf & ? & ? & Hrest).
    exists bf. split_and!; [done..|]. intros i Hi. apply Hrest. lia.
  - intros i row Hi Hrow. destruct (decide (i = k)) as [->|Hne].
    + destruct (Hnew _ Hrow) as (bf & bf' & ? & ? & ? & ? & ?).
      exists bf, bf', fk, fk, p. split_and!; try done.
      rewrite lookup_app_r by lia. by rewrite Hl, Nat.sub_diag.
    + destruct (Hdone i row ltac:(lia) Hrow)
        as (bf & bf' & f & f' & p0 & ? & ? & ? & ? & Hp & ?).
      exists bf, bf', f, f', p0. split_and!; try done.
      rewrite lookup_app_l; [done|]. by eapply lookup_lt_Some.
Qed.

Lemma image_step_inv k row s s' :
  info !! k = Some row →
  PsfexSpec.inv path_exists pex_t PSFEx conf env pc meds_desdata info band af k s →
  image_step path_exists pex_t PSFEx conf env pc meds_desdata band s (k, row) = Ok s' →
  PsfexSpec.inv path_exists pex_t PSFEx conf env pc meds_desdata info band af (S k) s'.
Proof.
  intros Hrow Hinv. destruct s as [pl a]. unfold image_step. intros Hm.
  apply bind_Ok in Hm as (bfk & Hbfk%py_getitem_Ok & Hm).
  apply bind_Ok in Hm as (fl & Hfl%py_getitem_Ok & Hm).
  pose proof Hinv as (Hl & Ha & Hother & Hband & Hdone). cbn [fst snd] in *.
  destruct (Hband _ Hbfk) as (bf & Hbf & Hlen & Hrest).
  assert (bf !! k = Some fl) as Hf0 by (by rewrite <- Hrest).
  destruct (Z.land fl (image_flags2check conf) =? 0) eqn:Hcheck.
  - apply bind_Ok in Hm as (psfpath & Hpath & Hm).
    destruct (path_exists psfpath) eqn:Hex; simpl in Hm; injection Hm as <-.
    + apply (psfex_inv_append _ _ _ _ fl); [done|]. intros row' Hrow'.
      assert (row' = row) as -> by congruence.
      exists bf, bfk. split_and!; try done.
      unfold PsfexSpec.entry. rewrite Hcheck. exists psfpath. by rewrite Hex.
    + unfold PsfexSpec.inv. cbn [fst snd].
      assert (k < length bfk)%nat as Hk by (by eapply lookup_lt_Some).
      assert (band < length a)%nat as Hb by (by eapply lookup_lt_Some).
      split_and!.
      * rewrite length_app. simpl. lia.
      * by rewrite length_insert.
      * intros b Hne. rewrite list_lookup_insert_ne by done. by apply Hother.
      * intros bf' Hbf'. rewrite list_lookup_insert_eq in Hbf' by done.
        injection Hbf' as <-. exists bf. split_and!; [done| |].
        -- by rewrite length_insert.
        -- intros i Hi. rewrite list_lookup_insert_ne by lia. apply Hrest. lia.
      * intros i row' Hi Hrow'. rewrite list_lookup_insert_eq by done.
        destruct (decide (i = k)) as [->|Hne].
        -- assert (row' = row) as -> by congruence.
           exists bf, (<[k := Z.lor fl (image_flags2check conf)]> bfk), fl,
             (Z.lor fl (image_flags2check conf)), None.
           split_and!; try done.
           ++ by rewrite list_lookup_insert_eq.
           ++ rewrite lookup_app_r by lia. by rewrite Hl, Nat.sub_diag.
           ++ unfold PsfexSpec.entry. rewrite Hcheck. exists psfpath. by rewrite Hex.
        -- destruct (Hdone i row' ltac:(lia) Hrow')
             as (bf0 & bf' & f & f' & p0 & Hbf0 & Hbf' & ? & ? & Hp & ?).
           assert (bf' = bfk) as -> by congruence.
           exists bf0, (<[k := Z.lor fl (image_flags2check conf)]> bfk), f, f', p0.
           split_and!; try done.
           ++ by rewrite list_lookup_insert_ne.
           ++ rewrite lookup_app_l; [done|]. by eapply lookup_lt_Some.
  - injection Hm as <-. apply (psfex_inv_append _ _ _ _ fl); [done|]. intros row' Hrow'.
    assert (row' = row) as -> by congruence.
    exists bf, bfk. split_and!; try done.
    unfold PsfexSpec.entry. by rewrite Hcheck.
Qed.

End Loop.

Lemma entry_passes conf env pc meds_desdata row f f' p :
  PsfexSpec.entry path_exists pex_t PSFEx conf env pc meds_desdata row f f' p →
  (f' = f ∨ f' = Z.lor f (image_flags2check conf))
  ∧ (image_flags2check conf ≠ 0 →
     Z.land f' (image_flags2check conf) = 0 →
     ∃ psfpath,
       _psfex_path_from_image_path env pc meds_desdata
         (py_strip (Meds.image_path row)) = Ok psfpath
       ∧ path_exists psfpath = true ∧ p = PSFEx psfpath ∧ f' = f).
Proof.
  unfold PsfexSpec.entry.
  destruct (Z.eqb_spec (Z.land f (image_flags2check conf)) 0) as [Hz|Hnz].
  - intros (psfpath & Hpath & Hcase). destruct (path_exists psfpath) eqn:Hex.
    + destruct Hcase as [-> ->]. split; [by left|]. intros _ _. by exists psfpath.
    + destruct Hcase as [-> ->]. split; [by right|]. intros Hc Hl. exfalso.
      rewrite Z.land_lor_distr_l, Hz, Z.land_diag, Z.lor_0_l in Hl. done.
  - intros [-> ->]. split; [by left|]. by intros _ Hl.
Qed.

Lemma get_psfex_objects_cases conf env pc meds_desdata meds band af psfex_list af' :
  _get_psfex_objects path_exists pex_t PSFEx conf env pc meds_desdata meds band af
  = Ok (psfex_list, af') →
  length psfex_list = length (Meds.get_image_info meds)
  ∧ length af' = length af
  ∧ (∀ b, b ≠ band → af' !! b = af !! b)
  ∧ (∀ bf', af' !! band = Some bf' →
       ∃ bf, af !! band = Some bf ∧ length bf' = length bf
             ∧ ∀ i, (length (Meds.get_image_info meds) ≤ i)%nat → bf' !! i = bf !! i)
  ∧ ∀ i row, Meds.get_image_info meds !! i = Some row →
      ∃ bf bf' f f' p,
        af !! band = Some bf ∧ af' !! band = Some bf'
        ∧ bf !! i = Some f ∧ bf' !! i = Some f' ∧ psfex_list !! i = Some p
        ∧ PsfexSpec.entry path_exists pex_t PSFEx conf env pc meds_desdata row f f' p
        ∧ (f' = f ∨ f' = Z.lor f (image_flags2check conf))
        ∧ (image_flags2check conf ≠ 0 →
           Z.land f' (image_flags2check conf) = 0 →
           ∃ psfpath,
             _psfex_path_from_image_path env pc meds_desdata
               (py_strip (Meds.image_path row)) = Ok psfpath
             ∧ path_exists psfpath = true ∧ p = PSFEx psfpath ∧ f' = f).
Proof.
  unfold _get_psfex_objects. intros Hm.
  assert (PsfexSpec.inv path_exists pex_t PSFEx conf env pc meds_desdata
            (Meds.get_image_info meds) band af
            (length (Meds.get_image_info meds)) (psfex_list, af')) as Hinv.
  { eapply for_each_enumerate; [| |exact Hm].
    - unfold PsfexSpec.inv. cbn [fst snd].
      split_and!; [done|done|done|by intros bf' ?; exists bf'|intros; lia].
    - intros k x s s'. apply image_step_inv. }
  destruct Hinv
    as (Hl & Ha & Hother & Hband & Hdone).
  cbn [fst snd] in *. split_and!; [done..|].
  intros i row Hrow.
  destruct (Hdone i row ltac:(by eapply lookup_lt_Some) Hrow)
    as (bf & bf' & f & f' & p & ? & ? & ? & ? & ? & He).
  destruct (entry_passes _ _ _ _ _ _ _ _ He) as [Hmono Hpass].
  exists bf, bf', f, f', p. split_and!; done.
Qed.

(** X16.  When [_get_psfex_objects] returns for a band: the list has one
    entry per image of the file, the flags of the other bands and of images
    the file does not have are as before, and for every image: if its flags
    failed the check [image_flags2check] before the call, its flags are
    unchanged and its entry is [None]; otherwise, if the PSF file of its
    path does not exist, the bits of the check are added to its flags and
    its entry is [None]; and if the file exists, its flags are unchanged
    and its entry is what [PSFEx] gave, which is [None] when the file cannot
    be read.  So, with a nonzero check, every image that passes the check
    after the call has its PSF file on disk. *)
Theorem get_psfex_objects_spec conf env pc meds_desdata meds band af psfex_list af' :
  _get_psfex_objects path_exists pex_t PSFEx conf env pc meds_desdata meds band af
  = Ok (psfex_list, af') →
  length psfex_list = length (Meds.get_image_info meds)
  ∧ length af' = length af
  ∧ (∀ b, b ≠ band → af' !! b = af !! b)
  ∧ (∀ bf', af' !! band = Some bf' →
       ∃ bf, af !! band = Some bf ∧ length bf' = length bf
             ∧ ∀ i, (length (Meds.get_image_info meds) ≤ i)%nat → bf' !! i = bf !! i)
  ∧ ∀ i row, Meds.get_image_info meds !! i = Some row →
      ∃ bf bf' f f' p,
        af !! band = Some bf ∧ af' !! band = Some bf'
        ∧ bf !! i = Some f ∧ bf' !! i = Some f' ∧ psfex_list !! i = Some p
        ∧ PsfexSpec.entry path_exists pex_t PSFEx conf env pc meds_desdata row f f' p
        ∧ (f' = f ∨ f' = Z.lor f (image_flags2check conf))
        ∧ (image_flags2check conf ≠ 0 →
           Z.land f' (image_flags2check conf) = 0 →
           ∃ psfpath,
             _psfex_path_from_image_path env pc meds_desdata
               (py_strip (Meds.image_path row)) = Ok psfpath
             ∧ path_exists psfpath = true ∧ p = PSFEx psfpath ∧ f' = f).
Proof. apply get_psfex_objects_cases. Qed.

Lemma np_index_of_nat {A} (a : list A) (i : nat) x :
  np_index a (Z.of_nat i) = Ok x → a !! i = Some x.
Proof.
  unfold np_index. destruct (Z.ltb_spec (Z.of_nat i) 0) as [?|_]; [lia|].
  destruct (_ && _); [|done]. rewrite Nat2Z.id.
  by destruct (a !! i); [intros [= ->]|].
Qed.

Lemma lor_nonzero f c : c ≠ 0 → Z.lor f c ≠ 0.
Proof. intros Hc Hl. apply Z.lor_eq_0_iff in Hl. tauto. Qed.

Lemma image_flags_nonzero : IMAGE_FLAGS ≠ 0.
Proof. done. Qed.

Section Guard.
Context {C : Collaborators}.

(** X17.  The PSF files and the builder of [SVDESMEDSImageIO] and its
    subclass, with a nonzero [image_flags2check]: after [_get_psfex_objects]
    ran for a band, the Observation that [_get_band_observations] builds for
    a cutout taken from an image whose PSF file does not exist is the empty
    one with the flag [IMAGE_FLAGS]; and an Observation with status flag 0
    comes from an image whose PSF file exists and whose entry of the list is
    what [PSFEx] gave for that file. *)
Theorem psfex_loading_guards_builder self env pc meds_desdata band meds
    psfex_list af' mindex r icut i row :
  cls self ≠ MEDSImageIO →
  image_flags2check (conf self) ≠ 0 →
  meds_list self !! band = Some meds →
  _get_psfex_objects path_exists pex_t PSFEx (conf self) env pc meds_desdata meds band
    (all_image_flags self) = Ok (psfex_list, af') →
  Builder._get_band_observations (PsfexSpec.with_flags self af') band mindex = Ok r →
  (icut < Meds.ncutout meds mindex)%nat →
  Meds.file_id meds mindex icut = Z.of_nat i →
  Meds.get_image_info meds !! i = Some row →
  ∃ obs p,
    Builder.slot r icut = Some obs
    ∧ psfex_list !! i = Some p
    ∧ (Obs.flags obs = 0 →
       ∃ psfpath,
         _psfex_path_from_image_path env pc meds_desdata
           (py_strip (Meds.image_path row)) = Ok psfpath
         ∧ path_exists psfpath = true ∧ p = PSFEx psfpath)
    ∧ (∀ psfpath,
         _psfex_path_from_image_path env pc meds_desdata
           (py_strip (Meds.image_path row)) = Ok psfpath →
         path_exists psfpath = false →
         Obs.flags obs = IMAGE_FLAGS ∧ Obs.attrs obs = Builder.empty_observation
         ∧ p = None).
Proof.
  intros Hcls Hcheck Hmeds Hpsf Hband Hicut Hfile Hrow.
  destruct (get_psfex_objects_cases _ _ _ _ _ _ _ _ _ Hpsf) as (_ & _ & _ & _ & Himg).
  destruct (Himg i row Hrow)
    as (bf & bf' & f & f' & p & Hbf & Hbf' & Hf & Hf' & Hp & Hentry & Hmono & Hpass).
  destruct (get_band_observations_spec _ _ _ _ Hband) as (c & o & Hloop & _ & Hslots).
  destruct (band_loop_slots _ _ _ _ _ Hloop)
    as (meds' & image_flags & Hmeds' & Hflags & _ & _ & _ & Hbuilt).
  cbn in Hmeds'. assert (meds' = meds) as -> by congruence.
  destruct (Hbuilt icut Hicut) as (obs0 & Hslot0 & Hbuild).
  destruct (Hslots icut obs0 Hslot0) as (obs & Hslot & Hmeta & Hsame).
  assert (image_flags !! icut = Some f') as Hfl.
  { unfold Builder._get_image_flags in Hflags.
    apply bind_Ok in Hflags as (m' & Hm'%py_getitem_Ok & Hflags).
    cbn in Hm'. assert (m' = meds) as -> by congruence.
    assert (py_getitem af' band ≫= (fun band_flags =>
              np_take band_flags (Meds.file_id meds mindex <$> seq 0 (Meds.ncutout meds mindex)))
            = Ok image_flags) as Ht.
    { cbn in Hflags. by destruct (cls self). }
    apply bind_Ok in Ht as (bf'' & Hbf''%py_getitem_Ok & Ht).
    assert (bf'' = bf') as -> by congruence.
    destruct (mapM_Ok_lookup _ _ _ icut (Meds.file_id meds mindex icut) Ht)
      as (fl & Hidx & Hfl).
    { rewrite list_lookup_fmap, lookup_seq_lt by done. done. }
    rewrite Hfile in Hidx. apply np_index_of_nat in Hidx. congruence. }
  exists obs, p. split; [done|]. split; [done|]. split.
  - intros Hzero.
    destruct (decide (f' = 0)) as [->|Hnz].
    + destruct (Hpass Hcheck ltac:(done)) as (psfpath & ? & ? & ? & _).
      by exists psfpath.
    + destruct (build_slot_flagged _ _ _ _ _ _ _ Hfl Hnz Hbuild) as (_ & Hfo).
      exfalso. unfold Obs.flags in *. rewrite Hmeta, Hfo in Hzero. done.
  - intros psfpath Hpath Hmissing.
    assert (f' ≠ 0 ∧ p = None) as [Hnz ->].
    { unfold PsfexSpec.entry in Hentry.
      destruct (Z.eqb_spec (Z.land f (image_flags2check (conf self))) 0) as [Hz|Hn].
      - destruct Hentry as (psfpath' & Hpath' & Hcase).
        assert (psfpath' = psfpath) as -> by congruence.
        rewrite Hmissing in Hcase. destruct Hcase as [-> ->].
        split; [by apply lor_nonzero|done].
      - destruct Hentry as [-> ->]. split; [|done]. intros ->. by rewrite Z.land_0_l in Hn. }
    destruct (build_slot_flagged _ _ _ _ _ _ _ Hfl Hnz Hbuild) as (Ha & Hfo).
    rewrite (Hsame ltac:(rewrite Hfo; apply image_flags_nonzero)).
    done.
Qed.

End Guard.

End PsfexFacts.

(** Three images with the check 1: the PSF file of the co-add is on disk,
    that of the first exposure is not, the second exposure is flagged. *)
Lemma get_psfex_objects_spec_witness :
  Psfex._get_psfex_objects Fixtures.on_disk string Fixtures.read_psfex
    (Demo.conf_check 1 None) (Fixtures.env_of false) Fixtures.rerun_conf "/old"
    (Demo.meds_of 1 3 Fixtures.three_images) 0 [[0; 0; 1]]
  = Ok ([Some "/des/OPS/coadd/run7/coadd/tile_r_psfcat.psf"; None; None], [[0; 1; 1]])
  ∧ length [Some "/des/OPS/coadd/run7/coadd/tile_r_psfcat.psf"; None; None]
    = length Fixtures.three_images.
Proof.
  assert (Psfex._get_psfex_objects Fixtures.on_disk string Fixtures.read_psfex
            (Demo.conf_check 1 None) (Fixtures.env_of false) Fixtures.rerun_conf "/old"
            (Demo.meds_of 1 3 Fixtures.three_images) 0 [[0; 0; 1]]
          = Ok ([Some "/des/OPS/coadd/run7/coadd/tile_r_psfcat.psf"; None; None],
                [[0; 1; 1]])) as Hm by (vm_compute; reflexivity).
  split; [exact Hm|].
  exact (proj1 (get_psfex_objects_spec _ _ _ _ _ _ _ _ _ _ _ _ Hm)).
Defined.

(** The first exposure of that file, whose PSF file is not on disk. *)
Lemma psfex_loading_guards_builder_witness :
  ∃ r obs,
    Builder._get_band_observations (H := Demo.collaborators)
      (PsfexSpec.with_flags Fixtures.self_three [[0; 1; 1]]) 0 0 = Ok r
    ∧ Builder.slot r 1 = Some obs
    ∧ Obs.flags obs = IMAGE_FLAGS.
Proof.
  destruct (Builder._get_band_observations (H := Demo.collaborators)
              (PsfexSpec.with_flags Fixtures.self_three [[0; 1; 1]]) 0 0)
    as [r|e] eqn:Hr; [|vm_compute in Hr; discriminate Hr].
  destruct (psfex_loading_guards_builder Fixtures.on_disk string Fixtures.read_psfex
              (C := Demo.collaborators) Fixtures.self_three (Fixtures.env_of false)
              Fixtures.rerun_conf "/old" 0 (Demo.meds_of 1 3 Fixtures.three_images)
              [Some "/des/OPS/coadd/run7/coadd/tile_r_psfcat.psf"; None; None]
              [[0; 1; 1]] 0 r 1 1
              (Demo.info_row
                 "/old/OPS/red/run1/red/DECam_00229228/DECam_00229228_07.fits.fz  " 0)
              ltac:(discriminate) ltac:(discriminate) eq_refl
              ltac:(vm_compute; reflexivity) Hr ltac:(vm_compute; lia) eq_refl eq_refl)
    as (obs & p & Hslot & _ & _ & Hmissing).
  exists r, obs. split; [reflexivity|]. split; [exact Hslot|].
  apply (Hmissing
           "/des/EXTRA/red/run1/psfex-rerun/v2/DECam_00229228/DECam_00229228_07_psfcat.psf");
    vm_compute; reflexivity.
Defined.

(** ** The weights of a usable Observation *)

Section WeightFacts.
Context {C : Collaborators}.
Import Builder.

Lemma row_lengths_array_map {A B} (f : A → B) (a : list (list A)) :
  length <$> Array2.map f a = length <$> a.
Proof.
  unfold Array2.map. rewrite <- list_fmap_compose. apply list_fmap_ext.
  intros i row _. cbn. by rewrite length_fmap.
Qed.

(** X18.  [_get_band_observation] raises [ValueError] for every
    [conf['region']] other than [mof], [cweight-nearest], [seg_and_sky] and
    [weight].  In the Observation it returns, the weight map has the shape
    of the cutout it was read from; a pixel is 0 where the cutout is below
    [min_weight] or below 0 and the value of the cutout elsewhere, so that
    no pixel is below 0; [weight_raw] is the same map; and [weight_us] is
    set for the region [mof] only, where it is the nearest-pixel co-add
    weight with the pixels below [min_weight] zeroed and negative ones
    kept. *)
Theorem band_observation_weights self band mindex icut :
  (region (conf self) ∉ ["mof"; "cweight-nearest"; "seg_and_sky"; "weight"] →
   _get_band_observation self band mindex icut = Raise ValueError)
  ∧ ∀ b, _get_band_observation self band mindex icut = Ok b →
      region (conf self) ∈ ["mof"; "cweight-nearest"; "seg_and_sky"; "weight"]
      ∧ ∃ wt0 us0,
          region_weights self band mindex icut = Ok (wt0, us0)
          ∧ (is_Some us0 ↔ region (conf self) = "mof")
          ∧ length <$> Obs.weight b = length <$> wt0
          ∧ Obs.weight_raw b = Val (Obs.weight b)
          ∧ Obs.weight_us b
            = match us0 with
              | Some us => Val (floor_weight (min_weight (conf self)) us)
              | None => PyNone
              end
          ∧ ∀ i j x, Array2.getitem wt0 i j = Some x →
              ∃ w, Array2.getitem (Obs.weight b) i j = Some w
                   ∧ w = (if PrimFloat.ltb x (min_weight (conf self))
                             || PrimFloat.ltb x 0
                          then 0%float else x)
                   ∧ PrimFloat.ltb w 0 = false.
Proof.
  assert (Hregion : ∀ wts, region_weights self band mindex icut = Ok wts →
            region (conf self) ∈ ["mof"; "cweight-nearest"; "seg_and_sky"; "weight"]
            ∧ (is_Some wts.2 ↔ region (conf self) = "mof")).
  { intros [wt0 us0]. unfold region_weights.
    destruct (String.eqb_spec (region (conf self)) "mof") as [->|Hne].
    { intros [= <- <-]. split; [set_solver|]. split; [done|]. by eexists. }
    destruct (String.eqb_spec (region (conf self)) "cweight-nearest") as [->|?].
    { intros [= <- <-]. split; [set_solver|]. cbn. split; [by intros [? ?]|done]. }
    destruct (String.eqb_spec (region (conf self)) "seg_and_sky") as [->|?].
    { intros [= <- <-]. split; [set_solver|]. cbn. split; [by intros [? ?]|done]. }
    destruct (String.eqb_spec (region (conf self)) "weight") as [->|?]; [|done].
    intros [= <- <-]. split; [set_solver|]. cbn. split; [by intros [? ?]|done]. }
  unfold _get_band_observation, _get_meds_weight. split.
  - intros Hnot. unfold region_weights.
    destruct (String.eqb_spec (region (conf self)) "mof") as [E|_];
      [rewrite E in Hnot; set_solver|].
    destruct (String.eqb_spec (region (conf self)) "cweight-nearest") as [E|_];
      [rewrite E in Hnot; set_solver|].
    destruct (String.eqb_spec (region (conf self)) "seg_and_sky") as [E|_];
      [rewrite E in Hnot; set_solver|].
    destruct (String.eqb_spec (region (conf self)) "weight") as [E|_];
      [rewrite E in Hnot; set_solver|].
    done.
  - intros b.
    destruct (region_weights self band mindex icut) as [[wt0 us0]|e] eqn:Hreg;
      cbn; [|done].
    destruct (Hregion _ eq_refl) as [Hin Hus].
    destruct (psf_observation band mindex icut (cutout_jacobian band mindex icut))
      as [psf_obs|e] eqn:Hpsf; cbn; [|done].
    intros [= <-]. split; [done|].
    exists wt0, us0. cbn. split_and!; [done|done| |done|by destruct us0|].
    + unfold clip_min0, floor_weight. by rewrite !row_lengths_array_map.
    + intros i j x Hx. unfold clip_min0, floor_weight.
      rewrite !getitem_map, Hx. cbn. eexists. split; [done|].
      destruct (PrimFloat.ltb x (min_weight (conf self))) eqn:Hmin; cbn.
      { split; reflexivity. }
      destruct (PrimFloat.ltb x 0) eqn:Hneg; [split; reflexivity|done].
Qed.

End WeightFacts.

(** ** What the propagation of the mask leaves alone *)

Section PropFrameFacts.
Context {P : PixelMap}.
Import Propagate PropFrame.

Lemma obs_frame_refl o : obs_frame o o.
Proof. unfold obs_frame. split_and!; done. Qed.

Lemma zero_weights_frame q b :
  Obs.image (zero_weights q b).1 = Obs.image b
  ∧ Obs.image_orig (zero_weights q b).1 = Obs.image_orig b
  ∧ Obs.seg (zero_weights q b).1 = Obs.seg b
  ∧ Obs.jacobian (zero_weights q b).1 = Obs.jacobian b
  ∧ Obs.psf (zero_weights q b).1 = Obs.psf b
  ∧ Obs.filename (zero_weights q b).1 = Obs.filename b.
Proof.
  unfold zero_weights.
  destruct (zero_attr q (Obs.weight_raw b)); [|done]. cbn.
  destruct (zero_attr q (Obs.weight_us b)); [|done]. cbn.
  destruct (zero_at q (Obs.weight b)); [|done]. cbn.
  destruct (zero_attr q (Obs.weight_orig b)); done.
Qed.

Lemma prop_obs_frame m mindex bmask obs :
  obs_frame obs (prop_obs m mindex bmask obs).1.
Proof.
  unfold prop_obs. destruct (decide (Obs.flags obs = 0)) as [Hz|Hnz];
    [|apply obs_frame_refl].
  destruct (_ ≫= _) as [q|e]; [|apply obs_frame_refl].
  destruct (0 <? length q)%nat; [|apply obs_frame_refl].
  pose proof (zero_weights_frame q (Obs.attrs obs)) as Hf.
  destruct (zero_weights q (Obs.attrs obs)) as [b' e]. cbn in *.
  unfold obs_frame. cbn. destruct Hf as (? & ? & ? & ? & ? & ?).
  split_and!; done.
Qed.

Lemma for_each_in_place_frame {A} (R : A → A → Prop) (body : A → A * option exn) l :
  (∀ x, R x x) → (∀ x, R x (body x).1) →
  Forall2 R l (for_each_in_place body l).1.
Proof.
  intros Hrefl Hbody. induction l as [|x l IH]; simpl; [constructor|].
  pose proof (Hbody x) as Hx. destruct (body x) as [x' [e|]]; cbn in *.
  - constructor; [done|]. by apply Forall_Forall2_diag, Forall_forall.
  - destruct (for_each_in_place body l) as [l'' e]. cbn in *. by constructor.
Qed.

Lemma prop_band_frame self mindex bmasks band obs_list :
  Forall2 obs_frame obs_list (prop_band self mindex bmasks band obs_list).1.
Proof.
  unfold prop_band.
  destruct (_ ≫= _) as [[m bmask]|e]; cbn.
  - apply for_each_in_place_frame; [apply obs_frame_refl|apply prop_obs_frame].
  - apply Forall_Forall2_diag, Forall_forall. intros; apply obs_frame_refl.
Qed.

Lemma prop_bands_frame self mindex bmasks band bands :
  Forall2 (Forall2 obs_frame) bands (prop_bands self mindex bmasks band bands).1.
Proof.
  revert band. induction bands as [|obs_list rest IH]; intros band; simpl;
    [constructor|].
  pose proof (prop_band_frame self mindex bmasks band obs_list) as Hb.
  destruct (prop_band self mindex bmasks band obs_list) as [obs_list' [e|]]; cbn in *.
  - constructor; [done|]. apply Forall_Forall2_diag, Forall_forall.
    intros l _. apply Forall_Forall2_diag, Forall_forall. intros; apply obs_frame_refl.
  - specialize (IH (S band)).
    destruct (prop_bands self mindex bmasks (S band) rest) as [rest' e]. cbn in *.
    by constructor.
Qed.

(** X19.  [_prop_extra_bitmasks], whether it raises or not, leaves a list
    with the same meta data, the same number of bands and of Observations
    in each band, and changes nothing of an Observation but its weight maps:
    the image, the saved image, the segmentation map, the Jacobian, the PSF,
    the file name and the meta data are as before, and an Observation with a
    nonzero status flag is exactly as before. *)
Theorem prop_extra_bitmasks_frame self bmasks mb_obs_list :
  MultiBand.meta (_prop_extra_bitmasks self bmasks mb_obs_list).1
  = MultiBand.meta mb_obs_list
  ∧ Forall2 (Forall2 obs_frame) (MultiBand.bands mb_obs_list)
      (MultiBand.bands (_prop_extra_bitmasks self bmasks mb_obs_list).1).
Proof.
  unfold _prop_extra_bitmasks.
  pose proof (prop_bands_frame self
                (MultiBand.meds_index (MultiBand.meta mb_obs_list)) bmasks 0
                (MultiBand.bands mb_obs_list)) as Hb.
  destruct (prop_bands _ _ _ _ _) as [bands e]. done.
Qed.

End PropFrameFacts.
